(** * AirAware dashboards: the data pipeline of the four variants

    A shallow embedding of the loading, scaling, statistics and forecast
    code of the AirAware dashboards:

    - [AirAware Dashboard 1/data_handler.py]  (module [Dashboard1])
    - [AirAware Dashboard 2/data_handler.py]  (module [Dashboard2])
    - [AirAware Dashboard 3/air_quality_api/datahandler.py], [api.py]
      (module [Dashboard3])
    - [AirAware Dashboard 4/app.py]           (module [Dashboard4])

    Numbers.  A Python float is modelled as an exact rational or NaN
    ([float]); arithmetic is exact, so rounding error and overflow to an
    infinity are outside the model.  Equality of floats is [feq], that is
    [Qeq] on numbers.  The scaling of the loader is given a second time
    in the arithmetic of IEEE doubles (module [Binary64]), for what
    depends on rounding.

    Libraries.  What the code uses of pandas, numpy and scikit-learn is
    modelled in the modules [Np], [Pd] and [Sk], each function after the
    documented behaviour of the library function of the same name. *)

From Stdlib Require Import ZArith QArith Qminmax Qabs Qround Lqa Lia Bool List String Ascii.
From Stdlib Require Import Permutation Sorted.
From Stdlib Require PrimFloat FloatOps SpecFloat Uint63.
Import ListNotations.
Open Scope Q_scope.

(* ================================================================== *)
(** * Python exceptions and results *)
(* ================================================================== *)

Inductive exn : Type :=
| FileNotFoundError
| KeyError (key : string)
| ValueError (msg : string)
| TypeError (msg : string)
| NotFittedError
| Exception (msg : string).

(** The outcome of running a piece of Python: a value or a raised
    exception. *)
Inductive result (A : Type) : Type :=
| Ok (a : A)
| Raise (e : exn).
Arguments Ok {A} a.
Arguments Raise {A} e.

Definition bind {A B : Type} (r : result A) (k : A -> result B) : result B :=
  match r with
  | Ok a => k a
  | Raise e => Raise e
  end.

Declare Scope py_scope.
Delimit Scope py_scope with py.
Notation "x <- r ;; k" := (bind r (fun x => k))
  (at level 61, r at next level, right associativity) : py_scope.
Notation "' p <- r ;; k" := (bind r (fun p => k))
  (at level 61, p pattern, r at next level, right associativity) : py_scope.
Open Scope py_scope.

Definition is_ok {A : Type} (r : result A) : bool :=
  match r with Ok _ => true | Raise _ => false end.

(** [mapM f l]: run [f] on every element, left to right, stopping at the
    first exception. *)
Fixpoint mapM {A B : Type} (f : A -> result B) (l : list A) : result (list B) :=
  match l with
  | [] => Ok []
  | a :: l' => b <- f a ;; bs <- mapM f l' ;; Ok (b :: bs)
  end.

(** [foldM f l acc]: a [for] loop over [l] that threads [acc] and may raise. *)
Fixpoint foldM {A S : Type} (f : A -> S -> result S) (l : list A) (acc : S)
  : result S :=
  match l with
  | [] => Ok acc
  | a :: l' => acc' <- f a acc ;; foldM f l' acc'
  end.

(* ================================================================== *)
(** * Floats: a rational or NaN *)
(* ================================================================== *)

(** The numbers of the program are IEEE doubles.  Here the value of an
    operation is kept exact: there is no rounding and no infinity, and
    what has no rational value is [NaN].  What depends on the last digit
    of a double is stated in [Binary64], with the arithmetic of
    doubles. *)
Inductive float : Type :=
| Fin (q : Q)
| NaN.

Definition feq (a b : float) : Prop :=
  match a, b with
  | Fin x, Fin y => x == y
  | NaN, NaN => True
  | _, _ => False
  end.

Definition feqb (a b : float) : bool :=
  match a, b with
  | Fin x, Fin y => Qeq_bool x y
  | NaN, NaN => true
  | _, _ => false
  end.

Definition isnan (a : float) : bool :=
  match a with NaN => true | Fin _ => false end.

Definition is_finite (a : float) : Prop :=
  match a with Fin _ => True | NaN => False end.

Definition fadd (a b : float) : float :=
  match a, b with Fin x, Fin y => Fin (x + y) | _, _ => NaN end.
Definition fsub (a b : float) : float :=
  match a, b with Fin x, Fin y => Fin (x - y) | _, _ => NaN end.
Definition fmul (a b : float) : float :=
  match a, b with Fin x, Fin y => Fin (x * y) | _, _ => NaN end.
(** Division by zero gives an infinity or NaN in numpy; both are [NaN]
    here. *)
Definition fdiv (a b : float) : float :=
  match a, b with
  | Fin x, Fin y => if Qeq_bool y 0 then NaN else Fin (x / y)
  | _, _ => NaN
  end.
Definition fabs (a : float) : float :=
  match a with Fin x => Fin (Qabs x) | NaN => NaN end.

(** Comparisons with NaN are false. *)
Definition fgeb (a b : float) : bool :=
  match a, b with Fin x, Fin y => Qle_bool y x | _, _ => false end.
Definition fgtb (a b : float) : bool :=
  match a, b with Fin x, Fin y => negb (Qle_bool x y) | _, _ => false end.
Definition fleb (a b : float) : bool := fgeb b a.
Definition fltb (a b : float) : bool := fgtb b a.

(** [a] is a number in the closed interval [[lo, hi]]. *)
Definition in_range (lo hi : Q) (a : float) : Prop :=
  match a with Fin x => lo <= x /\ x <= hi | NaN => False end.

(** The finite values of a list of floats, in order. *)
Fixpoint finite_values (l : list float) : list Q :=
  match l with
  | [] => []
  | Fin q :: l' => q :: finite_values l'
  | NaN :: l' => finite_values l'
  end.

Definition Qminimum (x : Q) (l : list Q) : Q := fold_left Qmin l x.
Definition Qmaximum (x : Q) (l : list Q) : Q := fold_left Qmax l x.

Definition Qsum (l : list Q) : Q := fold_right Qplus 0 l.

(** [select idxs l]: the elements of [l] at the positions [idxs], in the
    order of [idxs] (positional indexing, [iloc]). *)
Definition select {A : Type} (idxs : list nat) (l : list A) : list A :=
  flat_map (fun i => match nth_error l i with Some a => [a] | None => [] end)
           idxs.

(** [mask_indices m]: the positions at which the boolean mask is true. *)
Fixpoint mask_indices_from (i : nat) (m : list bool) : list nat :=
  match m with
  | [] => []
  | true :: m' => i :: mask_indices_from (S i) m'
  | false :: m' => mask_indices_from (S i) m'
  end.
Definition mask_indices (m : list bool) : list nat := mask_indices_from 0 m.

(** Python's [list.index]: position of the first occurrence. *)
Fixpoint index_of (x : string) (l : list string) : option nat :=
  match l with
  | [] => None
  | y :: l' => if String.eqb x y then Some 0%nat
               else option_map S (index_of x l')
  end.

(* ================================================================== *)
(** * numpy *)
(* ================================================================== *)

Module Np.

(** [np.nan_to_num(x, nan=0.0, posinf=0.0, neginf=0.0)] on one element. *)
Definition nan_to_num (a : float) : float :=
  match a with Fin q => Fin q | NaN => Fin 0 end.

(** [np.nanmin] / [np.nanmax] of a column: NaN entries are skipped; a
    column without a number gives NaN. *)
Definition nanmin (l : list float) : float :=
  match finite_values l with
  | [] => NaN
  | x :: xs => Fin (Qminimum x xs)
  end.
Definition nanmax (l : list float) : float :=
  match finite_values l with
  | [] => NaN
  | x :: xs => Fin (Qmaximum x xs)
  end.

(** [np.zeros(n)]. *)
Definition zeros (n : nat) : list float := repeat (Fin 0) n.

(** One bin count of [np.histogram] with explicit edges: values in
    [[lo, hi)]; for the last bin [hi] is [np.inf], given as [None]. *)
Definition in_bin (lo : Q) (hi : option Q) (a : float) : bool :=
  match a with
  | NaN => false
  | Fin x => Qle_bool lo x &&
             match hi with Some h => negb (Qle_bool h x) | None => true end
  end.

Fixpoint bins_of_edges (edges : list Q) : list (Q * option Q) :=
  match edges with
  | [] => []
  | lo :: rest =>
      match rest with
      | [] => [(lo, None)]
      | hi :: _ => (lo, Some hi) :: bins_of_edges rest
      end
  end.

(** [np.histogram(a, bins=edges + [np.inf])[0]]. *)
Definition histogram (a : list float) (edges : list Q) : list Z :=
  map (fun b => Z.of_nat (List.length (filter (in_bin (fst b) (snd b)) a)))
      (bins_of_edges edges).

End Np.

(** [zip_with f a b]: elementwise combination, as numpy broadcasting of
    two arrays of one shape does. *)
Definition zip_with {A B C : Type} (f : A -> B -> C) (a : list A) (b : list B)
  : list C :=
  map (fun p => f (fst p) (snd p)) (combine a b).

(* ================================================================== *)
(** * scikit-learn: [MinMaxScaler] with the default [feature_range=(0, 1)] *)
(* ================================================================== *)

Module Sk.

(** A matrix is the list of its columns (features); all columns have the
    number of samples as length. *)
Definition matrix := list (list float).

Definition n_samples (X : matrix) : nat :=
  match X with [] => 0%nat | c :: _ => List.length c end.

(** The attributes a fitted scaler holds, one entry per feature. *)
Record params : Type := mkParams {
  data_min_ : list float;
  data_max_ : list float;
  data_range_ : list float;
  scale_ : list float;
  min_ : list float
}.

(** [MinMaxScaler()] is [Unfitted]; [fit] makes it [Fitted]. *)
Inductive MinMaxScaler : Type :=
| Unfitted
| Fitted (p : params).

(** [_handle_zeros_in_scale]: a zero range is replaced by 1. *)
Definition handle_zeros_in_scale (r : float) : float :=
  match r with
  | Fin q => if Qeq_bool q 0 then Fin 1 else Fin q
  | NaN => NaN
  end.

(** [check_array]: input validation refuses an array without samples. *)
Definition check_array (X : matrix) : result unit :=
  if Nat.eqb (n_samples X) 0
  then Raise (ValueError "Found array with 0 sample(s)")
  else Ok tt.

(** [fit]: per feature, [data_min_], [data_max_] (NaN skipped),
    [data_range_ = data_max_ - data_min_],
    [scale_ = 1 / handle_zeros(data_range_)],
    [min_ = 0 - data_min_ * scale_]. *)
Definition fit (X : matrix) : result MinMaxScaler :=
  _ <- check_array X ;;
  let dmin := map Np.nanmin X in
  let dmax := map Np.nanmax X in
  let drange := zip_with fsub dmax dmin in
  let scale := map (fun r => fdiv (Fin 1) (handle_zeros_in_scale r)) drange in
  let mn := zip_with (fun m s => fsub (Fin 0) (fmul m s)) dmin scale in
  Ok (Fitted (mkParams dmin dmax drange scale mn)).

(** [X *= scale_; X += min_] on one feature. *)
Definition transform_col (s m : float) (col : list float) : list float :=
  map (fun x => fadd (fmul x s) m) col.

(** [X -= min_; X /= scale_] on one feature. *)
Definition inverse_transform_col (s m : float) (col : list float) : list float :=
  map (fun x => fdiv (fsub x m) s) col.

(** Broadcasting a per-feature operation over the columns of [X]; the
    number of columns must be the number of fitted features. *)
Definition per_feature (op : float -> float -> list float -> list float)
  (p : params) (X : matrix) : result matrix :=
  if Nat.eqb (List.length X) (List.length (scale_ p))
  then Ok (map (fun c => op (fst (fst c)) (snd (fst c)) (snd c))
               (combine (combine (scale_ p) (min_ p)) X))
  else Raise (ValueError "operands could not be broadcast together").

Definition transform (sc : MinMaxScaler) (X : matrix) : result matrix :=
  match sc with
  | Unfitted => Raise NotFittedError
  | Fitted p => _ <- check_array X ;; per_feature transform_col p X
  end.

Definition inverse_transform (sc : MinMaxScaler) (X : matrix) : result matrix :=
  match sc with
  | Unfitted => Raise NotFittedError
  | Fitted p => _ <- check_array X ;; per_feature inverse_transform_col p X
  end.

(** [fit_transform]: the fitted scaler and the transformed data. *)
Definition fit_transform (X : matrix) : result (MinMaxScaler * matrix) :=
  sc <- fit X ;;
  X' <- transform sc X ;;
  Ok (sc, X').

End Sk.

(* ================================================================== *)
(** * JSON values: what a handler returns and [jsonify] serialises *)
(* ================================================================== *)

(** The values a response is built from.  A Python [dict] keeps its keys
    in insertion order: an association list.  [JFloat] holds a number
    or NaN; [JInf] is one of the floats [inf] and [-inf], and [JNaT] is
    pandas' missing timestamp [NaT]. *)
#[local] Unset Elimination Schemes.
Inductive json : Type :=
| JNone
| JInt (z : Z)
| JFloat (x : float)
| JStr (s : string)
| JList (l : list json)
| JDict (d : list (string * json))
| JInf (negative : bool)
| JNaT.
#[local] Set Elimination Schemes.

Definition dict_keys {V : Type} (d : list (string * V)) : list string :=
  map fst d.

(** [d[k] = v]: replace the value of an existing key, or add the key at
    the end. *)
Fixpoint dict_set {V : Type} (d : list (string * V)) (k : string) (v : V)
  : list (string * V) :=
  match d with
  | [] => [(k, v)]
  | (k', v') :: d' =>
      if String.eqb k k' then (k', v) :: d' else (k', v') :: dict_set d' k v
  end.

Fixpoint dict_get {V : Type} (d : list (string * V)) (k : string) : option V :=
  match d with
  | [] => None
  | (k', v) :: d' => if String.eqb k k' then Some v else dict_get d' k
  end.

(** The keys of a JSON object, [j[k]] and [k in j]. *)
Definition json_keys (j : json) : list string :=
  match j with JDict d => dict_keys d | _ => [] end.
Definition json_get (j : json) (k : string) : option json :=
  match j with JDict d => dict_get d k | _ => None end.
Definition json_has_key (k : string) (j : json) : bool :=
  existsb (String.eqb k) (json_keys j).

(* ================================================================== *)
(** * Python built-ins on numbers *)
(* ================================================================== *)

(** Rounding to the nearest integer, ties to even. *)
Definition round_half_even (q : Q) : Z :=
  let f := Qfloor q in
  let r := q - inject_Z f in
  if Qle_bool r (1#2)
  then (if Qeq_bool r (1#2) then (if Z.even f then f else f + 1)%Z else f)
  else (f + 1)%Z.

(** [round(x, 1)]: one decimal; NaN stays NaN. *)
Definition round1 (a : float) : float :=
  match a with
  | Fin q => Fin (inject_Z (round_half_even (q * 10)) / 10)
  | NaN => NaN
  end.

(** [round(x, 2)]. *)
Definition round2 (a : float) : float :=
  match a with
  | Fin q => Fin (inject_Z (round_half_even (q * 100)) / 100)
  | NaN => NaN
  end.

(** Insertion sort by a boolean order; equal keys keep their order. *)
Fixpoint insert_by {A : Type} (leb : A -> A -> bool) (x : A) (l : list A)
  : list A :=
  match l with
  | [] => [x]
  | y :: l' => if leb x y then x :: l else y :: insert_by leb x l'
  end.
Definition sort_by {A : Type} (leb : A -> A -> bool) (l : list A) : list A :=
  fold_right (insert_by leb) [] l.

(* ================================================================== *)
(** * pandas: Series and DataFrame *)
(* ================================================================== *)

Module Pd.

(** An element of an [object] column: text, or a float (a missing value
    is the float NaN). *)
Inductive obj : Type :=
| OStr (s : string)
| ONum (x : float).

(** A column with its dtype: [object], [float64] or [datetime64[ns]]
    (a timestamp is a number of nanoseconds, [None] is NaT).  Integer
    columns are taken as float columns. *)
Inductive Series : Type :=
| SObject (l : list obj)
| SFloat (l : list float)
| SDatetime (l : list (option Z)).

(** A DataFrame is the ordered dictionary of its columns; all columns
    have one length. *)
Definition DataFrame : Type := list (string * Series).

(** A single value taken out of a column. *)
Inductive cell : Type :=
| CStr (s : string)
| CFloat (x : float)
| CTime (t : option Z).

Definition cell_of_obj (o : obj) : cell :=
  match o with OStr s => CStr s | ONum x => CFloat x end.

Definition cells (s : Series) : list cell :=
  match s with
  | SObject l => map cell_of_obj l
  | SFloat l => map CFloat l
  | SDatetime l => map CTime l
  end.

Definition slen (s : Series) : nat :=
  match s with
  | SObject l => List.length l
  | SFloat l => List.length l
  | SDatetime l => List.length l
  end.

Definition cell_isna (c : cell) : bool :=
  match c with
  | CStr _ => false
  | CFloat x => isnan x
  | CTime None => true
  | CTime (Some _) => false
  end.

(** Python [==] on two values: NaN and NaT equal nothing. *)
Definition cell_eq (a b : cell) : bool :=
  match a, b with
  | CStr s, CStr t => String.eqb s t
  | CFloat (Fin x), CFloat (Fin y) => Qeq_bool x y
  | CTime (Some x), CTime (Some y) => Z.eqb x y
  | _, _ => false
  end.

(** Equality as [duplicated] and [unique] see it: two missing values are
    the same. *)
Definition cell_same (a b : cell) : bool :=
  cell_eq a b || (cell_isna a && cell_isna b).

(** The order of [sort_values] on present values of one dtype. *)
Definition cell_leb (a b : cell) : bool :=
  match a, b with
  | CStr s, CStr t => String.leb s t
  | CFloat (Fin x), CFloat (Fin y) => Qle_bool x y
  | CTime (Some x), CTime (Some y) => Z.leb x y
  | _, _ => true
  end.

(** [sort_values] puts missing values last in both directions. *)
Definition order_leb (ascending : bool) (a b : cell) : bool :=
  if cell_isna b then true
  else if cell_isna a then false
  else if ascending then cell_leb a b else cell_leb b a.

Definition json_of_cell (c : cell) : json :=
  match c with
  | CStr s => JStr s
  | CFloat x => JFloat x
  | CTime (Some t) => JInt t
  | CTime None => JNaT
  end.

(** [Series.tolist()]. *)
Definition tolist (s : Series) : list json := map json_of_cell (cells s).

(** ** Frames *)

Definition columns (df : DataFrame) : list string := map fst df.

Definition has_column (df : DataFrame) (c : string) : bool :=
  existsb (String.eqb c) (columns df).

(** [len(df)]: the number of rows. *)
Definition len (df : DataFrame) : nat :=
  match df with [] => 0%nat | (_, s) :: _ => slen s end.

(** [df.empty]: no rows or no columns. *)
Definition empty (df : DataFrame) : bool := Nat.eqb (len df) 0.

(** [pd.DataFrame()]. *)
Definition empty_frame : DataFrame := [].

(** [df[c]]. *)
Fixpoint getitem (df : DataFrame) (c : string) : result Series :=
  match df with
  | [] => Raise (KeyError c)
  | (n, s) :: df' => if String.eqb c n then Ok s else getitem df' c
  end.

(** [df[c] = s]: replaces column [c], or adds it as the last column. *)
Fixpoint setitem (df : DataFrame) (c : string) (s : Series) : DataFrame :=
  match df with
  | [] => [(c, s)]
  | (n, s0) :: df' =>
      if String.eqb c n then (n, s) :: df' else (n, s0) :: setitem df' c s
  end.

(** [df.drop(columns=[c])]. *)
Definition drop_column (df : DataFrame) (c : string) : DataFrame :=
  filter (fun p => negb (String.eqb c (fst p))) df.

(** [df.rename(columns={old: new})]. *)
Definition rename (df : DataFrame) (old new : string) : DataFrame :=
  map (fun p => (if String.eqb (fst p) old then new else fst p, snd p)) df.

Definition sselect (idxs : list nat) (s : Series) : Series :=
  match s with
  | SObject l => SObject (select idxs l)
  | SFloat l => SFloat (select idxs l)
  | SDatetime l => SDatetime (select idxs l)
  end.

(** The rows at the positions [idxs], in that order. *)
Definition take (idxs : list nat) (df : DataFrame) : DataFrame :=
  map (fun p => (fst p, sselect idxs (snd p))) df.

(** [df[mask]]: boolean indexing. *)
Definition filter_rows (mask : list bool) (df : DataFrame) : DataFrame :=
  take (mask_indices mask) df.

(** [df.head(n)] and [df.tail(n)]. *)
Definition head (n : nat) (df : DataFrame) : DataFrame :=
  take (seq 0 n) df.
Definition tail (n : nat) (df : DataFrame) : DataFrame :=
  take (seq (len df - n) n) df.

Definition shead (n : nat) (s : Series) : Series := sselect (seq 0 n) s.
Definition stail (n : nat) (s : Series) : Series :=
  sselect (seq (slen s - n) n) s.

(** The row at position [i], as the values of all columns. *)
Definition row (df : DataFrame) (i : nat) : list (option cell) :=
  map (fun p => nth_error (cells (snd p)) i) df.

Definition opt_cell_same (a b : option cell) : bool :=
  match a, b with
  | Some x, Some y => cell_same x y
  | None, None => true
  | _, _ => false
  end.

Fixpoint row_same (r1 r2 : list (option cell)) : bool :=
  match r1, r2 with
  | [], [] => true
  | a :: r1', b :: r2' => opt_cell_same a b && row_same r1' r2'
  | _, _ => false
  end.

(** [df.duplicated()]: a row is marked when an earlier row is the same. *)
Definition duplicated (df : DataFrame) : list bool :=
  map (fun i => existsb (fun j => row_same (row df j) (row df i)) (seq 0 i))
      (seq 0 (len df)).

(** [df.drop_duplicates()]: keeps the first of equal rows. *)
Definition drop_duplicates (df : DataFrame) : DataFrame :=
  filter_rows (map negb (duplicated df)) df.

Definition isna (s : Series) : list bool := map cell_isna (cells s).
Definition notna (s : Series) : list bool := map negb (isna s).

(** [df.dropna(subset=[c])]. *)
Definition dropna_subset (df : DataFrame) (c : string) : result DataFrame :=
  s <- getitem df c ;;
  Ok (filter_rows (notna s) df).

(** [s.dropna()]. *)
Definition sdropna (s : Series) : Series :=
  sselect (mask_indices (notna s)) s.

(** [df.sort_values(c, ascending=...)]. *)
Definition sort_values (df : DataFrame) (c : string) (ascending : bool)
  : result DataFrame :=
  s <- getitem df c ;;
  let cs := cells s in
  let key i := nth i cs (CFloat NaN) in
  let idxs := sort_by (fun i j => order_leb ascending (key i) (key j))
                      (seq 0 (List.length cs)) in
  Ok (take idxs df).

(** [s.unique()]: the distinct values in order of first appearance. *)
Fixpoint unique_cells (l : list cell) : list cell :=
  match l with
  | [] => []
  | c :: l' => c :: filter (fun d => negb (cell_same c d)) (unique_cells l')
  end.
Definition unique (s : Series) : list cell := unique_cells (cells s).

(** [s.iloc[0]] and [s.iloc[-1]]; out of range is an [IndexError]. *)
Definition iloc_first (s : Series) : result cell :=
  match cells s with
  | [] => Raise (Exception "IndexError: single positional indexer is out-of-bounds")
  | c :: _ => Ok c
  end.
Definition iloc_last (s : Series) : result cell :=
  match rev (cells s) with
  | [] => Raise (Exception "IndexError: single positional indexer is out-of-bounds")
  | c :: _ => Ok c
  end.

(** [s >= 0] for a column: elementwise; text cannot be compared with a
    number. *)
Definition ge0 (s : Series) : result (list bool) :=
  match s with
  | SFloat l => Ok (map (fun x => fgeb x (Fin 0)) l)
  | SObject l =>
      mapM (fun o => match o with
                     | ONum x => Ok (fgeb x (Fin 0))
                     | OStr _ => Raise (TypeError "'>=' not supported between instances of 'str' and 'int'")
                     end) l
  | SDatetime _ => Raise (TypeError "Invalid comparison between dtype=datetime64[ns] and int")
  end.

(** [s.values] handed to a float array. *)
Definition float_values (s : Series) : result (list float) :=
  match s with
  | SFloat l => Ok l
  | SObject l =>
      mapM (fun o => match o with
                     | ONum x => Ok x
                     | OStr _ => Raise (ValueError "could not convert string to float")
                     end) l
  | SDatetime _ => Raise (TypeError "float() argument must be a string or a real number")
  end.

(** [s.fillna(v)]: missing numbers become [v]. *)
Definition fill (v : float) (x : float) : float :=
  if isnan x then v else x.
Definition fillna (v : float) (s : Series) : Series :=
  match s with
  | SFloat l => SFloat (map (fill v) l)
  | SObject l => SObject (map (fun o => match o with
                                        | ONum x => ONum (fill v x)
                                        | OStr t => OStr t
                                        end) l)
  | SDatetime l => SDatetime l
  end.

(** [s.dropna()] on the values of a numeric column. *)
Definition dropna_floats (l : list float) : list float :=
  filter (fun x => negb (isnan x)) l.

(** ** Statistics of a float column; NaN is skipped *)

Definition mean (l : list float) : float :=
  match finite_values l with
  | [] => NaN
  | x :: xs => Fin (Qsum (x :: xs) / inject_Z (Z.of_nat (List.length (x :: xs))))
  end.

(** The median: the middle of the sorted values, or the mean of the two
    middle values. *)
Definition Qmedian (v : list Q) : float :=
  let s := sort_by Qle_bool v in
  let n := List.length s in
  match n with
  | O => NaN
  | _ => if Nat.even n
         then Fin ((nth (n / 2 - 1) s 0 + nth (n / 2) s 0) / 2)
         else Fin (nth (n / 2) s 0)
  end.
Definition median (l : list float) : float := Qmedian (finite_values l).

Definition smin (l : list float) : float := Np.nanmin l.
Definition smax (l : list float) : float := Np.nanmax l.

(** Sum of squared deviations from the mean [m]. *)
Definition ssq_dev (m : Q) (v : list Q) : Q :=
  Qsum (map (fun x => (x - m) * (x - m)) v).

Section WithSqrt.
(** The square root of the floating-point library. *)
Variable sqrt : Q -> Q.

(** [s.std()], with the default [ddof=1]: NaN below two values. *)
Definition std (l : list float) : float :=
  let v := finite_values l in
  let n := List.length v in
  match n with
  | O => NaN
  | S O => NaN
  | _ => let m := Qsum v / inject_Z (Z.of_nat n) in
         Fin (sqrt (ssq_dev m v / inject_Z (Z.of_nat n - 1)))
  end.

(** The observations at which both columns have a number. *)
Fixpoint complete_pairs (x y : list float) : list (Q * Q) :=
  match x, y with
  | Fin a :: x', Fin b :: y' => (a, b) :: complete_pairs x' y'
  | _ :: x', _ :: y' => complete_pairs x' y'
  | _, _ => []
  end.

(** Pearson correlation of two columns as [DataFrame.corr()] computes
    it ([min_periods=1]): NaN without observations or with a zero
    divisor, and the quotient clipped to [[-1, 1]]. *)
Definition corr_pair (x y : list float) : float :=
  let ps := complete_pairs x y in
  match ps with
  | [] => NaN
  | _ =>
      let n := inject_Z (Z.of_nat (List.length ps)) in
      let mx := Qsum (map fst ps) / n in
      let my := Qsum (map snd ps) / n in
      let cov := Qsum (map (fun p => (fst p - mx) * (snd p - my)) ps) in
      let divisor := sqrt (ssq_dev mx (map fst ps) * ssq_dev my (map snd ps)) in
      if Qeq_bool divisor 0 then NaN
      else let val := cov / divisor in
           if Qle_bool val (-1) then Fin (-1)
           else if Qle_bool 1 val then Fin 1
           else Fin val
  end.

(** A square table indexed by column names: [corr()] and its
    [to_dict()], [{column: {index: value}}]. *)
Definition table : Type := list (string * list (string * float)).

(** [df.corr()] of a frame of float columns. *)
Definition corr (cols : list (string * list float)) : table :=
  map (fun c => (fst c, map (fun r => (fst r, corr_pair (snd r) (snd c))) cols))
      cols.

(** [table.abs()]. *)
Definition table_abs (t : table) : table :=
  map (fun c => (fst c, map (fun r => (fst r, fabs (snd r))) (snd c))) t.
End WithSqrt.

Definition json_of_table (t : table) : json :=
  JDict (map (fun c => (fst c, JDict (map (fun r => (fst r, JFloat (snd r))) (snd c)))) t).

Section WithParsers.
(** The number and date parsers of pandas: the value a text denotes,
    or [None] when it does not parse. *)
Variable parse_float : string -> option Q.
Variable parse_datetime : string -> option Z.

Definition numeric_of_text (s : string) : float :=
  match parse_float s with Some q => Fin q | None => NaN end.

(** [pd.to_numeric(s, errors='coerce')]: always a float column. *)
Definition to_numeric (s : Series) : Series :=
  match s with
  | SFloat l => SFloat l
  | SObject l => SFloat (map (fun o => match o with
                                       | ONum x => x
                                       | OStr t => numeric_of_text t
                                       end) l)
  | SDatetime l => SFloat (map (fun t => match t with
                                         | Some z => Fin (inject_Z z)
                                         | None => NaN
                                         end) l)
  end.

(** [pd.to_datetime(s, errors='coerce')]: always a datetime column; a
    number counts nanoseconds. *)
Definition datetime_of_float (x : float) : option Z :=
  match x with Fin q => Some (Qfloor q) | NaN => None end.
Definition to_datetime (s : Series) : Series :=
  match s with
  | SDatetime l => SDatetime l
  | SObject l => SDatetime (map (fun o => match o with
                                          | ONum x => datetime_of_float x
                                          | OStr t => parse_datetime t
                                          end) l)
  | SFloat l => SDatetime (map datetime_of_float l)
  end.
End WithParsers.

(** ** Records *)

(** [df[cols]] for a list of column names. *)
Definition select_columns (cols : list string) (df : DataFrame)
  : result DataFrame :=
  mapM (fun c => s <- getitem df c ;; Ok (c, s)) cols.

(** [df.to_dict(orient="records")]: one dictionary per row. *)
Definition to_records (df : DataFrame) : list json :=
  map (fun i => JDict (map (fun p => (fst p,
                                      json_of_cell (nth i (cells (snd p))
                                                        (CFloat NaN))))
                           df))
      (seq 0 (len df)).

End Pd.

(* ================================================================== *)
(** * The Python store: objects, references and module globals *)
(* ================================================================== *)

Module Py.

(** The mutable objects the data handlers share: dataframes and scalers. *)
Inductive object : Type :=
| OFrame (df : Pd.DataFrame)
| OScaler (sc : Sk.MinMaxScaler).

(** A reference is the position of its object in the heap.  A variable
    holds a reference, so two variables can name one object. *)
Definition ref : Type := nat.
Definition heap : Type := list object.

(** A new object gets the next free position. *)
Definition alloc (h : heap) (o : object) : ref * heap :=
  (List.length h, h ++ [o]).

(** The object at [r] is replaced; other positions are not touched. *)
Fixpoint update (h : heap) (r : ref) (o : object) : heap :=
  match h, r with
  | [], _ => []
  | _ :: h', O => o :: h'
  | x :: h', S r' => x :: update h' r' o
  end.

(** The state of a data handler module: the heap, the module globals
    [air_aware_data] and [scaler] ([None] or a reference), and the
    position of numpy's global random generator. *)
Record state : Type := mkState {
  objects : heap;
  air_aware_data : option ref;
  scaler : option ref;
  np_random : nat
}.

(** The state when the module starts to load. *)
Definition initial (pos : nat) : state := mkState [] None None pos.

(** A function that works on the state and may raise; the state reached
    is returned in both cases. *)
Definition M (A : Type) : Type := state -> result A * state.

Definition ret {A : Type} (a : A) : M A := fun s => (Ok a, s).
Definition raise {A : Type} (e : exn) : M A := fun s => (Raise e, s).
Definition lift {A : Type} (r : result A) : M A := fun s => (r, s).
Definition mbind {A B : Type} (m : M A) (k : A -> M B) : M B :=
  fun s => match m s with
           | (Ok a, s') => k a s'
           | (Raise e, s') => (Raise e, s')
           end.

(** [pd.DataFrame(...)], [df.copy()], [df[mask]]: a new frame object. *)
Definition new_frame (d : Pd.DataFrame) : M ref :=
  fun s => let '(r, h) := alloc (objects s) (OFrame d) in
           (Ok r, mkState h (air_aware_data s) (scaler s) (np_random s)).

(** [MinMaxScaler()]: a new scaler object. *)
Definition new_scaler (sc : Sk.MinMaxScaler) : M ref :=
  fun s => let '(r, h) := alloc (objects s) (OScaler sc) in
           (Ok r, mkState h (air_aware_data s) (scaler s) (np_random s)).

(** Reading the object behind a reference. *)
Definition get_frame (r : ref) : M Pd.DataFrame :=
  fun s => match nth_error (objects s) r with
           | Some (OFrame d) => (Ok d, s)
           | _ => (Raise (TypeError "not a DataFrame"), s)
           end.
Definition get_scaler (r : ref) : M Sk.MinMaxScaler :=
  fun s => match nth_error (objects s) r with
           | Some (OScaler sc) => (Ok sc, s)
           | _ => (Raise (TypeError "not a MinMaxScaler"), s)
           end.

(** Updating an object in place ([inplace=True], [fit]). *)
Definition set_frame (r : ref) (d : Pd.DataFrame) : M unit :=
  fun s => (Ok tt, mkState (update (objects s) r (OFrame d))
                           (air_aware_data s) (scaler s) (np_random s)).
Definition set_scaler (r : ref) (sc : Sk.MinMaxScaler) : M unit :=
  fun s => (Ok tt, mkState (update (objects s) r (OScaler sc))
                           (air_aware_data s) (scaler s) (np_random s)).

(** Reading and assigning the globals. *)
Definition global_air_aware_data : M (option ref) :=
  fun s => (Ok (air_aware_data s), s).
Definition global_scaler : M (option ref) :=
  fun s => (Ok (scaler s), s).
Definition assign_air_aware_data (r : ref) : M unit :=
  fun s => (Ok tt, mkState (objects s) (Some r) (scaler s) (np_random s)).
Definition assign_scaler (r : ref) : M unit :=
  fun s => (Ok tt, mkState (objects s) (air_aware_data s) (Some r) (np_random s)).

(** A computation that draws from numpy's global generator. *)
Definition with_random {A : Type} (f : nat -> result A * nat) : M A :=
  fun s => let '(r, pos) := f (np_random s) in
           (r, mkState (objects s) (air_aware_data s) (scaler s) pos).

End Py.

Declare Scope state_scope.
Delimit Scope state_scope with state.
Notation "x <~ m ;; k" := (Py.mbind m (fun x => k))
  (at level 61, m at next level, right associativity) : state_scope.
Open Scope state_scope.

(* ================================================================== *)
(** * AirAware Dashboard 1: [data_handler.py] *)
(* ================================================================== *)

Module Dashboard1.
Import Pd.

(** [pollutant_cols]. *)
Definition pollutant_cols : list string :=
  ["AQI"; "PM2.5"; "PM10"; "O3"; "NO2"; "SO2"; "CO"]%string.

(** The module globals [air_aware_data] and [scaler] live in the state
    [Py.state]; both start as [None]. *)
Definition initial : Py.state := Py.initial 0.

(** [pd.to_datetime(['2024-01-01'])], in nanoseconds. *)
Definition t_2024_01_01 : Z := 1704067200000000000%Z.

(** The frame built when the data file is not found. *)
Definition dummy_data : DataFrame :=
  [ ("City", SObject [OStr "Loading Failed"]);
    ("timestamp", SDatetime [Some t_2024_01_01]);
    ("PM2.5", SFloat [Fin 0]);
    ("AQI", SFloat [Fin 0]) ]%string.

Definition series_median (s : Series) : result float :=
  match s with
  | SFloat l => Ok (median l)
  | _ => Raise (TypeError "could not convert to numeric")
  end.

Definition lookup_median (medians : list (string * float)) (col : string)
  : result float :=
  match dict_get medians col with
  | Some m => Ok m
  | None => Raise (KeyError col)
  end.

(** [_get_unscaled_series(df, pollutant_name, scaler, pollutant_cols)]:
    "Helper function to inverse transform a single pollutant column." *)
Definition _get_unscaled_series (df : DataFrame) (pollutant_name : string)
  (sc : Sk.MinMaxScaler) (cols : list string) : result (list float) :=
  if empty df then Ok (dropna_floats [Fin 0])
  else
    match index_of pollutant_name cols with
    | None => Raise (ValueError "is not in list")
    | Some pollutant_index =>
        s <- getitem df pollutant_name ;;
        vals <- float_values s ;;
        let temp_scaled :=
          map (fun k => if Nat.eqb k pollutant_index then vals
                        else Np.zeros (len df))
              (seq 0 (List.length cols)) in
        unscaled_data_full <- Sk.inverse_transform sc temp_scaled ;;
        let unscaled_series := nth pollutant_index unscaled_data_full [] in
        Ok (map Np.nan_to_num unscaled_series)
    end.

Definition dashboard_bins : list Q := [0; 20; 40; 60; 80; 100].
Definition dashboard_labels : list string :=
  ["0-20"; "20-40"; "40-60"; "60-80"; "80-100"; "100+"]%string.

Section Handler.
Variable parse_float : string -> option Q.
Variable parse_datetime : string -> option Z.
Variable sqrt : Q -> Q.
(** [strftime('%H:%M')] of a timestamp. *)
Variable strftime_HM : Z -> string.
(** What [pd.read_csv(DATA_FILE_NAME)] finds: the frame read from the
    file, or [None] when there is no such file. *)
Variable data_file : option DataFrame.

(** Step 2 of the loader up to the numeric conversion. *)
Definition prepare (df : DataFrame) : result DataFrame :=
  let df_clean := drop_duplicates df in
  t <- getitem df_clean "Time" ;;
  let df_clean := setitem df_clean "Time" (to_datetime parse_datetime t) in
  let df_clean := rename df_clean "Time" "timestamp" in
  foldM (fun col d => s <- getitem d col ;;
                      Ok (setitem d col (to_numeric parse_float s)))
        pollutant_cols df_clean.

(** [medians = df_clean[pollutant_cols].median()]. *)
Definition column_medians (df_clean : DataFrame)
  : result (list (string * float)) :=
  mapM (fun col => s <- getitem df_clean col ;;
                   m <- series_median s ;;
                   Ok (col, m))
       pollutant_cols.

(** The [fillna] loop. *)
Definition fill_medians (medians : list (string * float))
  (df_clean : DataFrame) : result DataFrame :=
  foldM (fun col d => s <- getitem d col ;;
                      m <- lookup_median medians col ;;
                      Ok (setitem d col (fillna m s)))
        pollutant_cols df_clean.

(** The loop [df_clean = df_clean[df_clean[col] >= 0].copy()]. *)
Definition keep_non_negative (df_clean : DataFrame) : result DataFrame :=
  foldM (fun col d => s <- getitem d col ;;
                      mask <- ge0 s ;;
                      Ok (filter_rows mask d))
        pollutant_cols df_clean.

(** [df_clean[pollutant_cols].values], one list per column. *)
Definition pollutant_values (df : DataFrame) : result Sk.matrix :=
  mapM (fun col => s <- getitem df col ;; float_values s) pollutant_cols.

(** [df_clean[pollutant_cols] = X]. *)
Definition assign_pollutants (df : DataFrame) (X : Sk.matrix) : DataFrame :=
  fold_left (fun d cx => setitem d (fst cx) (SFloat (snd cx)))
            (combine pollutant_cols X) df.

(** Steps 2 of the loader: the cleaned, still unscaled frame. *)
Definition clean (df : DataFrame) : result DataFrame :=
  df_clean <- prepare df ;;
  medians <- column_medians df_clean ;;
  df_clean <- fill_medians medians df_clean ;;
  keep_non_negative df_clean.

(** [load_and_preprocess_data()]: "Loads, cleans, and scales the air
    quality data ...  Initializes global air_aware_data (scaled) and
    scaler object."  It returns the two globals.  The frames [df] and
    [df_clean] are local to the call and are modelled by their values;
    the copy stored in [air_aware_data] and the scaler are objects. *)
Definition load_and_preprocess_data : Py.M (Py.ref * Py.ref) :=
  match data_file with
  | None =>
      (* except FileNotFoundError: "Return dummy data to prevent crash" *)
      data <~ Py.new_frame dummy_data ;;
      _ <~ Py.assign_air_aware_data data ;;
      sc <~ Py.new_scaler Sk.Unfitted ;;
      _ <~ Py.assign_scaler sc ;;
      Py.ret (data, sc)
  | Some df =>
      df_clean <~ Py.lift (clean df) ;;
      (* scaler = MinMaxScaler() *)
      sc <~ Py.new_scaler Sk.Unfitted ;;
      _ <~ Py.assign_scaler sc ;;
      (* df_clean[pollutant_cols] = scaler.fit_transform(...) *)
      X <~ Py.lift (pollutant_values df_clean) ;;
      fitted <~ Py.lift (Sk.fit X) ;;
      _ <~ Py.set_scaler sc fitted ;;
      X' <~ Py.lift (Sk.transform fitted X) ;;
      (* air_aware_data = df_clean.copy() *)
      data <~ Py.new_frame (assign_pollutants df_clean X') ;;
      _ <~ Py.assign_air_aware_data data ;;
      Py.ret (data, sc)
  end.

(** [if air_aware_data is None or scaler is None:
       load_and_preprocess_data()]. *)
Definition load_if_unset : Py.M unit :=
  data <~ Py.global_air_aware_data ;;
  sc <~ Py.global_scaler ;;
  match data, sc with
  | Some _, Some _ => Py.ret tt
  | _, _ => _ <~ load_and_preprocess_data ;; Py.ret tt
  end.

(** [get_available_cities()]. *)
Definition get_available_cities : Py.M (list cell) :=
  data <~ Py.global_air_aware_data ;;
  _ <~ match data with
       | None => _ <~ load_and_preprocess_data ;; Py.ret tt
       | Some _ => Py.ret tt
       end ;;
  data <~ Py.global_air_aware_data ;;
  match data with
  | None => Py.raise (Exception "AttributeError: 'NoneType' object has no attribute 'columns'")
  | Some data =>
      d <~ Py.get_frame data ;;
      if has_column d "City"
      then Py.lift (s <- getitem d "City" ;; Ok (unique s))
      else Py.ret []
  end.

(** [s.dt.strftime('%H:%M').tolist()]. *)
Definition strftime_list (s : Series) : result (list json) :=
  match s with
  | SDatetime l =>
      Ok (map (fun t => match t with
                        | Some z => JStr (strftime_HM z)
                        | None => JFloat NaN
                        end) l)
  | _ => Raise (Exception "AttributeError: Can only use .dt accessor with datetimelike values")
  end.

(** The summary dictionary of a series. *)
Definition summary_of (series : list float) : json :=
  JDict [ ("mean", JFloat (round1 (mean series)));
          ("median", JFloat (round1 (median series)));
          ("min", JFloat (round1 (smin series)));
          ("max", JFloat (round1 (smax series)));
          ("std_dev", JFloat (round1 (std sqrt series)));
          ("data_points", JInt (Z.of_nat (List.length series))) ]%string.

(** Section 5 of [get_dashboard_data]: the table of absolute
    correlations of the unscaled pollutants, without AQI. *)
Definition correlations_of (df : DataFrame) (sc : Sk.MinMaxScaler)
  : result table :=
  temp_scaled_full <- pollutant_values df ;;
  unscaled <- Sk.inverse_transform sc temp_scaled_full ;;
  let unscaled_pollutant_df :=
    filter (fun c => negb (String.eqb "AQI" (fst c)))
           (combine pollutant_cols unscaled) in
  let unscaled_pollutant_df :=
    map (fun c => (fst c, map (fill (Fin 0)) (snd c))) unscaled_pollutant_df in
  Ok (table_abs (corr sqrt unscaled_pollutant_df)).

(** [df.sort_values('timestamp', ascending=False).head(24)
      .sort_values('timestamp')]. *)
Definition last_24 (df : DataFrame) : result DataFrame :=
  d <- sort_values df "timestamp" false ;;
  sort_values (head 24 d) "timestamp" true.

(** Sections 2 to 6 of [get_dashboard_data] and its [return]: the
    response computed from the frame [df] of the 24 latest rows. *)
Definition dashboard (df : DataFrame) (sc : Sk.MinMaxScaler)
  (pollutant : string) : result json :=
  ts <- getitem df "timestamp" ;;
  x <- strftime_list ts ;;
  y <- getitem df pollutant ;;
  let time_series_data := JDict [("x", JList x); ("y", JList (tolist y))]%string in
  selected_pollutant_series <- _get_unscaled_series df pollutant sc pollutant_cols ;;
  let summary := summary_of selected_pollutant_series in
  pm25_unscaled_series <- _get_unscaled_series df "PM2.5" sc pollutant_cols ;;
  let counts := Np.histogram pm25_unscaled_series dashboard_bins in
  let distribution_data :=
    JDict [("labels", JList (map JStr dashboard_labels));
           ("counts", JList (map JInt counts))]%string in
  corr_matrix <- correlations_of df sc ;;
  let correlation_data := json_of_table corr_matrix in
  let data_quality := JDict [("completeness", JInt 92); ("validity", JInt 87)]%string in
  Ok (JDict [ ("time_series", time_series_data);
              ("summary", summary);
              ("distribution", distribution_data);
              ("correlations", correlation_data);
              ("data_quality", data_quality) ]%string).

Definition error_response : json :=
  JDict [("error", JStr "Data or Scaler is not initialized properly.")]%string.

(** [df.dropna(subset=['timestamp'], inplace=True)]: the object behind
    [df] is changed. *)
Definition dropna_timestamp_inplace (df : Py.ref) : Py.M unit :=
  d <~ Py.get_frame df ;;
  d <~ Py.lift (dropna_subset d "timestamp") ;;
  Py.set_frame df d.

(** [df = df.sort_values(...).head(24).sort_values(...).copy()]: a new
    object, to which [df] is rebound. *)
Definition latest_rows (df : Py.ref) : Py.M Py.ref :=
  d <~ Py.get_frame df ;;
  d <~ Py.lift (last_24 d) ;;
  Py.new_frame d.

(** [get_dashboard_data(city, time_range, pollutant)]. *)
Definition get_dashboard_data (city : option string) (time_range : string)
  (pollutant : string) : Py.M json :=
  _ <~ load_if_unset ;;
  data <~ Py.global_air_aware_data ;;
  match data with
  | None => Py.raise (Exception "AttributeError: 'NoneType' object has no attribute 'empty'")
  | Some air_aware_data =>
      d <~ Py.get_frame air_aware_data ;;
      sc <~ Py.global_scaler ;;
      match (if empty d then None else sc) with
      | None => Py.ret error_response
      | Some scaler =>
          (* df = air_aware_data.copy() *)
          df <~ Py.new_frame d ;;
          _ <~ dropna_timestamp_inplace df ;;
          df <~ latest_rows df ;;
          d <~ Py.get_frame df ;;
          fitted <~ Py.get_scaler scaler ;;
          Py.lift (dashboard d fitted pollutant)
      end
  end.
End Handler.

End Dashboard1.

(* ================================================================== *)
(** * The scaling of the loader in the arithmetic of doubles *)
(* ================================================================== *)

Module Binary64.

(** The double of an integer below [2^63] in size. *)
Definition of_Z (z : Z) : PrimFloat.float :=
  match z with
  | Z0 => PrimFloat.zero
  | Zpos _ => PrimFloat.of_uint63 (Uint63.of_Z z)
  | Zneg p => PrimFloat.opp (PrimFloat.of_uint63 (Uint63.of_Z (Zpos p)))
  end.

(** The double that reading a number gives: the double nearest to it.
    The division of doubles is correctly rounded, so this is the nearest
    double for a numerator and a denominator below [2^53]. *)
Definition of_Q (q : Q) : PrimFloat.float :=
  PrimFloat.div (of_Z (Qnum q)) (of_Z (Zpos (Qden q))).
Definition of_float (a : float) : PrimFloat.float :=
  match a with Fin q => of_Q q | NaN => PrimFloat.nan end.

(** The value of a double, which is a rational; an infinity and NaN
    have none. *)
Definition to_float (x : PrimFloat.float) : float :=
  match FloatOps.Prim2SF x with
  | SpecFloat.S754_zero _ => Fin 0
  | SpecFloat.S754_finite s m e =>
      let v := if (0 <=? e)%Z
               then inject_Z (Zpos m * 2 ^ e)
               else Zpos m # Pos.pow 2 (Z.to_pos (- e)) in
      Fin (Qred (if s then - v else v))
  | _ => NaN
  end.

Definition is_nan (x : PrimFloat.float) : bool := negb (PrimFloat.eqb x x).

(** [np.nanmin], [np.nanmax] of a column of doubles. *)
Definition nanmin (col : list PrimFloat.float) : PrimFloat.float :=
  fold_left (fun m x => if is_nan x then m
                        else if is_nan m then x
                        else if PrimFloat.ltb x m then x else m)
            col PrimFloat.nan.
Definition nanmax (col : list PrimFloat.float) : PrimFloat.float :=
  fold_left (fun m x => if is_nan x then m
                        else if is_nan m then x
                        else if PrimFloat.ltb m x then x else m)
            col PrimFloat.nan.

(** [_handle_zeros_in_scale]: a zero range is replaced by 1. *)
Definition handle_zeros_in_scale (r : PrimFloat.float) : PrimFloat.float :=
  if PrimFloat.eqb r PrimFloat.zero then PrimFloat.one else r.

(** [fit_transform] on one feature, the formulas of [Sk.fit] and
    [Sk.transform_col] with each operation rounded to a double:
    [data_range_ = data_max_ - data_min_],
    [scale_ = 1 / handle_zeros(data_range_)],
    [min_ = 0 - data_min_ * scale_], then [X *= scale_; X += min_]. *)
Definition fit_transform_col (col : list PrimFloat.float)
  : list PrimFloat.float :=
  let data_min := nanmin col in
  let data_max := nanmax col in
  let data_range := PrimFloat.sub data_max data_min in
  let scale := PrimFloat.div PrimFloat.one (handle_zeros_in_scale data_range) in
  let min := PrimFloat.sub PrimFloat.zero (PrimFloat.mul data_min scale) in
  map (fun x => PrimFloat.add (PrimFloat.mul x scale) min) col.

Definition fit_transform (X : Sk.matrix) : result Sk.matrix :=
  _ <- Sk.check_array X ;;
  Ok (map (fun col => map to_float (fit_transform_col (map of_float col))) X).

Section Loader.
Variable parse_float : string -> option Q.
Variable parse_datetime : string -> option Z.

(** The frame that [load_and_preprocess_data] stores in
    [air_aware_data] for the data file [df]: the cleaning of
    [Dashboard1.clean], which passes the numbers on as they are, and
    [df_clean[pollutant_cols] = scaler.fit_transform(...)] in the
    arithmetic of doubles. *)
Definition scaled_data (df : Pd.DataFrame) : result Pd.DataFrame :=
  df_clean <- Dashboard1.clean parse_float parse_datetime df ;;
  X <- Dashboard1.pollutant_values df_clean ;;
  X' <- fit_transform X ;;
  Ok (Dashboard1.assign_pollutants df_clean X').
End Loader.

End Binary64.

(* ================================================================== *)
(** * AirAware Dashboard 1: [app.py] *)
(* ================================================================== *)

Module Dashboard1App.

(** [sanitize_for_json(obj)]: "Recursively convert NaN and Infinity
    values to None." *)
Fixpoint sanitize_for_json (obj : json) : json :=
  match obj with
  | JDict d => JDict (map (fun kv => let '(k, v) := kv in
                                     (k, sanitize_for_json v)) d)
  | JList l => JList (map sanitize_for_json l)
  | JFloat NaN => JNone
  | JInf _ => JNone
  | _ => obj
  end.

(** Python's truth value of a value taken out of a column. *)
Definition truthy (c : Pd.cell) : bool :=
  match c with
  | Pd.CStr s => negb (String.eqb s "")
  | Pd.CFloat (Fin q) => negb (Qeq_bool q 0)
  | Pd.CFloat NaN => true
  | Pd.CTime _ => true
  end.

(** Python's truth value of a JSON value. *)
Definition json_truthy (j : json) : bool :=
  match j with
  | JNone => false
  | JInt z => negb (Z.eqb z 0)
  | JFloat (Fin q) => negb (Qeq_bool q 0)
  | JFloat NaN => true
  | JStr s => negb (String.eqb s "")
  | JList l => match l with [] => false | _ => true end
  | JDict d => match d with [] => false | _ => true end
  | JInf _ => true
  | JNaT => true
  end.

(** What Flask answers to a request: what the view returns, or, for a
    view that raises, its own page "500 Internal Server Error", which
    is no JSON and has no field 'error'. *)
Inductive response : Type :=
| Json (body : json) (status : Z)
| InternalServerError.

Section Routes.
Variable parse_float : string -> option Q.
Variable parse_datetime : string -> option Z.
Variable sqrt : Q -> Q.
Variable strftime_HM : Z -> string.
Variable data_file : option Pd.DataFrame.

(** [get_data()], the route [/api/data]: "API endpoint to deliver
    processed data to the frontend."  The arguments are those of the
    request, [None] when one is not given; the result is the body and
    the HTTP status.  [get_dashboard_data] of this dashboard does not
    read its argument [city]; a city that is no text is handed over as
    [None]. *)
Definition get_data (location time_range pollutant : option string)
  : Py.M (json * Z) :=
  all_cities <~ Dashboard1.get_available_cities parse_float parse_datetime
                  data_file ;;
  let default_city := List.hd_error all_cities in
  let location := match location with
                  | Some l => Some (Pd.CStr l)
                  | None => default_city
                  end in
  let time_range := match time_range with
                    | Some t => t
                    | None => "Last 24 Hours"%string
                    end in
  let pollutant := match pollutant with
                   | Some p => p
                   | None => "PM2.5"%string
                   end in
  if negb (match location with Some c => truthy c | None => false end) then
    Py.ret (JDict [("error", JStr "No data or cities available to process.")]%string,
            500%Z)
  else
    data <~ Dashboard1.get_dashboard_data parse_float parse_datetime sqrt
              strftime_HM data_file
              (match location with Some (Pd.CStr l) => Some l | _ => None end)
              time_range pollutant ;;
    if json_truthy data && negb (json_has_key "error" data)
    then Py.ret (sanitize_for_json data, 200%Z)
    else Py.ret (JDict [("error", JStr "Could not retrieve data or file is missing.")]%string,
                 500%Z).

(** The route as Flask serves it: [get_data] has no [try], so that an
    exception of [get_available_cities] or [get_dashboard_data] is
    answered by Flask. *)
Definition serve_get_data (location time_range pollutant : option string)
  (g : Py.state) : response * Py.state :=
  match get_data location time_range pollutant g with
  | (Ok (body, status), g') => (Json body status, g')
  | (Raise _, g') => (InternalServerError, g')
  end.
End Routes.

End Dashboard1App.

(* ================================================================== *)
(** * Random numbers *)
(* ================================================================== *)

(** The generator is a stream of samples of [random_sample()], each in
    [[0, 1)], and the position reached in it; every draw moves the
    position. *)
Module Rng.

Section WithStream.
Variable sample : nat -> Q.

(** [uniform(low, high)]: [low + (high - low) * random_sample()]. *)
Definition uniform (low high : Q) (pos : nat) : Q * nat :=
  (low + (high - low) * sample pos, S pos).

(** [uniform(low, high, size=n)]. *)
Fixpoint uniform_n (low high : Q) (n : nat) (pos : nat) : list Q * nat :=
  match n with
  | O => ([], pos)
  | S n' => let '(x, pos) := uniform low high pos in
            let '(xs, pos) := uniform_n low high n' pos in
            (x :: xs, pos)
  end.

(** [randint(low, high)]: an integer in [[low, high)]. *)
Definition randint (low high : Z) (pos : nat) : Z * nat :=
  ((low + Qfloor (inject_Z (high - low) * sample pos))%Z, S pos).
End WithStream.

(** Every sample of the stream lies in [[0, 1)]. *)
Definition unit_samples (sample : nat -> Q) : Prop :=
  forall n, 0 <= sample n /\ sample n < 1.

End Rng.

(** Decimal text of a natural number, as [str(n)]. *)
Fixpoint digits_of (fuel n : nat) (acc : string) : string :=
  match fuel with
  | O => acc
  | S fuel' =>
      let d := String (ascii_of_nat (48 + n mod 10)) acc in
      if Nat.ltb n 10 then d else digits_of fuel' (n / 10) d
  end.
Definition str_of_nat (n : nat) : string := digits_of (S n) n "".

(** [f"{h:02d}"]. *)
Definition two_digits (h : nat) : string :=
  if Nat.ltb h 10 then ("0" ++ str_of_nat h)%string else str_of_nat h.

(* ================================================================== *)
(** * AirAware Dashboard 2: [data_handler.py] *)
(* ================================================================== *)

Module Dashboard2.
Import Pd.

Definition pollutant_cols : list string :=
  ["AQI"; "PM2.5"; "PM10"; "O3"; "NO2"; "SO2"; "CO"]%string.

(** The module globals and numpy's global generator live in the state
    [Py.state]. *)
Definition initial (pos : nat) : Py.state := Py.initial pos.

(** [_get_unscaled_series(df, pollutant_name, scaler, pollutant_cols)]:
    "Helper function to inverse transform a single pollutant column and
    guarantee clean output." *)
Definition _get_unscaled_series (df : DataFrame) (pollutant_name : string)
  (sc : Sk.MinMaxScaler) (cols : list string) : result (list float) :=
  if empty df then Ok [Fin 0]
  else
    match index_of pollutant_name cols with
    | None => Raise (ValueError "is not in list")
    | Some pollutant_index =>
        s <- getitem df pollutant_name ;;
        vals <- float_values s ;;
        let temp_scaled :=
          map (fun k => if Nat.eqb k pollutant_index then vals
                        else Np.zeros (len df))
              (seq 0 (List.length cols)) in
        unscaled_data_full <- Sk.inverse_transform sc temp_scaled ;;
        let unscaled_series := nth pollutant_index unscaled_data_full [] in
        Ok (map Np.nan_to_num unscaled_series)
    end.

Definition pollutants_for_eval : list string :=
  ["PM2.5"; "PM10"; "O3"; "NO2"]%string.
Definition models_list : list string :=
  ["ARIMA"; "Prophet"; "LSTM"; "XGBoost"]%string.

(** The dictionary literal of trend factors, indexed by the model. *)
Definition trend_factors : list (string * Q) :=
  [("LSTM", 5#100); ("Prophet", 4#100); ("ARIMA", 3#100); ("XGBoost", 6#100)]%string.

Definition jnum (q : Q) : json := JFloat (Fin q).

(** [[v] * n]. *)
Definition times {A : Type} (v : A) (n : nat) : list A := repeat v n.

(** [[f"+{h}H" for h in range(1, horizon + 1)]]. *)
Definition forecast_hours (horizon : nat) : list json :=
  map (fun h => JStr ("+" ++ str_of_nat h ++ "H")%string) (seq 1 horizon).

(** [min(rmses, key=rmses.get)]: the first key with the least value. *)
Fixpoint argmin (best : string * Q) (rest : list (string * Q)) : string * Q :=
  match rest with
  | [] => best
  | kv :: rest' =>
      if Qle_bool (snd best) (snd kv) then argmin best rest'
      else argmin kv rest'
  end.

Section Handler.
Variable parse_float : string -> option Q.
Variable parse_datetime : string -> option Z.
Variable sqrt : Q -> Q.
Variable strftime_HM : Z -> string.
Variable data_file : option DataFrame.
(** The stream behind [np.random]. *)
Variable sample : nat -> Q.

(** [load_and_preprocess_data()]: the text of the loader is that of
    Dashboard 1, line for line; the embedding is shared. *)
Definition load_and_preprocess_data : Py.M (Py.ref * Py.ref) :=
  Dashboard1.load_and_preprocess_data parse_float parse_datetime data_file.

(** [if air_aware_data is None or scaler is None:
       load_and_preprocess_data()]. *)
Definition load_if_unset : Py.M unit :=
  Dashboard1.load_if_unset parse_float parse_datetime data_file.

(** The loop that fills [performance_data]: per model, four RMSE draws
    and four MAE draws. *)
Fixpoint simulate_performance (models : list string) (pos : nat)
  : list (string * (list Q * list Q)) * nat :=
  match models with
  | [] => ([], pos)
  | m :: models' =>
      let '(rmse, pos) :=
        Rng.uniform_n sample (1#100) (8#100) (List.length pollutants_for_eval) pos in
      let '(mae, pos) :=
        Rng.uniform_n sample (5#1000) (5#100) (List.length pollutants_for_eval) pos in
      let '(rest, pos) := simulate_performance models' pos in
      ((m, (rmse, mae)) :: rest, pos)
  end.

Definition performance_json (perf : list (string * (list Q * list Q))) : json :=
  JDict (fold_left
           (fun d m => dict_set d (fst m)
                         (JDict [("rmse", JList (map jnum (fst (snd m))));
                                 ("mae", JList (map jnum (snd (snd m))))]%string))
           perf
           [("labels", JList (map JStr pollutants_for_eval))]%string).

(** The forecast values: [last_actual + i * trend_factor +
    uniform(-0.01, 0.01)] for [i] from [first] on, [n] of them. *)
Fixpoint forecast_from (last_actual trend_factor : float) (first n : nat)
  (pos : nat) : list float * nat :=
  match n with
  | O => ([], pos)
  | S n' =>
      let '(u, pos) := Rng.uniform sample (-(1#100)) (1#100) pos in
      let f := fadd (fadd last_actual
                          (fmul (Fin (inject_Z (Z.of_nat first))) trend_factor))
                    (Fin u) in
      let '(fs, pos) := forecast_from last_actual trend_factor (S first) n' pos in
      (f :: fs, pos)
  end.

(** [[f + sign * 0.02 * i for i, f in enumerate(forecast_values)]]. *)
Definition ci_line (sign : Q) (forecast_values : list float) : list float :=
  map (fun p => fadd (snd p)
                  (Fin (sign * (2#100) * inject_Z (Z.of_nat (fst p)))))
      (combine (seq 0 (List.length forecast_values)) forecast_values).

Definition best_model_row (perf : list (string * (list Q * list Q)))
  (i : nat) (p : string) : json :=
  let rmses := map (fun m => (fst m, nth i (fst (snd m)) 0)) perf in
  match rmses with
  | [] => JNone
  | kv :: rest =>
      let best := argmin kv rest in
      let mae := match dict_get perf (fst best) with
                 | Some rm => nth i (snd rm) 0
                 | None => 0
                 end in
      JDict [("pollutant", JStr p); ("best_model", JStr (fst best));
             ("rmse", jnum (snd best)); ("mae", jnum mae)]%string
  end.

(** [simulate_model_data(df_filtered, horizon, selected_model)]:
    "Generates structured model results (RMSE/MAE, Forecast) based on
    the filtered data."  It draws from the global generator. *)
Definition simulate_model_data (df_filtered : option DataFrame)
  (horizon : Z) (selected_model : string) (pos : nat) : result json * nat :=
  let horizon := Z.to_nat horizon in
  let '(perf, pos) := simulate_performance models_list pos in
  let performance_data := performance_json perf in
  let is_empty := match df_filtered with
                  | None => true
                  | Some d => empty d
                  end in
  if is_empty then
    let timestamps := map (fun h => JStr (two_digits h ++ ":00")%string) (seq 0 20) in
    let full_labels := timestamps ++ forecast_hours horizon in
    (Ok (JDict
      [ ("performance", performance_data);
        ("forecast", JDict
           [ ("labels", JList full_labels);
             ("actual", JList (times (JInt 0) 20 ++ times JNone horizon));
             ("forecast", JList (times JNone 20 ++ times (JInt 0) horizon));
             ("ci_lower", JList (times JNone 20 ++ times (JInt 0) horizon));
             ("ci_upper", JList (times JNone 20 ++ times (JInt 0) horizon)) ]%string);
        ("accuracy_table", JList
           (map (fun p => JDict [("pollutant", JStr p); ("best_model", JStr "N/A");
                                 ("rmse", JInt 0); ("mae", JInt 0)]%string)
                pollutants_for_eval)) ]%string), pos)
  else
    let df := match df_filtered with Some d => d | None => empty_frame end in
    let historical_points := 20%nat in
    match
      (ts <- getitem df "timestamp" ;;
       timestamps <- Dashboard1.strftime_list strftime_HM (shead historical_points ts) ;;
       pm <- getitem df "PM2.5" ;;
       historical_pm25 <- float_values (shead historical_points pm) ;;
       let last_actual := match rev historical_pm25 with
                          | x :: _ => x
                          | [] => Fin (1#10)
                          end in
       match dict_get trend_factors selected_model with
       | None => Raise (KeyError selected_model)
       | Some trend_factor => Ok (timestamps, historical_pm25, last_actual, trend_factor)
       end)
    with
    | Raise e => (Raise e, pos)
    | Ok (timestamps, historical_pm25, last_actual, trend_factor) =>
        let full_labels := timestamps ++ forecast_hours horizon in
        let '(forecast_values, pos) :=
          forecast_from last_actual (Fin trend_factor) 1 horizon pos in
        let ci_lower := ci_line (-1) forecast_values in
        let ci_upper := ci_line 1 forecast_values in
        let forecast_line := times JNone historical_points ++ map JFloat forecast_values in
        let actual_line := map JFloat historical_pm25 ++ times JNone horizon in
        let ci_lower_line := times JNone historical_points ++ map JFloat ci_lower in
        let ci_upper_line := times JNone historical_points ++ map JFloat ci_upper in
        let accuracy_table :=
          map (fun ip => best_model_row perf (fst ip) (snd ip))
              (combine (seq 0 (List.length pollutants_for_eval)) pollutants_for_eval) in
        (Ok (JDict
          [ ("performance", performance_data);
            ("forecast", JDict
               [ ("labels", JList full_labels);
                 ("actual", JList actual_line);
                 ("forecast", JList forecast_line);
                 ("ci_lower", JList ci_lower_line);
                 ("ci_upper", JList ci_upper_line) ]%string);
            ("accuracy_table", JList accuracy_table) ]%string), pos)
    end.

(** The city filter: an unknown city is replaced by the first city of
    the data.  [None] when the condition [city and 'City' in df.columns]
    is false and [df] is left as it is. *)
Definition filter_city (city : option string) (df : DataFrame)
  : result (option DataFrame) :=
  match city with
  | None => Ok None
  | Some c =>
      if String.eqb c "" then Ok None
      else if has_column df "City" then
        s <- getitem df "City" ;;
        city <- (if existsb (cell_eq (CStr c)) (unique s)
                 then Ok (CStr c)
                 else iloc_first s) ;;
        Ok (Some (filter_rows (map (cell_eq city) (cells s)) df))
      else Ok None
  end.

(** The dictionary returned when the filtered frame is empty, before
    its [model_output]. *)
Definition empty_fields : list (string * json) :=
  let zero := JFloat (Fin 0) in
  let no_aqi := filter (fun q => negb (String.eqb q "AQI")) pollutant_cols in
  [ ("time_series", JDict [("x", JList []); ("y", JList [])]%string);
    ("summary", JDict [("mean", zero); ("median", zero); ("min", zero);
                       ("max", zero); ("std_dev", zero);
                       ("data_points", JInt 0)]%string);
    ("distribution", JDict [("labels", JList (map JStr Dashboard1.dashboard_labels));
                            ("counts", JList (times (JInt 0) 6))]%string);
    ("correlations",
      JDict (map (fun p => (p, JDict (map (fun q => (q, zero)) no_aqi))) no_aqi));
    ("data_quality", JDict [("completeness", JInt 0); ("validity", JInt 0)]%string)
  ]%string.

(** The fields computed from a non-empty filtered frame, before
    [model_output]. *)
Definition data_fields (df : DataFrame) (sc : Sk.MinMaxScaler)
  (pollutant : string) : result (list (string * json)) :=
  ts <- getitem df "timestamp" ;;
  x <- Dashboard1.strftime_list strftime_HM ts ;;
  y <- getitem df pollutant ;;
  let time_series_data := JDict [("x", JList x); ("y", JList (tolist y))]%string in
  selected_pollutant_series <- _get_unscaled_series df pollutant sc pollutant_cols ;;
  let summary := Dashboard1.summary_of sqrt selected_pollutant_series in
  let counts := Np.histogram selected_pollutant_series Dashboard1.dashboard_bins in
  let distribution_data :=
    JDict [("labels", JList (map JStr Dashboard1.dashboard_labels));
           ("counts", JList (map JInt counts))]%string in
  corr_matrix <- Dashboard1.correlations_of sqrt df sc ;;
  let correlation_data := json_of_table corr_matrix in
  let data_quality := JDict [("completeness", JInt 92); ("validity", JInt 87)]%string in
  Ok [ ("time_series", time_series_data);
       ("summary", summary);
       ("distribution", distribution_data);
       ("correlations", correlation_data);
       ("data_quality", data_quality) ]%string.

Definition error_response : json := Dashboard1.error_response.

(** [df = df[df['City'] == city].copy()]: a new object, to which [df] is
    rebound, when the filter applies. *)
Definition filter_city_copy (city : option string) (df : Py.ref)
  : Py.M Py.ref :=
  d <~ Py.get_frame df ;;
  filtered <~ Py.lift (filter_city city d) ;;
  match filtered with
  | None => Py.ret df
  | Some d' => Py.new_frame d'
  end.

(** [get_dashboard_data(city, time_range, pollutant, model, horizon)]. *)
Definition get_dashboard_data (city : option string) (time_range : string)
  (pollutant : string) (model : string) (horizon : Z) : Py.M json :=
  _ <~ load_if_unset ;;
  data <~ Py.global_air_aware_data ;;
  match data with
  | None => Py.raise (Exception "AttributeError: 'NoneType' object has no attribute 'empty'")
  | Some air_aware_data =>
      d <~ Py.get_frame air_aware_data ;;
      sc <~ Py.global_scaler ;;
      match (if empty d then None else sc) with
      | None => Py.ret error_response
      | Some scaler =>
          (* df = air_aware_data.copy() *)
          df <~ Py.new_frame d ;;
          df <~ filter_city_copy city df ;;
          _ <~ Dashboard1.dropna_timestamp_inplace df ;;
          df <~ Dashboard1.latest_rows df ;;
          d <~ Py.get_frame df ;;
          if empty d then
            (* "CRITICAL EMPTY CHECK" *)
            no_data <~ Py.new_frame empty_frame ;;
            e <~ Py.get_frame no_data ;;
            model_output <~ Py.with_random (simulate_model_data (Some e) horizon "LSTM") ;;
            Py.ret (JDict (empty_fields ++ [("model_output", model_output)]%string))
          else
            fitted <~ Py.get_scaler scaler ;;
            fields <~ Py.lift (data_fields d fitted pollutant) ;;
            model_output <~ Py.with_random (simulate_model_data (Some d) horizon model) ;;
            Py.ret (JDict (fields ++ [("model_output", model_output)]%string))
      end
  end.
End Handler.

End Dashboard2.

(* ================================================================== *)
(** * Text helpers of Python's [str] *)
(* ================================================================== *)

Definition is_space (c : ascii) : bool :=
  let n := nat_of_ascii c in
  Nat.eqb n 32 || (Nat.leb 9 n && Nat.leb n 13).

Fixpoint lstrip (s : string) : string :=
  match s with
  | String c s' => if is_space c then lstrip s' else s
  | EmptyString => EmptyString
  end.

(** [rstrip]: a trailing run of white space is dropped. *)
Fixpoint rstrip (s : string) : string :=
  match s with
  | EmptyString => EmptyString
  | String c s' =>
      match rstrip s' with
      | EmptyString => if is_space c then EmptyString else String c EmptyString
      | r => String c r
      end
  end.

(** [s.strip()]. *)
Definition strip (s : string) : string := rstrip (lstrip s).

(** [s.replace(a, b)] for single characters. *)
Fixpoint replace_char (a b : ascii) (s : string) : string :=
  match s with
  | EmptyString => EmptyString
  | String c s' => String (if Ascii.eqb c a then b else c) (replace_char a b s')
  end.

(** [s.lower()] on ASCII letters. *)
Definition lower_char (c : ascii) : ascii :=
  let n := nat_of_ascii c in
  if Nat.leb 65 n && Nat.leb n 90 then ascii_of_nat (n + 32) else c.
Fixpoint lower (s : string) : string :=
  match s with
  | EmptyString => EmptyString
  | String c s' => String (lower_char c) (lower s')
  end.

(** [str(e)] of an exception. *)
Definition str_of_exn (e : exn) : string :=
  match e with
  | FileNotFoundError => "[Errno 2] No such file or directory"
  | KeyError k => k
  | ValueError m => m
  | TypeError m => m
  | NotFittedError => "This MinMaxScaler instance is not fitted yet."
  | Exception m => m
  end.

(* ================================================================== *)
(** * AirAware Dashboard 3: [datahandler.py] and [api.py] *)
(* ================================================================== *)

Module Dashboard3.
Import Pd.

Definition weekdays : list string :=
  ["Mon"; "Tue"; "Wed"; "Thu"; "Fri"; "Sat"; "Sun"]%string.

(** The columns the loader fills with 0, after AQI. *)
Definition filled_pollutants : list string := ["PM2.5"; "PM10"; "O3"]%string.

(** [col.strip().replace(" ", "_").replace("-", "_")]. *)
Definition normalize_column (col : string) : string :=
  replace_char "-" "_" (replace_char " " "_" (strip col)).

Section Handler.
Variable parse_float : string -> option Q.
Variable parse_datetime : string -> option Z.
Variable sample : nat -> Q.

(** [pd.to_numeric(df[c], errors='coerce').fillna(0)]. *)
Definition numeric_or_zero (s : Series) : Series :=
  fillna (Fin 0) (to_numeric parse_float s).

(** [df.columns = [col.strip().replace(" ", "_").replace("-", "_") ...]]. *)
Definition normalize_columns (df : DataFrame) : DataFrame :=
  map (fun p => (normalize_column (fst p), snd p)) df.

(** "Convert Time column to datetime if present". *)
Definition convert_time (df : DataFrame) : result DataFrame :=
  if has_column df "Time"
  then t <- getitem df "Time" ;;
       Ok (setitem df "Time" (to_datetime parse_datetime t))
  else Ok df.

(** "Drop rows with missing or invalid AQI". *)
Definition clean_aqi (df : DataFrame) : result DataFrame :=
  if has_column df "AQI"
  then df <- dropna_subset df "AQI" ;;
       a <- getitem df "AQI" ;;
       Ok (setitem df "AQI" (numeric_or_zero a))
  else Ok df.

(** "Fill missing pollutants with 0 (for safety)". *)
Definition fill_pollutants (df : DataFrame) : result DataFrame :=
  foldM (fun pollutant d =>
           if has_column d pollutant
           then s <- getitem d pollutant ;;
                Ok (setitem d pollutant (numeric_or_zero s))
           else Ok d)
        filled_pollutants df.

(** [DataHandler._load_data]: "Load and clean CSV data."  [csv] is the
    outcome of [pd.read_csv(self.csv_path)]. *)
Definition _load_data (csv : result DataFrame) : result DataFrame :=
  match csv with
  | Raise e =>
      Raise (Exception ("Error reading CSV file: " ++ str_of_exn e))
  | Ok df =>
      let df := normalize_columns df in
      df <- convert_time df ;;
      df <- clean_aqi df ;;
      fill_pollutants df
  end.

(** [df["City"].str.lower() == city.lower()]. *)
Definition city_mask (s : Series) (city : string) : result (list bool) :=
  match s with
  | SObject l =>
      Ok (map (fun o => match o with
                        | OStr t => String.eqb (lower t) (lower city)
                        | ONum _ => false
                        end) l)
  | _ => Raise (Exception "AttributeError: Can only use .str accessor with string values")
  end.

(** [float(x)]. *)
Definition float_of_cell (c : cell) : result float :=
  match c with
  | CFloat x => Ok x
  | CStr t => match parse_float t with
              | Some q => Ok (Fin q)
              | None => Raise (ValueError "could not convert string to float")
              end
  | CTime _ => Raise (TypeError "float() argument must be a string or a real number")
  end.

(** The baseline of the forecast: "Use last AQI as baseline, else
    random". *)
Definition latest_aqi_of (city_df : DataFrame) (pos : nat)
  : result float * nat :=
  if negb (empty city_df) && has_column city_df "AQI"
  then ((a <- getitem city_df "AQI" ;; c <- iloc_last a ;; float_of_cell c), pos)
  else let '(z, pos) := Rng.randint sample 50 150 pos in
       (Ok (Fin (inject_Z z)), pos).

(** The loop over the weekdays: [variation = uniform(0.85, 1.15)],
    [aqi_val = round(latest_aqi * variation, 1)]. *)
Fixpoint forecast_days (latest_aqi : float) (days : list string) (pos : nat)
  : list (string * float) * nat :=
  match days with
  | [] => ([], pos)
  | day :: days' =>
      let '(variation, pos) := Rng.uniform sample (85#100) (115#100) pos in
      let aqi_val := round1 (fmul latest_aqi (Fin variation)) in
      let '(rest, pos) := forecast_days latest_aqi days' pos in
      ((day, aqi_val) :: rest, pos)
  end.

Definition forecast_json (fc : list (string * float)) : json :=
  JList (map (fun d => JDict [("day", JStr (fst d)); ("AQI", JFloat (snd d))]%string) fc).

(** The [try] block of [api_forecast]. *)
Definition forecast_for (df : DataFrame) (city : string) (pos : nat)
  : result (list (string * float)) * nat :=
  match (c <- getitem df "City" ;;
         mask <- city_mask c city ;;
         Ok (filter_rows mask df)) with
  | Raise e => (Raise e, pos)
  | Ok city_df =>
      let '(r, pos) := latest_aqi_of city_df pos in
      match r with
      | Raise e => (Raise e, pos)
      | Ok latest_aqi =>
          let '(fc, pos) := forecast_days latest_aqi weekdays pos in
          (Ok fc, pos)
      end
  end.

(** [api_forecast()]: "Return 7-day AQI forecast for a city (Mon-Sun)";
    the response body and the HTTP status. *)
Definition api_forecast (df : DataFrame) (city : option string) (pos : nat)
  : (json * Z) * nat :=
  match city with
  | None => ((JDict [("error", JStr "City parameter missing")]%string, 400%Z), pos)
  | Some c =>
      if String.eqb c "" then
        ((JDict [("error", JStr "City parameter missing")]%string, 400%Z), pos)
      else
        let '(r, pos) := forecast_for df c pos in
        match r with
        | Ok fc => ((forecast_json fc, 200%Z), pos)
        | Raise e => ((JDict [("error", JStr (str_of_exn e))]%string, 500%Z), pos)
        end
  end.
End Handler.

(** ** The other methods of [DataHandler] and their routes *)

(** [sorted(l)]: values of one type are put in ascending order; a text
    and a number cannot be compared. *)
Definition is_text (c : cell) : bool :=
  match c with CStr _ => true | _ => false end.
Definition is_number (c : cell) : bool :=
  match c with CFloat _ => true | _ => false end.
Definition is_time (c : cell) : bool :=
  match c with CTime _ => true | _ => false end.
Definition sorted (l : list cell) : result (list cell) :=
  if forallb is_text l || forallb is_number l || forallb is_time l
  then Ok (sort_by cell_leb l)
  else Raise (TypeError "'<' not supported between instances of 'float' and 'str'").

(** [get_available_cities]: "Return a sorted list of unique cities in
    the dataset." *)
Definition get_available_cities (df : DataFrame) : result (list cell) :=
  if has_column df "City"
  then c <- getitem df "City" ;; sorted (unique (sdropna c))
  else Ok [].

(** [self.df[self.df['City'] == city]]; a request without the argument
    gives [None], which equals no value. *)
Definition city_rows (df : DataFrame) (city : option string)
  : result DataFrame :=
  c <- getitem df "City" ;;
  Ok (filter_rows (map (fun v => match city with
                                 | Some name => cell_eq v (CStr name)
                                 | None => false
                                 end) (cells c)) df).

(** [s.mean()] of a column. *)
Definition series_mean (s : Series) : result float :=
  match s with
  | SFloat l => Ok (mean l)
  | SObject l =>
      vals <- mapM (fun o => match o with
                             | ONum x => Ok x
                             | OStr _ => Raise (TypeError "Could not convert string to numeric")
                             end) l ;;
      Ok (mean vals)
  | SDatetime _ => Raise (TypeError "ufunc 'isnan' not supported for the input types")
  end.

(** "Category classification". *)
Definition category_of (avg_aqi : float) : string :=
  if fleb avg_aqi (Fin 50) then "Good"
  else if fleb avg_aqi (Fin 100) then "Satisfactory"
  else if fleb avg_aqi (Fin 200) then "Moderate"
  else if fleb avg_aqi (Fin 300) then "Poor"
  else if fleb avg_aqi (Fin 400) then "Very Poor"
  else "Severe".

Definition alert (title description type : string) : json :=
  JDict [("title", JStr title); ("description", JStr description);
         ("type", JStr type)]%string.

(** The alert chosen by the average AQI. *)
Definition aqi_alert (avg_aqi : float) : json :=
  if fgtb avg_aqi (Fin 150) then
    alert "Unhealthy Air Quality" "Avoid prolonged outdoor activities." "warning"
  else if fltb (Fin 100) avg_aqi && fleb avg_aqi (Fin 150) then
    alert "Moderate Air Quality"
          "Sensitive groups should limit outdoor exposure." "info"
  else
    alert "Good Air Quality" "Air quality is satisfactory." "success".

(** [x > n] for a value taken out of a column. *)
Definition greater_than (c : cell) (n : Q) : result bool :=
  match c with
  | CFloat x => Ok (fgtb x (Fin n))
  | CStr _ => Raise (TypeError "'>' not supported between instances of 'str' and 'int'")
  | CTime _ => Raise (TypeError "'>' not supported between instances of 'Timestamp' and 'int'")
  end.

(** "Ozone alert". *)
Definition ozone_alert (city_df : DataFrame) : result (list json) :=
  if has_column city_df "O3" then
    o3 <- getitem city_df "O3" ;;
    latest <- iloc_last o3 ;;
    high <- greater_than latest 80 ;;
    Ok (if high
        then [alert "High Ozone Levels"
                    "Ozone levels may cause respiratory discomfort." "danger"]
        else [])
  else Ok [].

(** [DataHandler.get_dashboard_data(city)]: "Get AQI, pollutant data,
    trends, and alerts for a city." *)
Definition get_dashboard_data (df : DataFrame) (city : string) : result json :=
  city_df <- city_rows df (Some city) ;;
  if empty city_df then
    Ok (JDict [("error", JStr ("No data found for city: " ++ city))]%string)
  else
    aqi <- getitem city_df "AQI" ;;
    avg_aqi <- series_mean aqi ;;
    let avg_aqi := if isnan avg_aqi then Fin 0 else round2 avg_aqi in
    let category := category_of avg_aqi in
    forecast_data <-
      (if has_column city_df "Time"
       then d <- select_columns ["Time"; "AQI"]%string (tail 7 city_df) ;;
            Ok (to_records d)
       else Ok []) ;;
    let pollutant_cols :=
      filter (has_column city_df) ["PM2.5"; "PM10"; "O3"]%string in
    pollutant_data <-
      (match pollutant_cols with
       | [] => Ok []
       | _ => d <- select_columns ("Time"%string :: pollutant_cols)
                                  (tail 24 city_df) ;;
              Ok (to_records d)
       end) ;;
    ozone <- ozone_alert city_df ;;
    let alerts := aqi_alert avg_aqi :: ozone in
    Ok (JDict [ ("city", JStr city);
                ("AQI", JFloat avg_aqi);
                ("category", JStr category);
                ("forecast", JList forecast_data);
                ("pollutants", JList pollutant_data);
                ("alerts", JList alerts) ]%string).

(** [api_cities()]: the body and the HTTP status.  The cities are
    present values, which [jsonify] can write. *)
Definition api_cities (df : DataFrame) : json * Z :=
  match get_available_cities df with
  | Ok cities => (JDict [("cities", JList (map json_of_cell cities))]%string, 200%Z)
  | Raise e => (JDict [("error", JStr (str_of_exn e))]%string, 500%Z)
  end.

(** What [jsonify] can write: [None], numbers (also NaN and the
    infinities), text, lists and dictionaries, and a timestamp, as a
    date.  [NaT] passes for a date, but it has none to write. *)
Fixpoint serializable (j : json) : bool :=
  match j with
  | JNaT => false
  | JList l => forallb serializable l
  | JDict d => forallb (fun kv => let '(_, v) := kv in serializable v) d
  | _ => true
  end.

Section Jsonify.
(** The exception that writing [NaT] raises. *)
Variable nat_error : exn.

(** [jsonify(data)]. *)
Definition jsonify (data : json) : result json :=
  if serializable data then Ok data else Raise nat_error.

(** [api_current_aqi()]: the body and the HTTP status.  The calls of
    [get_dashboard_data] and of [jsonify] are inside the [try]. *)
Definition api_current_aqi (df : DataFrame) (city : option string) : json * Z :=
  match city with
  | None => (JDict [("error", JStr "City parameter missing")]%string, 400%Z)
  | Some c =>
      if String.eqb c "" then
        (JDict [("error", JStr "City parameter missing")]%string, 400%Z)
      else
        match (data <- get_dashboard_data df c ;;
               if json_has_key "error" data
               then body <- jsonify data ;; Ok (body, 404%Z)
               else body <- jsonify data ;; Ok (body, 200%Z)) with
        | Ok response => response
        | Raise e => (JDict [("error", JStr (str_of_exn e))]%string, 500%Z)
        end
  end.
End Jsonify.

End Dashboard3.

(* ================================================================== *)
(** * AirAware Dashboard 4: the forecast block of [app.py] *)
(* ================================================================== *)

Module Dashboard4.
Import Pd.

(** One hour in nanoseconds. *)
Definition hour_ns : Z := 3600000000000%Z.

(** Python's [max(0, v)]: [v] when [v > 0], else [0]. *)
Definition max0 (v : float) : float :=
  if fgtb v (Fin 0) then v else Fin 0.

Section Script.
(** The stream behind Python's [random]. *)
Variable sample : nat -> Q.

(** [city_df["Time"].max()]. *)
Definition time_max (s : Series) : result (option Z) :=
  match s with
  | SDatetime l =>
      Ok (fold_left (fun m t => match m, t with
                                | Some a, Some b => Some (Z.max a b)
                                | None, t => t
                                | m, None => m
                                end) l None)
  | _ => Raise (TypeError "unsupported operand type(s) for +")
  end.

(** [[max(0, base + random.uniform(-5, 5)) for _ in future_times]]. *)
Fixpoint forecast_vals (base : float) (n : nat) (pos : nat)
  : list float * nat :=
  match n with
  | O => ([], pos)
  | S n' =>
      let '(u, pos) := Rng.uniform sample (-5) 5 pos in
      let v := max0 (fadd base (Fin u)) in
      let '(vs, pos) := forecast_vals base n' pos in
      (v :: vs, pos)
  end.

(** [base]: the mean of the last ten present values, or 0. *)
Definition forecast_base (s : Series) : result float :=
  vals <- float_values (stail 10 (sdropna s)) ;;
  match vals with
  | [] => Ok (Fin 0)
  | _ => Ok (mean vals)
  end.

(** The "Pollutant Forecast" block: [None] when the warning "No data
    for selected pollutant." is shown, else the forecast times and
    values. *)
Definition pollutant_forecast (city_df : DataFrame)
  (selected_pollutant : string) (forecast_horizon : nat) (pos : nat)
  : result (option (list (option Z) * list float)) * nat :=
  if has_column city_df selected_pollutant && negb (empty city_df) then
    match (s <- getitem city_df selected_pollutant ;;
           base <- forecast_base s ;;
           t <- getitem city_df "Time" ;;
           tmax <- time_max t ;;
           Ok (base, tmax)) with
    | Raise e => (Raise e, pos)
    | Ok (base, tmax) =>
        let future_times :=
          map (fun i => option_map (fun t => (t + Z.of_nat i * hour_ns)%Z) tmax)
              (seq 1 forecast_horizon) in
        let '(vals, pos) := forecast_vals base (List.length future_times) pos in
        (Ok (Some (future_times, vals)), pos)
    end
  else (Ok None, pos).
End Script.

(** ** The helper functions of [app.py] *)

(** [get_alert(aqi)]: the message and the icon. *)
Definition get_alert (aqi : float) : string * string :=
  if isnan aqi then ("No AQI Data", "⚪")%string
  else if fleb aqi (Fin 50) then
    ("Good air quality expected. Enjoy the outdoors!", "🟢")%string
  else if fleb aqi (Fin 100) then
    ("Moderate air quality. Sensitive groups be cautious.", "🟡")%string
  else if fleb aqi (Fin 150) then
    ("Unhealthy for sensitive groups.", "🟠")%string
  else if fleb aqi (Fin 200) then
    ("Unhealthy air quality. Limit outdoor activity.", "🔴")%string
  else ("Hazardous air quality! Stay indoors.", "🟣")%string.

(** [get_aqi_color(aqi)]: the colour and the status. *)
Definition get_aqi_color (aqi : float) : string * string :=
  if fleb aqi (Fin 50) then ("#50f05c", "Good")%string
  else if fleb aqi (Fin 100) then ("#f0d050", "Moderate")%string
  else if fleb aqi (Fin 150) then ("#f0a550", "Unhealthy (SG)")%string
  else if fleb aqi (Fin 200) then ("#f05050", "Unhealthy")%string
  else ("#c040c0", "Hazardous")%string.

Definition city_names : list string :=
  ["station"; "Station"; "city"; "location"; "Site"]%string.
Definition time_names : list string :=
  ["Time"; "Date"; "datetime"; "date"]%string.
Definition numeric_names : list string :=
  ["AQI"; "PM2.5"; "PM10"; "O3"; "NO2"; "SO2"; "CO"]%string.

Section Load.
Variable parse_float : string -> option Q.
Variable parse_datetime : string -> option Z.

(** [df.columns.str.strip().str.replace(" ", "_")]. *)
Definition normalize_columns (df : DataFrame) : DataFrame :=
  map (fun p => (replace_char " " "_" (strip (fst p)), snd p)) df.

(** "Rename city/station column". *)
Definition rename_city (df : DataFrame) : DataFrame :=
  if has_column df "City" then df
  else match find (has_column df) city_names with
       | Some alt => rename df alt "City"
       | None => df
       end.

(** "Convert time/date". *)
Definition convert_time (df : DataFrame) : result DataFrame :=
  match find (has_column df) time_names with
  | Some col =>
      t <- getitem df col ;;
      Ok (rename (setitem df col (to_datetime parse_datetime t)) col "Time")
  | None => Ok df
  end.

(** "Convert pollutant columns". *)
Definition convert_pollutants (df : DataFrame) : result DataFrame :=
  foldM (fun col d =>
           if has_column d col
           then s <- getitem d col ;;
                Ok (setitem d col (to_numeric parse_float s))
           else Ok d)
        numeric_names df.

(** [load_data(file)]; [csv] is what [pd.read_csv(file)] gives. *)
Definition load_data (csv : DataFrame) : result DataFrame :=
  let df := normalize_columns csv in
  let df := rename_city df in
  df <- convert_time df ;;
  df <- convert_pollutants df ;;
  dropna_subset df "City".
End Load.

(** ** The block "Data Filtering" *)

(** [s >= bound] for a column of timestamps; NaT compares false. *)
Definition not_before (bound : option Z) (s : Series) : result (list bool) :=
  match s with
  | SDatetime l =>
      Ok (map (fun t => match t, bound with
                        | Some a, Some b => Z.leb b a
                        | _, _ => false
                        end) l)
  | _ => Raise (TypeError "Invalid comparison between dtype and Timestamp")
  end.

(** The width of the time range, in hours. *)
Definition range_hours (time_range : string) : option Z :=
  if String.eqb time_range "Last 24 Hours"%string then Some 24%Z
  else if String.eqb time_range "Last 7 Days"%string then Some (7 * 24)%Z
  else None.

(** The rows of the station, in time order, within the time range. *)
Definition city_window (df : DataFrame) (selected_station : cell)
  (time_range : string) : result DataFrame :=
  c <- getitem df "City" ;;
  let city_df := filter_rows (map (fun v => cell_eq v selected_station) (cells c)) df in
  if has_column city_df "Time" then
    city_df <- sort_values city_df "Time" true ;;
    match range_hours time_range with
    | Some h =>
        t <- getitem city_df "Time" ;;
        tmax <- time_max t ;;
        mask <- not_before (option_map (fun m => (m - h * hour_ns)%Z) tmax) t ;;
        Ok (filter_rows mask city_df)
    | None => Ok city_df
    end
  else Ok city_df.

(** [latest_aqi]. *)
Definition latest_aqi (city_df : DataFrame) : result cell :=
  if empty city_df then Ok (CFloat NaN)
  else a <- getitem city_df "AQI" ;; iloc_last a.

End Dashboard4.

(* ================================================================== *)
(** * Concrete inputs used in the examples *)
(* ================================================================== *)

Module Fixtures.
Import Pd.

(** Parsers for the examples: no text is a number; a non-empty text is
    the timestamp of as many hours as it has characters. *)
Definition text_is_no_number (s : string) : option Q := None.
Definition hours_of_text (s : string) : option Z :=
  match s with
  | EmptyString => None
  | _ => Some (Z.of_nat (String.length s) * 3600000000000)%Z
  end.

(** A coarse square root: exact on the squares of integers. *)
Definition isqrt (q : Q) : Q := inject_Z (Z.sqrt (Qfloor q)).

Definition clock (t : Z) : string :=
  (two_digits (Z.to_nat ((t / 3600000000000) mod 24)) ++ ":00")%string.

(** Streams of samples: always [0], always [1/2]. *)
Definition always_zero (n : nat) : Q := 0.
Definition always_half (n : nat) : Q := 1 # 2.
Definition always_tiny (n : nat) : Q := 1 # 10000.

(** A data file with three readings of one city; one PM2.5 cell is text
    and one NO2 cell is missing. *)
Definition three_rows : DataFrame :=
  [ ("City", SObject [OStr "Delhi"; OStr "Delhi"; OStr "Delhi"]);
    ("Time", SObject [OStr "a"; OStr "bb"; OStr "ccc"]);
    ("AQI", SFloat [Fin 100; Fin 150; Fin 200]);
    ("PM2.5", SObject [ONum (Fin 10); OStr "n/a"; ONum (Fin 30)]);
    ("PM10", SFloat [Fin 50; Fin 50; Fin 50]);
    ("O3", SFloat [Fin 1; Fin 2; Fin 4]);
    ("NO2", SFloat [Fin 2; NaN; Fin 6]);
    ("SO2", SFloat [Fin 1; Fin 2; Fin 4]);
    ("CO", SFloat [Fin 1; Fin 2; Fin 3]) ]%string.

(** A data file of Dashboard 3 with one reading whose NO2 cell is
    missing. *)
Definition one_row_no2_missing : DataFrame :=
  [ ("City", SObject [OStr "Delhi"]);
    ("Time", SObject [OStr "a"]);
    ("AQI", SFloat [Fin (1004 # 10)]);
    ("PM2.5", SFloat [Fin 10]);
    ("NO2", SFloat [NaN]) ]%string.

(** Ten readings of one pollutant: nine zeros, then 100. *)
Definition spike : DataFrame :=
  [ ("City", SObject (repeat (OStr "Delhi") 10));
    ("Time", SDatetime (map (fun i => Some (Z.of_nat i)) (seq 0 10)));
    ("PM2.5", SFloat (repeat (Fin 0) 9 ++ [Fin 100])) ]%string.

(** Seven cleaned columns, in the order of [pollutant_cols]; the third
    one is constant.  The scaler fitted on them and the scaled data. *)
Definition cleaned : Sk.matrix :=
  [ [Fin 100; Fin 200]; [Fin 10; Fin 30]; [Fin 50; Fin 50]; [Fin 1; Fin 4];
    [Fin 2; Fin 6]; [Fin 1; Fin 4]; [Fin 1; Fin 3] ].
Definition fitted : Sk.MinMaxScaler * Sk.matrix :=
  match Sk.fit_transform cleaned with
  | Ok r => r
  | Raise _ => (Sk.Unfitted, [])
  end.
(** A frame with the scaled PM2.5 column. *)
Definition scaled_pm25 : DataFrame :=
  [ ("PM2.5"%string, SFloat (nth 1 (snd fitted) [])) ].

(** The frame and the scaler that the globals of a state name. *)
Definition stored_frame (s : Py.state) : DataFrame :=
  match Py.air_aware_data s with
  | Some r => match nth_error (Py.objects s) r with
              | Some (Py.OFrame d) => d
              | _ => []
              end
  | None => []
  end.
Definition stored_scaler (s : Py.state) : Sk.MinMaxScaler :=
  match Py.scaler s with
  | Some r => match nth_error (Py.objects s) r with
              | Some (Py.OScaler sc) => sc
              | _ => Sk.Unfitted
              end
  | None => Sk.Unfitted
  end.

(** The loaders run on [three_rows] from the initial state. *)
Definition load1 : result (Py.ref * Py.ref) * Py.state :=
  Dashboard1.load_and_preprocess_data text_is_no_number hours_of_text
    (Some three_rows) Dashboard1.initial.
Definition load2 : result (Py.ref * Py.ref) * Py.state :=
  Dashboard2.load_and_preprocess_data text_is_no_number hours_of_text
    (Some three_rows) (Dashboard2.initial 0).

(** The value of a result that is known to be [Ok]. *)
Definition value_of (r : result json) : json :=
  match r with Ok j => j | Raise _ => JNone end.

(** A call of each dashboard on [three_rows], from the state before the
    module is loaded. *)
Definition call_dashboard1 : result json * Py.state :=
  Dashboard1.get_dashboard_data text_is_no_number hours_of_text isqrt clock
    (Some three_rows) (Some "Delhi"%string) "Last 24 Hours" "PM2.5"
    Dashboard1.initial.
Definition call_dashboard2 : result json * Py.state :=
  Dashboard2.get_dashboard_data text_is_no_number hours_of_text isqrt clock
    (Some three_rows) always_half (Some "Delhi"%string) "Last 24 Hours" "PM2.5"
    "LSTM" 4 (Dashboard2.initial 0).

(** The floats of the PM2.5 column of a frame. *)
Definition pm25_of (df : DataFrame) : list float :=
  match getitem df "PM2.5" with Ok (SFloat l) => l | _ => [] end.

(** The frame Dashboard 2 has loaded from [three_rows]. *)
Definition loaded2 : DataFrame := stored_frame (snd load2).

(** The base of the forecast of Dashboard 4 on [spike]. *)
Definition spike_base : float :=
  match Dashboard4.forecast_base (SFloat (repeat (Fin 0) 9 ++ [Fin 100])) with
  | Ok b => b
  | Raise _ => NaN
  end.

(** The values of a forecast of Dashboard 3 and of Dashboard 4. *)
Definition forecast3_values (r : result (list (string * float)) * nat)
  : list float :=
  match fst r with Ok fc => map snd fc | Raise _ => [] end.
Definition forecast4_values
  (r : result (option (list (option Z) * list float)) * nat) : list float :=
  match fst r with Ok (Some tv) => snd tv | _ => [] end.

(** [simulate_model_data] on the loaded frame, horizon 2. *)
Definition simulate2 : result json * nat :=
  Dashboard2.simulate_model_data clock always_half (Some loaded2) 2 "LSTM" 0.


(** The 'correlations' field of a response. *)
Definition correlations_field (j : json) : json :=
  match json_get j "correlations" with Some c => c | None => JNone end.

(** The state after the loader has run without a data file. *)
Definition load_missing : result (Py.ref * Py.ref) * Py.state :=
  Dashboard1.load_and_preprocess_data text_is_no_number hours_of_text None
    Dashboard1.initial.

(** The timestamps of a frame. *)
Definition timestamps_of (df : DataFrame) : list (option Z) :=
  match getitem df "timestamp" with Ok (SDatetime l) => l | _ => [] end.

(** Thirty readings, one per hour, after a reading without a time. *)
Definition thirty_hours : DataFrame :=
  [ ("timestamp", SDatetime (None :: map (fun i => Some (Z.of_nat i * 3600000000000)%Z)
                                         (seq 0 30)));
    ("PM2.5", SFloat (repeat (Fin (1 # 2)) 31)) ]%string.

(** Readings of two cities as Dashboard 3 loads them; one reading names
    no city. *)
Definition cities_column : Series :=
  SObject [OStr "Pune"; ONum NaN; OStr "Delhi"; OStr "Pune"].
Definition two_cities : DataFrame :=
  [ ("City", cities_column);
    ("Time", SDatetime [Some 1%Z; Some 2%Z; Some 3%Z; Some 4%Z]);
    ("AQI", SFloat [Fin 120; Fin 80; Fin 40; Fin 181]);
    ("PM2.5", SFloat [Fin 10; Fin 20; Fin 30; Fin 40]);
    ("O3", SFloat [Fin 50; Fin 60; Fin 70; Fin 90]) ]%string.
(** A column 'City' with a text and a number. *)
Definition mixed_cities : DataFrame :=
  [ ("City", SObject [OStr "Pune"; ONum (Fin 7)]) ]%string.

(** A response in which values are NaN and one is an infinity. *)
Definition with_nan : json :=
  JDict [ ("x", JList [JStr "01:00"; JFloat NaN]);
          ("summary", JDict [("std_dev", JFloat NaN); ("max", JInf false);
                             ("data_points", JInt 1)]) ]%string.

(** A data file with two readings; PM2.5 is 0.1 and 1.2. *)
Definition tenths : DataFrame :=
  [ ("City", SObject [OStr "Delhi"; OStr "Delhi"]);
    ("Time", SObject [OStr "a"; OStr "bb"]);
    ("AQI", SFloat [Fin 100; Fin 200]);
    ("PM2.5", SFloat [Fin (1 # 10); Fin (12 # 10)]);
    ("PM10", SFloat [Fin 50; Fin 60]);
    ("O3", SFloat [Fin 1; Fin 2]);
    ("NO2", SFloat [Fin 2; Fin 3]);
    ("SO2", SFloat [Fin 1; Fin 2]);
    ("CO", SFloat [Fin 1; Fin 2]) ]%string.

(** The answer of Dashboard 1 to a request to [/api/data] in the state
    [g], and the body of a JSON answer. *)
Definition served (data_file : option DataFrame) (g : Py.state)
  (location pollutant : option string) : Dashboard1App.response :=
  fst (Dashboard1App.serve_get_data text_is_no_number hours_of_text isqrt clock
         data_file location None pollutant g).
Definition body_of (r : Dashboard1App.response) : json :=
  match r with
  | Dashboard1App.Json body _ => body
  | Dashboard1App.InternalServerError => JNone
  end.

(** The exception of [jsonify] for a missing timestamp. *)
Definition nat_error : exn := ValueError "NaTType does not support timetuple".

(** [two_cities] with the time of the last reading missing. *)
Definition pune_without_time : DataFrame :=
  [ ("City", cities_column);
    ("Time", SDatetime [Some 1%Z; Some 2%Z; Some 3%Z; None]);
    ("AQI", SFloat [Fin 120; Fin 80; Fin 40; Fin 181]);
    ("PM2.5", SFloat [Fin 10; Fin 20; Fin 30; Fin 40]);
    ("O3", SFloat [Fin 50; Fin 60; Fin 70; Fin 90]) ]%string.

(** A data file with readings of three cities, and the state after the
    loader of Dashboard 1 has run on it. *)
Definition four_rows : DataFrame :=
  [ ("City", SObject [OStr "Delhi"; OStr "Pune"; OStr "Delhi"; OStr "Mumbai"]);
    ("Time", SObject [OStr "a"; OStr "bb"; OStr "ccc"; OStr "dddd"]);
    ("AQI", SFloat [Fin 100; Fin 150; Fin 200; Fin 120]);
    ("PM2.5", SFloat [Fin 10; Fin 20; Fin 30; Fin 40]);
    ("PM10", SFloat [Fin 50; Fin 60; Fin 50; Fin 70]);
    ("O3", SFloat [Fin 1; Fin 2; Fin 4; Fin 3]);
    ("NO2", SFloat [Fin 2; Fin 3; Fin 6; Fin 4]);
    ("SO2", SFloat [Fin 1; Fin 2; Fin 4; Fin 3]);
    ("CO", SFloat [Fin 1; Fin 2; Fin 3; Fin 4]) ]%string.
Definition load_cities : result (Py.ref * Py.ref) * Py.state :=
  Dashboard1.load_and_preprocess_data text_is_no_number hours_of_text
    (Some four_rows) Dashboard1.initial.

(** A file uploaded to Dashboard 4: the station column has spaces
    around its name, one station is missing, one PM2.5 cell is text. *)
Definition upload : DataFrame :=
  [ (" station ", SObject [OStr "A"; ONum NaN; OStr "B"; OStr "A"]);
    ("Date", SObject [OStr "a"; OStr "bb"; OStr "ccc"; OStr "dddd"]);
    ("AQI", SFloat [Fin 40; Fin 80; Fin 120; Fin 160]);
    ("PM2.5", SObject [ONum (Fin 1); ONum (Fin 2); OStr "x"; ONum (Fin 3)]) ]%string.
Definition loaded4 : DataFrame :=
  match Dashboard4.load_data text_is_no_number hours_of_text upload with
  | Ok df => df
  | Raise _ => []
  end.

(** The window of the 24 latest rows of the loaded frame, and the
    responses computed from it. *)
Definition window2 : DataFrame :=
  match (d <- dropna_subset loaded2 "timestamp" ;; Dashboard1.last_24 d) with
  | Ok w => w
  | Raise _ => []
  end.
Definition fields2 : list (string * json) :=
  match Dashboard2.data_fields isqrt clock window2 (stored_scaler (snd load2))
          "PM10" with
  | Ok fields => fields
  | Raise _ => []
  end.
Definition response1 : json :=
  value_of (Dashboard1.dashboard isqrt clock window2 (stored_scaler (snd load2))
              "PM10").

(** A file of Dashboard 3 whose column names need cleaning. *)
Definition raw_columns : DataFrame :=
  [ (" City ", SObject [OStr "Delhi"; OStr "Pune"]);
    ("Time", SObject [OStr "a"; OStr "bb"]);
    ("AQI", SFloat [Fin 10; NaN]);
    ("PM 2-5", SFloat [Fin 1; Fin 2]) ]%string.
Definition loaded3_raw : DataFrame :=
  match Dashboard3._load_data text_is_no_number hours_of_text (Ok raw_columns) with
  | Ok df => df
  | Raise _ => []
  end.

End Fixtures.

(* ================================================================== *)
(** * Names used in the statements *)
(* ================================================================== *)

(** The fields of a dashboard response. *)
Definition five_fields : list string :=
  ["time_series"; "summary"; "distribution"; "correlations"; "data_quality"]%string.
Definition six_fields : list string := five_fields ++ ["model_output"%string].

(** The scale and offset that [fit] computes for one column. *)
Definition col_scale (col : list float) : float :=
  fdiv (Fin 1) (Sk.handle_zeros_in_scale (fsub (Np.nanmax col) (Np.nanmin col))).
Definition col_min (col : list float) : float :=
  fsub (Fin 0) (fmul (Np.nanmin col) (col_scale col)).

(** A number that is at least 0 (and so not NaN). *)
Definition nonneg (x : float) : Prop := fgeb x (Fin 0) = true.

(** Column [c] of the frame [d] exists and holds the floats [l]. *)
Definition column_of (d : Pd.DataFrame) (c : string) (l : list float) : Prop :=
  exists s, Pd.getitem d c = Ok s /\ Pd.float_values s = Ok l.

(** [t[p][q]] in a table of correlations. *)
Definition table_get (t : Pd.table) (p q : string) : option float :=
  match dict_get t p with
  | Some row => dict_get row q
  | None => None
  end.

(** What is stated of the 'correlations' mapping: no key 'AQI' at
    either level; every entry NaN (the correlation is undefined) or a
    number in [[0, 1]]; and [t[p][q] = t[q][p]]. *)
Definition correlation_table (t : Pd.table) : Prop :=
  ~ In "AQI"%string (dict_keys t) /\
  (forall p row, In (p, row) t -> ~ In "AQI"%string (dict_keys row)) /\
  (forall p q e, table_get t p q = Some e -> e = NaN \/ in_range 0 1 e) /\
  (forall p q, table_get t p q = table_get t q p).

(** The table with the entry [G r c] in column [c], row [r]. *)
Definition square_table {A : Type} (G : A -> A -> float)
  (cols : list (string * A)) : Pd.table :=
  map (fun c => (fst c, map (fun r => (fst r, G (snd r) (snd c))) cols)) cols.

(** The table of zeros over the six pollutants other than AQI. *)
Definition zero_table : Pd.table :=
  square_table (fun _ _ : unit => Fin 0)
    (map (fun p => (p, tt))
         (filter (fun q => negb (String.eqb q "AQI")) Dashboard2.pollutant_cols)).

(** The state [s] keeps the globals of [g]: the two globals name the
    objects they named in [g], and every object of [g] is in [s] as it
    was in [g]. *)
Definition globals_kept (g s : Py.state) : Prop :=
  Py.air_aware_data s = Py.air_aware_data g /\
  Py.scaler s = Py.scaler g /\
  (List.length (Py.objects g) <= List.length (Py.objects s))%nat /\
  forall r, (r < List.length (Py.objects g))%nat ->
            nth_error (Py.objects s) r = nth_error (Py.objects g) r.

(** Run from any state that keeps the globals of [g], the computation
    [m] ends, with a value or an exception, in a state that keeps them;
    a value it returns satisfies [post]. *)
Definition safe {A : Type} (g : Py.state) (m : Py.M A) (post : A -> Prop)
  : Prop :=
  forall s, globals_kept g s ->
    globals_kept g (snd (m s)) /\
    forall a, fst (m s) = Ok a -> post a.

(* ================================================================== *)
(** * More names used in the statements *)
(* ================================================================== *)

(** One line of the forecast chart in the output of
    [simulate_model_data]: the list under ['forecast'][k]. *)
Definition chart_line (j : json) (k : string) : list json :=
  match json_get j "forecast" with
  | Some fo => match json_get fo k with
               | Some (JList l) => l
               | _ => []
               end
  | None => []
  end.

(** The timestamps that are present in a column, in order. *)
Definition present (l : list (option Z)) : list Z :=
  flat_map (fun t => match t with Some z => [z] | None => [] end) l.

(** The order of a sort by time. *)
Definition time_leb (ascending : bool) (a b : Z) : bool :=
  if ascending then Z.leb a b else Z.leb b a.

(** No NaN and no infinity occurs in a value. *)
Fixpoint json_finite (j : json) : bool :=
  match j with
  | JFloat NaN => false
  | JInf _ => false
  | JList l => forallb json_finite l
  | JDict d => forallb (fun kv => let '(_, v) := kv in json_finite v) d
  | _ => true
  end.

(** The fields of the response of [DataHandler.get_dashboard_data]. *)
Definition dashboard3_fields : list string :=
  ["city"; "AQI"; "category"; "forecast"; "pollutants"; "alerts"]%string.

(** The sum of a list of counts. *)
Definition Zsum (l : list Z) : Z := fold_right Z.add 0%Z l.

(** The values of a series that are numbers not below 0. *)
Definition non_negative (series : list float) : list float :=
  filter (fun x => fgeb x (Fin 0)) series.

(** The character [c] occurs in the text [s]. *)
Definition has_char (c : ascii) (s : string) : bool :=
  existsb (Ascii.eqb c) (list_ascii_of_string s).

(** The readings of a station in the columns 'City', 'Time' and 'AQI':
    the rows whose city equals the station and that have a time. *)
Definition station_readings (station : Pd.cell) (cities : list Pd.cell)
  (times : list (option Z)) (aqis : list float) : list (Z * float) :=
  flat_map (fun r => match r with
                     | (v, (Some z, a)) =>
                         if Pd.cell_eq v station then [(z, a)] else []
                     | _ => []
                     end)
           (combine cities (combine times aqis)).

(* ================================================================== *)
(** * Properties *)
(* ================================================================== *)

(** ** The results monad *)

Lemma bind_ok_inv {A B : Type} (r : result A) (k : A -> result B) (b : B) :
  bind r k = Ok b -> exists a, r = Ok a /\ k a = Ok b.
Proof.
  destruct r as [a | e]; simpl; intros H.
  - exists a. split; [reflexivity | exact H].
  - discriminate H.
Qed.

(** Splits a hypothesis [x <- r ;; k = Ok b] into [r = Ok a] and
    [k a = Ok b]. *)
Ltac bind_inv H :=
  let a := fresh "v" in
  let Ha := fresh "Hv" in
  apply bind_ok_inv in H; destruct H as [a [Ha H]].

(** ** Computations on the store *)

Lemma mbind_ok_inv {A B : Type} (m : Py.M A) (k : A -> Py.M B)
  (s s' : Py.state) (b : B) :
  Py.mbind m k s = (Ok b, s') ->
  exists a s1, m s = (Ok a, s1) /\ k a s1 = (Ok b, s').
Proof.
  unfold Py.mbind. destruct (m s) as [[a | e] s1]; intros H.
  - exists a, s1. split; [reflexivity | exact H].
  - discriminate H.
Qed.

(** Splits a hypothesis [(x <~ m ;; k) s = (Ok b, s')]. *)
Ltac mbind_inv H :=
  let a := fresh "w" in
  let s1 := fresh "st" in
  let Ha := fresh "Hw" in
  apply mbind_ok_inv in H; destruct H as [a [s1 [Ha H]]].

Lemma lift_inv {A : Type} (r : result A) (s s' : Py.state) (a : A) :
  Py.lift r s = (Ok a, s') -> r = Ok a /\ s' = s.
Proof. unfold Py.lift. intros H. inversion H. split; reflexivity. Qed.

Lemma ret_inv {A : Type} (x : A) (s s' : Py.state) (a : A) :
  Py.ret x s = (Ok a, s') -> a = x /\ s' = s.
Proof. unfold Py.ret. intros H. inversion H. split; reflexivity. Qed.

Lemma get_frame_inv (r : Py.ref) (s s' : Py.state) (d : Pd.DataFrame) :
  Py.get_frame r s = (Ok d, s') ->
  nth_error (Py.objects s) r = Some (Py.OFrame d) /\ s' = s.
Proof.
  unfold Py.get_frame.
  destruct (nth_error (Py.objects s) r) as [[d0 | sc] |]; intros H;
    inversion H; subst. split; reflexivity.
Qed.

Lemma get_scaler_inv (r : Py.ref) (s s' : Py.state) (sc : Sk.MinMaxScaler) :
  Py.get_scaler r s = (Ok sc, s') ->
  nth_error (Py.objects s) r = Some (Py.OScaler sc) /\ s' = s.
Proof.
  unfold Py.get_scaler.
  destruct (nth_error (Py.objects s) r) as [[d0 | sc0] |]; intros H;
    inversion H; subst. split; reflexivity.
Qed.

Lemma with_random_inv {A : Type} (f : nat -> result A * nat)
  (s s' : Py.state) (a : A) :
  Py.with_random f s = (Ok a, s') ->
  exists pos, f (Py.np_random s) = (Ok a, pos).
Proof.
  unfold Py.with_random. destruct (f (Py.np_random s)) as [r pos].
  intros H. inversion H; subst. exists pos. reflexivity.
Qed.

(** ** Writing to the heap *)

Lemma update_length (h : Py.heap) (r : Py.ref) (o : Py.object) :
  List.length (Py.update h r o) = List.length h.
Proof.
  revert r. induction h as [| x h IH]; intros [| r]; simpl;
    try reflexivity. rewrite IH. reflexivity.
Qed.

Lemma nth_error_update_other (h : Py.heap) (r r' : Py.ref) (o : Py.object) :
  r' <> r -> nth_error (Py.update h r o) r' = nth_error h r'.
Proof.
  revert r r'. induction h as [| x h IH]; intros [| r] [| r'] Hne; simpl;
    try reflexivity; try congruence.
  apply IH. congruence.
Qed.

Lemma nth_error_update_same (h : Py.heap) (r : Py.ref) (o : Py.object) :
  (r < List.length h)%nat -> nth_error (Py.update h r o) r = Some o.
Proof.
  revert r. induction h as [| x h IH]; intros [| r] Hlt; simpl in *;
    try lia; try reflexivity.
  apply IH. lia.
Qed.

(** ** Computations that keep the globals *)

Lemma globals_kept_refl (g : Py.state) : globals_kept g g.
Proof. unfold globals_kept. repeat split; reflexivity || lia. Qed.

(** A safe computation, run from [g] itself, keeps the globals of [g]. *)
Lemma safe_run {A : Type} (g : Py.state) (m : Py.M A) (post : A -> Prop) :
  safe g m post -> globals_kept g (snd (m g)).
Proof. intros H. apply (H g (globals_kept_refl g)). Qed.

Lemma safe_ret {A : Type} (g : Py.state) (a : A) (post : A -> Prop) :
  post a -> safe g (Py.ret a) post.
Proof.
  intros Hp s Hs. simpl. split; [exact Hs |].
  intros b Hb. inversion Hb; subst. exact Hp.
Qed.

Lemma safe_raise {A : Type} (g : Py.state) (e : exn) (post : A -> Prop) :
  safe g (Py.raise e) post.
Proof. intros s Hs. simpl. split; [exact Hs | discriminate]. Qed.

Lemma safe_lift {A : Type} (g : Py.state) (r : result A) (post : A -> Prop) :
  (forall a, r = Ok a -> post a) -> safe g (Py.lift r) post.
Proof. intros Hp s Hs. simpl. split; [exact Hs | exact Hp]. Qed.

Lemma safe_bind {A B : Type} (g : Py.state) (m : Py.M A) (k : A -> Py.M B)
  (P : A -> Prop) (Q : B -> Prop) :
  safe g m P -> (forall a, P a -> safe g (k a) Q) ->
  safe g (Py.mbind m k) Q.
Proof.
  intros Hm Hk s Hs. destruct (Hm s Hs) as [Hs1 Hpost].
  unfold Py.mbind. destruct (m s) as [[a | e] s1]; simpl in *.
  - apply (Hk a (Hpost a eq_refl) s1 Hs1).
  - split; [exact Hs1 | discriminate].
Qed.

Lemma safe_weaken {A : Type} (g : Py.state) (m : Py.M A) (P Q : A -> Prop) :
  safe g m P -> (forall a, P a -> Q a) -> safe g m Q.
Proof.
  intros Hm HPQ s Hs. destruct (Hm s Hs) as [H1 H2].
  split; [exact H1 |]. intros a Ha. apply HPQ, H2, Ha.
Qed.

(** A new object is allocated above every object of [g]. *)
Lemma safe_alloc (g s : Py.state) (o : Py.object) :
  globals_kept g s ->
  globals_kept g (Py.mkState (Py.objects s ++ [o]) (Py.air_aware_data s)
                            (Py.scaler s) (Py.np_random s)) /\
  (List.length (Py.objects g) <= List.length (Py.objects s))%nat.
Proof.
  intros (Hd & Hsc & Hlen & Hobj). split; [| exact Hlen].
  unfold globals_kept. simpl. rewrite length_app. simpl.
  repeat split; try assumption; try lia.
  intros r Hr. rewrite nth_error_app1 by lia. apply Hobj, Hr.
Qed.

Lemma safe_new_frame (g : Py.state) (d : Pd.DataFrame) :
  safe g (Py.new_frame d) (fun r => (List.length (Py.objects g) <= r)%nat).
Proof.
  intros s Hs. unfold Py.new_frame, Py.alloc. simpl.
  destruct (safe_alloc g s (Py.OFrame d) Hs) as [H1 H2].
  split; [exact H1 |]. intros a Ha. inversion Ha; subst. exact H2.
Qed.

Lemma safe_get_frame (g : Py.state) (r : Py.ref) :
  safe g (Py.get_frame r) (fun _ => True).
Proof.
  intros s Hs. unfold Py.get_frame.
  destruct (nth_error (Py.objects s) r) as [[d | sc] |]; simpl;
    (split; [exact Hs | intros; exact I]).
Qed.

Lemma safe_get_scaler (g : Py.state) (r : Py.ref) :
  safe g (Py.get_scaler r) (fun _ => True).
Proof.
  intros s Hs. unfold Py.get_scaler.
  destruct (nth_error (Py.objects s) r) as [[d | sc] |]; simpl;
    (split; [exact Hs | intros; exact I]).
Qed.

(** An object above those of [g] may be changed in place. *)
Lemma safe_set_frame (g : Py.state) (r : Py.ref) (d : Pd.DataFrame) :
  (List.length (Py.objects g) <= r)%nat ->
  safe g (Py.set_frame r d) (fun _ => True).
Proof.
  intros Hr s (Hd & Hsc & Hlen & Hobj). unfold Py.set_frame. simpl.
  split; [| intros; exact I].
  unfold globals_kept. simpl. rewrite update_length.
  repeat split; try assumption.
  intros r' Hr'. rewrite nth_error_update_other by lia. apply Hobj, Hr'.
Qed.

Lemma safe_global_air_aware_data (g : Py.state) :
  safe g Py.global_air_aware_data (fun v => v = Py.air_aware_data g).
Proof.
  intros s Hs. unfold Py.global_air_aware_data. simpl.
  split; [exact Hs |]. intros a Ha. inversion Ha. apply Hs.
Qed.

Lemma safe_global_scaler (g : Py.state) :
  safe g Py.global_scaler (fun v => v = Py.scaler g).
Proof.
  intros s Hs. unfold Py.global_scaler. simpl.
  split; [exact Hs |]. intros a Ha. inversion Ha. apply Hs.
Qed.

Lemma safe_with_random {A : Type} (g : Py.state) (f : nat -> result A * nat) :
  safe g (Py.with_random f) (fun _ => True).
Proof.
  intros s Hs. unfold Py.with_random.
  destruct (f (Py.np_random s)) as [r pos]. simpl.
  split; [exact Hs | intros; exact I].
Qed.

(** ** The empty input of [_get_unscaled_series] *)

(** C8. Called with an empty dataframe, [_get_unscaled_series] returns a
    series of exactly one element, the number 0, in Dashboard 1 and in
    Dashboard 2; it neither raises nor returns an empty series. *)
Theorem get_unscaled_series_empty (df : Pd.DataFrame) (pollutant_name : string)
  (sc : Sk.MinMaxScaler) (cols : list string) :
  Pd.empty df = true ->
  Dashboard1._get_unscaled_series df pollutant_name sc cols = Ok [Fin 0] /\
  Dashboard2._get_unscaled_series df pollutant_name sc cols = Ok [Fin 0].
Proof.
  intros Hempty.
  unfold Dashboard1._get_unscaled_series, Dashboard2._get_unscaled_series.
  rewrite Hempty. split; reflexivity.
Qed.

Lemma get_unscaled_series_empty_witness :
  Pd.empty Pd.empty_frame = true /\
  Dashboard1._get_unscaled_series Pd.empty_frame "PM2.5" Sk.Unfitted
    Dashboard1.pollutant_cols = Ok [Fin 0] /\
  Dashboard2._get_unscaled_series Pd.empty_frame "PM2.5" Sk.Unfitted
    Dashboard2.pollutant_cols = Ok [Fin 0].
Proof.
  split; [reflexivity |].
  apply (get_unscaled_series_empty Pd.empty_frame "PM2.5" Sk.Unfitted).
  reflexivity.
Defined.

(** ** The missing data file *)

Lemma nth_error_snoc {A : Type} (l : list A) (a : A) :
  nth_error (l ++ [a]) (List.length l) = Some a.
Proof. rewrite nth_error_app2 by lia. rewrite Nat.sub_diag. reflexivity. Qed.

(** C4, as the code has it.  Without the data file the loaders of
    Dashboards 1 and 2 do not raise: they create, store in the globals
    and return the one-row frame (City 'Loading Failed', timestamp
    2024-01-01, PM2.5 0.0, AQI 0.0) and a fresh, unfitted scaler.  The
    loader of Dashboard 3 raises an [Exception] that carries the message
    of the read error. *)
Theorem missing_file_behaviour
  (parse_float : string -> option Q) (parse_datetime : string -> option Z)
  (g : Py.state) :
  let r := Dashboard1.load_and_preprocess_data parse_float parse_datetime None g in
  let data := List.length (Py.objects g) in
  let sc := S data in
  fst r = Ok (data, sc) /\
  Py.air_aware_data (snd r) = Some data /\
  Py.scaler (snd r) = Some sc /\
  nth_error (Py.objects (snd r)) data = Some (Py.OFrame Dashboard1.dummy_data) /\
  nth_error (Py.objects (snd r)) sc = Some (Py.OScaler Sk.Unfitted) /\
  Dashboard2.load_and_preprocess_data parse_float parse_datetime None g = r /\
  Dashboard1.dummy_data
    = [ ("City", Pd.SObject [Pd.OStr "Loading Failed"]);
        ("timestamp", Pd.SDatetime [Some Dashboard1.t_2024_01_01]);
        ("PM2.5", Pd.SFloat [Fin 0]);
        ("AQI", Pd.SFloat [Fin 0]) ]%string /\
  Pd.len Dashboard1.dummy_data = 1%nat /\
  Dashboard3._load_data parse_float parse_datetime (Raise FileNotFoundError)
    = Raise (Exception
        "Error reading CSV file: [Errno 2] No such file or directory").
Proof.
  cbv zeta.
  assert (Hlen : List.length (Py.objects g ++ [Py.OFrame Dashboard1.dummy_data])
                 = S (List.length (Py.objects g))).
  { rewrite length_app. simpl. lia. }
  unfold Dashboard1.load_and_preprocess_data, Py.mbind, Py.new_frame,
    Py.new_scaler, Py.assign_air_aware_data, Py.assign_scaler, Py.ret, Py.alloc.
  cbn [fst snd Py.objects Py.air_aware_data Py.scaler Py.np_random].
  rewrite Hlen.
  split; [reflexivity |]. split; [reflexivity |]. split; [reflexivity |].
  split.
  { rewrite nth_error_app1 by (rewrite Hlen; lia). apply nth_error_snoc. }
  split.
  { rewrite <- Hlen. apply nth_error_snoc. }
  split.
  { unfold Dashboard2.load_and_preprocess_data,
      Dashboard1.load_and_preprocess_data, Py.mbind, Py.new_frame,
      Py.new_scaler, Py.assign_air_aware_data, Py.assign_scaler, Py.ret, Py.alloc.
    cbn [fst snd Py.objects Py.air_aware_data Py.scaler Py.np_random].
    rewrite Hlen. reflexivity. }
  repeat split.
Qed.

(** The claim fails for Dashboard 3: its loader raises when the file is
    missing. *)
Lemma missing_file_dashboard3_raises :
  is_ok (Dashboard3._load_data Fixtures.text_is_no_number Fixtures.hours_of_text
           (Raise FileNotFoundError)) = false.
Proof. reflexivity. Qed.

(** ** What the loader leaves in the store *)

(** When the loader returns with the data file present, the globals name
    the scaled frame and the fitted scaler. *)
Lemma load_inv
  (parse_float : string -> option Q) (parse_datetime : string -> option Z)
  (csv : Pd.DataFrame) (g g' : Py.state) (rd rs : Py.ref) :
  Dashboard1.load_and_preprocess_data parse_float parse_datetime (Some csv) g
    = (Ok (rd, rs), g') ->
  exists dc X sc X',
    Dashboard1.clean parse_float parse_datetime csv = Ok dc /\
    Dashboard1.pollutant_values dc = Ok X /\
    Sk.fit X = Ok sc /\
    Sk.transform sc X = Ok X' /\
    Py.air_aware_data g' = Some rd /\
    Py.scaler g' = Some rs /\
    nth_error (Py.objects g') rd
      = Some (Py.OFrame (Dashboard1.assign_pollutants dc X')) /\
    nth_error (Py.objects g') rs = Some (Py.OScaler sc).
Proof.
  unfold Dashboard1.load_and_preprocess_data, Py.mbind, Py.lift, Py.new_frame,
    Py.new_scaler, Py.assign_air_aware_data, Py.assign_scaler, Py.set_scaler,
    Py.ret, Py.alloc.
  destruct (Dashboard1.clean _ _ csv) as [dc | e] eqn:Hclean; [| discriminate].
  cbn [fst snd Py.objects Py.air_aware_data Py.scaler Py.np_random].
  destruct (Dashboard1.pollutant_values dc) as [X | e] eqn:Hpv; [| discriminate].
  destruct (Sk.fit X) as [sc | e] eqn:Hfit; [| discriminate].
  cbn [fst snd Py.objects Py.air_aware_data Py.scaler Py.np_random].
  destruct (Sk.transform sc X) as [X' | e] eqn:Htr; [| discriminate].
  cbn [fst snd Py.objects Py.air_aware_data Py.scaler Py.np_random].
  intros H. inversion H; subst. clear H.
  exists dc, X, sc, X'.
  cbn [Py.objects Py.air_aware_data Py.scaler].
  split; [reflexivity |]. split; [exact Hpv |]. split; [exact Hfit |].
  split; [exact Htr |]. split; [reflexivity |]. split; [reflexivity |].
  split.
  - apply nth_error_snoc.
  - rewrite nth_error_app1
      by (rewrite update_length, length_app; simpl; lia).
    apply nth_error_update_same. rewrite length_app. simpl. lia.
Qed.

(** ** The globals are left alone by [get_dashboard_data] *)

Lemma safe_load_if_unset
  (parse_float : string -> option Q) (parse_datetime : string -> option Z)
  (data_file : option Pd.DataFrame) (g : Py.state) (rd rs : Py.ref) :
  Py.air_aware_data g = Some rd -> Py.scaler g = Some rs ->
  safe g (Dashboard1.load_if_unset parse_float parse_datetime data_file)
       (fun _ => True).
Proof.
  intros Hd Hs. unfold Dashboard1.load_if_unset.
  eapply safe_bind; [apply safe_global_air_aware_data |].
  intros d ->. eapply safe_bind; [apply safe_global_scaler |].
  intros sc ->. rewrite Hd, Hs. apply safe_ret. exact I.
Qed.

Lemma safe_dropna_timestamp_inplace (g : Py.state) (df : Py.ref) :
  (List.length (Py.objects g) <= df)%nat ->
  safe g (Dashboard1.dropna_timestamp_inplace df) (fun _ => True).
Proof.
  intros Hdf. unfold Dashboard1.dropna_timestamp_inplace.
  eapply safe_bind; [apply safe_get_frame |]. intros d _.
  eapply safe_bind; [apply safe_lift; intros; exact I |]. intros d' _.
  apply safe_set_frame, Hdf.
Qed.

Lemma safe_latest_rows (g : Py.state) (df : Py.ref) :
  safe g (Dashboard1.latest_rows df)
       (fun r => (List.length (Py.objects g) <= r)%nat).
Proof.
  unfold Dashboard1.latest_rows.
  eapply safe_bind; [apply safe_get_frame |]. intros d _.
  eapply safe_bind; [apply safe_lift; intros; exact I |]. intros d' _.
  apply safe_new_frame.
Qed.

Lemma safe_filter_city_copy (g : Py.state)
  (city : option string) (df : Py.ref) :
  (List.length (Py.objects g) <= df)%nat ->
  safe g (Dashboard2.filter_city_copy city df)
       (fun r => (List.length (Py.objects g) <= r)%nat).
Proof.
  intros Hdf. unfold Dashboard2.filter_city_copy.
  eapply safe_bind; [apply safe_get_frame |]. intros d _.
  eapply safe_bind; [apply safe_lift; intros; exact I |]. intros [d' |] _.
  - apply safe_new_frame.
  - apply safe_ret, Hdf.
Qed.

(** C9. [get_dashboard_data] does not change the global dataset or the
    scaler.  Once the module has been imported, so that the globals
    [air_aware_data] and [scaler] are set, for every city, time range,
    pollutant, model and horizon, and whether the call returns or
    raises: after the call the two globals name the objects they named
    before it, and every object that existed before the call, the
    dataset and the scaler among them, is as it was.  The call changes
    in place only the copy it has made. *)
Theorem get_dashboard_data_keeps_globals
  (parse_float : string -> option Q) (parse_datetime : string -> option Z)
  (sqrt : Q -> Q) (strftime_HM : Z -> string)
  (data_file : option Pd.DataFrame) (sample : nat -> Q)
  (city : option string) (time_range pollutant model : string) (horizon : Z)
  (g : Py.state) (rd rs : Py.ref) :
  Py.air_aware_data g = Some rd ->
  Py.scaler g = Some rs ->
  globals_kept g
    (snd (Dashboard1.get_dashboard_data parse_float parse_datetime sqrt
            strftime_HM data_file city time_range pollutant g)) /\
  globals_kept g
    (snd (Dashboard2.get_dashboard_data parse_float parse_datetime sqrt
            strftime_HM data_file sample city time_range pollutant model
            horizon g)).
Proof.
  intros Hd Hs. split.
  - apply (safe_run g _ (fun _ => True)).
    unfold Dashboard1.get_dashboard_data.
    eapply safe_bind; [eapply safe_load_if_unset; eassumption |]. intros _ _.
    eapply safe_bind; [apply safe_global_air_aware_data |]. intros d ->.
    rewrite Hd.
    eapply safe_bind; [apply safe_get_frame |]. intros data _.
    eapply safe_bind; [apply safe_global_scaler |]. intros sc ->.
    destruct (if Pd.empty data then None else Py.scaler g) as [scaler |];
      [| apply safe_ret; exact I].
    eapply safe_bind; [apply safe_new_frame |]. intros df Hdf.
    eapply safe_bind; [apply safe_dropna_timestamp_inplace, Hdf |]. intros _ _.
    eapply safe_bind; [apply safe_latest_rows |]. intros df' _.
    eapply safe_bind; [apply safe_get_frame |]. intros d' _.
    eapply safe_bind; [apply safe_get_scaler |]. intros fitted _.
    apply safe_lift. intros; exact I.
  - apply (safe_run g _ (fun _ => True)).
    unfold Dashboard2.get_dashboard_data, Dashboard2.load_if_unset.
    eapply safe_bind; [eapply safe_load_if_unset; eassumption |]. intros _ _.
    eapply safe_bind; [apply safe_global_air_aware_data |]. intros d ->.
    rewrite Hd.
    eapply safe_bind; [apply safe_get_frame |]. intros data _.
    eapply safe_bind; [apply safe_global_scaler |]. intros sc ->.
    destruct (if Pd.empty data then None else Py.scaler g) as [scaler |];
      [| apply safe_ret; exact I].
    eapply safe_bind; [apply safe_new_frame |]. intros df Hdf.
    eapply safe_bind; [apply safe_filter_city_copy, Hdf |]. intros df1 Hdf1.
    eapply safe_bind; [apply safe_dropna_timestamp_inplace, Hdf1 |]. intros _ _.
    eapply safe_bind; [apply safe_latest_rows |]. intros df' _.
    eapply safe_bind; [apply safe_get_frame |]. intros d' _.
    destruct (Pd.empty d').
    + eapply safe_bind; [apply safe_new_frame |]. intros no_data _.
      eapply safe_bind; [apply safe_get_frame |]. intros e _.
      eapply safe_bind; [apply safe_with_random |]. intros mo _.
      apply safe_ret. exact I.
    + eapply safe_bind; [apply safe_get_scaler |]. intros fitted _.
      eapply safe_bind; [apply safe_lift; intros; exact I |]. intros fields _.
      eapply safe_bind; [apply safe_with_random |]. intros mo _.
      apply safe_ret. exact I.
Qed.

Lemma get_dashboard_data_keeps_globals_witness :
  globals_kept (snd Fixtures.load1)
    (snd (Dashboard1.get_dashboard_data Fixtures.text_is_no_number
            Fixtures.hours_of_text Fixtures.isqrt Fixtures.clock
            (Some Fixtures.three_rows) (Some "Delhi"%string) "Last 24 Hours"
            "PM2.5" (snd Fixtures.load1))) /\
  globals_kept (snd Fixtures.load1)
    (snd (Dashboard2.get_dashboard_data Fixtures.text_is_no_number
            Fixtures.hours_of_text Fixtures.isqrt Fixtures.clock
            (Some Fixtures.three_rows) Fixtures.always_half
            (Some "Delhi"%string) "Last 24 Hours" "PM2.5" "LSTM" 4
            (snd Fixtures.load1))).
Proof.
  apply (get_dashboard_data_keeps_globals Fixtures.text_is_no_number
           Fixtures.hours_of_text Fixtures.isqrt Fixtures.clock
           (Some Fixtures.three_rows) Fixtures.always_half
           (Some "Delhi"%string) "Last 24 Hours" "PM2.5" "LSTM" 4
           (snd Fixtures.load1) 1%nat 0%nat);
    vm_compute; reflexivity.
Defined.

(** ** The fields of the dashboard response *)

Lemma dashboard1_body_fields (sqrt : Q -> Q) (strftime_HM : Z -> string)
  (data : Pd.DataFrame) (sc : Sk.MinMaxScaler) (pollutant : string) (j : json) :
  Dashboard1.dashboard sqrt strftime_HM data sc pollutant = Ok j ->
  json_keys j = five_fields.
Proof.
  unfold Dashboard1.dashboard. intros H.
  repeat bind_inv H.
  inversion H; subst. reflexivity.
Qed.

Lemma data_fields_keys (sqrt : Q -> Q) (strftime_HM : Z -> string)
  (df : Pd.DataFrame) (sc : Sk.MinMaxScaler) (pollutant : string)
  (fields : list (string * json)) :
  Dashboard2.data_fields sqrt strftime_HM df sc pollutant = Ok fields ->
  dict_keys fields = five_fields.
Proof.
  unfold Dashboard2.data_fields. intros H.
  repeat bind_inv H.
  inversion H; subst. reflexivity.
Qed.

Lemma dict_keys_app {V : Type} (a b : list (string * V)) :
  dict_keys (a ++ b) = dict_keys a ++ dict_keys b.
Proof. unfold dict_keys. apply map_app. Qed.

(** A call of Dashboard 1 that returns gives the error response or the
    response computed by [dashboard]. *)
Lemma get_dashboard_data_1_inv
  (parse_float : string -> option Q) (parse_datetime : string -> option Z)
  (sqrt : Q -> Q) (strftime_HM : Z -> string)
  (data_file : option Pd.DataFrame)
  (city : option string) (time_range pollutant : string)
  (g g' : Py.state) (j : json) :
  Dashboard1.get_dashboard_data parse_float parse_datetime sqrt strftime_HM
    data_file city time_range pollutant g = (Ok j, g') ->
  j = Dashboard1.error_response \/
  exists d sc, Dashboard1.dashboard sqrt strftime_HM d sc pollutant = Ok j.
Proof.
  unfold Dashboard1.get_dashboard_data. intros H.
  mbind_inv H. mbind_inv H.
  match type of H with
  | match ?o with _ => _ end _ = _ => destruct o as [rd |]; [| discriminate H]
  end.
  mbind_inv H. mbind_inv H.
  match type of H with
  | match ?o with _ => _ end _ = _ => destruct o as [scaler |]
  end.
  - do 5 mbind_inv H. apply lift_inv in H. destruct H as [H _].
    right. eexists. eexists. exact H.
  - apply ret_inv in H. destruct H as [-> _]. left. reflexivity.
Qed.

(** A call of Dashboard 2 that returns gives the error response, the
    response for an empty selection, or the fields of [data_fields];
    the last two with a 'model_output'. *)
Lemma get_dashboard_data_2_inv
  (parse_float : string -> option Q) (parse_datetime : string -> option Z)
  (sqrt : Q -> Q) (strftime_HM : Z -> string)
  (data_file : option Pd.DataFrame) (sample : nat -> Q)
  (city : option string) (time_range pollutant model : string) (horizon : Z)
  (g g' : Py.state) (j : json) :
  Dashboard2.get_dashboard_data parse_float parse_datetime sqrt strftime_HM
    data_file sample city time_range pollutant model horizon g = (Ok j, g') ->
  j = Dashboard1.error_response \/
  (exists model_output,
      j = JDict (Dashboard2.empty_fields
                   ++ [("model_output"%string, model_output)])) \/
  (exists d sc fields model_output,
      Dashboard2.data_fields sqrt strftime_HM d sc pollutant = Ok fields /\
      j = JDict (fields ++ [("model_output"%string, model_output)])).
Proof.
  unfold Dashboard2.get_dashboard_data. intros H.
  mbind_inv H. mbind_inv H.
  match type of H with
  | match ?o with _ => _ end _ = _ => destruct o as [rd |]; [| discriminate H]
  end.
  mbind_inv H. mbind_inv H.
  match type of H with
  | match ?o with _ => _ end _ = _ => destruct o as [scaler |]
  end.
  - do 5 mbind_inv H.
    match type of H with
    | (if ?b then _ else _) _ = _ => destruct b
    end.
    + do 3 mbind_inv H. apply ret_inv in H. destruct H as [-> _].
      right. left. eexists. reflexivity.
    + do 3 mbind_inv H. apply ret_inv in H. destruct H as [-> _].
      match goal with
      | Hl : Py.lift (Dashboard2.data_fields _ _ _ _ _) _ = _ |- _ =>
          apply lift_inv in Hl; destruct Hl as [Hf _]
      end.
      right. right. eexists. eexists. eexists. eexists.
      split; [exact Hf | reflexivity].
  - apply ret_inv in H. destruct H as [-> _]. left. reflexivity.
Qed.

(** C6, as the code has it.  A call of [get_dashboard_data] that returns
    without the key ['error'] returns an object with exactly the fields
    'time_series', 'summary', 'distribution', 'correlations',
    'data_quality' and 'model_output' in Dashboard 2, and with exactly
    the first five of them, without 'model_output', in Dashboard 1. *)
Theorem dashboard_response_fields
  (parse_float : string -> option Q) (parse_datetime : string -> option Z)
  (sqrt : Q -> Q) (strftime_HM : Z -> string)
  (data_file : option Pd.DataFrame) (sample : nat -> Q)
  (city : option string) (time_range pollutant model : string) (horizon : Z) :
  (forall (g g' : Py.state) (j : json),
      Dashboard2.get_dashboard_data parse_float parse_datetime sqrt strftime_HM
        data_file sample city time_range pollutant model horizon g = (Ok j, g') ->
      json_has_key "error" j = false ->
      json_keys j = six_fields) /\
  (forall (g g' : Py.state) (j : json),
      Dashboard1.get_dashboard_data parse_float parse_datetime sqrt strftime_HM
        data_file city time_range pollutant g = (Ok j, g') ->
      json_has_key "error" j = false ->
      json_keys j = five_fields).
Proof.
  split; intros g g' j Hcall Hnoerr.
  - apply get_dashboard_data_2_inv in Hcall.
    destruct Hcall as [-> | [(mo & ->) | (d & sc & fields & mo & Hf & ->)]].
    + discriminate Hnoerr.
    + reflexivity.
    + simpl. rewrite dict_keys_app, (data_fields_keys _ _ _ _ _ _ Hf).
      reflexivity.
  - apply get_dashboard_data_1_inv in Hcall.
    destruct Hcall as [-> | (d & sc & Hd)].
    + discriminate Hnoerr.
    + eapply dashboard1_body_fields, Hd.
Qed.

Lemma dashboard_response_fields_witness :
  (is_ok (fst Fixtures.call_dashboard2) = true /\
   json_has_key "error" (Fixtures.value_of (fst Fixtures.call_dashboard2)) = false /\
   json_keys (Fixtures.value_of (fst Fixtures.call_dashboard2)) = six_fields) /\
  (is_ok (fst Fixtures.call_dashboard1) = true /\
   json_has_key "error" (Fixtures.value_of (fst Fixtures.call_dashboard1)) = false /\
   json_keys (Fixtures.value_of (fst Fixtures.call_dashboard1)) = five_fields).
Proof.
  destruct (dashboard_response_fields Fixtures.text_is_no_number
              Fixtures.hours_of_text Fixtures.isqrt Fixtures.clock
              (Some Fixtures.three_rows) Fixtures.always_half
              (Some "Delhi"%string) "Last 24 Hours" "PM2.5" "LSTM" 4)
    as [H2 H1].
  split.
  - split; [vm_compute; reflexivity |].
    split; [vm_compute; reflexivity |].
    apply (H2 (Dashboard2.initial 0) (snd Fixtures.call_dashboard2)).
    + vm_compute; reflexivity.
    + vm_compute; reflexivity.
  - split; [vm_compute; reflexivity |].
    split; [vm_compute; reflexivity |].
    apply (H1 Dashboard1.initial (snd Fixtures.call_dashboard1)).
    + vm_compute; reflexivity.
    + vm_compute; reflexivity.
Defined.

(** The claim fails for Dashboard 1: a successful response there has no
    field 'model_output'. *)
Lemma dashboard1_response_lacks_model_output :
  is_ok (fst Fixtures.call_dashboard1) = true /\
  json_has_key "error" (Fixtures.value_of (fst Fixtures.call_dashboard1)) = false /\
  json_keys (Fixtures.value_of (fst Fixtures.call_dashboard1)) <> six_fields.
Proof.
  split; [vm_compute; reflexivity |].
  split; [vm_compute; reflexivity |].
  vm_compute. discriminate.
Qed.

(** ** Minimum and maximum of a column *)

Lemma Qminimum_spec (l : list Q) (x : Q) :
  Qminimum x l <= x /\ Forall (fun y => Qminimum x l <= y) l.
Proof.
  unfold Qminimum. revert x.
  induction l as [| a l IH]; intros x; simpl.
  - split; [apply Qle_refl | constructor].
  - destruct (IH (Qmin x a)) as [H1 H2].
    split.
    + eapply Qle_trans; [exact H1 | apply Q.le_min_l].
    + constructor; [| exact H2].
      eapply Qle_trans; [exact H1 | apply Q.le_min_r].
Qed.

Lemma Qmaximum_spec (l : list Q) (x : Q) :
  x <= Qmaximum x l /\ Forall (fun y => y <= Qmaximum x l) l.
Proof.
  unfold Qmaximum. revert x.
  induction l as [| a l IH]; intros x; simpl.
  - split; [apply Qle_refl | constructor].
  - destruct (IH (Qmax x a)) as [H1 H2].
    split.
    + eapply Qle_trans; [apply Q.le_max_l | exact H1].
    + constructor; [| exact H2].
      eapply Qle_trans; [apply Q.le_max_r | exact H1].
Qed.

Lemma finite_values_In (l : list float) (q : Q) :
  In (Fin q) l <-> In q (finite_values l).
Proof.
  induction l as [| a l IH]; simpl; [tauto |].
  destruct a as [x |]; simpl.
  - split.
    + intros [H | H]; [inversion H; left; reflexivity | right; apply IH, H].
    + intros [H | H]; [left; subst; reflexivity | right; apply IH, H].
  - split.
    + intros [H | H]; [discriminate H | apply IH, H].
    + intros H; right; apply IH, H.
Qed.

(** A column with a number has a minimum and a maximum, and they bound
    every number of the column. *)
Lemma nanmin_nanmax_bounds (col : list float) (q : Q) :
  In (Fin q) col ->
  exists lo hi, Np.nanmin col = Fin lo /\ Np.nanmax col = Fin hi /\
                lo <= hi /\
                forall x, In (Fin x) col -> lo <= x /\ x <= hi.
Proof.
  intros Hin. apply finite_values_In in Hin.
  unfold Np.nanmin, Np.nanmax.
  destruct (finite_values col) as [| x xs] eqn:Hfv; [destruct Hin |].
  destruct (Qminimum_spec xs x) as [Hm1 Hm2].
  destruct (Qmaximum_spec xs x) as [HM1 HM2].
  exists (Qminimum x xs), (Qmaximum x xs).
  repeat split; try reflexivity.
  - eapply Qle_trans; eassumption.
  - apply finite_values_In in H. rewrite Hfv in H.
    destruct H as [H | H]; [subst; exact Hm1 |].
    rewrite Forall_forall in Hm2. apply Hm2, H.
  - apply finite_values_In in H. rewrite Hfv in H.
    destruct H as [H | H]; [subst; exact HM1 |].
    rewrite Forall_forall in HM2. apply HM2, H.
Qed.

(** ** The scaler, feature by feature *)

Lemma zip_with_map_same {A B C D : Type} (f : B -> C -> D) (g : A -> B)
  (h : A -> C) (l : list A) :
  zip_with f (map g l) (map h l) = map (fun a => f (g a) (h a)) l.
Proof.
  unfold zip_with. induction l as [| a l IH]; simpl; [reflexivity |].
  rewrite IH. reflexivity.
Qed.

Lemma fit_inv (X : Sk.matrix) (sc : Sk.MinMaxScaler) :
  Sk.fit X = Ok sc ->
  Sk.n_samples X <> 0%nat /\
  exists p, sc = Sk.Fitted p /\
            Sk.scale_ p = map col_scale X /\
            Sk.min_ p = map col_min X /\
            Sk.data_min_ p = map Np.nanmin X /\
            Sk.data_max_ p = map Np.nanmax X.
Proof.
  unfold Sk.fit, Sk.check_array.
  destruct (Nat.eqb (Sk.n_samples X) 0) eqn:Hn; [discriminate |].
  assert (Hs : map (fun r => fdiv (Fin 1) (Sk.handle_zeros_in_scale r))
                   (zip_with fsub (map Np.nanmax X) (map Np.nanmin X))
               = map col_scale X).
  { rewrite zip_with_map_same, map_map. reflexivity. }
  cbn [bind]. rewrite Hs. intros H. inversion H; subst; clear H.
  split; [apply Nat.eqb_neq; exact Hn |].
  eexists. split; [reflexivity |].
  cbn [Sk.scale_ Sk.min_ Sk.data_min_ Sk.data_max_].
  repeat split.
  rewrite zip_with_map_same. reflexivity.
Qed.

Lemma per_feature_fitted (op : float -> float -> list float -> list float)
  (p : Sk.params) (X Y : Sk.matrix) :
  Sk.scale_ p = map col_scale X ->
  Sk.min_ p = map col_min X ->
  List.length Y = List.length X ->
  Sk.per_feature op p Y
    = Ok (zip_with (fun c y => op (col_scale c) (col_min c) y) X Y).
Proof.
  intros Hs Hm Hlen. unfold Sk.per_feature.
  rewrite Hs, Hm, length_map, Hlen, Nat.eqb_refl.
  f_equal. clear. unfold zip_with. revert Y.
  induction X as [| c X IH]; intros [| y Y]; simpl; try reflexivity.
  rewrite IH. reflexivity.
Qed.

(** The scale and offset of a column whose minimum and maximum exist:
    the range, or 1 when the range is zero. *)
Lemma col_params (c : list float) (lo hi : Q) :
  Np.nanmin c = Fin lo -> Np.nanmax c = Fin hi ->
  (hi - lo == 0 /\ col_scale c = Fin (1 / 1) /\
   col_min c = Fin (0 - lo * (1 / 1))) \/
  (~ hi - lo == 0 /\ col_scale c = Fin (1 / (hi - lo)) /\
   col_min c = Fin (0 - lo * (1 / (hi - lo)))).
Proof.
  intros Hlo Hhi. unfold col_min, col_scale. rewrite Hlo, Hhi.
  cbn [fsub Sk.handle_zeros_in_scale].
  destruct (Qeq_bool (hi - lo) 0) eqn:E.
  - left. apply Qeq_bool_iff in E. split; [exact E |].
    split; reflexivity.
  - right. pose proof (Qeq_bool_neq _ _ E) as Hne.
    cbn [fdiv]. rewrite E. split; [exact Hne |]. split; reflexivity.
Qed.

Lemma Qeq_bool_false (x y : Q) : ~ x == y -> Qeq_bool x y = false.
Proof.
  intros H. destruct (Qeq_bool x y) eqn:E; [| reflexivity].
  apply Qeq_bool_iff in E. contradiction.
Qed.

Lemma Qinv_nonzero (r : Q) : ~ r == 0 -> ~ 1 / r == 0.
Proof.
  intros Hr H. apply Hr.
  assert (E : r == r * (1 / r) * r) by (field; exact Hr).
  rewrite E. setoid_replace (r * (1 / r) * r) with (r * r * (1 / r)) by ring.
  rewrite H. ring.
Qed.

(** Forward then inverse scaling of one number, for any scale but 0. *)
Lemma round_trip_value (s m x : Q) :
  ~ s == 0 ->
  feq (fdiv (fsub (fadd (fmul (Fin x) (Fin s)) (Fin m)) (Fin m)) (Fin s)) (Fin x).
Proof.
  intros Hs. cbn [fmul fadd fsub fdiv].
  rewrite (Qeq_bool_false _ _ Hs). cbn [feq]. field. exact Hs.
Qed.

(** The scale of a column with a number is a number other than 0, and
    its offset is a number. *)
Lemma col_params_finite (c : list float) (q : Q) :
  In (Fin q) c ->
  exists s m, col_scale c = Fin s /\ col_min c = Fin m /\ ~ s == 0.
Proof.
  intros Hin.
  destruct (nanmin_nanmax_bounds c q Hin) as (lo & hi & Hlo & Hhi & _ & _).
  destruct (col_params c lo hi Hlo Hhi) as [(E & Hs & Hm) | (E & Hs & Hm)].
  - exists (1 / 1), (0 - lo * (1 / 1)). repeat split; try assumption.
    intros H. assert (H1 : 1 / 1 == 1) by field. rewrite H1 in H. discriminate H.
  - exists (1 / (hi - lo)), (0 - lo * (1 / (hi - lo))).
    repeat split; try assumption. apply Qinv_nonzero, E.
Qed.

Lemma round_trip_col (c y : list float) (q : Q) :
  In (Fin q) c ->
  Forall is_finite y ->
  Forall2 feq
    (Sk.inverse_transform_col (col_scale c) (col_min c)
       (Sk.transform_col (col_scale c) (col_min c) y)) y.
Proof.
  intros Hin Hy.
  destruct (col_params_finite c q Hin) as (s & m & Hs & Hm & Hne).
  rewrite Hs, Hm. unfold Sk.inverse_transform_col, Sk.transform_col.
  induction Hy as [| x y Hx Hy IH]; simpl; constructor.
  - destruct x as [x |]; [| destruct Hx].
    apply round_trip_value, Hne.
  - exact IH.
Qed.

Lemma nanmin_finite_In (c : list float) (lo : Q) :
  Np.nanmin c = Fin lo -> exists q, In (Fin q) c.
Proof.
  unfold Np.nanmin. destruct (finite_values c) as [| x xs] eqn:E; [discriminate |].
  intros _. exists x. apply finite_values_In. rewrite E. left. reflexivity.
Qed.

Lemma in_range_finite (lo hi : Q) (a : float) : in_range lo hi a -> is_finite a.
Proof. destruct a; simpl; tauto. Qed.

Lemma transform_fitted (X Y : Sk.matrix) (sc : Sk.MinMaxScaler) :
  Sk.fit X = Ok sc ->
  List.length Y = List.length X ->
  Sk.n_samples Y <> 0%nat ->
  Sk.transform sc Y
    = Ok (zip_with (fun c y => Sk.transform_col (col_scale c) (col_min c) y) X Y) /\
  Sk.inverse_transform sc Y
    = Ok (zip_with (fun c y => Sk.inverse_transform_col (col_scale c) (col_min c) y) X Y).
Proof.
  intros Hfit Hlen Hn.
  destruct (fit_inv X sc Hfit) as (_ & p & -> & Hs & Hm & _).
  unfold Sk.transform, Sk.inverse_transform, Sk.check_array.
  apply Nat.eqb_neq in Hn. rewrite Hn. cbn [bind].
  split; apply per_feature_fitted; assumption.
Qed.

(** C1. Inverse scaling undoes forward scaling.  For a scaler fitted on
    the columns [X] in which every column has distinct minimum and
    maximum, and for data [Y] whose values lie in the observed range
    [[min, max]] of their column, [inverse_transform (transform Y)]
    returns [Y] (exactly, in the arithmetic of rationals). *)
Theorem minmax_round_trip (X Y : Sk.matrix) (sc : Sk.MinMaxScaler) :
  Sk.fit X = Ok sc ->
  Sk.n_samples Y <> 0%nat ->
  Forall2 (fun colX colY =>
             exists lo hi, Np.nanmin colX = Fin lo /\ Np.nanmax colX = Fin hi /\
                           lo < hi /\ Forall (in_range lo hi) colY) X Y ->
  exists S Y', Sk.transform sc Y = Ok S /\
               Sk.inverse_transform sc S = Ok Y' /\
               Forall2 (Forall2 feq) Y' Y.
Proof.
  intros Hfit Hn HXY.
  assert (Hlen : List.length Y = List.length X).
  { symmetry. eapply Forall2_length; eassumption. }
  destruct (transform_fitted X Y sc Hfit Hlen Hn) as [Ht _].
  set (S := zip_with (fun c y => Sk.transform_col (col_scale c) (col_min c) y) X Y)
    in *.
  assert (HlenS : List.length S = List.length X).
  { unfold S, zip_with. rewrite length_map, length_combine, Hlen.
    apply Nat.min_id. }
  assert (HnS : Sk.n_samples S <> 0%nat).
  { unfold S. destruct HXY as [| c y X' Y' _ _]; [exact Hn |].
    simpl. unfold Sk.transform_col. rewrite length_map. exact Hn. }
  destruct (transform_fitted X S sc Hfit HlenS HnS) as [_ Hi].
  exists S. eexists. split; [exact Ht |]. split; [exact Hi |].
  unfold S. clear - HXY.
  induction HXY as [| c y X Y (lo & hi & Hlo & Hhi & _ & Hy) _ IH];
    simpl; constructor.
  - destruct (nanmin_finite_In c lo Hlo) as [q Hq].
    apply (round_trip_col c y q Hq).
    eapply Forall_impl; [| exact Hy]. intros a. apply in_range_finite.
  - exact IH.
Qed.

Lemma minmax_round_trip_witness :
  exists S Y', Sk.transform (Sk.Fitted (Sk.mkParams [Fin 1] [Fin 3] [Fin 2]
                                          [Fin (1 / 2)] [Fin (0 - 1 * (1 / 2))]))
                 [[Fin 2; Fin 3]] = Ok S /\
               Sk.inverse_transform
                 (Sk.Fitted (Sk.mkParams [Fin 1] [Fin 3] [Fin 2]
                               [Fin (1 / 2)] [Fin (0 - 1 * (1 / 2))])) S = Ok Y' /\
               Forall2 (Forall2 feq) Y' [[Fin 2; Fin 3]].
Proof.
  apply (minmax_round_trip [[Fin 1; Fin 3]] [[Fin 2; Fin 3]]).
  - reflexivity.
  - simpl. lia.
  - constructor; [| constructor].
    exists 1, 3. split; [reflexivity |]. split; [reflexivity |].
    split; [reflexivity |].
    repeat constructor; simpl; lra.
Defined.

(** ** The inverse scaling of one column *)

Lemma index_of_spec (x : string) (l : list string) (k : nat) :
  index_of x l = Some k -> nth_error l k = Some x.
Proof.
  revert k. induction l as [| y l IH]; intros k; simpl; [discriminate |].
  destruct (String.eqb x y) eqn:E.
  - intros H. inversion H; subst. apply String.eqb_eq in E. subst. reflexivity.
  - destruct (index_of x l) as [k' |]; simpl; [| discriminate].
    intros H. inversion H; subst. simpl. apply IH. reflexivity.
Qed.

Lemma index_of_lt (x : string) (l : list string) (k : nat) :
  index_of x l = Some k -> (k < List.length l)%nat.
Proof.
  intros H. apply index_of_spec in H.
  apply nth_error_Some. rewrite H. discriminate.
Qed.

Lemma zip_with_same {A B : Type} (f : A -> A -> B) (l : list A) :
  zip_with f l l = map (fun a => f a a) l.
Proof.
  unfold zip_with. induction l as [| a l IH]; simpl; [reflexivity |].
  rewrite IH. reflexivity.
Qed.

Lemma nth_error_zip_with {A B C : Type} (f : A -> B -> C) (la : list A)
  (lb : list B) (k : nat) (a : A) (b : B) :
  nth_error la k = Some a -> nth_error lb k = Some b ->
  nth_error (zip_with f la lb) k = Some (f a b).
Proof.
  unfold zip_with. revert lb k.
  induction la as [| a' la IH]; intros [| b' lb] [| k]; simpl; try discriminate.
  - intros Ha Hb. inversion Ha; inversion Hb; subst. reflexivity.
  - apply IH.
Qed.

Lemma nth_error_map_seq {A : Type} (g : nat -> A) (n k : nat) :
  (k < n)%nat -> nth_error (map g (seq 0 n)) k = Some (g k).
Proof.
  intros Hk. rewrite nth_error_map, nth_error_seq.
  destruct (Nat.ltb k n) eqn:E; [reflexivity |].
  apply Nat.ltb_ge in E. lia.
Qed.

(** The matrix [temp_scaled] of [_get_unscaled_series]. *)
Lemma temp_scaled_shape (vals : list float) (k n rows : nat) :
  (k < n)%nat -> List.length vals = rows -> rows <> 0%nat ->
  let temp := map (fun j => if Nat.eqb j k then vals else Np.zeros rows)
                  (seq 0 n) in
  List.length temp = n /\ Sk.n_samples temp <> 0%nat /\
  nth_error temp k = Some vals.
Proof.
  intros Hk Hlen Hrows temp. unfold temp.
  split; [rewrite length_map, length_seq; reflexivity |].
  split.
  - destruct n as [| n]; [lia |].
    destruct k as [| k]; simpl; [lia |].
    unfold Np.zeros. rewrite repeat_length. exact Hrows.
  - rewrite (nth_error_map_seq _ n k Hk), Nat.eqb_refl. reflexivity.
Qed.

(** The value [_get_unscaled_series] computes, in both dashboards, on a
    non-empty frame with a float column and a fitted scaler: the inverse
    scaling of that column with its own scale and offset. *)
Lemma get_unscaled_series_fitted (X : Sk.matrix) (sc : Sk.MinMaxScaler)
  (df : Pd.DataFrame) (name : string) (cols : list string) (k : nat)
  (col vals : list float) :
  Sk.fit X = Ok sc ->
  List.length X = List.length cols ->
  index_of name cols = Some k ->
  nth_error X k = Some col ->
  Pd.empty df = false ->
  Pd.getitem df name = Ok (Pd.SFloat vals) ->
  List.length vals = Pd.len df ->
  let out := Ok (map Np.nan_to_num
                   (Sk.inverse_transform_col (col_scale col) (col_min col) vals)) in
  Dashboard1._get_unscaled_series df name sc cols = out /\
  Dashboard2._get_unscaled_series df name sc cols = out.
Proof.
  intros Hfit HlenX Hidx Hcol Hne Hget Hlen out.
  assert (Hrows : Pd.len df <> 0%nat).
  { unfold Pd.empty in Hne. apply Nat.eqb_neq in Hne. exact Hne. }
  pose proof (index_of_lt _ _ _ Hidx) as Hk.
  destruct (temp_scaled_shape vals k (List.length cols) (Pd.len df) Hk Hlen Hrows)
    as (Hl & Hn & Hnth).
  rewrite <- HlenX in Hl at 2.
  destruct (transform_fitted X _ sc Hfit Hl Hn) as [_ Hinv].
  pose proof (nth_error_zip_with
                (fun c y => Sk.inverse_transform_col (col_scale c) (col_min c) y)
                X _ k col vals Hcol Hnth) as Hz.
  unfold Dashboard1._get_unscaled_series, Dashboard2._get_unscaled_series.
  rewrite Hne, Hidx, Hget. cbn [bind Pd.float_values].
  rewrite Hinv. cbn [bind].
  rewrite (nth_error_nth _ _ _ Hz).
  split; reflexivity.
Qed.

(** A value produced by the forward scaling of a number of the fitted
    column is mapped back by the affine map [s * (max - min) + min]. *)
Lemma affine_value (c : list float) (lo hi x : Q) :
  Np.nanmin c = Fin lo -> Np.nanmax c = Fin hi ->
  lo <= x -> x <= hi ->
  exists q, fadd (fmul (Fin x) (col_scale c)) (col_min c) = Fin q /\
            feq (Np.nan_to_num
                   (fdiv (fsub (Fin q) (col_min c)) (col_scale c)))
                (Fin (q * (hi - lo) + lo)).
Proof.
  intros Hlo Hhi Hx1 Hx2.
  destruct (col_params c lo hi Hlo Hhi) as [(E & Hs & Hm) | (E & Hs & Hm)];
    rewrite Hs, Hm; cbn [fmul fadd fsub]; eexists; (split; [reflexivity |]).
  - assert (H1 : ~ 1 / 1 == 0).
    { intros H. assert (H' : 1 / 1 == 1) by field. rewrite H' in H. discriminate H. }
    cbn [fdiv]. rewrite (Qeq_bool_false _ _ H1). cbn [Np.nan_to_num feq].
    assert (Hxlo : x == lo) by (apply Qle_antisym; lra).
    match goal with
    | |- ?L == ?R =>
        assert (HL : L == x) by field;
        assert (HR : R == (x - lo) * (hi - lo) + lo) by field
    end.
    rewrite HL, HR, E, Hxlo. ring.
  - pose proof (Qinv_nonzero _ E) as H1.
    cbn [fdiv]. rewrite (Qeq_bool_false _ _ H1). cbn [Np.nan_to_num feq].
    field. exact E.
Qed.

(** C2. The inverse scaling of [_get_unscaled_series] is the affine map
    of the column.  Let the scaler be fitted on the cleaned columns [X]
    (seven columns of numbers), with scaled data [X'], and let [df] be a
    non-empty frame whose column [name] holds values of the scaled
    column.  Then [_get_unscaled_series] returns, for every scaled value
    [s] of the column, [s * (max - min) + min], where [min] and [max]
    are the minimum and maximum of the column at fit time. *)
Theorem get_unscaled_series_affine (X X' : Sk.matrix) (sc : Sk.MinMaxScaler)
  (df : Pd.DataFrame) (name : string) (k : nat) (col vals : list float) :
  Sk.fit_transform X = Ok (sc, X') ->
  List.length X = List.length Dashboard2.pollutant_cols ->
  index_of name Dashboard2.pollutant_cols = Some k ->
  nth_error X k = Some col ->
  Forall is_finite col ->
  Pd.empty df = false ->
  Pd.getitem df name = Ok (Pd.SFloat vals) ->
  List.length vals = Pd.len df ->
  incl vals (nth k X' []) ->
  exists lo hi out,
    Np.nanmin col = Fin lo /\ Np.nanmax col = Fin hi /\
    Dashboard2._get_unscaled_series df name sc Dashboard2.pollutant_cols = Ok out /\
    Dashboard1._get_unscaled_series df name sc Dashboard1.pollutant_cols = Ok out /\
    Forall2 (fun o s => exists q, s = Fin q /\ feq o (Fin (q * (hi - lo) + lo)))
            out vals.
Proof.
  intros Hft HlenX Hidx Hcol Hfin Hne Hget Hlen Hincl.
  unfold Sk.fit_transform in Hft.
  bind_inv Hft. rename v into sc0. bind_inv Hft. inversion Hft; subst; clear Hft.
  rename Hv into Hfit. rename Hv0 into Htr.
  destruct (fit_inv X sc Hfit) as (HnX & _).
  destruct (transform_fitted X X sc Hfit eq_refl HnX) as [Htr' _].
  rewrite Htr in Htr'. inversion Htr' as [HX']. clear Htr'.
  pose proof (nth_error_zip_with
                (fun c y => Sk.transform_col (col_scale c) (col_min c) y)
                X X k col col Hcol Hcol) as Hk.
  rewrite <- HX' in Hk. rewrite (nth_error_nth _ _ _ Hk) in Hincl.
  (* the column has a number, since the frame has a row *)
  assert (Hq : exists q, In (Fin q) col).
  { destruct vals as [| v vals].
    - unfold Pd.empty in Hne. apply Nat.eqb_neq in Hne. simpl in Hlen. lia.
    - specialize (Hincl v (or_introl eq_refl)).
      unfold Sk.transform_col in Hincl. apply in_map_iff in Hincl.
      destruct Hincl as (x & _ & Hx).
      rewrite Forall_forall in Hfin. specialize (Hfin x Hx).
      destruct x as [q |]; [| destruct Hfin]. exists q. exact Hx. }
  destruct Hq as [q0 Hq0].
  destruct (nanmin_nanmax_bounds col q0 Hq0) as (lo & hi & Hlo & Hhi & _ & Hb).
  destruct (get_unscaled_series_fitted X sc df name Dashboard2.pollutant_cols
              k col vals Hfit HlenX Hidx Hcol Hne Hget Hlen) as [H1 H2].
  exists lo, hi. eexists.
  split; [exact Hlo |]. split; [exact Hhi |].
  split; [exact H2 |]. split; [exact H1 |].
  clear H1 H2 Hget Hlen Hne.
  unfold Sk.inverse_transform_col. rewrite map_map.
  induction vals as [| v vals IH]; simpl; constructor.
  - specialize (Hincl v (or_introl eq_refl)).
    unfold Sk.transform_col in Hincl. apply in_map_iff in Hincl.
    destruct Hincl as (x & Hv & Hx).
    rewrite Forall_forall in Hfin. pose proof (Hfin x Hx) as Hxf.
    destruct x as [x |]; [| destruct Hxf].
    destruct (Hb x Hx) as [Hx1 Hx2].
    destruct (affine_value col lo hi x Hlo Hhi Hx1 Hx2) as (q & Hq & Haff).
    rewrite Hq in Hv. subst v. exists q. split; [reflexivity | exact Haff].
  - apply IH. intros a Ha. apply Hincl. right. exact Ha.
Qed.

Lemma get_unscaled_series_affine_witness :
  exists lo hi out,
    Np.nanmin [Fin 10; Fin 30] = Fin lo /\ Np.nanmax [Fin 10; Fin 30] = Fin hi /\
    Dashboard2._get_unscaled_series Fixtures.scaled_pm25 "PM2.5"
      (fst Fixtures.fitted) Dashboard2.pollutant_cols = Ok out /\
    Dashboard1._get_unscaled_series Fixtures.scaled_pm25 "PM2.5"
      (fst Fixtures.fitted) Dashboard1.pollutant_cols = Ok out /\
    Forall2 (fun o s => exists q, s = Fin q /\ feq o (Fin (q * (hi - lo) + lo)))
            out (nth 1 (snd Fixtures.fitted) []).
Proof.
  apply (get_unscaled_series_affine Fixtures.cleaned (snd Fixtures.fitted)
           (fst Fixtures.fitted) Fixtures.scaled_pm25 "PM2.5" 1
           [Fin 10; Fin 30] (nth 1 (snd Fixtures.fitted) [])).
  - vm_compute; reflexivity.
  - reflexivity.
  - reflexivity.
  - reflexivity.
  - repeat constructor.
  - vm_compute; reflexivity.
  - reflexivity.
  - vm_compute; reflexivity.
  - apply incl_refl.
Defined.

(** ** Frames: reading a column after an update or a row selection *)

Lemma getitem_setitem_same (d : Pd.DataFrame) (c : string) (s : Pd.Series) :
  Pd.getitem (Pd.setitem d c s) c = Ok s.
Proof.
  induction d as [| [n s0] d IH]; simpl.
  - rewrite String.eqb_refl. reflexivity.
  - destruct (String.eqb c n) eqn:E; simpl; rewrite E; [reflexivity | exact IH].
Qed.

Lemma getitem_setitem_other (d : Pd.DataFrame) (c c' : string) (s : Pd.Series) :
  c <> c' -> Pd.getitem (Pd.setitem d c s) c' = Pd.getitem d c'.
Proof.
  intros Hne. induction d as [| [n s0] d IH]; simpl.
  - destruct (String.eqb c' c) eqn:E; [| reflexivity].
    apply String.eqb_eq in E. congruence.
  - destruct (String.eqb c n) eqn:E; simpl.
    + apply String.eqb_eq in E. subst n.
      destruct (String.eqb c' c) eqn:E'; [| reflexivity].
      apply String.eqb_eq in E'. congruence.
    + destruct (String.eqb c' n); [reflexivity | exact IH].
Qed.

Lemma getitem_take (idxs : list nat) (d : Pd.DataFrame) (c : string) :
  Pd.getitem (Pd.take idxs d) c
    = (s <- Pd.getitem d c ;; Ok (Pd.sselect idxs s)).
Proof.
  induction d as [| [n s0] d IH]; simpl; [reflexivity |].
  destruct (String.eqb c n); [reflexivity | exact IH].
Qed.

Lemma getitem_rename_other (d : Pd.DataFrame) (old new c : string) :
  c <> old -> c <> new ->
  Pd.getitem (Pd.rename d old new) c = Pd.getitem d c.
Proof.
  intros H1 H2. induction d as [| [n s0] d IH]; simpl; [reflexivity |].
  destruct (String.eqb n old) eqn:E.
  - apply String.eqb_eq in E. subst n.
    destruct (String.eqb c new) eqn:E1; [apply String.eqb_eq in E1; congruence |].
    destruct (String.eqb c old) eqn:E2; [apply String.eqb_eq in E2; congruence |].
    exact IH.
  - destruct (String.eqb c n); [reflexivity | exact IH].
Qed.

(** ** Row selection on a column of floats *)

Lemma select_Forall {A : Type} (P : A -> Prop) (idxs : list nat) (l : list A) :
  Forall P l -> Forall P (select idxs l).
Proof.
  intros HP. unfold select.
  induction idxs as [| i idxs IH]; simpl; [constructor |].
  apply Forall_app. split; [| exact IH].
  destruct (nth_error l i) as [a |] eqn:E; [| constructor].
  constructor; [| constructor].
  rewrite Forall_forall in HP. apply HP. eapply nth_error_In, E.
Qed.

Lemma select_map {A B : Type} (f : A -> B) (idxs : list nat) (l : list A) :
  select idxs (map f l) = map f (select idxs l).
Proof.
  unfold select. induction idxs as [| i idxs IH]; simpl; [reflexivity |].
  rewrite map_app, IH, nth_error_map.
  destruct (nth_error l i); reflexivity.
Qed.

Lemma select_mask_from {A : Type} (f : A -> bool) (pre l : list A) :
  select (mask_indices_from (List.length pre) (map f l)) (pre ++ l) = filter f l.
Proof.
  revert pre. induction l as [| a l IH]; intros pre; simpl; [reflexivity |].
  assert (Hshift : pre ++ a :: l = (pre ++ [a]) ++ l)
    by (rewrite <- app_assoc; reflexivity).
  assert (Hlen : S (List.length pre) = List.length (pre ++ [a]))
    by (rewrite length_app; simpl; lia).
  destruct (f a).
  - unfold select at 1. simpl.
    rewrite nth_error_app2 by lia. rewrite Nat.sub_diag. simpl.
    f_equal. fold (select (mask_indices_from (S (List.length pre)) (map f l))
                          (pre ++ a :: l)).
    rewrite Hshift, Hlen. apply IH.
  - rewrite Hshift, Hlen. apply IH.
Qed.

(** Boolean indexing with the mask of a test keeps the elements that
    pass the test. *)
Lemma select_mask {A : Type} (f : A -> bool) (l : list A) :
  select (mask_indices (map f l)) l = filter f l.
Proof. apply (select_mask_from f [] l). Qed.

Lemma mapM_ONum_inv {B : Type} (g : float -> B) (e : exn) (l : list Pd.obj)
  (ys : list B) :
  mapM (fun o => match o with
                 | Pd.ONum x => Ok (g x)
                 | Pd.OStr _ => Raise e
                 end) l = Ok ys ->
  exists vals, l = map Pd.ONum vals /\ ys = map g vals.
Proof.
  revert ys. induction l as [| o l IH]; intros ys; simpl.
  - intros H. inversion H. exists []. split; reflexivity.
  - destruct o as [t | x]; simpl; [discriminate |].
    intros H. bind_inv H. inversion H; subst.
    destruct (IH v Hv) as (vals & -> & ->).
    exists (x :: vals). split; reflexivity.
Qed.

Lemma mapM_ONum_id (e : exn) (vals : list float) :
  mapM (fun o => match o with
                 | Pd.ONum x => Ok x
                 | Pd.OStr _ => Raise e
                 end) (map Pd.ONum vals) = Ok vals.
Proof.
  induction vals as [| x vals IH]; simpl; [reflexivity |].
  rewrite IH. reflexivity.
Qed.

Lemma float_values_sselect (idxs : list nat) (s : Pd.Series) (l : list float) :
  Pd.float_values s = Ok l ->
  Pd.float_values (Pd.sselect idxs s) = Ok (select idxs l).
Proof.
  destruct s as [os | fs | ts]; simpl.
  - intros H. apply (mapM_ONum_inv (fun x => x)) in H.
    destruct H as (vals & -> & ->). rewrite map_id, select_map.
    apply mapM_ONum_id.
  - intros H. inversion H; subst. reflexivity.
  - discriminate.
Qed.

Lemma column_of_take (idxs : list nat) (d : Pd.DataFrame) (c : string)
  (l : list float) :
  column_of d c l -> column_of (Pd.take idxs d) c (select idxs l).
Proof.
  intros (s & Hg & Hv). exists (Pd.sselect idxs s). split.
  - rewrite getitem_take, Hg. reflexivity.
  - apply float_values_sselect, Hv.
Qed.

Lemma column_of_fun (d : Pd.DataFrame) (c : string) (l l' : list float) :
  column_of d c l -> column_of d c l' -> l = l'.
Proof.
  intros (s & Hg & Hv) (s' & Hg' & Hv'). congruence.
Qed.

(** The mask [s >= 0] of a column is the test on its floats. *)
Lemma ge0_float_values (s : Pd.Series) (mask : list bool) :
  Pd.ge0 s = Ok mask ->
  exists l, Pd.float_values s = Ok l /\
            mask = map (fun x => fgeb x (Fin 0)) l.
Proof.
  destruct s as [os | fs | ts]; simpl.
  - intros H. apply mapM_ONum_inv in H. destruct H as (vals & -> & ->).
    exists vals. split; [apply mapM_ONum_id | reflexivity].
  - intros H. inversion H; subst. exists fs. split; reflexivity.
  - discriminate.
Qed.

(** ** The loader: after the filter [>= 0] *)

Lemma mapM_Forall2 {A B : Type} (f : A -> result B) (l : list A) (ys : list B) :
  mapM f l = Ok ys -> Forall2 (fun a y => f a = Ok y) l ys.
Proof.
  revert ys. induction l as [| a l IH]; intros ys; simpl.
  - intros H. inversion H. constructor.
  - intros H. bind_inv H. bind_inv H. inversion H; subst.
    constructor; [exact Hv | apply IH, Hv0].
Qed.

(** One round of the filter loop, on the column just tested and on any
    other column. *)
Lemma filter_step (d d1 : Pd.DataFrame) (c : string) :
  (s <- Pd.getitem d c ;; mask <- Pd.ge0 s ;; Ok (Pd.filter_rows mask d)) = Ok d1 ->
  (exists l, column_of d1 c l /\ Forall nonneg l) /\
  (forall c0 l, column_of d c0 l -> Forall nonneg l ->
                exists l1, column_of d1 c0 l1 /\ Forall nonneg l1).
Proof.
  intros H. bind_inv H. rename v into s. bind_inv H. rename v into mask.
  inversion H; subst; clear H.
  destruct (ge0_float_values s mask Hv0) as (l & Hl & ->).
  split.
  - exists (select (mask_indices (map (fun x => fgeb x (Fin 0)) l)) l).
    split.
    + apply column_of_take. exists s. split; assumption.
    + rewrite select_mask. apply Forall_forall. intros x Hx.
      apply filter_In in Hx. exact (proj2 Hx).
  - intros c0 l0 Hc0 Hnn. eexists. split.
    + apply column_of_take. exact Hc0.
    + apply select_Forall. exact Hnn.
Qed.

Lemma keep_non_negative_loop (cs : list string) (d d' : Pd.DataFrame) :
  foldM (fun col d => s <- Pd.getitem d col ;;
                      mask <- Pd.ge0 s ;;
                      Ok (Pd.filter_rows mask d)) cs d = Ok d' ->
  (forall c, In c cs -> exists l, column_of d' c l /\ Forall nonneg l) /\
  (forall c0 l, column_of d c0 l -> Forall nonneg l ->
                exists l1, column_of d' c0 l1 /\ Forall nonneg l1).
Proof.
  revert d. induction cs as [| c cs IH]; intros d; simpl.
  - intros H. inversion H; subst. split.
    + intros c [].
    + intros c0 l Hc Hl. exists l. split; assumption.
  - intros H. bind_inv H. rename v into d1.
    destruct (filter_step d d1 c Hv) as [Hself Hkeep].
    destruct (IH d1 H) as [Hin Hpres].
    split.
    + intros c0 [-> | Hc0].
      * destruct Hself as (l & Hc & Hl). apply (Hpres c0 l Hc Hl).
      * apply Hin, Hc0.
    + intros c0 l Hc Hl.
      destruct (Hkeep c0 l Hc Hl) as (l1 & Hc1 & Hl1).
      apply (Hpres c0 l1 Hc1 Hl1).
Qed.

(** After the filter every pollutant column holds numbers that are at
    least 0. *)
Lemma keep_non_negative_spec (d d' : Pd.DataFrame) (c : string) :
  Dashboard1.keep_non_negative d = Ok d' ->
  In c Dashboard1.pollutant_cols ->
  exists l, column_of d' c l /\ Forall nonneg l.
Proof.
  intros H Hc. apply (proj1 (keep_non_negative_loop _ _ _ H)), Hc.
Qed.

Lemma nonneg_finite (x : float) : nonneg x -> exists q, x = Fin q /\ 0 <= q.
Proof.
  unfold nonneg. destruct x as [q |]; simpl; [| discriminate].
  intros H. exists q. split; [reflexivity |]. apply Qle_bool_iff, H.
Qed.

(** The values handed to the scaler are the pollutant columns of the
    frame. *)
Lemma pollutant_values_columns (d : Pd.DataFrame) (X : Sk.matrix) :
  Dashboard1.pollutant_values d = Ok X ->
  Forall2 (column_of d) Dashboard1.pollutant_cols X.
Proof.
  intros H. apply mapM_Forall2 in H.
  eapply Forall2_impl; [| exact H]. simpl.
  intros c x Hx. bind_inv Hx. exists v. split; assumption.
Qed.

(** ** The loader: scaling into the unit interval *)

Lemma scaled_value_in_unit (c : list float) (lo hi x : Q) :
  Np.nanmin c = Fin lo -> Np.nanmax c = Fin hi ->
  lo <= x -> x <= hi ->
  in_range 0 1 (fadd (fmul (Fin x) (col_scale c)) (col_min c)).
Proof.
  intros Hlo Hhi Hx1 Hx2.
  destruct (col_params c lo hi Hlo Hhi) as [(E & Hs & Hm) | (E & Hs & Hm)];
    rewrite Hs, Hm; cbn [fmul fadd in_range].
  - assert (Hxlo : x == lo) by (apply Qle_antisym; lra).
    assert (H0 : x * (1 / 1) + (0 - lo * (1 / 1)) == 0).
    { rewrite Hxlo. field. }
    rewrite H0. split; lra.
  - assert (Hpos : 0 < hi - lo).
    { assert (lo <= hi) by lra.
      destruct (Qlt_le_dec 0 (hi - lo)) as [Hlt | Hle]; [exact Hlt |].
      exfalso. apply E. lra. }
    assert (H0 : x * (1 / (hi - lo)) + (0 - lo * (1 / (hi - lo)))
                 == (x - lo) / (hi - lo)) by (field; exact E).
    rewrite H0. split.
    + apply Qle_shift_div_l; [exact Hpos | lra].
    + apply Qle_shift_div_r; [exact Hpos | lra].
Qed.

(** A column of numbers, scaled with its own minimum and maximum, lies
    in [[0, 1]]. *)
Lemma scaled_col_in_unit (c : list float) :
  Forall is_finite c ->
  Forall (in_range 0 1) (Sk.transform_col (col_scale c) (col_min c) c).
Proof.
  intros Hfin. unfold Sk.transform_col.
  apply Forall_forall. intros y Hy. apply in_map_iff in Hy.
  destruct Hy as (x & <- & Hx).
  rewrite Forall_forall in Hfin. pose proof (Hfin x Hx) as Hxf.
  destruct x as [q |]; [| destruct Hxf].
  destruct (nanmin_nanmax_bounds c q Hx) as (lo & hi & Hlo & Hhi & _ & Hb).
  destruct (Hb q Hx) as [H1 H2].
  apply (scaled_value_in_unit c lo hi q Hlo Hhi H1 H2).
Qed.

(** ** The loader: writing the scaled columns back *)

Lemma assign_untouched (pairs : list (string * list float)) (d : Pd.DataFrame)
  (c : string) :
  ~ In c (map fst pairs) ->
  Pd.getitem (fold_left (fun d cx => Pd.setitem d (fst cx) (Pd.SFloat (snd cx)))
                        pairs d) c
    = Pd.getitem d c.
Proof.
  revert d. induction pairs as [| [c1 x1] pairs IH]; intros d Hnot; simpl;
    [reflexivity |].
  rewrite IH.
  - apply getitem_setitem_other. intros ->. apply Hnot. left. reflexivity.
  - intros Hin. apply Hnot. right. exact Hin.
Qed.

Lemma assign_get (pairs : list (string * list float)) (d : Pd.DataFrame)
  (c : string) (x : list float) :
  NoDup (map fst pairs) -> In (c, x) pairs ->
  Pd.getitem (fold_left (fun d cx => Pd.setitem d (fst cx) (Pd.SFloat (snd cx)))
                        pairs d) c
    = Ok (Pd.SFloat x).
Proof.
  revert d. induction pairs as [| [c1 x1] pairs IH]; intros d Hnd Hin; simpl.
  - destruct Hin.
  - simpl in Hnd. inversion Hnd as [| ? ? Hnot Hnd']; subst.
    destruct Hin as [Heq | Hin].
    + inversion Heq; subst. rewrite assign_untouched by exact Hnot.
      apply getitem_setitem_same.
    + apply IH; assumption.
Qed.

Lemma pollutant_cols_NoDup : NoDup Dashboard1.pollutant_cols.
Proof.
  unfold Dashboard1.pollutant_cols.
  repeat (constructor; [simpl; intuition discriminate |]). constructor.
Qed.

Lemma map_fst_combine {A B : Type} (la : list A) (lb : list B) :
  List.length la = List.length lb -> map fst (combine la lb) = la.
Proof.
  revert lb. induction la as [| a la IH]; intros [| b lb]; simpl;
    try discriminate; try reflexivity.
  intros H. inversion H. rewrite IH by assumption. reflexivity.
Qed.

Lemma Forall2_combine_In {A B : Type} (R : A -> B -> Prop) (la : list A)
  (lb : list B) (a : A) :
  Forall2 R la lb -> In a la -> exists b, In (a, b) (combine la lb) /\ R a b.
Proof.
  intros H. induction H as [| a' b' la lb Hab _ IH]; intros Hin; [destruct Hin |].
  destruct Hin as [-> | Hin].
  - exists b'. split; [left; reflexivity | exact Hab].
  - destruct (IH Hin) as (b & Hb & HR). exists b. split; [right | ]; assumption.
Qed.

(** The pure part of the loader: every pollutant column of the frame it
    stores is a float column with values in [[0, 1]]. *)
Lemma scaled_frame_in_unit (dc : Pd.DataFrame) (X X' : Sk.matrix)
  (sc : Sk.MinMaxScaler) (d0 : Pd.DataFrame) (c : string) :
  Dashboard1.keep_non_negative d0 = Ok dc ->
  Dashboard1.pollutant_values dc = Ok X ->
  Sk.fit X = Ok sc ->
  Sk.transform sc X = Ok X' ->
  In c Dashboard1.pollutant_cols ->
  exists vals, Pd.getitem (Dashboard1.assign_pollutants dc X') c
                 = Ok (Pd.SFloat vals) /\
               Forall (in_range 0 1) vals.
Proof.
  intros Hkeep Hpv Hfit Htr Hc.
  destruct (fit_inv X sc Hfit) as (HnX & _).
  assert (HX' : X' = map (fun a => Sk.transform_col (col_scale a) (col_min a) a) X).
  { destruct (transform_fitted X X sc Hfit eq_refl HnX) as [Htr' _].
    rewrite Htr in Htr'. inversion Htr'. apply zip_with_same. }
  pose proof (pollutant_values_columns dc X Hpv) as Hcols.
  assert (HF : Forall2 (fun c x' => exists x, column_of dc c x /\
                          x' = Sk.transform_col (col_scale x) (col_min x) x)
                       Dashboard1.pollutant_cols X').
  { rewrite HX'. clear - Hcols.
    induction Hcols as [| c x cs X Hcx _ IH]; simpl; constructor; [| exact IH].
    exists x. split; [exact Hcx | reflexivity]. }
  destruct (Forall2_combine_In _ _ _ c HF Hc) as (x' & Hin & x & Hcx & ->).
  eexists. split.
  - unfold Dashboard1.assign_pollutants. apply assign_get; [| exact Hin].
    rewrite map_fst_combine; [apply pollutant_cols_NoDup |].
    eapply Forall2_length, HF.
  - apply scaled_col_in_unit.
    destruct (keep_non_negative_spec d0 dc c Hkeep Hc) as (l & Hl & Hnn).
    rewrite (column_of_fun dc c x l Hcx Hl).
    eapply Forall_impl; [| exact Hnn].
    intros a Ha. destruct (nonneg_finite a Ha) as (q & -> & _). exact I.
Qed.

Lemma clean_ends_with_filter (parse_float : string -> option Q)
  (parse_datetime : string -> option Z) (csv dc : Pd.DataFrame) :
  Dashboard1.clean parse_float parse_datetime csv = Ok dc ->
  exists d0, Dashboard1.keep_non_negative d0 = Ok dc.
Proof.
  unfold Dashboard1.clean. intros H.
  bind_inv H. bind_inv H. bind_inv H. eexists. exact H.
Qed.

(** C3, as the code has it.  After [load_and_preprocess_data] has
    returned with the data file present, the global [air_aware_data]
    names a frame in which each of the seven pollutant columns 'AQI',
    'PM2.5', 'PM10', 'O3', 'NO2', 'SO2', 'CO' is a column of numbers
    that lie in the closed interval [[0, 1]] when the scaling is
    computed without rounding error, in Dashboard 1 and in Dashboard 2.
    (The scaler does not clip: in doubles a rounding error can put a
    stored value outside the interval, see [scaled_maximum_above_one].) *)
Theorem loaded_pollutants_in_unit_interval
  (parse_float : string -> option Q) (parse_datetime : string -> option Z)
  (csv : Pd.DataFrame) :
  (forall (g g' : Py.state) (rd rs : Py.ref),
      Dashboard1.load_and_preprocess_data parse_float parse_datetime (Some csv) g
        = (Ok (rd, rs), g') ->
      exists df,
        Py.air_aware_data g' = Some rd /\
        nth_error (Py.objects g') rd = Some (Py.OFrame df) /\
        forall c, In c ["AQI"; "PM2.5"; "PM10"; "O3"; "NO2"; "SO2"; "CO"]%string ->
                  exists vals, Pd.getitem df c = Ok (Pd.SFloat vals) /\
                               Forall (in_range 0 1) vals) /\
  (forall (g g' : Py.state) (rd rs : Py.ref),
      Dashboard2.load_and_preprocess_data parse_float parse_datetime (Some csv) g
        = (Ok (rd, rs), g') ->
      exists df,
        Py.air_aware_data g' = Some rd /\
        nth_error (Py.objects g') rd = Some (Py.OFrame df) /\
        forall c, In c ["AQI"; "PM2.5"; "PM10"; "O3"; "NO2"; "SO2"; "CO"]%string ->
                  exists vals, Pd.getitem df c = Ok (Pd.SFloat vals) /\
                               Forall (in_range 0 1) vals).
Proof.
  assert (H : forall (g g' : Py.state) (rd rs : Py.ref),
      Dashboard1.load_and_preprocess_data parse_float parse_datetime (Some csv) g
        = (Ok (rd, rs), g') ->
      exists df,
        Py.air_aware_data g' = Some rd /\
        nth_error (Py.objects g') rd = Some (Py.OFrame df) /\
        forall c, In c Dashboard1.pollutant_cols ->
                  exists vals, Pd.getitem df c = Ok (Pd.SFloat vals) /\
                               Forall (in_range 0 1) vals).
  { intros g g' rd rs Hload.
    destruct (load_inv _ _ _ _ _ _ _ Hload)
      as (dc & X & sc & X' & Hclean & Hpv & Hfit & Htr & Hd & _ & Hfr & _).
    destruct (clean_ends_with_filter _ _ _ _ Hclean) as [d0 Hkeep].
    eexists. split; [exact Hd |]. split; [exact Hfr |].
    intros c Hc.
    apply (scaled_frame_in_unit dc X X' sc d0 c Hkeep Hpv Hfit Htr Hc). }
  split; exact H.
Qed.

Lemma loaded_pollutants_in_unit_interval_witness :
  (exists df,
      Py.air_aware_data (snd Fixtures.load1) = Some 1%nat /\
      nth_error (Py.objects (snd Fixtures.load1)) 1 = Some (Py.OFrame df) /\
      forall c, In c ["AQI"; "PM2.5"; "PM10"; "O3"; "NO2"; "SO2"; "CO"]%string ->
                exists vals, Pd.getitem df c = Ok (Pd.SFloat vals) /\
                             Forall (in_range 0 1) vals) /\
  (exists df,
      Py.air_aware_data (snd Fixtures.load2) = Some 1%nat /\
      nth_error (Py.objects (snd Fixtures.load2)) 1 = Some (Py.OFrame df) /\
      forall c, In c ["AQI"; "PM2.5"; "PM10"; "O3"; "NO2"; "SO2"; "CO"]%string ->
                exists vals, Pd.getitem df c = Ok (Pd.SFloat vals) /\
                             Forall (in_range 0 1) vals).
Proof.
  destruct (loaded_pollutants_in_unit_interval Fixtures.text_is_no_number
              Fixtures.hours_of_text Fixtures.three_rows) as [H1 H2].
  split.
  - apply (H1 Dashboard1.initial (snd Fixtures.load1) 1%nat 0%nat).
    vm_compute; reflexivity.
  - apply (H2 (Dashboard2.initial 0) (snd Fixtures.load2) 1%nat 0%nat).
    vm_compute; reflexivity.
Defined.

(** The claim fails in the arithmetic of doubles.  For a data file with
    the PM2.5 readings 0.1 and 1.2 the loader stores
    1.0000000000000002, that is [1 + 2^-52], for the larger one:
    [data_range_] is 1.0999999999999999, [scale_] 0.9090909090909092
    and [min_] -0.09090909090909093, and [1.2 * scale_ + min_] exceeds 1
    by one unit in the last place. *)
Lemma scaled_maximum_above_one :
  exists df,
    Binary64.scaled_data Fixtures.text_is_no_number Fixtures.hours_of_text
      Fixtures.tenths = Ok df /\
    Pd.getitem df "PM2.5"
      = Ok (Pd.SFloat [Fin 0; Fin (4503599627370497 # 4503599627370496)]) /\
    ~ Forall (in_range 0 1) [Fin 0; Fin (4503599627370497 # 4503599627370496)].
Proof.
  eexists. split; [vm_compute; reflexivity |].
  split; [vm_compute; reflexivity |].
  intros H. inversion H as [| a l _ H1]; subst.
  inversion H1 as [| b l' Hb _]; subst.
  destruct Hb as [_ Hle]. revert Hle. unfold Qle. simpl. lia.
Qed.

(** ** The table of correlations *)

Lemma Qmult_comm_eq (x y : Q) : x * y = y * x.
Proof.
  destruct x as [a b], y as [c d]. unfold Qmult. simpl.
  rewrite (Z.mul_comm a c), (Pos.mul_comm b d). reflexivity.
Qed.

Lemma complete_pairs_swap (x y : list float) :
  Pd.complete_pairs y x = map (fun p => (snd p, fst p)) (Pd.complete_pairs x y).
Proof.
  revert y. induction x as [| a x IH]; intros [| b y]; simpl;
    try reflexivity;
    try (destruct a; reflexivity); try (destruct b; reflexivity).
  destruct a as [a |], b as [b |]; simpl; rewrite ?IH; reflexivity.
Qed.

Lemma match_nonempty {A B : Type} (l : list A) (a b : B) :
  l <> [] -> match l with [] => a | _ :: _ => b end = b.
Proof. destruct l; [congruence | reflexivity]. Qed.

(** The correlation of two columns does not depend on their order. *)
Lemma corr_pair_sym (sqrt : Q -> Q) (x y : list float) :
  Pd.corr_pair sqrt x y = Pd.corr_pair sqrt y x.
Proof.
  unfold Pd.corr_pair. cbv zeta. rewrite (complete_pairs_swap x y).
  generalize (Pd.complete_pairs x y). intros ps.
  destruct ps as [| p ps']; [reflexivity |].
  assert (Hne : p :: ps' <> []) by discriminate.
  remember (p :: ps') as L eqn:EL. clear EL p ps'.
  rewrite (match_nonempty (map (fun p => (snd p, fst p)) L))
    by (destruct L; [congruence | discriminate]).
  rewrite !length_map, !map_map. cbn [fst snd].
  replace (map (fun p : Q * Q => snd p) L) with (map snd L) by reflexivity.
  replace (map (fun p : Q * Q => fst p) L) with (map fst L) by reflexivity.
  set (n := inject_Z (Z.of_nat (List.length L))).
  set (mx := Qsum (map fst L) / n). set (my := Qsum (map snd L) / n).
  rewrite (Qmult_comm_eq (Pd.ssq_dev my (map snd L)) (Pd.ssq_dev mx (map fst L))).
  replace (map (fun p : Q * Q => (snd p - my) * (fst p - mx)) L)
    with (map (fun p : Q * Q => (fst p - mx) * (snd p - my)) L).
  - reflexivity.
  - apply map_ext. intros q. apply Qmult_comm_eq.
Qed.

(** A correlation is NaN or a number in [[-1, 1]]. *)
Lemma corr_pair_range (sqrt : Q -> Q) (x y : list float) :
  Pd.corr_pair sqrt x y = NaN \/ in_range (-1) 1 (Pd.corr_pair sqrt x y).
Proof.
  unfold Pd.corr_pair. cbv zeta.
  destruct (Pd.complete_pairs x y) as [| p ps]; [left; reflexivity |].
  destruct (Qeq_bool _ 0); [left; reflexivity |].
  right.
  match goal with
  | |- context [Qle_bool ?v (-1)] => set (val := v)
  end.
  destruct (Qle_bool val (-1)) eqn:E1; [simpl; lra |].
  destruct (Qle_bool 1 val) eqn:E2; [simpl; lra |].
  assert (H1 : ~ val <= -1).
  { intros H. apply Qle_bool_iff in H. congruence. }
  assert (H2 : ~ 1 <= val).
  { intros H. apply Qle_bool_iff in H. congruence. }
  simpl. lra.
Qed.

Lemma fabs_unit (e : float) :
  e = NaN \/ in_range (-1) 1 e -> fabs e = NaN \/ in_range 0 1 (fabs e).
Proof.
  intros [-> | H]; [left; reflexivity |].
  destruct e as [q |]; [| destruct H]. right. simpl in *.
  split; [apply Qabs_nonneg |].
  apply Qabs_Qle_condition. lra.
Qed.

(** ** Square tables *)

Lemma dict_get_map_find {A V : Type} (F : string * A -> V)
  (cols : list (string * A)) (k : string) :
  dict_get (map (fun c => (fst c, F c)) cols) k
    = option_map F (find (fun c => String.eqb k (fst c)) cols).
Proof.
  induction cols as [| c cols IH]; simpl; [reflexivity |].
  destruct (String.eqb k (fst c)); [reflexivity | exact IH].
Qed.

Lemma table_get_square {A : Type} (G : A -> A -> float)
  (cols : list (string * A)) (p q : string) :
  table_get (square_table G cols) p q
    = match find (fun c => String.eqb p (fst c)) cols,
            find (fun c => String.eqb q (fst c)) cols with
      | Some c, Some r => Some (G (snd r) (snd c))
      | _, _ => None
      end.
Proof.
  unfold table_get, square_table.
  rewrite (dict_get_map_find
             (fun c => map (fun r => (fst r, G (snd r) (snd c))) cols) cols p).
  destruct (find (fun c => String.eqb p (fst c)) cols) as [c |]; simpl;
    [| reflexivity].
  rewrite (dict_get_map_find (fun r => G (snd r) (snd c)) cols q).
  destruct (find (fun c0 => String.eqb q (fst c0)) cols); reflexivity.
Qed.

Lemma square_table_keys {A : Type} (G : A -> A -> float)
  (cols : list (string * A)) :
  dict_keys (square_table G cols) = map fst cols /\
  forall p row, In (p, row) (square_table G cols) ->
                dict_keys row = map fst cols.
Proof.
  unfold square_table, dict_keys. split.
  - rewrite map_map. reflexivity.
  - intros p row Hin. apply in_map_iff in Hin.
    destruct Hin as (c & Hc & _). inversion Hc; subst.
    rewrite map_map. reflexivity.
Qed.

(** A square table over columns without 'AQI', with symmetric entries
    that are NaN or in [[0, 1]], is a correlation table. *)
Lemma square_table_correlation {A : Type} (G : A -> A -> float)
  (cols : list (string * A)) :
  ~ In "AQI"%string (map fst cols) ->
  (forall a b, G a b = G b a) ->
  (forall a b, G a b = NaN \/ in_range 0 1 (G a b)) ->
  correlation_table (square_table G cols).
Proof.
  intros Hno Hsym Hrange.
  destruct (square_table_keys G cols) as [Hk Hrows].
  unfold correlation_table. repeat split.
  - rewrite Hk. exact Hno.
  - intros p row Hin. rewrite (Hrows p row Hin). exact Hno.
  - intros p q e. rewrite table_get_square.
    destruct (find _ cols) as [c |]; [| discriminate].
    destruct (find _ cols) as [r |]; [| discriminate].
    intros H. inversion H; subst. apply Hrange.
  - intros p q. rewrite !table_get_square.
    destruct (find (fun c => String.eqb p (fst c)) cols) as [c |];
      destruct (find (fun c => String.eqb q (fst c)) cols) as [r |];
      try reflexivity.
    rewrite Hsym. reflexivity.
Qed.

Lemma filter_no_aqi {A : Type} (l : list (string * A)) :
  ~ In "AQI"%string
      (map fst (filter (fun c => negb (String.eqb "AQI" (fst c))) l)).
Proof.
  intros Hin. apply in_map_iff in Hin. destruct Hin as (c & Hc & Hf).
  apply filter_In in Hf. destruct Hf as [_ Hf].
  rewrite <- Hc, String.eqb_refl in Hf. discriminate Hf.
Qed.

(** The table computed by section 5 of [get_dashboard_data]. *)
Lemma correlations_of_table (sqrt : Q -> Q) (df : Pd.DataFrame)
  (sc : Sk.MinMaxScaler) (t : Pd.table) :
  Dashboard1.correlations_of sqrt df sc = Ok t -> correlation_table t.
Proof.
  unfold Dashboard1.correlations_of. intros H.
  bind_inv H. bind_inv H. inversion H; subst; clear H.
  set (cols := map _ (filter _ _)).
  assert (Ht : Pd.table_abs (Pd.corr sqrt cols)
               = square_table (fun a b => fabs (Pd.corr_pair sqrt a b)) cols).
  { unfold Pd.table_abs, Pd.corr, square_table. rewrite map_map.
    apply map_ext. intros c. simpl. rewrite map_map. reflexivity. }
  rewrite Ht. apply square_table_correlation.
  - unfold cols. rewrite map_map. simpl.
    apply (filter_no_aqi (combine Dashboard1.pollutant_cols v0)).
  - intros a b. rewrite (corr_pair_sym sqrt a b). reflexivity.
  - intros a b. apply fabs_unit, corr_pair_range.
Qed.

Lemma dict_get_app {V : Type} (a b : list (string * V)) (k : string) :
  dict_get (a ++ b) k
    = match dict_get a k with Some v => Some v | None => dict_get b k end.
Proof.
  induction a as [| [k' v'] a IH]; simpl; [reflexivity |].
  destruct (String.eqb k k'); [reflexivity | exact IH].
Qed.

Lemma dashboard1_body_correlations (sqrt : Q -> Q) (strftime_HM : Z -> string)
  (data : Pd.DataFrame) (sc : Sk.MinMaxScaler) (pollutant : string) (j : json) :
  Dashboard1.dashboard sqrt strftime_HM data sc pollutant = Ok j ->
  exists t, json_get j "correlations" = Some (Pd.json_of_table t) /\
            correlation_table t.
Proof.
  unfold Dashboard1.dashboard. intros H.
  repeat bind_inv H. inversion H; subst.
  match goal with
  | Hc : Dashboard1.correlations_of _ _ _ = Ok ?t |- _ =>
      exists t; split; [reflexivity | eapply correlations_of_table, Hc]
  end.
Qed.

Lemma data_fields_correlations (sqrt : Q -> Q) (strftime_HM : Z -> string)
  (df : Pd.DataFrame) (sc : Sk.MinMaxScaler) (pollutant : string)
  (fields : list (string * json)) :
  Dashboard2.data_fields sqrt strftime_HM df sc pollutant = Ok fields ->
  exists t, dict_get fields "correlations" = Some (Pd.json_of_table t) /\
            correlation_table t.
Proof.
  unfold Dashboard2.data_fields. intros H.
  repeat bind_inv H. inversion H; subst.
  match goal with
  | Hc : Dashboard1.correlations_of _ _ _ = Ok ?t |- _ =>
      exists t; split; [reflexivity | eapply correlations_of_table, Hc]
  end.
Qed.

(** The table of zeros returned for an empty selection. *)
Lemma zero_table_correlation : correlation_table zero_table.
Proof.
  apply square_table_correlation.
  - simpl. intuition discriminate.
  - reflexivity.
  - intros _ _. right. simpl. lra.
Qed.

(** C10. The 'correlations' mapping returned by [get_dashboard_data], in
    Dashboard 1 and in Dashboard 2, is a table [t] in which every entry
    is the absolute value of a correlation: NaN where the correlation is
    undefined, else a number in [[0, 1]], so never negative; in which
    [t[p][q] = t[q][p]]; and which has no key 'AQI', neither as a column
    nor as a row. *)
Theorem correlations_mapping
  (parse_float : string -> option Q) (parse_datetime : string -> option Z)
  (sqrt : Q -> Q) (strftime_HM : Z -> string)
  (data_file : option Pd.DataFrame) (sample : nat -> Q)
  (city : option string) (time_range pollutant model : string) (horizon : Z) :
  (forall (g g' : Py.state) (j c : json),
      Dashboard1.get_dashboard_data parse_float parse_datetime sqrt strftime_HM
        data_file city time_range pollutant g = (Ok j, g') ->
      json_get j "correlations" = Some c ->
      exists t, c = Pd.json_of_table t /\ correlation_table t) /\
  (forall (g g' : Py.state) (j c : json),
      Dashboard2.get_dashboard_data parse_float parse_datetime sqrt strftime_HM
        data_file sample city time_range pollutant model horizon g = (Ok j, g') ->
      json_get j "correlations" = Some c ->
      exists t, c = Pd.json_of_table t /\ correlation_table t).
Proof.
  split; intros g g' j c Hcall Hc.
  - apply get_dashboard_data_1_inv in Hcall.
    destruct Hcall as [-> | (d & sc & Hd)]; [discriminate Hc |].
    destruct (dashboard1_body_correlations _ _ _ _ _ _ Hd) as (t & Ht & Hct).
    exists t. split; [congruence | exact Hct].
  - apply get_dashboard_data_2_inv in Hcall.
    destruct Hcall as [-> | [(mo & ->) | (d & sc & fields & mo & Hf & ->)]].
    + discriminate Hc.
    + assert (E : dict_get Dashboard2.empty_fields "correlations"
                  = Some (Pd.json_of_table zero_table)) by reflexivity.
      unfold json_get in Hc. rewrite dict_get_app, E in Hc.
      exists zero_table. split; [congruence | apply zero_table_correlation].
    + destruct (data_fields_correlations _ _ _ _ _ _ Hf) as (t & Ht & Hct).
      unfold json_get in Hc. rewrite dict_get_app, Ht in Hc.
      exists t. split; [congruence | exact Hct].
Qed.

Lemma correlations_mapping_witness :
  (exists t, Fixtures.correlations_field (Fixtures.value_of (fst Fixtures.call_dashboard1))
               = Pd.json_of_table t /\ correlation_table t) /\
  (exists t, Fixtures.correlations_field (Fixtures.value_of (fst Fixtures.call_dashboard2))
               = Pd.json_of_table t /\ correlation_table t).
Proof.
  destruct (correlations_mapping Fixtures.text_is_no_number
              Fixtures.hours_of_text Fixtures.isqrt Fixtures.clock
              (Some Fixtures.three_rows) Fixtures.always_half
              (Some "Delhi"%string) "Last 24 Hours" "PM2.5" "LSTM" 4)
    as [H1 H2].
  split.
  - apply (H1 Dashboard1.initial (snd Fixtures.call_dashboard1)
              (Fixtures.value_of (fst Fixtures.call_dashboard1))).
    + vm_compute; reflexivity.
    + vm_compute; reflexivity.
  - apply (H2 (Dashboard2.initial 0) (snd Fixtures.call_dashboard2)
              (Fixtures.value_of (fst Fixtures.call_dashboard2))).
    + vm_compute; reflexivity.
    + vm_compute; reflexivity.
Defined.

(** ** Random draws *)

Lemma uniform_bounds (sample : nat -> Q) (low high : Q) (pos : nat) :
  Rng.unit_samples sample -> low <= high ->
  low <= fst (Rng.uniform sample low high pos) /\
  fst (Rng.uniform sample low high pos) <= high /\
  snd (Rng.uniform sample low high pos) = S pos.
Proof.
  intros Hu Hle. destruct (Hu pos) as [H0 H1]. unfold Rng.uniform. simpl.
  repeat split; nra.
Qed.

Lemma uniform_strict (sample : nat -> Q) (low high : Q) (pos : nat) :
  Rng.unit_samples sample -> low < high ->
  low <= fst (Rng.uniform sample low high pos) /\
  fst (Rng.uniform sample low high pos) < high.
Proof.
  intros Hu Hlt. destruct (Hu pos) as [H0 H1]. unfold Rng.uniform. simpl.
  split; nra.
Qed.

(** ** Head of a column *)

Lemma select_seq (A : Type) (n k : nat) (l : list A) :
  select (seq k n) l = firstn n (skipn k l).
Proof.
  revert k. induction n as [| n IH]; intros k; [reflexivity |].
  unfold select in *. simpl. rewrite IH. clear IH.
  revert k. induction l as [| a l IHl]; intros k.
  - destruct k; simpl; rewrite ?firstn_nil; reflexivity.
  - destruct k as [| k]; [reflexivity |]. simpl. apply IHl.
Qed.

Lemma select_firstn (A : Type) (n : nat) (l : list A) :
  select (seq 0 n) l = firstn n l.
Proof. apply select_seq. Qed.

Lemma rev_head_last (A : Type) (l : list A) (d : A) :
  match rev l with x :: _ => x | [] => d end = last l d.
Proof.
  rewrite <- (rev_involutive l) at 2.
  destruct (rev l) as [| x r]; simpl; [reflexivity |].
  symmetry. apply last_last.
Qed.

(** ** The forecast of Dashboard 2 *)

Lemma forecast_from_spec (sample : nat -> Q) (last_actual tf : Q) :
  Rng.unit_samples sample ->
  forall n first pos,
    let fs := fst (Dashboard2.forecast_from sample (Fin last_actual) (Fin tf)
                     first n pos) in
    List.length fs = n /\
    forall i, (i < n)%nat ->
      in_range (last_actual + inject_Z (Z.of_nat (first + i)) * tf - (1 # 100))
               (last_actual + inject_Z (Z.of_nat (first + i)) * tf + (1 # 100))
               (nth i fs NaN).
Proof.
  intros Hu. induction n as [| n IH]; intros first pos; simpl.
  - split; [reflexivity | intros i Hi; lia].
  - destruct (Dashboard2.forecast_from sample (Fin last_actual) (Fin tf)
                (S first) n (S pos)) as [fs pos'] eqn:E.
    specialize (IH (S first) (S pos)). rewrite E in IH. simpl in IH.
    destruct IH as [Hlen Hnth]. simpl. split; [congruence |].
    intros [| i] Hi.
    + rewrite Nat.add_0_r.
      destruct (uniform_bounds sample (-(1 # 100)) (1 # 100) pos Hu) as (H1 & H2 & _);
        [lra |].
      unfold Rng.uniform in H1, H2. simpl in H1, H2. simpl. split; lra.
    + replace (first + S i)%nat with (S first + i)%nat by lia.
      apply Hnth. lia.
Qed.

Lemma last_Forall {A : Type} (P : A -> Prop) (l : list A) (d : A) :
  Forall P l -> P d -> P (last l d).
Proof.
  intros Hl Hd. induction Hl as [| a l Ha Hl IH]; [exact Hd |].
  destruct l; [exact Ha | exact IH].
Qed.

(** The forecast line of [simulate_model_data] on a non-empty frame. *)
Lemma simulate_model_data_forecast (strftime_HM : Z -> string)
  (sample : nat -> Q) (df : Pd.DataFrame) (pm : list float) (horizon : Z)
  (model : string) (pos pos' : nat) (j : json) :
  Rng.unit_samples sample ->
  Pd.empty df = false ->
  Pd.getitem df "PM2.5" = Ok (Pd.SFloat pm) ->
  Forall is_finite pm ->
  Dashboard2.simulate_model_data strftime_HM sample (Some df) horizon model pos
    = (Ok j, pos') ->
  exists last_actual trend_factor fs fo,
    last (firstn 20 pm) (Fin (1 # 10)) = Fin last_actual /\
    dict_get Dashboard2.trend_factors model = Some trend_factor /\
    json_get j "forecast" = Some fo /\
    json_get fo "forecast"
      = Some (JList (Dashboard2.times JNone 20 ++ map JFloat fs)) /\
    List.length fs = Z.to_nat horizon /\
    forall i, (i < Z.to_nat horizon)%nat ->
      in_range
        (last_actual + inject_Z (Z.of_nat (S i)) * trend_factor - (1 # 100))
        (last_actual + inject_Z (Z.of_nat (S i)) * trend_factor + (1 # 100))
        (nth i fs NaN).
Proof.
  intros Hu Hne Hpm Hfin Hsim.
  unfold Dashboard2.simulate_model_data in Hsim.
  destruct (Dashboard2.simulate_performance sample Dashboard2.models_list pos)
    as [perf p1].
  rewrite Hne in Hsim.
  match type of Hsim with
  | match ?chain with _ => _ end = _ => destruct chain as [r | e] eqn:Hchain
  end; [| inversion Hsim].
  repeat bind_inv Hchain.
  rewrite Hpm in Hv1.
  assert (Hv1' : v1 = Pd.SFloat pm) by congruence. subst v1. clear Hv1.
  unfold Pd.shead, Pd.sselect, Pd.float_values in Hv2.
  assert (Hh : v2 = select (seq 0 20) pm) by congruence.
  subst v2. clear Hv2.
  destruct (dict_get Dashboard2.trend_factors model) as [tf |] eqn:Htf;
    [| discriminate Hchain].
  assert (Hr : r = (v0, select (seq 0 20) pm,
                    match rev (select (seq 0 20) pm) with
                    | x :: _ => x
                    | [] => Fin (1 # 10)
                    end, tf)) by congruence.
  subst r. clear Hchain. cbv beta iota zeta in Hsim.
  rewrite rev_head_last, select_firstn in Hsim.
  assert (Hla : is_finite (last (firstn 20 pm) (Fin (1 # 10)))).
  { apply last_Forall; [| exact I].
    rewrite <- (firstn_skipn 20 pm) in Hfin. apply Forall_app in Hfin.
    exact (proj1 Hfin). }
  destruct (last (firstn 20 pm) (Fin (1 # 10))) as [la |]; [| destruct Hla].
  pose proof (forecast_from_spec sample la tf Hu (Z.to_nat horizon) 1 p1) as Hspec.
  destruct (Dashboard2.forecast_from sample (Fin la) (Fin tf) 1 (Z.to_nat horizon) p1)
    as [fs p2].
  simpl in Hspec. destruct Hspec as [Hlen Hnth].
  inversion Hsim; subst. clear Hsim.
  exists la, tf, fs. eexists.
  split; [reflexivity |]. split; [reflexivity |].
  split; [reflexivity |]. split; [reflexivity |].
  split; [exact Hlen |]. exact Hnth.
Qed.

(** ** Rounding *)

Lemma round_half_even_near (q : Q) :
  Qabs (inject_Z (round_half_even q) - q) <= 1 # 2.
Proof.
  unfold round_half_even.
  pose proof (Qfloor_le q) as Hlo. pose proof (Qlt_floor q) as Hhi.
  rewrite inject_Z_plus in Hhi.
  set (f := Qfloor q) in *.
  assert (H1 : inject_Z 1 == 1) by reflexivity.
  apply Qabs_Qle_condition.
  destruct (Qle_bool (q - inject_Z f) (1 # 2)) eqn:E1.
  - apply Qle_bool_iff in E1.
    destruct (Qeq_bool (q - inject_Z f) (1 # 2)) eqn:E2.
    + apply Qeq_bool_iff in E2.
      destruct (Z.even f); [split; lra |].
      rewrite inject_Z_plus. split; lra.
    + split; lra.
  - assert (E1' : ~ q - inject_Z f <= 1 # 2).
    { intros H. apply Qle_bool_iff in H. congruence. }
    rewrite inject_Z_plus. split; lra.
Qed.

(** [round(x, 1)] moves a number by at most 0.05. *)
Lemma round1_near (q : Q) :
  exists r, round1 (Fin q) = Fin r /\ Qabs (r - q) <= 1 # 20.
Proof.
  eexists. split; [reflexivity |].
  pose proof (round_half_even_near (q * 10)) as H.
  apply Qabs_Qle_condition in H. apply Qabs_Qle_condition.
  set (z := inject_Z (round_half_even (q * 10))) in *.
  assert (Hz : z / 10 == z * (1 # 10)) by field.
  rewrite Hz. split; lra.
Qed.

(** ** The forecast of Dashboard 3 *)

Lemma forecast_days_spec (sample : nat -> Q) (latest : Q) :
  Rng.unit_samples sample ->
  forall days pos,
    let fc := Dashboard3.forecast_days sample (Fin latest) days pos in
    map fst (fst fc) = days /\
    snd fc = (pos + List.length days)%nat /\
    Forall (fun d => exists variation r,
                (85 # 100) <= variation /\ variation < (115 # 100) /\
                snd d = round1 (Fin (latest * variation)) /\
                snd d = Fin r /\
                Qabs (r - latest * variation) <= 1 # 20) (fst fc).
Proof.
  intros Hu. induction days as [| day days IH]; intros pos; simpl.
  - split; [reflexivity |]. split; [lia | constructor].
  - specialize (IH (S pos)).
    destruct (Dashboard3.forecast_days sample (Fin latest) days (S pos))
      as [rest p] eqn:E.
    simpl in IH. destruct IH as (Hd & Hp & Hall). simpl.
    split; [rewrite Hd; reflexivity |].
    split; [rewrite Hp; lia |].
    constructor; [| exact Hall].
    destruct (uniform_strict sample (85 # 100) (115 # 100) pos Hu) as [H1 H2];
      [reflexivity |].
    unfold Rng.uniform in H1, H2. simpl in H1, H2.
    destruct (round1_near (latest * ((85 # 100) + ((115 # 100) - (85 # 100)) * sample pos)))
      as (r & Hr & Hnear).
    eexists. exists r. simpl snd.
    split; [exact H1 |]. split; [exact H2 |].
    split; [reflexivity |]. split; [exact Hr | exact Hnear].
Qed.

Lemma getitem_has_column (df : Pd.DataFrame) (c : string) (s : Pd.Series) :
  Pd.getitem df c = Ok s -> Pd.has_column df c = true.
Proof.
  unfold Pd.has_column, Pd.columns.
  induction df as [| [n s0] df IH]; simpl; [discriminate |].
  destruct (String.eqb c n); [reflexivity |]. exact IH.
Qed.

(** The forecast of [api_forecast] for a city that has rows. *)
Lemma forecast_for_city (parse_float : string -> option Q) (sample : nat -> Q)
  (df : Pd.DataFrame) (city : string) (c : Pd.Series) (mask : list bool)
  (aqi : list float) (latest : Q) (pos : nat) :
  Rng.unit_samples sample ->
  Pd.getitem df "City" = Ok c ->
  Dashboard3.city_mask c city = Ok mask ->
  Pd.empty (Pd.filter_rows mask df) = false ->
  Pd.getitem (Pd.filter_rows mask df) "AQI" = Ok (Pd.SFloat aqi) ->
  last aqi NaN = Fin latest ->
  exists fc,
    Dashboard3.forecast_for parse_float sample df city pos
      = (Ok fc, (pos + 7)%nat) /\
    map fst fc = Dashboard3.weekdays /\
    Forall (fun d => exists variation r,
                (85 # 100) <= variation /\ variation < (115 # 100) /\
                snd d = round1 (Fin (latest * variation)) /\
                snd d = Fin r /\
                Qabs (r - latest * variation) <= 1 # 20) fc.
Proof.
  intros Hu Hcity Hmask Hne Haqi Hlast.
  unfold Dashboard3.forecast_for. rewrite Hcity. cbn [bind]. rewrite Hmask.
  cbn [bind]. unfold Dashboard3.latest_aqi_of.
  rewrite Hne, (getitem_has_column _ _ _ Haqi), Haqi. cbn [negb andb bind].
  unfold Pd.iloc_last. cbn [Pd.cells]. rewrite <- map_rev.
  pose proof (rev_head_last float aqi NaN) as Hrev. rewrite Hlast in Hrev.
  destruct (rev aqi) as [| x r]; [discriminate Hrev |]. subst x.
  cbn [map bind Dashboard3.float_of_cell].
  destruct (forecast_days_spec sample latest Hu Dashboard3.weekdays pos)
    as (Hd & Hp & Hall).
  destruct (Dashboard3.forecast_days sample (Fin latest) Dashboard3.weekdays pos)
    as [fc p].
  simpl in Hd, Hp, Hall. subst p.
  exists fc. split; [reflexivity |]. split; assumption.
Qed.

(** ** The forecast of Dashboard 4 *)

Lemma forecast_vals_spec (sample : nat -> Q) (base : float) :
  Rng.unit_samples sample ->
  forall n pos,
    let vs := Dashboard4.forecast_vals sample base n pos in
    List.length (fst vs) = n /\
    snd vs = (pos + n)%nat /\
    Forall (fun v => exists u, -5 <= u /\ u < 5 /\
                               v = Dashboard4.max0 (fadd base (Fin u))) (fst vs).
Proof.
  intros Hu. induction n as [| n IH]; intros pos; simpl.
  - split; [reflexivity |]. split; [lia | constructor].
  - specialize (IH (S pos)).
    destruct (Dashboard4.forecast_vals sample base n (S pos)) as [vs p] eqn:E.
    simpl in IH. destruct IH as (Hl & Hp & Hall). simpl.
    split; [congruence |]. split; [lia |].
    constructor; [| exact Hall].
    destruct (uniform_strict sample (-5) 5 pos Hu) as [H1 H2]; [reflexivity |].
    unfold Rng.uniform in H1, H2. simpl in H1, H2.
    eexists. split; [exact H1 |]. split; [exact H2 | reflexivity].
Qed.

(** C7, as the code has it.  Every forecast is the baseline of its
    dashboard moved by a uniform draw, and nothing else enters it.
    - Dashboard 2, on a non-empty frame with a known model: forecast [i]
      (from 1 to the horizon) lies within 0.01 of
      [last_actual + i * trend_factor], where [last_actual] is the PM2.5
      value of the last of the first 20 rows of the frame.
    - Dashboard 3, for a city with rows: each of the seven values is
      [round(latest_aqi * variation, 1)] for a [variation] in
      [[0.85, 1.15)], so within 0.05 of [latest_aqi * variation].
    - Dashboard 4: each of the values is [max(0, base + u)] for a [u] in
      [[-5, 5)], where [base] is the mean of the last ten present values
      of the pollutant (or 0). *)
Theorem forecasts_are_perturbations (sample : nat -> Q) :
  Rng.unit_samples sample ->
  (forall (strftime_HM : Z -> string) (df : Pd.DataFrame) (pm : list float)
          (horizon : Z) (model : string) (pos pos' : nat) (j : json),
      Pd.empty df = false ->
      Pd.getitem df "PM2.5" = Ok (Pd.SFloat pm) ->
      Forall is_finite pm ->
      Dashboard2.simulate_model_data strftime_HM sample (Some df) horizon model pos
        = (Ok j, pos') ->
      exists last_actual trend_factor fs fo,
        last (firstn 20 pm) (Fin (1 # 10)) = Fin last_actual /\
        dict_get Dashboard2.trend_factors model = Some trend_factor /\
        json_get j "forecast" = Some fo /\
        json_get fo "forecast"
          = Some (JList (Dashboard2.times JNone 20 ++ map JFloat fs)) /\
        List.length fs = Z.to_nat horizon /\
        forall i, (i < Z.to_nat horizon)%nat ->
          in_range
            (last_actual + inject_Z (Z.of_nat (S i)) * trend_factor - (1 # 100))
            (last_actual + inject_Z (Z.of_nat (S i)) * trend_factor + (1 # 100))
            (nth i fs NaN)) /\
  (forall (parse_float : string -> option Q) (df : Pd.DataFrame) (city : string)
          (c : Pd.Series) (mask : list bool) (aqi : list float) (latest : Q)
          (pos : nat),
      Pd.getitem df "City" = Ok c ->
      Dashboard3.city_mask c city = Ok mask ->
      Pd.empty (Pd.filter_rows mask df) = false ->
      Pd.getitem (Pd.filter_rows mask df) "AQI" = Ok (Pd.SFloat aqi) ->
      last aqi NaN = Fin latest ->
      exists fc,
        Dashboard3.forecast_for parse_float sample df city pos
          = (Ok fc, (pos + 7)%nat) /\
        map fst fc = Dashboard3.weekdays /\
        Forall (fun d => exists variation r,
                    (85 # 100) <= variation /\ variation < (115 # 100) /\
                    snd d = round1 (Fin (latest * variation)) /\
                    snd d = Fin r /\
                    Qabs (r - latest * variation) <= 1 # 20) fc) /\
  (forall (city_df : Pd.DataFrame) (selected_pollutant : string)
          (forecast_horizon : nat) (pos : nat) (s t : Pd.Series) (base : float)
          (tmax : option Z),
      Pd.empty city_df = false ->
      Pd.getitem city_df selected_pollutant = Ok s ->
      Dashboard4.forecast_base s = Ok base ->
      Pd.getitem city_df "Time" = Ok t ->
      Dashboard4.time_max t = Ok tmax ->
      exists times vals,
        Dashboard4.pollutant_forecast sample city_df selected_pollutant
          forecast_horizon pos
          = (Ok (Some (times, vals)), (pos + forecast_horizon)%nat) /\
        List.length vals = forecast_horizon /\
        Forall (fun v => exists u, -5 <= u /\ u < 5 /\
                                   v = Dashboard4.max0 (fadd base (Fin u))) vals).
Proof.
  intros Hu. split; [| split].
  - intros strftime_HM df pm horizon model pos pos' j Hne Hpm Hfin Hsim.
    eapply simulate_model_data_forecast; eassumption.
  - intros parse_float df city c mask aqi latest pos Hc Hm Hne Haqi Hlast.
    eapply forecast_for_city; eassumption.
  - intros city_df p h pos s t base tmax Hne Hs Hbase Ht Htmax.
    unfold Dashboard4.pollutant_forecast.
    rewrite (getitem_has_column _ _ _ Hs), Hne, Hs. cbn [andb negb bind].
    rewrite Hbase. cbn [bind]. rewrite Ht. cbn [bind]. rewrite Htmax. cbn [bind].
    rewrite length_map, length_seq.
    destruct (forecast_vals_spec sample base Hu h pos) as (Hl & Hp & Hall).
    destruct (Dashboard4.forecast_vals sample base h pos) as [vals pos1].
    simpl in Hl, Hp, Hall. subst pos1.
    eexists. exists vals. split; [reflexivity |]. split; assumption.
Qed.

Lemma always_half_unit : Rng.unit_samples Fixtures.always_half.
Proof. intros n. unfold Fixtures.always_half. split; lra. Defined.


Lemma forecasts_are_perturbations_witness :
  (exists last_actual trend_factor fs fo,
      last (firstn 20 (Fixtures.pm25_of Fixtures.loaded2)) (Fin (1 # 10))
        = Fin last_actual /\
      dict_get Dashboard2.trend_factors "LSTM" = Some trend_factor /\
      json_get (Fixtures.value_of (fst Fixtures.simulate2)) "forecast" = Some fo /\
      json_get fo "forecast"
        = Some (JList (Dashboard2.times JNone 20 ++ map JFloat fs)) /\
      List.length fs = Z.to_nat 2 /\
      forall i, (i < Z.to_nat 2)%nat ->
        in_range
          (last_actual + inject_Z (Z.of_nat (S i)) * trend_factor - (1 # 100))
          (last_actual + inject_Z (Z.of_nat (S i)) * trend_factor + (1 # 100))
          (nth i fs NaN)) /\
  (exists fc,
      Dashboard3.forecast_for Fixtures.text_is_no_number Fixtures.always_half
        Fixtures.one_row_no2_missing "Delhi" 0 = (Ok fc, (0 + 7)%nat) /\
      map fst fc = Dashboard3.weekdays /\
      Forall (fun d => exists variation r,
                  (85 # 100) <= variation /\ variation < (115 # 100) /\
                  snd d = round1 (Fin ((1004 # 10) * variation)) /\
                  snd d = Fin r /\
                  Qabs (r - (1004 # 10) * variation) <= 1 # 20) fc) /\
  (exists times vals,
      Dashboard4.pollutant_forecast Fixtures.always_half Fixtures.spike "PM2.5"
        3 0 = (Ok (Some (times, vals)), (0 + 3)%nat) /\
      List.length vals = 3%nat /\
      Forall (fun v => exists u, -5 <= u /\ u < 5 /\
                v = Dashboard4.max0 (fadd Fixtures.spike_base (Fin u))) vals).
Proof.
  destruct (forecasts_are_perturbations Fixtures.always_half always_half_unit)
    as (H2 & H3 & H4).
  split; [| split].
  - apply (H2 Fixtures.clock Fixtures.loaded2 (Fixtures.pm25_of Fixtures.loaded2)
              2%Z "LSTM"%string 0%nat (snd Fixtures.simulate2)).
    + vm_compute; reflexivity.
    + vm_compute; reflexivity.
    + vm_compute. repeat constructor.
    + vm_compute; reflexivity.
  - apply (H3 Fixtures.text_is_no_number Fixtures.one_row_no2_missing
              "Delhi"%string (Pd.SObject [Pd.OStr "Delhi"]) [true]
              [Fin (1004 # 10)]).
    + reflexivity.
    + reflexivity.
    + reflexivity.
    + reflexivity.
    + reflexivity.
  - apply (H4 Fixtures.spike "PM2.5"%string 3%nat 0%nat
              (Pd.SFloat (repeat (Fin 0) 9 ++ [Fin 100]))
              (Pd.SDatetime (map (fun i => Some (Z.of_nat i)) (seq 0 10)))
              Fixtures.spike_base (Some 9%Z)).
    + reflexivity.
    + reflexivity.
    + vm_compute; reflexivity.
    + reflexivity.
    + reflexivity.
Defined.

(** The claim fails for Dashboards 3 and 4.  In Dashboard 3 the latest
    AQI 100.4 with the draw 0.85003 gives the forecast 85.3, below the band
    [100.4 * [0.85, 1.15]], because of the rounding to one decimal.  In
    Dashboard 4 the readings 0 (nine times) and then 100 give forecasts
    of 10, far from the band of width 5 around the last reading 100:
    the baseline is the mean of the last ten readings. *)
Lemma forecast_outside_band :
  (nth 0 (Fixtures.forecast3_values
            (Dashboard3.forecast_for Fixtures.text_is_no_number
               Fixtures.always_tiny Fixtures.one_row_no2_missing "Delhi" 0))
        NaN = Fin (853 # 10) /\
   ~ in_range ((85 # 100) * (1004 # 10)) ((115 # 100) * (1004 # 10))
       (Fin (853 # 10))) /\
  (last (Fixtures.pm25_of Fixtures.spike) NaN = Fin 100 /\
   exists v, nth 0 (Fixtures.forecast4_values
                      (Dashboard4.pollutant_forecast Fixtures.always_half
                         Fixtures.spike "PM2.5" 3 0))
                 NaN = Fin v /\
             v == 10 /\ ~ in_range (100 - 5) (100 + 5) (Fin v)).
Proof.
  split; [split | split].
  - vm_compute; reflexivity.
  - simpl. lra.
  - reflexivity.
  - eexists. split; [vm_compute; reflexivity |].
    split; [reflexivity | simpl; lra].
Qed.

(** ** Loops that update one column per round *)

(** [optional] says whether a round may skip a column that is absent. *)
Lemma foldM_update (optional : Prop)
  (R : string -> Pd.Series -> Pd.Series -> Prop)
  (step : string -> Pd.DataFrame -> result Pd.DataFrame) (cs : list string) :
  (forall col d d1, step col d = Ok d1 ->
     (exists s v, Pd.getitem d col = Ok s /\ R col s v /\
                  d1 = Pd.setitem d col v) \/
     (optional /\ is_ok (Pd.getitem d col) = false /\ d1 = d)) ->
  NoDup cs ->
  forall d d', foldM step cs d = Ok d' ->
    (forall c, ~ In c cs -> Pd.getitem d' c = Pd.getitem d c) /\
    (forall c, In c cs ->
       (exists s v, Pd.getitem d c = Ok s /\ R c s v /\ Pd.getitem d' c = Ok v) \/
       (optional /\ is_ok (Pd.getitem d c) = false /\
        Pd.getitem d' c = Pd.getitem d c)).
Proof.
  intros Hstep Hnd. induction Hnd as [| c0 cs Hnot Hnd IH]; intros d d'; simpl.
  - intros H. inversion H; subst. split; [reflexivity | intros c []].
  - intros H. bind_inv H. rename v into d1.
    destruct (IH d1 d' H) as [Hout Hin].
    assert (Hother : forall c, c <> c0 -> Pd.getitem d1 c = Pd.getitem d c).
    { intros c Hc.
      destruct (Hstep c0 d d1 Hv) as [(s & v & _ & _ & ->) | (_ & _ & ->)];
        [| reflexivity].
      apply getitem_setitem_other. congruence. }
    split.
    + intros c Hc. rewrite Hout by (intros Hin'; apply Hc; right; exact Hin').
      apply Hother. intros ->. apply Hc. left. reflexivity.
    + intros c [<- | Hc].
      * rewrite (Hout c0 Hnot).
        destruct (Hstep c0 d d1 Hv) as [(s & v & Hs & HR & ->) | (Ho & Hno & ->)].
        -- left. exists s, v. split; [exact Hs |]. split; [exact HR |].
           apply getitem_setitem_same.
        -- right. split; [exact Ho |]. split; [exact Hno | reflexivity].
      * assert (Hne : c <> c0) by (intros ->; contradiction).
        rewrite <- (Hother c Hne). apply Hin, Hc.
Qed.

(** ** The loader: numeric conversion and median filling *)



Lemma to_numeric_float (parse_float : string -> option Q) (s : Pd.Series) :
  exists l, Pd.to_numeric parse_float s = Pd.SFloat l.
Proof. destruct s; eexists; reflexivity. Qed.



(** ** The loader of Dashboard 3 *)

Lemma has_column_false (df : Pd.DataFrame) (c : string) :
  Pd.has_column df c = false -> is_ok (Pd.getitem df c) = false.
Proof.
  unfold Pd.has_column, Pd.columns.
  induction df as [| [n s0] df IH]; simpl; [reflexivity |].
  destruct (String.eqb c n); [discriminate | exact IH].
Qed.













(* ================================================================== *)
(** * Further properties of the code *)
(* ================================================================== *)

(** ** [get_dashboard_data] as a function of the stored objects *)

Ltac heap_simpl :=
  cbn [Py.air_aware_data Py.scaler Py.objects Py.np_random fst snd bind].

(** Once the globals are set and the stored frame is not empty, the
    value of a call is that of the pipeline run on the stored frame and
    the stored scaler. *)
Lemma get_dashboard_data_1_run
  (parse_float : string -> option Q) (parse_datetime : string -> option Z)
  (sqrt : Q -> Q) (strftime_HM : Z -> string)
  (data_file : option Pd.DataFrame)
  (city : option string) (time_range pollutant : string)
  (g : Py.state) (rd rs : Py.ref) (d0 : Pd.DataFrame) (sc : Sk.MinMaxScaler) :
  Py.air_aware_data g = Some rd ->
  Py.scaler g = Some rs ->
  nth_error (Py.objects g) rd = Some (Py.OFrame d0) ->
  nth_error (Py.objects g) rs = Some (Py.OScaler sc) ->
  Pd.empty d0 = false ->
  fst (Dashboard1.get_dashboard_data parse_float parse_datetime sqrt strftime_HM
         data_file city time_range pollutant g)
  = (d1 <- Pd.dropna_subset d0 "timestamp" ;;
     d2 <- Dashboard1.last_24 d1 ;;
     Dashboard1.dashboard sqrt strftime_HM d2 sc pollutant).
Proof.
  intros Hd Hs Hfr Hsc Hne.
  assert (Hrs : (rs < List.length (Py.objects g))%nat).
  { apply nth_error_Some. rewrite Hsc. discriminate. }
  destruct g as [objs a s p]. simpl in Hd, Hs, Hfr, Hsc, Hrs. subst a s.
  unfold Dashboard1.get_dashboard_data, Dashboard1.load_if_unset,
    Dashboard1.dropna_timestamp_inplace, Dashboard1.latest_rows,
    Py.mbind, Py.global_air_aware_data, Py.global_scaler, Py.ret, Py.get_frame,
    Py.new_frame, Py.lift, Py.set_frame, Py.get_scaler, Py.alloc.
  cbn [Py.air_aware_data Py.scaler Py.objects Py.np_random fst snd].
  rewrite Hfr, Hne.
  cbn [Py.air_aware_data Py.scaler Py.objects Py.np_random fst snd].
  rewrite nth_error_snoc.
  destruct (Pd.dropna_subset d0 "timestamp") as [d1 | e]; [| reflexivity].
  cbn [Py.air_aware_data Py.scaler Py.objects Py.np_random fst snd bind].
  rewrite nth_error_update_same by (rewrite length_app; simpl; lia).
  destruct (Dashboard1.last_24 d1) as [d2 | e]; [| reflexivity].
  cbn [Py.air_aware_data Py.scaler Py.objects Py.np_random fst snd bind].
  rewrite nth_error_snoc.
  cbn [Py.air_aware_data Py.scaler Py.objects Py.np_random fst snd bind].
  rewrite nth_error_app1
    by (rewrite update_length, length_app; simpl; lia).
  rewrite nth_error_update_other by lia.
  rewrite nth_error_app1 by lia.
  rewrite Hsc. reflexivity.
Qed.

Lemma get_dashboard_data_2_run
  (parse_float : string -> option Q) (parse_datetime : string -> option Z)
  (sqrt : Q -> Q) (strftime_HM : Z -> string)
  (data_file : option Pd.DataFrame) (sample : nat -> Q)
  (city : option string) (time_range pollutant model : string) (horizon : Z)
  (g : Py.state) (rd rs : Py.ref) (d0 : Pd.DataFrame) (sc : Sk.MinMaxScaler) :
  Py.air_aware_data g = Some rd ->
  Py.scaler g = Some rs ->
  nth_error (Py.objects g) rd = Some (Py.OFrame d0) ->
  nth_error (Py.objects g) rs = Some (Py.OScaler sc) ->
  Pd.empty d0 = false ->
  fst (Dashboard2.get_dashboard_data parse_float parse_datetime sqrt strftime_HM
         data_file sample city time_range pollutant model horizon g)
  = (filtered <- Dashboard2.filter_city city d0 ;;
     d1 <- Pd.dropna_subset (match filtered with Some d => d | None => d0 end)
                            "timestamp" ;;
     d2 <- Dashboard1.last_24 d1 ;;
     if Pd.empty d2 then
       model_output <- fst (Dashboard2.simulate_model_data strftime_HM sample
                              (Some Pd.empty_frame) horizon "LSTM"
                              (Py.np_random g)) ;;
       Ok (JDict (Dashboard2.empty_fields
                    ++ [("model_output"%string, model_output)]))
     else
       fields <- Dashboard2.data_fields sqrt strftime_HM d2 sc pollutant ;;
       model_output <- fst (Dashboard2.simulate_model_data strftime_HM sample
                              (Some d2) horizon model (Py.np_random g)) ;;
       Ok (JDict (fields ++ [("model_output"%string, model_output)]))).
Proof.
  intros Hd Hs Hfr Hsc Hne.
  assert (Hrs : (rs < List.length (Py.objects g))%nat).
  { apply nth_error_Some. rewrite Hsc. discriminate. }
  destruct g as [objs a s p]. simpl in Hd, Hs, Hfr, Hsc, Hrs. subst a s.
  unfold Dashboard2.get_dashboard_data, Dashboard2.load_if_unset,
    Dashboard1.load_if_unset, Dashboard2.filter_city_copy,
    Dashboard1.dropna_timestamp_inplace, Dashboard1.latest_rows,
    Py.mbind, Py.global_air_aware_data, Py.global_scaler, Py.ret, Py.get_frame,
    Py.new_frame, Py.lift, Py.set_frame, Py.get_scaler, Py.alloc, Py.with_random.
  heap_simpl. rewrite Hfr, Hne. heap_simpl.
  rewrite nth_error_snoc.
  destruct (Dashboard2.filter_city city d0) as [[df |] | e]; [| | reflexivity];
    heap_simpl.
  - rewrite nth_error_snoc.
    destruct (Pd.dropna_subset df "timestamp") as [d1 | e]; [| reflexivity].
    heap_simpl.
    rewrite nth_error_update_same by (rewrite !length_app; simpl; lia).
    destruct (Dashboard1.last_24 d1) as [d2 | e]; [| reflexivity].
    heap_simpl. rewrite nth_error_snoc. heap_simpl.
    destruct (Pd.empty d2).
    + heap_simpl. rewrite nth_error_snoc. heap_simpl.
      destruct (Dashboard2.simulate_model_data _ _ _ _ _ _) as [[mo | e] p'];
        reflexivity.
    + heap_simpl.
      rewrite nth_error_app1
        by (rewrite update_length, !length_app; simpl; lia).
      rewrite nth_error_update_other by (rewrite length_app; simpl; lia).
      rewrite !nth_error_app1 by (rewrite ?length_app; simpl; lia).
      rewrite Hsc. heap_simpl.
      destruct (Dashboard2.data_fields _ _ _ _ _) as [fields | e];
        [| reflexivity].
      heap_simpl.
      destruct (Dashboard2.simulate_model_data _ _ _ _ _ _) as [[mo | e] p'];
        reflexivity.
  - rewrite nth_error_snoc. heap_simpl.
    destruct (Pd.dropna_subset d0 "timestamp") as [d1 | e]; [| reflexivity].
    heap_simpl.
    rewrite nth_error_update_same by (rewrite !length_app; simpl; lia).
    destruct (Dashboard1.last_24 d1) as [d2 | e]; [| reflexivity].
    heap_simpl. rewrite nth_error_snoc. heap_simpl.
    destruct (Pd.empty d2).
    + heap_simpl. rewrite nth_error_snoc. heap_simpl.
      destruct (Dashboard2.simulate_model_data _ _ _ _ _ _) as [[mo | e] p'];
        reflexivity.
    + heap_simpl.
      rewrite nth_error_app1
        by (rewrite update_length, !length_app; simpl; lia).
      rewrite nth_error_update_other by (rewrite ?length_app; simpl; lia).
      rewrite !nth_error_app1 by (rewrite ?length_app; simpl; lia).
      rewrite Hsc. heap_simpl.
      destruct (Dashboard2.data_fields _ _ _ _ _) as [fields | e];
        [| reflexivity].
      heap_simpl.
      destruct (Dashboard2.simulate_model_data _ _ _ _ _ _) as [[mo | e] p'];
        reflexivity.
Qed.

(** ** Calls after the data file was missing *)

Lemma get_unscaled_series_unfitted (df : Pd.DataFrame) (name : string)
  (cols : list string) :
  Pd.empty df = false ->
  is_ok (Dashboard1._get_unscaled_series df name Sk.Unfitted cols) = false /\
  is_ok (Dashboard2._get_unscaled_series df name Sk.Unfitted cols) = false.
Proof.
  intros Hne.
  unfold Dashboard1._get_unscaled_series, Dashboard2._get_unscaled_series.
  rewrite Hne.
  destruct (index_of name cols) as [k |]; [| split; reflexivity].
  destruct (Pd.getitem df name) as [s | e]; [| split; reflexivity].
  cbn [bind].
  destruct (Pd.float_values s) as [vals | e]; split; reflexivity.
Qed.

Lemma dashboard_unfitted (sqrt : Q -> Q) (strftime_HM : Z -> string)
  (df : Pd.DataFrame) (pollutant : string) :
  Pd.empty df = false ->
  is_ok (Dashboard1.dashboard sqrt strftime_HM df Sk.Unfitted pollutant) = false /\
  is_ok (Dashboard2.data_fields sqrt strftime_HM df Sk.Unfitted pollutant) = false.
Proof.
  intros Hne.
  destruct (get_unscaled_series_unfitted df pollutant Dashboard1.pollutant_cols Hne)
    as [H1 H2].
  unfold Dashboard1.dashboard, Dashboard2.data_fields.
  destruct (Pd.getitem df "timestamp") as [ts | e]; [| split; reflexivity].
  cbn [bind].
  destruct (Dashboard1.strftime_list strftime_HM ts) as [x | e];
    [| split; reflexivity].
  cbn [bind].
  destruct (Pd.getitem df pollutant) as [y | e]; [| split; reflexivity].
  cbn [bind].
  change Dashboard2.pollutant_cols with Dashboard1.pollutant_cols.
  destruct (Dashboard1._get_unscaled_series df pollutant Sk.Unfitted _);
    [discriminate H1 |].
  destruct (Dashboard2._get_unscaled_series df pollutant Sk.Unfitted _);
    [discriminate H2 |].
  split; reflexivity.
Qed.

Lemma filter_city_dummy (city : option string) :
  exists f, Dashboard2.filter_city city Dashboard1.dummy_data = Ok f /\
            match f with Some d => d | None => Dashboard1.dummy_data end
              = Dashboard1.dummy_data.
Proof.
  destruct city as [c |]; [| exists None; split; reflexivity].
  unfold Dashboard2.filter_city.
  destruct (String.eqb c "") eqn:E0; [exists None; split; reflexivity |].
  cbn. destruct (String.eqb c "Loading Failed") eqn:E1; cbn.
  - rewrite E1. eexists. split; reflexivity.
  - eexists. split; reflexivity.
Qed.

(** With the placeholder frame and the unfitted scaler that the loader
    stores when the data file is missing, every call of
    [get_dashboard_data], in Dashboard 1 and in Dashboard 2, raises an
    exception: it returns no response, and not the ['error'] response
    either. *)
Theorem missing_file_calls_raise
  (parse_float : string -> option Q) (parse_datetime : string -> option Z)
  (sqrt : Q -> Q) (strftime_HM : Z -> string)
  (data_file : option Pd.DataFrame) (sample : nat -> Q)
  (city : option string) (time_range pollutant model : string) (horizon : Z)
  (g : Py.state) (rd rs : Py.ref) :
  Py.air_aware_data g = Some rd ->
  Py.scaler g = Some rs ->
  nth_error (Py.objects g) rd = Some (Py.OFrame Dashboard1.dummy_data) ->
  nth_error (Py.objects g) rs = Some (Py.OScaler Sk.Unfitted) ->
  is_ok (fst (Dashboard1.get_dashboard_data parse_float parse_datetime sqrt
                strftime_HM data_file city time_range pollutant g)) = false /\
  is_ok (fst (Dashboard2.get_dashboard_data parse_float parse_datetime sqrt
                strftime_HM data_file sample city time_range pollutant model
                horizon g)) = false.
Proof.
  intros Hd Hs Hfr Hsc.
  assert (Hw : (d1 <- Pd.dropna_subset Dashboard1.dummy_data "timestamp" ;;
                Dashboard1.last_24 d1) = Ok Dashboard1.dummy_data)
    by reflexivity.
  assert (Hne : Pd.empty Dashboard1.dummy_data = false) by reflexivity.
  destruct (dashboard_unfitted sqrt strftime_HM Dashboard1.dummy_data pollutant Hne)
    as [H1 H2].
  split.
  - rewrite (get_dashboard_data_1_run _ _ _ _ _ _ _ _ _ _ _ _ _ Hd Hs Hfr Hsc Hne).
    destruct (Pd.dropna_subset Dashboard1.dummy_data "timestamp") as [d1 | e];
      [| discriminate Hw].
    cbn [bind] in Hw |- *. rewrite Hw. cbn [bind]. exact H1.
  - rewrite (get_dashboard_data_2_run _ _ _ _ _ _ _ _ _ _ _ _ _ _ _ _ Hd Hs Hfr Hsc Hne).
    destruct (filter_city_dummy city) as (f & Hf & Hm).
    rewrite Hf. cbn [bind]. rewrite Hm.
    destruct (Pd.dropna_subset Dashboard1.dummy_data "timestamp") as [d1 | e];
      [| discriminate Hw].
    cbn [bind] in Hw |- *. rewrite Hw. cbn [bind].
    rewrite Hne.
    destruct (Dashboard2.data_fields sqrt strftime_HM Dashboard1.dummy_data
                Sk.Unfitted pollutant); [discriminate H2 | reflexivity].
Qed.

Lemma missing_file_calls_raise_witness :
  is_ok (fst (Dashboard1.get_dashboard_data Fixtures.text_is_no_number
                Fixtures.hours_of_text Fixtures.isqrt Fixtures.clock None
                (Some "Delhi"%string) "Last 24 Hours" "PM2.5"
                (snd Fixtures.load_missing))) = false /\
  is_ok (fst (Dashboard2.get_dashboard_data Fixtures.text_is_no_number
                Fixtures.hours_of_text Fixtures.isqrt Fixtures.clock None
                Fixtures.always_half (Some "Delhi"%string) "Last 24 Hours"
                "PM2.5" "LSTM" 4 (snd Fixtures.load_missing))) = false.
Proof.
  apply (missing_file_calls_raise Fixtures.text_is_no_number
           Fixtures.hours_of_text Fixtures.isqrt Fixtures.clock None
           Fixtures.always_half (Some "Delhi"%string) "Last 24 Hours" "PM2.5"
           "LSTM" 4 (snd Fixtures.load_missing) 0%nat 1%nat); reflexivity.
Defined.

(** ** The output of [simulate_model_data] *)

Lemma forecast_from_length (sample : nat -> Q) (last_actual tf : float) :
  forall n first pos,
    List.length (fst (Dashboard2.forecast_from sample last_actual tf first n pos)) = n.
Proof.
  induction n as [| n IH]; intros first pos; simpl; [reflexivity |].
  destruct (Dashboard2.forecast_from sample last_actual tf (S first) n
              (S pos)) as [fs pos'] eqn:E.
  simpl. specialize (IH (S first) (S pos)). rewrite E in IH. simpl in IH.
  rewrite IH. reflexivity.
Qed.

Lemma ci_line_length (sign : Q) (fs : list float) :
  List.length (Dashboard2.ci_line sign fs) = List.length fs.
Proof.
  unfold Dashboard2.ci_line.
  rewrite length_map, length_combine, length_seq. apply Nat.min_id.
Qed.

Lemma forecast_hours_length (h : nat) :
  List.length (Dashboard2.forecast_hours h) = h.
Proof. unfold Dashboard2.forecast_hours. rewrite length_map. apply length_seq. Qed.

(** The five lines of the forecast chart.  For a frame with rows,
    'labels' and 'actual' have [min(20, rows) + horizon] entries, while
    'forecast', 'ci_lower' and 'ci_upper' always have [20 + horizon]
    entries: the lines have one length only from 20 rows on.  For an
    empty or missing frame all five have [20 + horizon] entries. *)
Theorem simulate_model_data_lines (strftime_HM : Z -> string)
  (sample : nat -> Q) (horizon : Z) (pos : nat) :
  (forall (df : Pd.DataFrame) (ts : list (option Z)) (pm : list float)
          (model : string) (tf : Q),
      Pd.empty df = false ->
      Pd.getitem df "timestamp" = Ok (Pd.SDatetime ts) ->
      Pd.getitem df "PM2.5" = Ok (Pd.SFloat pm) ->
      List.length ts = List.length pm ->
      dict_get Dashboard2.trend_factors model = Some tf ->
      exists j,
        fst (Dashboard2.simulate_model_data strftime_HM sample (Some df)
               horizon model pos) = Ok j /\
        List.length (chart_line j "labels")
          = (Nat.min 20 (List.length pm) + Z.to_nat horizon)%nat /\
        List.length (chart_line j "actual")
          = (Nat.min 20 (List.length pm) + Z.to_nat horizon)%nat /\
        List.length (chart_line j "forecast") = (20 + Z.to_nat horizon)%nat /\
        List.length (chart_line j "ci_lower") = (20 + Z.to_nat horizon)%nat /\
        List.length (chart_line j "ci_upper") = (20 + Z.to_nat horizon)%nat) /\
  (forall (df : option Pd.DataFrame) (model : string),
      match df with Some d => Pd.empty d | None => true end = true ->
      exists j,
        fst (Dashboard2.simulate_model_data strftime_HM sample df
               horizon model pos) = Ok j /\
        forall k, In k ["labels"; "actual"; "forecast"; "ci_lower"; "ci_upper"]%string ->
                  List.length (chart_line j k) = (20 + Z.to_nat horizon)%nat).
Proof.
  split.
  - intros df ts pm model tf Hne Hts Hpm Hlen Htf.
    unfold Dashboard2.simulate_model_data.
    destruct (Dashboard2.simulate_performance sample Dashboard2.models_list pos)
      as [perf pos1].
    rewrite Hne, Hts, Hpm. cbn [bind].
    cbn [Pd.shead Pd.sselect Dashboard1.strftime_list bind Pd.float_values].
    rewrite Htf.
    destruct (Dashboard2.forecast_from sample _ (Fin tf) 1 (Z.to_nat horizon) pos1)
      as [fv pos2] eqn:Efv.
    assert (Lfv : List.length fv = Z.to_nat horizon).
    { pose proof (forecast_from_length sample
                    (match rev (select (seq 0 20) pm) with
                     | x :: _ => x | [] => Fin (1 # 10) end)
                    (Fin tf) (Z.to_nat horizon) 1 pos1) as L.
      rewrite Efv in L. exact L. }
    eexists. split; [reflexivity |].
    unfold chart_line. cbn [json_get dict_get String.eqb Ascii.eqb Bool.eqb fst snd].
    rewrite !length_app, !length_map, !select_firstn, !length_firstn,
      forecast_hours_length, !ci_line_length, Lfv.
    unfold Dashboard2.times. rewrite !repeat_length, Hlen.
    repeat split; reflexivity.
  - intros df model Hemp.
    unfold Dashboard2.simulate_model_data.
    destruct (Dashboard2.simulate_performance sample Dashboard2.models_list pos)
      as [perf pos1].
    rewrite Hemp.
    eexists. split; [reflexivity |].
    intros k Hk. simpl in Hk.
    destruct Hk as [<- | [<- | [<- | [<- | [<- | []]]]]];
      unfold chart_line;
      cbn [json_get dict_get String.eqb Ascii.eqb Bool.eqb fst snd];
      rewrite !length_app, ?length_map, ?forecast_hours_length;
      unfold Dashboard2.times; rewrite ?repeat_length, ?length_seq; reflexivity.
Qed.

Lemma simulate_model_data_lines_witness :
  (exists j,
      fst (Dashboard2.simulate_model_data Fixtures.clock Fixtures.always_half
             (Some Fixtures.loaded2) 2 "LSTM" 0) = Ok j /\
      List.length (chart_line j "labels")
        = (Nat.min 20 (List.length (Fixtures.pm25_of Fixtures.loaded2))
           + Z.to_nat 2)%nat /\
      List.length (chart_line j "actual")
        = (Nat.min 20 (List.length (Fixtures.pm25_of Fixtures.loaded2))
           + Z.to_nat 2)%nat /\
      List.length (chart_line j "forecast") = (20 + Z.to_nat 2)%nat /\
      List.length (chart_line j "ci_lower") = (20 + Z.to_nat 2)%nat /\
      List.length (chart_line j "ci_upper") = (20 + Z.to_nat 2)%nat) /\
  (exists j,
      fst (Dashboard2.simulate_model_data Fixtures.clock Fixtures.always_half
             (Some Pd.empty_frame) 2 "LSTM" 0) = Ok j /\
      forall k, In k ["labels"; "actual"; "forecast"; "ci_lower"; "ci_upper"]%string ->
                List.length (chart_line j k) = (20 + Z.to_nat 2)%nat).
Proof.
  destruct (simulate_model_data_lines Fixtures.clock Fixtures.always_half 2 0)
    as [H1 H2].
  split.
  - apply (H1 Fixtures.loaded2 (Fixtures.timestamps_of Fixtures.loaded2)
              (Fixtures.pm25_of Fixtures.loaded2) "LSTM"%string (5 # 100));
      vm_compute; reflexivity.
  - apply (H2 (Some Pd.empty_frame) "LSTM"%string). reflexivity.
Defined.

Lemma argmin_spec (rest : list (string * Q)) :
  forall best,
    In (Dashboard2.argmin best rest) (best :: rest) /\
    Forall (fun kv => snd (Dashboard2.argmin best rest) <= snd kv) (best :: rest).
Proof.
  induction rest as [| kv rest IH]; intros best; simpl.
  - split; [left; reflexivity |]. constructor; [apply Qle_refl | constructor].
  - destruct (Qle_bool (snd best) (snd kv)) eqn:E.
    + apply Qle_bool_iff in E.
      destruct (IH best) as [Hin Hall]. inversion Hall as [| ? ? Hb Hr]; subst.
      split.
      * destruct Hin as [<- | Hin]; [left; reflexivity | right; right; exact Hin].
      * constructor; [exact Hb |]. constructor; [| exact Hr].
        eapply Qle_trans; [exact Hb | exact E].
    + assert (Hlt : snd kv < snd best).
      { apply Qnot_le_lt. intros H. apply Qle_bool_iff in H. congruence. }
      destruct (IH kv) as [Hin Hall]. inversion Hall as [| ? ? Hb Hr]; subst.
      split; [right; exact Hin |].
      constructor; [| exact Hall].
      eapply Qle_trans; [exact Hb | apply Qlt_le_weak, Hlt].
Qed.

Lemma uniform_n_spec (sample : nat -> Q) (low high : Q) :
  Rng.unit_samples sample -> low < high ->
  forall n pos,
    List.length (fst (Rng.uniform_n sample low high n pos)) = n /\
    Forall (fun x => low <= x /\ x < high)
           (fst (Rng.uniform_n sample low high n pos)).
Proof.
  intros Hu Hlt. induction n as [| n IH]; intros pos; simpl.
  - split; [reflexivity | constructor].
  - destruct (Rng.uniform_n sample low high n (S pos)) as [xs pos'] eqn:E.
    specialize (IH (S pos)). rewrite E in IH. simpl in IH |- *.
    destruct IH as [IH1 IH2]. split; [rewrite IH1; reflexivity |].
    constructor; [| exact IH2].
    apply (uniform_strict sample low high pos Hu Hlt).
Qed.

(** The simulated performance: one entry per model, in the order of
    [models_list], each with four RMSE draws from [[0.01, 0.08)] and four
    MAE draws from [[0.005, 0.05)]. *)
Lemma simulate_performance_spec (sample : nat -> Q) :
  Rng.unit_samples sample ->
  forall models pos,
    let perf := fst (Dashboard2.simulate_performance sample models pos) in
    map fst perf = models /\
    Forall (fun m =>
              List.length (fst (snd m)) = 4%nat /\
              List.length (snd (snd m)) = 4%nat /\
              Forall (fun x => (1 # 100) <= x /\ x < (8 # 100)) (fst (snd m)) /\
              Forall (fun x => (5 # 1000) <= x /\ x < (5 # 100)) (snd (snd m)))
           perf.
Proof.
  intros Hu. induction models as [| m models IH]; intros pos; cbv zeta.
  - simpl. split; [reflexivity | constructor].
  - cbn [Dashboard2.simulate_performance].
    change (Datatypes.length Dashboard2.pollutants_for_eval) with 4%nat.
    destruct (Rng.uniform_n sample (1 # 100) (8 # 100) 4 pos) as [rmse pos1] eqn:E1.
    destruct (Rng.uniform_n sample (5 # 1000) (5 # 100) 4 pos1) as [mae pos2] eqn:E2.
    destruct (Dashboard2.simulate_performance sample models pos2) as [rest pos3] eqn:E3.
    specialize (IH pos2). cbv zeta in IH. rewrite E3 in IH.
    cbn [fst snd map] in IH |- *.
    destruct IH as [IH1 IH2]. split; [rewrite IH1; reflexivity |].
    constructor; [| exact IH2]. simpl.
    assert (L1 : (1 # 100) < (8 # 100)) by reflexivity.
    assert (L2 : (5 # 1000) < (5 # 100)) by reflexivity.
    destruct (uniform_n_spec sample _ _ Hu L1 4 pos) as [A1 A2].
    destruct (uniform_n_spec sample _ _ Hu L2 4 pos1) as [B1 B2].
    rewrite E1 in A1, A2. rewrite E2 in B1, B2. simpl in A1, A2, B1, B2.
    repeat split; assumption.
Qed.

Lemma dict_get_NoDup_In {V : Type} (d : list (string * V)) (k : string) (v : V) :
  NoDup (map fst d) -> In (k, v) d -> dict_get d k = Some v.
Proof.
  induction d as [| [k' v'] d IH]; intros Hnd Hin; [destruct Hin |].
  simpl in Hnd. inversion Hnd as [| ? ? Hnot Hnd']; subst. simpl.
  destruct Hin as [Heq | Hin].
  - inversion Heq; subst. rewrite String.eqb_refl. reflexivity.
  - destruct (String.eqb k k') eqn:E; [| apply IH; assumption].
    apply String.eqb_eq in E. subst k'. exfalso. apply Hnot.
    apply in_map_iff. exists (k, v). split; [reflexivity | exact Hin].
Qed.

(** A row of the accuracy table names a model whose RMSE for the
    pollutant is the least of all models, with that model's MAE. *)
Lemma best_model_row_spec (perf : list (string * (list Q * list Q)))
  (i : nat) (p : string) :
  perf <> [] -> NoDup (map fst perf) ->
  exists m rmse mae,
    In (m, (rmse, mae)) perf /\
    Dashboard2.best_model_row perf i p
      = JDict [ ("pollutant", JStr p); ("best_model", JStr m);
                ("rmse", Dashboard2.jnum (nth i rmse 0));
                ("mae", Dashboard2.jnum (nth i mae 0)) ]%string /\
    forall m' rmse' mae', In (m', (rmse', mae')) perf ->
                          nth i rmse 0 <= nth i rmse' 0.
Proof.
  intros Hne Hnd. unfold Dashboard2.best_model_row.
  destruct perf as [| e0 perf']; [congruence |].
  set (f := fun m : string * (list Q * list Q) => (fst m, nth i (fst (snd m)) 0)).
  change (map f (e0 :: perf')) with (f e0 :: map f perf').
  cbv iota. destruct (argmin_spec (map f perf') (f e0)) as [Hin Hall].
  set (best := Dashboard2.argmin (f e0) (map f perf')) in *.
  change (f e0 :: map f perf') with (map f (e0 :: perf')) in Hin, Hall.
  apply in_map_iff in Hin. destruct Hin as ([m [rmse mae]] & Hb & Hin).
  exists m, rmse, mae. split; [exact Hin |].
  assert (Hfst : fst best = m) by (rewrite <- Hb; reflexivity).
  assert (Hsnd : snd best = nth i rmse 0) by (rewrite <- Hb; reflexivity).
  split.
  - rewrite Hfst, Hsnd, (dict_get_NoDup_In _ _ _ Hnd Hin). reflexivity.
  - intros m' rmse' mae' Hin'. rewrite <- Hsnd.
    rewrite Forall_forall in Hall.
    apply (Hall (f (m', (rmse', mae')))). apply in_map. exact Hin'.
Qed.

Lemma models_list_NoDup : NoDup Dashboard2.models_list.
Proof.
  unfold Dashboard2.models_list.
  repeat (constructor; [simpl; intuition discriminate |]). constructor.
Qed.

(** The accuracy table of [simulate_model_data] for a frame with rows:
    one row per evaluated pollutant; the row names a model of
    [models_list] whose simulated RMSE for that pollutant is the least
    of the four models, and gives that model's RMSE and MAE; both are
    draws from [[0.01, 0.08)] and [[0.005, 0.05)] and do not depend on
    the data. *)
Theorem accuracy_table_best_model (strftime_HM : Z -> string)
  (sample : nat -> Q) (df : Pd.DataFrame) (horizon : Z) (model : string)
  (pos pos' : nat) (j : json) :
  Rng.unit_samples sample ->
  Pd.empty df = false ->
  Dashboard2.simulate_model_data strftime_HM sample (Some df) horizon model pos
    = (Ok j, pos') ->
  let perf := fst (Dashboard2.simulate_performance sample
                     Dashboard2.models_list pos) in
  exists rows,
    json_get j "accuracy_table" = Some (JList rows) /\
    List.length rows = 4%nat /\
    forall i p, nth_error Dashboard2.pollutants_for_eval i = Some p ->
      exists m rmse mae,
        In m Dashboard2.models_list /\
        In (m, (rmse, mae)) perf /\
        nth_error rows i
          = Some (JDict [ ("pollutant", JStr p); ("best_model", JStr m);
                          ("rmse", Dashboard2.jnum (nth i rmse 0));
                          ("mae", Dashboard2.jnum (nth i mae 0)) ]%string) /\
        (1 # 100) <= nth i rmse 0 /\ nth i rmse 0 < (8 # 100) /\
        (5 # 1000) <= nth i mae 0 /\ nth i mae 0 < (5 # 100) /\
        forall m' rmse' mae', In (m', (rmse', mae')) perf ->
                              nth i rmse 0 <= nth i rmse' 0.
Proof.
  intros Hu Hne Hcall perf.
  destruct (simulate_performance_spec sample Hu Dashboard2.models_list pos)
    as [Hkeys Hdraws].
  fold perf in Hkeys, Hdraws.
  unfold Dashboard2.simulate_model_data in Hcall.
  destruct (Dashboard2.simulate_performance sample Dashboard2.models_list pos)
    as [perf0 pos1] eqn:Eperf.
  assert (Hp : perf = perf0) by (unfold perf; reflexivity).
  clearbody perf. subst perf0.
  rewrite Hne in Hcall.
  match type of Hcall with
  | match ?b with _ => _ end = _ =>
      destruct b as [[[[timestamps hist] la] tf] | e]; [| discriminate Hcall]
  end.
  destruct (Dashboard2.forecast_from sample la (Fin tf) 1 (Z.to_nat horizon) pos1)
    as [fv pos2].
  assert (Hj : j = JDict
    [ ("performance", Dashboard2.performance_json perf);
      ("forecast", JDict
         [ ("labels", JList (timestamps ++ Dashboard2.forecast_hours (Z.to_nat horizon)));
           ("actual", JList (map JFloat hist ++ Dashboard2.times JNone (Z.to_nat horizon)));
           ("forecast", JList (Dashboard2.times JNone 20 ++ map JFloat fv));
           ("ci_lower", JList (Dashboard2.times JNone 20
                               ++ map JFloat (Dashboard2.ci_line (-1) fv)));
           ("ci_upper", JList (Dashboard2.times JNone 20
                               ++ map JFloat (Dashboard2.ci_line 1 fv))) ]%string);
      ("accuracy_table", JList
         (map (fun ip => Dashboard2.best_model_row perf (fst ip) (snd ip))
              (combine (seq 0 (List.length Dashboard2.pollutants_for_eval))
                       Dashboard2.pollutants_for_eval))) ]%string)
    by congruence.
  subst j. clear Hcall.
  eexists. split; [reflexivity |]. split; [reflexivity |].
  intros i p Hip.
  assert (Hnd : NoDup (map fst perf)) by (rewrite Hkeys; apply models_list_NoDup).
  assert (Hnon : perf <> []).
  { intros ->. discriminate Hkeys. }
  destruct (best_model_row_spec perf i p Hnon Hnd) as (m & rmse & mae & Hin & Hrow & Hleast).
  exists m, rmse, mae.
  assert (Hi : (i < 4)%nat).
  { change 4%nat with (List.length Dashboard2.pollutants_for_eval).
    apply nth_error_Some. rewrite Hip. discriminate. }
  rewrite Forall_forall in Hdraws.
  destruct (Hdraws _ Hin) as (L1 & L2 & R1 & R2). simpl in L1, L2, R1, R2.
  rewrite Forall_forall in R1, R2.
  split.
  { rewrite <- Hkeys. apply in_map_iff. exists (m, (rmse, mae)).
    split; [reflexivity | exact Hin]. }
  split; [exact Hin |].
  split.
  { rewrite <- Hrow.
    change (Datatypes.length Dashboard2.pollutants_for_eval) with 4%nat.
    assert (Hc : nth_error (combine (seq 0 4) Dashboard2.pollutants_for_eval) i
                 = Some (i, p)).
    { destruct i as [| [| [| [| i]]]]; simpl in Hip |- *;
        try (inversion Hip; reflexivity). lia. }
    rewrite nth_error_map, Hc. reflexivity. }
  assert (In1 : In (nth i rmse 0) rmse) by (apply nth_In; lia).
  assert (In2 : In (nth i mae 0) mae) by (apply nth_In; lia).
  destruct (R1 _ In1) as [a1 a2]. destruct (R2 _ In2) as [b1 b2].
  repeat (split; [assumption |]). exact Hleast.
Qed.

Lemma accuracy_table_best_model_witness :
  exists rows,
    json_get (Fixtures.value_of (fst Fixtures.simulate2)) "accuracy_table"
      = Some (JList rows) /\
    List.length rows = 4%nat /\
    forall i p, nth_error Dashboard2.pollutants_for_eval i = Some p ->
      exists m rmse mae,
        In m Dashboard2.models_list /\
        In (m, (rmse, mae))
           (fst (Dashboard2.simulate_performance Fixtures.always_half
                   Dashboard2.models_list 0)) /\
        nth_error rows i
          = Some (JDict [ ("pollutant", JStr p); ("best_model", JStr m);
                          ("rmse", Dashboard2.jnum (nth i rmse 0));
                          ("mae", Dashboard2.jnum (nth i mae 0)) ]%string) /\
        (1 # 100) <= nth i rmse 0 /\ nth i rmse 0 < (8 # 100) /\
        (5 # 1000) <= nth i mae 0 /\ nth i mae 0 < (5 # 100) /\
        forall m' rmse' mae',
          In (m', (rmse', mae'))
             (fst (Dashboard2.simulate_performance Fixtures.always_half
                     Dashboard2.models_list 0)) ->
          nth i rmse 0 <= nth i rmse' 0.
Proof.
  apply (accuracy_table_best_model Fixtures.clock Fixtures.always_half
           Fixtures.loaded2 2 "LSTM" 0 (snd Fixtures.simulate2)).
  - exact always_half_unit.
  - vm_compute; reflexivity.
  - vm_compute; reflexivity.
Defined.

(** ** Sorting *)

Lemma insert_by_perm {A : Type} (leb : A -> A -> bool) (x : A) (l : list A) :
  Permutation (insert_by leb x l) (x :: l).
Proof.
  induction l as [| a l IH]; simpl; [reflexivity |].
  destruct (leb x a); [reflexivity |].
  etransitivity; [apply perm_skip, IH | apply perm_swap].
Qed.

Lemma sort_by_perm {A : Type} (leb : A -> A -> bool) (l : list A) :
  Permutation (sort_by leb l) l.
Proof.
  induction l as [| a l IH]; simpl; [reflexivity |].
  etransitivity; [apply insert_by_perm | apply perm_skip, IH].
Qed.

Lemma insert_by_sorted {A : Type} (leb : A -> A -> bool) (x : A) (l : list A) :
  (forall a b, leb a b = false -> leb b a = true) ->
  Sorted (fun a b => leb a b = true) l ->
  Sorted (fun a b => leb a b = true) (insert_by leb x l).
Proof.
  intros Htot. induction l as [| a l IH]; intros Hs; simpl.
  - constructor; constructor.
  - destruct (leb x a) eqn:E.
    + constructor; [exact Hs | constructor; exact E].
    + inversion Hs as [| ? ? Hs' Hhd]; subst.
      constructor; [apply IH, Hs' |].
      destruct l as [| b l]; simpl.
      * constructor. apply Htot, E.
      * destruct (leb x b); constructor.
        -- apply Htot, E.
        -- inversion Hhd; assumption.
Qed.

Lemma sort_by_sorted {A : Type} (leb : A -> A -> bool) (l : list A) :
  (forall a b, leb a b = false -> leb b a = true) ->
  Sorted (fun a b => leb a b = true) (sort_by leb l).
Proof.
  intros Htot. induction l as [| a l IH]; simpl; [constructor |].
  apply insert_by_sorted; assumption.
Qed.

Lemma insert_by_ext {A : Type} (leb1 leb2 : A -> A -> bool) (x : A) (l : list A) :
  (forall b, In b l -> leb1 x b = leb2 x b) ->
  insert_by leb1 x l = insert_by leb2 x l.
Proof.
  induction l as [| a l IH]; intros H; simpl; [reflexivity |].
  rewrite (H a) by (left; reflexivity).
  destruct (leb2 x a); [reflexivity |].
  rewrite IH; [reflexivity |]. intros b Hb. apply H. right. exact Hb.
Qed.

Lemma sort_by_ext {A : Type} (leb1 leb2 : A -> A -> bool) (l : list A) :
  (forall a b, In a l -> In b l -> leb1 a b = leb2 a b) ->
  sort_by leb1 l = sort_by leb2 l.
Proof.
  induction l as [| a l IH]; intros H; simpl; [reflexivity |].
  rewrite IH by (intros x y Hx Hy; apply H; right; assumption).
  apply insert_by_ext. intros b Hb. apply H; [left; reflexivity | right].
  eapply Permutation_in; [apply sort_by_perm | exact Hb].
Qed.

Lemma select_nth {A : Type} (d : A) (idxs : list nat) (l : list A) :
  Forall (fun i => (i < List.length l)%nat) idxs ->
  select idxs l = map (fun i => nth i l d) idxs.
Proof.
  unfold select. induction idxs as [| i idxs IH]; intros H; simpl;
    [reflexivity |].
  inversion H as [| ? ? Hi Hr]; subst.
  rewrite (nth_error_nth' l d Hi), IH by exact Hr. reflexivity.
Qed.

Lemma map_nth_seq {A : Type} (d : A) (l pre : list A) :
  map (fun i => nth i (pre ++ l) d) (seq (List.length pre) (List.length l)) = l.
Proof.
  revert pre. induction l as [| a l IH]; intros pre; simpl; [reflexivity |].
  rewrite app_nth2, Nat.sub_diag by lia. simpl. f_equal.
  specialize (IH (pre ++ [a])).
  rewrite <- app_assoc, length_app in IH. simpl in IH.
  rewrite Nat.add_1_r in IH. exact IH.
Qed.

(** Sorting the positions of a list by their values and selecting them
    gives a sorted rearrangement of the list. *)
Lemma sort_select {A : Type} (leb : A -> A -> bool) (d : A) (l : list A) :
  (forall a b, leb a b = false -> leb b a = true) ->
  let idxs := sort_by (fun i j => leb (nth i l d) (nth j l d))
                      (seq 0 (List.length l)) in
  Permutation (select idxs l) l /\
  Sorted (fun a b => leb a b = true) (select idxs l).
Proof.
  intros Htot idxs.
  assert (Hp : Permutation idxs (seq 0 (List.length l))) by apply sort_by_perm.
  assert (Hr : Forall (fun i => (i < List.length l)%nat) idxs).
  { apply Forall_forall. intros i Hi.
    apply (Permutation_in _ Hp) in Hi. apply in_seq in Hi. lia. }
  rewrite (select_nth d idxs l Hr). split.
  - etransitivity; [apply Permutation_map, Hp |].
    pose proof (map_nth_seq d l []) as E. simpl in E. rewrite E. reflexivity.
  - assert (Hs : Sorted (fun i j => leb (nth i l d) (nth j l d) = true) idxs).
    { apply sort_by_sorted. intros a b. apply Htot. }
    clear - Hs. induction Hs as [| i idxs Hs IH Hhd]; simpl; constructor.
    + exact IH.
    + destruct Hhd; simpl; constructor. assumption.
Qed.

(** ** The window of the 24 latest rows *)

Lemma filter_present (ts : list (option Z)) :
  filter (fun t => negb (Pd.cell_isna (Pd.CTime t))) ts = map Some (present ts).
Proof.
  induction ts as [| [z |] ts IH]; simpl; [reflexivity | | exact IH].
  f_equal. exact IH.
Qed.

(** [dropna(subset=['timestamp'])] keeps the timestamps that are present. *)
Lemma dropna_timestamp_column (df : Pd.DataFrame) (ts : list (option Z)) :
  Pd.getitem df "timestamp" = Ok (Pd.SDatetime ts) ->
  exists d1, Pd.dropna_subset df "timestamp" = Ok d1 /\
             Pd.getitem d1 "timestamp" = Ok (Pd.SDatetime (map Some (present ts))).
Proof.
  intros Hts. unfold Pd.dropna_subset. rewrite Hts. cbn [bind].
  eexists. split; [reflexivity |].
  unfold Pd.filter_rows. rewrite getitem_take, Hts. cbn [bind Pd.sselect].
  unfold Pd.notna, Pd.isna. cbn [Pd.cells]. rewrite !map_map.
  rewrite (select_mask (fun t => negb (Pd.cell_isna (Pd.CTime t))) ts).
  rewrite filter_present. reflexivity.
Qed.

Lemma time_leb_total (asc : bool) (a b : Z) :
  time_leb asc a b = false -> time_leb asc b a = true.
Proof.
  unfold time_leb. destruct asc; intros H;
    apply Z.leb_gt in H; apply Z.leb_le; lia.
Qed.

Lemma Sorted_impl {A : Type} (R S : A -> A -> Prop) (l : list A) :
  (forall a b, R a b -> S a b) -> Sorted R l -> Sorted S l.
Proof.
  intros H Hs. induction Hs as [| a l Hs IH Hhd]; constructor.
  - exact IH.
  - destruct Hhd; constructor. apply H. assumption.
Qed.

(** [sort_values('timestamp')] on a frame without missing timestamps:
    the column is rearranged into the order asked for. *)
Lemma sort_values_times (d : Pd.DataFrame) (ps : list Z) (asc : bool) :
  Pd.getitem d "timestamp" = Ok (Pd.SDatetime (map Some ps)) ->
  exists d' ps',
    Pd.sort_values d "timestamp" asc = Ok d' /\
    Pd.getitem d' "timestamp" = Ok (Pd.SDatetime (map Some ps')) /\
    Permutation ps' ps /\
    Sorted (fun a b => time_leb asc a b = true) ps'.
Proof.
  intros Hts. unfold Pd.sort_values. rewrite Hts. cbn [bind Pd.cells].
  set (cs := map Pd.CTime (map Some ps)).
  assert (Hlen : List.length cs = List.length ps).
  { unfold cs. rewrite !length_map. reflexivity. }
  assert (Hext : sort_by (fun i j => Pd.order_leb asc (nth i cs (Pd.CFloat NaN))
                                       (nth j cs (Pd.CFloat NaN)))
                         (seq 0 (List.length cs))
                 = sort_by (fun i j => time_leb asc (nth i ps 0%Z) (nth j ps 0%Z))
                           (seq 0 (List.length ps))).
  { rewrite Hlen. apply sort_by_ext. intros i j Hi Hj.
    apply in_seq in Hi. apply in_seq in Hj.
    assert (Hk : forall k, (k < List.length ps)%nat ->
                   nth k cs (Pd.CFloat NaN) = Pd.CTime (Some (nth k ps 0%Z))).
    { intros k Hk. unfold cs.
      rewrite (nth_indep _ (Pd.CFloat NaN) (Pd.CTime (Some 0%Z)))
        by (rewrite !length_map; exact Hk).
      rewrite (map_nth Pd.CTime (map Some ps) (Some 0%Z)).
      rewrite (map_nth Some ps 0%Z). reflexivity. }
    rewrite !Hk by lia. unfold Pd.order_leb, time_leb. simpl.
    destruct asc; reflexivity. }
  rewrite Hext.
  destruct (sort_select (time_leb asc) 0%Z ps (time_leb_total asc)) as [Hp Hs].
  set (idxs := sort_by _ (seq 0 (List.length ps))) in *.
  exists (Pd.take idxs d), (select idxs ps).
  split; [reflexivity |]. split.
  - rewrite getitem_take, Hts. cbn [bind Pd.sselect]. rewrite select_map.
    reflexivity.
  - split; assumption.
Qed.

Lemma StronglySorted_app_inv {A : Type} (R : A -> A -> Prop) (l1 l2 : list A) :
  StronglySorted R (l1 ++ l2) ->
  forall a b, In a l1 -> In b l2 -> R a b.
Proof.
  induction l1 as [| x l1 IH]; intros Hs a b Ha Hb; [destruct Ha |].
  simpl in Hs. inversion Hs as [| ? ? Hs' Hall]; subst.
  destruct Ha as [<- | Ha].
  - rewrite Forall_forall in Hall. apply Hall. apply in_or_app. right. exact Hb.
  - apply (IH Hs' a b Ha Hb).
Qed.

(** The window of [get_dashboard_data], in Dashboard 1 and 2: after
    [dropna(subset=['timestamp'])] and
    [sort_values('timestamp', ascending=False).head(24)
      .sort_values('timestamp')]
    the frame holds the 24 latest timestamps that are present (all of
    them when there are fewer), in ascending order: no timestamp left
    out is later than one that is kept. *)
Theorem latest_rows_window (df : Pd.DataFrame) (ts : list (option Z)) :
  Pd.getitem df "timestamp" = Ok (Pd.SDatetime ts) ->
  exists d1 w zs rest,
    Pd.dropna_subset df "timestamp" = Ok d1 /\
    Dashboard1.last_24 d1 = Ok w /\
    Pd.getitem w "timestamp" = Ok (Pd.SDatetime (map Some zs)) /\
    List.length zs = Nat.min 24 (List.length (present ts)) /\
    Sorted Z.le zs /\
    Permutation (present ts) (zs ++ rest) /\
    forall a b, In a zs -> In b rest -> (b <= a)%Z.
Proof.
  intros Hts.
  destruct (dropna_timestamp_column df ts Hts) as (d1 & Hd1 & Hc1).
  destruct (sort_values_times d1 (present ts) false Hc1)
    as (d2 & ps2 & Hd2 & Hc2 & Hp2 & Hs2).
  assert (Hc3 : Pd.getitem (Pd.head 24 d2) "timestamp"
                = Ok (Pd.SDatetime (map Some (firstn 24 ps2)))).
  { unfold Pd.head. rewrite getitem_take, Hc2. cbn [bind Pd.sselect].
    rewrite select_firstn, firstn_map. reflexivity. }
  destruct (sort_values_times (Pd.head 24 d2) (firstn 24 ps2) true Hc3)
    as (w & zs & Hw & Hcw & Hpw & Hsw).
  exists d1, w, zs, (skipn 24 ps2).
  split; [exact Hd1 |]. split.
  { unfold Dashboard1.last_24. rewrite Hd2. cbn [bind]. exact Hw. }
  split; [exact Hcw |]. split.
  { rewrite (Permutation_length Hpw), length_firstn,
      (Permutation_length Hp2). reflexivity. }
  split.
  { eapply Sorted_impl; [| exact Hsw]. intros a b H. apply Z.leb_le. exact H. }
  split.
  { etransitivity; [symmetry; exact Hp2 |].
    rewrite <- (firstn_skipn 24 ps2) at 1.
    apply Permutation_app_tail. symmetry. exact Hpw. }
  intros a b Ha Hb.
  apply (Permutation_in _ Hpw) in Ha.
  assert (Hss : StronglySorted (fun x y => (y <= x)%Z) ps2).
  { apply Sorted_StronglySorted.
    - intros x y z Hxy Hyz. lia.
    - eapply Sorted_impl; [| exact Hs2]. intros x y H. apply Z.leb_le. exact H. }
  rewrite <- (firstn_skipn 24 ps2) in Hss.
  apply (StronglySorted_app_inv _ _ _ Hss a b Ha Hb).
Qed.

Lemma latest_rows_window_witness :
  exists d1 w zs rest,
    Pd.dropna_subset Fixtures.thirty_hours "timestamp" = Ok d1 /\
    Dashboard1.last_24 d1 = Ok w /\
    Pd.getitem w "timestamp" = Ok (Pd.SDatetime (map Some zs)) /\
    List.length zs
      = Nat.min 24 (List.length
                      (present (Fixtures.timestamps_of Fixtures.thirty_hours))) /\
    Sorted Z.le zs /\
    Permutation (present (Fixtures.timestamps_of Fixtures.thirty_hours))
                (zs ++ rest) /\
    forall a b, In a zs -> In b rest -> (b <= a)%Z.
Proof.
  apply (latest_rows_window Fixtures.thirty_hours
           (Fixtures.timestamps_of Fixtures.thirty_hours)).
  reflexivity.
Defined.

(** ** The list of cities *)

Lemma cell_same_refl (c : Pd.cell) : Pd.cell_same c c = true.
Proof.
  destruct c as [s | [x |] | [t |]]; unfold Pd.cell_same; simpl;
    try reflexivity.
  - rewrite String.eqb_refl. reflexivity.
  - assert (E : Qeq_bool x x = true) by (apply Qeq_bool_iff; reflexivity).
    rewrite E. reflexivity.
  - rewrite Z.eqb_refl. reflexivity.
Qed.

Lemma cell_same_sym (a b : Pd.cell) : Pd.cell_same a b = Pd.cell_same b a.
Proof.
  destruct a as [s | [x |] | [t |]], b as [s' | [x' |] | [t' |]];
    unfold Pd.cell_same; simpl; try reflexivity.
  - rewrite String.eqb_sym. reflexivity.
  - destruct (Qeq_bool x x') eqn:E, (Qeq_bool x' x) eqn:E'; try reflexivity.
    + apply Qeq_bool_iff in E. symmetry in E. apply Qeq_bool_iff in E. congruence.
    + apply Qeq_bool_iff in E'. symmetry in E'. apply Qeq_bool_iff in E'. congruence.
  - rewrite Z.eqb_sym. reflexivity.
Qed.

Lemma cell_same_trans (a b c : Pd.cell) :
  Pd.cell_same a b = true -> Pd.cell_same b c = true -> Pd.cell_same a c = true.
Proof.
  destruct a as [s | [x |] | [t |]], b as [s' | [x' |] | [t' |]],
    c as [s'' | [x'' |] | [t'' |]];
    unfold Pd.cell_same; simpl; try discriminate; try reflexivity;
    rewrite ?orb_false_r; intros H1 H2.
  - apply String.eqb_eq in H1. apply String.eqb_eq in H2. subst.
    apply String.eqb_refl.
  - apply Qeq_bool_iff in H1. apply Qeq_bool_iff in H2. apply Qeq_bool_iff.
    rewrite H1. exact H2.
  - apply Z.eqb_eq in H1. apply Z.eqb_eq in H2. subst. apply Z.eqb_refl.
Qed.

Lemma unique_cells_sub (l : list Pd.cell) (c : Pd.cell) :
  In c (Pd.unique_cells l) -> In c l.
Proof.
  induction l as [| a l IH]; simpl; [tauto |].
  intros [<- | H]; [left; reflexivity |].
  apply filter_In in H. right. apply IH, H.
Qed.

Lemma unique_cells_complete (l : list Pd.cell) (c : Pd.cell) :
  In c l -> exists u, In u (Pd.unique_cells l) /\ Pd.cell_same u c = true.
Proof.
  induction l as [| a l IH]; simpl; [tauto |].
  intros [<- | H].
  - exists a. split; [left; reflexivity | apply cell_same_refl].
  - destruct (IH H) as (u & Hu & Hs).
    destruct (Pd.cell_same a u) eqn:E.
    + exists a. split; [left; reflexivity |].
      apply (cell_same_trans a u c E Hs).
    + exists u. split; [| exact Hs]. right. apply filter_In.
      split; [exact Hu |]. rewrite E. reflexivity.
Qed.

Lemma ForallOrdPairs_filter {A : Type} (R : A -> A -> Prop) (f : A -> bool)
  (l : list A) :
  ForallOrdPairs R l -> ForallOrdPairs R (filter f l).
Proof.
  intros H. induction H as [| a l Ha Hl IH]; simpl; [constructor |].
  destruct (f a); [| exact IH].
  constructor; [| exact IH].
  rewrite Forall_forall in Ha |- *. intros x Hx. apply Ha.
  apply filter_In in Hx. apply Hx.
Qed.

Lemma unique_cells_distinct (l : list Pd.cell) :
  ForallOrdPairs (fun a b => Pd.cell_same a b = false) (Pd.unique_cells l).
Proof.
  induction l as [| a l IH]; simpl; constructor.
  - apply Forall_forall. intros x Hx. apply filter_In in Hx.
    destruct Hx as [_ Hx]. destruct (Pd.cell_same a x); [discriminate | reflexivity].
  - apply ForallOrdPairs_filter, IH.
Qed.

Lemma ForallOrdPairs_perm {A : Type} (R : A -> A -> Prop) (l l' : list A) :
  (forall a b, R a b -> R b a) ->
  Permutation l l' -> ForallOrdPairs R l -> ForallOrdPairs R l'.
Proof.
  intros Hsym Hp. induction Hp as [| x l l' Hp IH | x y l | l l' l'' _ IH1 _ IH2];
    intros H.
  - exact H.
  - inversion H as [| ? ? Hx Hl]; subst. constructor; [| apply IH, Hl].
    rewrite Forall_forall in Hx |- *. intros z Hz. apply Hx.
    eapply Permutation_in; [symmetry; exact Hp | exact Hz].
  - inversion H as [| ? ? Hy Hl]; subst.
    inversion Hl as [| ? ? Hx Hl']; subst.
    inversion Hy as [| ? ? Hyx Hy']; subst.
    constructor; [constructor; [apply Hsym, Hyx | exact Hx] |].
    constructor; assumption.
  - apply IH2, IH1, H.
Qed.

Lemma cell_leb_total (a b : Pd.cell) :
  Pd.cell_leb a b = false -> Pd.cell_leb b a = true.
Proof.
  destruct a as [s | [x |] | [t |]], b as [s' | [x' |] | [t' |]]; simpl;
    try discriminate; try reflexivity; intros H.
  - destruct (String.leb_total s s') as [E | E]; congruence.
  - apply Qle_bool_iff. destruct (Qlt_le_dec x' x) as [L | L].
    + apply Qlt_le_weak, L.
    + apply Qle_bool_iff in L. congruence.
  - apply Z.leb_gt in H. apply Z.leb_le. lia.
Qed.

Lemma cells_sdropna (s : Pd.Series) :
  Pd.cells (Pd.sdropna s)
    = filter (fun c => negb (Pd.cell_isna c)) (Pd.cells s).
Proof.
  unfold Pd.sdropna, Pd.notna, Pd.isna. rewrite map_map.
  rewrite <- (select_mask (fun c => negb (Pd.cell_isna c)) (Pd.cells s)).
  destruct s as [l | l | l]; simpl; rewrite select_map; reflexivity.
Qed.

(** [DataHandler.get_available_cities] of Dashboard 3.  When it returns,
    the list is in ascending order, names no city twice and holds no
    missing value; it holds exactly the values of the column 'City' that
    are present.  When the column holds both a text and a number it
    raises, and the route [/api/cities] answers with status 500.
    Without a column 'City' the list is empty. *)
Theorem available_cities_sorted_unique (df : Pd.DataFrame) :
  (forall s cs,
      Pd.getitem df "City" = Ok s ->
      Dashboard3.get_available_cities df = Ok cs ->
      Sorted (fun a b => Pd.cell_leb a b = true) cs /\
      ForallOrdPairs (fun a b => Pd.cell_same a b = false) cs /\
      (forall c, In c cs -> In c (Pd.cells s) /\ Pd.cell_isna c = false) /\
      (forall c, In c (Pd.cells s) -> Pd.cell_isna c = false ->
                 exists u, In u cs /\ Pd.cell_same u c = true)) /\
  (forall s t x,
      Pd.getitem df "City" = Ok s ->
      In (Pd.CStr t) (Pd.cells s) -> In (Pd.CFloat (Fin x)) (Pd.cells s) ->
      is_ok (Dashboard3.get_available_cities df) = false /\
      snd (Dashboard3.api_cities df) = 500%Z) /\
  (Pd.has_column df "City" = false ->
   Dashboard3.get_available_cities df = Ok []).
Proof.
  split; [| split].
  - intros s cs Hs Hcs.
    unfold Dashboard3.get_available_cities in Hcs.
    rewrite (getitem_has_column df "City" s Hs), Hs in Hcs. cbn [bind] in Hcs.
    unfold Dashboard3.sorted in Hcs.
    destruct (_ || _); [| discriminate Hcs].
    assert (E : cs = sort_by Pd.cell_leb (Pd.unique (Pd.sdropna s)))
      by congruence.
    clear Hcs. unfold Pd.unique in E. rewrite cells_sdropna in E.
    set (l := filter (fun c => negb (Pd.cell_isna c)) (Pd.cells s)) in *.
    assert (Hp : Permutation cs (Pd.unique_cells l))
      by (rewrite E; apply sort_by_perm).
    split; [rewrite E; apply sort_by_sorted, cell_leb_total |].
    split.
    { apply (ForallOrdPairs_perm _ (Pd.unique_cells l) cs).
      - intros a b H. rewrite cell_same_sym. exact H.
      - symmetry. exact Hp.
      - apply unique_cells_distinct. }
    split.
    + intros c Hc. apply (Permutation_in _ Hp), unique_cells_sub in Hc.
      apply filter_In in Hc. destruct Hc as [Hin Hna].
      split; [exact Hin |]. destruct (Pd.cell_isna c); [discriminate | reflexivity].
    + intros c Hc Hna.
      destruct (unique_cells_complete l c) as (u & Hu & Hsame).
      { apply filter_In. split; [exact Hc |]. rewrite Hna. reflexivity. }
      exists u. split; [| exact Hsame].
      eapply Permutation_in; [symmetry; exact Hp | exact Hu].
  - intros s t x Hs Ht Hx.
    assert (Hr : is_ok (Dashboard3.get_available_cities df) = false).
    { unfold Dashboard3.get_available_cities.
      rewrite (getitem_has_column df "City" s Hs), Hs. cbn [bind].
      unfold Dashboard3.sorted, Pd.unique. rewrite cells_sdropna.
      set (l := filter (fun c => negb (Pd.cell_isna c)) (Pd.cells s)).
      destruct (unique_cells_complete l (Pd.CStr t)) as (u & Hu & Hsu).
      { apply filter_In. split; [exact Ht | reflexivity]. }
      destruct (unique_cells_complete l (Pd.CFloat (Fin x))) as (v & Hv & Hsv).
      { apply filter_In. split; [exact Hx | reflexivity]. }
      assert (Hut : Dashboard3.is_text u = true /\ Dashboard3.is_number u = false
                    /\ Dashboard3.is_time u = false).
      { destruct u as [? | [? |] | [? |]]; try discriminate Hsu.
        repeat split. }
      assert (Hvn : Dashboard3.is_text v = false /\ Dashboard3.is_time v = false).
      { destruct v as [? | [? |] | [? |]]; try discriminate Hsv.
        repeat split. }
      assert (F1 : forallb Dashboard3.is_text (Pd.unique_cells l) = false).
      { destruct (forallb Dashboard3.is_text (Pd.unique_cells l)) eqn:F;
          [| reflexivity].
        rewrite forallb_forall in F. rewrite (F v Hv) in Hvn.
        destruct Hvn; discriminate. }
      assert (F2 : forallb Dashboard3.is_number (Pd.unique_cells l) = false).
      { destruct (forallb Dashboard3.is_number (Pd.unique_cells l)) eqn:F;
          [| reflexivity].
        rewrite forallb_forall in F. rewrite (F u Hu) in Hut.
        destruct Hut as (_ & ? & _); discriminate. }
      assert (F3 : forallb Dashboard3.is_time (Pd.unique_cells l) = false).
      { destruct (forallb Dashboard3.is_time (Pd.unique_cells l)) eqn:F;
          [| reflexivity].
        rewrite forallb_forall in F. rewrite (F u Hu) in Hut.
        destruct Hut as (_ & _ & ?); discriminate. }
      rewrite F1, F2, F3. reflexivity. }
    split; [exact Hr |].
    unfold Dashboard3.api_cities.
    destruct (Dashboard3.get_available_cities df); [discriminate Hr | reflexivity].
  - intros H. unfold Dashboard3.get_available_cities. rewrite H. reflexivity.
Qed.

Lemma available_cities_sorted_unique_witness :
  (Sorted (fun a b => Pd.cell_leb a b = true) [Pd.CStr "Delhi"; Pd.CStr "Pune"] /\
   ForallOrdPairs (fun a b => Pd.cell_same a b = false)
                  [Pd.CStr "Delhi"; Pd.CStr "Pune"] /\
   (forall c, In c [Pd.CStr "Delhi"; Pd.CStr "Pune"] ->
              In c (Pd.cells Fixtures.cities_column) /\ Pd.cell_isna c = false) /\
   (forall c, In c (Pd.cells Fixtures.cities_column) -> Pd.cell_isna c = false ->
              exists u, In u [Pd.CStr "Delhi"; Pd.CStr "Pune"] /\
                        Pd.cell_same u c = true)) /\
  (is_ok (Dashboard3.get_available_cities Fixtures.mixed_cities) = false /\
   snd (Dashboard3.api_cities Fixtures.mixed_cities) = 500%Z) /\
  Dashboard3.get_available_cities Pd.empty_frame = Ok [].
Proof.
  split; [| split].
  - apply (proj1 (available_cities_sorted_unique Fixtures.two_cities)
             Fixtures.cities_column [Pd.CStr "Delhi"; Pd.CStr "Pune"]);
      reflexivity.
  - apply (proj1 (proj2 (available_cities_sorted_unique Fixtures.mixed_cities))
             (Pd.SObject [Pd.OStr "Pune"; Pd.ONum (Fin 7)]) "Pune"%string 7).
    + reflexivity.
    + simpl; tauto.
    + simpl; tauto.
  - apply (proj2 (proj2 (available_cities_sorted_unique Pd.empty_frame))).
    reflexivity.
Defined.

(** ** The routes of Dashboard 1 *)

Lemma json_induction (P : json -> Prop) :
  P JNone -> (forall z, P (JInt z)) -> (forall x, P (JFloat x)) ->
  (forall s, P (JStr s)) ->
  (forall l, Forall P l -> P (JList l)) ->
  (forall d, Forall (fun kv => P (snd kv)) d -> P (JDict d)) ->
  (forall b, P (JInf b)) -> P JNaT ->
  forall j, P j.
Proof.
  intros HN HI HF HS HL HD HInf HT.
  refine (fix F (j : json) : P j :=
            match j with
            | JNone => HN
            | JInt z => HI z
            | JFloat x => HF x
            | JStr s => HS s
            | JList l =>
                HL l ((fix G (l : list json) : Forall P l :=
                         match l with
                         | [] => Forall_nil P
                         | a :: l' => Forall_cons a (F a) (G l')
                         end) l)
            | JDict d =>
                HD d ((fix G (d : list (string * json))
                         : Forall (fun kv => P (snd kv)) d :=
                         match d with
                         | [] => Forall_nil _
                         | kv :: d' =>
                             Forall_cons kv
                               (match kv as kv0 return P (snd kv0) with
                                | (k, v) => F v
                                end)
                               (G d')
                         end) d)
            | JInf b => HInf b
            | JNaT => HT
            end).
Qed.

Lemma sanitize_finite (j : json) :
  json_finite (Dashboard1App.sanitize_for_json j) = true.
Proof.
  induction j as [| z | x | s | l H | d H | b |] using json_induction;
    try reflexivity.
  - destruct x; reflexivity.
  - simpl. apply forallb_forall. intros y Hy. apply in_map_iff in Hy.
    destruct Hy as (a & <- & Ha). rewrite Forall_forall in H. apply H, Ha.
  - simpl. apply forallb_forall. intros y Hy. apply in_map_iff in Hy.
    destruct Hy as ([k v] & <- & Ha). rewrite Forall_forall in H.
    apply (H (k, v) Ha).
Qed.

Lemma sanitize_fixed (j : json) :
  json_finite j = true -> Dashboard1App.sanitize_for_json j = j.
Proof.
  induction j as [| z | x | s | l H | d H | b |] using json_induction;
    try reflexivity.
  - destruct x; [reflexivity | discriminate].
  - simpl. intros Hf. f_equal. rewrite forallb_forall in Hf.
    rewrite <- (map_id l) at 2. apply map_ext_in. intros a Ha.
    rewrite Forall_forall in H. apply H; [exact Ha | apply Hf, Ha].
  - simpl. intros Hf. f_equal. rewrite forallb_forall in Hf.
    rewrite <- (map_id d) at 2. apply map_ext_in. intros [k v] Ha.
    rewrite Forall_forall in H. f_equal.
    apply (H (k, v) Ha). apply (Hf (k, v) Ha).
  - discriminate.
Qed.

Lemma sanitize_keys (j : json) :
  json_keys (Dashboard1App.sanitize_for_json j) = json_keys j.
Proof.
  destruct j as [| | [|] | | | | |]; try reflexivity.
  simpl. unfold dict_keys. rewrite map_map. apply map_ext.
  intros [k v]. reflexivity.
Qed.

(** [sanitize_for_json]: the result holds no NaN and no infinity: each
    of them has become [None]; a value that holds neither is returned
    as it is, so that sanitising twice is sanitising once; the keys of
    an object and the length of a list are kept. *)
Theorem sanitize_for_json_spec (j : json) :
  json_finite (Dashboard1App.sanitize_for_json j) = true /\
  (json_finite j = true -> Dashboard1App.sanitize_for_json j = j) /\
  Dashboard1App.sanitize_for_json (Dashboard1App.sanitize_for_json j)
    = Dashboard1App.sanitize_for_json j /\
  json_keys (Dashboard1App.sanitize_for_json j) = json_keys j /\
  (forall l, j = JList l ->
             Dashboard1App.sanitize_for_json j
               = JList (map Dashboard1App.sanitize_for_json l)) /\
  Dashboard1App.sanitize_for_json (JFloat NaN) = JNone /\
  (forall negative, Dashboard1App.sanitize_for_json (JInf negative) = JNone).
Proof.
  split; [apply sanitize_finite |]. split; [apply sanitize_fixed |].
  split; [apply sanitize_fixed, sanitize_finite |].
  split; [apply sanitize_keys |].
  split; [intros l ->; reflexivity |].
  split; reflexivity.
Qed.

Lemma sanitize_for_json_spec_witness :
  json_finite (Dashboard1App.sanitize_for_json Fixtures.with_nan) = true /\
  Dashboard1App.sanitize_for_json (JDict [("y", JList [JFloat (Fin 1)])]%string)
    = JDict [("y", JList [JFloat (Fin 1)])]%string /\
  Dashboard1App.sanitize_for_json (JList [JFloat NaN; JInf true; JNone])
    = JList (map Dashboard1App.sanitize_for_json [JFloat NaN; JInf true; JNone]).
Proof.
  split; [apply (proj1 (sanitize_for_json_spec Fixtures.with_nan)) |].
  split.
  - apply (proj1 (proj2 (sanitize_for_json_spec
                           (JDict [("y", JList [JFloat (Fin 1)])]%string)))).
    reflexivity.
  - apply (proj1 (proj2 (proj2 (proj2 (proj2 (sanitize_for_json_spec
                                         (JList [JFloat NaN; JInf true; JNone]))))))
             [JFloat NaN; JInf true; JNone]).
    reflexivity.
Defined.

(** [get_available_cities] of Dashboard 1, once the data is loaded: it
    leaves the state as it is and returns every value of the column
    'City' once, the city of the first row first. *)
Theorem get_available_cities_distinct
  (parse_float : string -> option Q) (parse_datetime : string -> option Z)
  (data_file : option Pd.DataFrame)
  (g : Py.state) (rd : Py.ref) (d : Pd.DataFrame) (s : Pd.Series) :
  Py.air_aware_data g = Some rd ->
  nth_error (Py.objects g) rd = Some (Py.OFrame d) ->
  Pd.getitem d "City" = Ok s ->
  exists cs,
    Dashboard1.get_available_cities parse_float parse_datetime data_file g
      = (Ok cs, g) /\
    ForallOrdPairs (fun a b => Pd.cell_same a b = false) cs /\
    (forall c, In c cs -> In c (Pd.cells s)) /\
    (forall c, In c (Pd.cells s) ->
               exists u, In u cs /\ Pd.cell_same u c = true) /\
    List.hd_error cs = List.hd_error (Pd.cells s).
Proof.
  intros Hd Hfr Hs. exists (Pd.unique s). split.
  - unfold Dashboard1.get_available_cities, Py.mbind, Py.global_air_aware_data,
      Py.ret, Py.get_frame, Py.lift.
    rewrite Hd. rewrite Hd, Hfr.
    rewrite (getitem_has_column d "City" s Hs), Hs. reflexivity.
  - unfold Pd.unique.
    split; [apply unique_cells_distinct |].
    split; [apply unique_cells_sub |].
    split; [apply unique_cells_complete |].
    destruct (Pd.cells s); reflexivity.
Qed.

Lemma get_available_cities_distinct_witness :
  exists cs,
    Dashboard1.get_available_cities Fixtures.text_is_no_number
      Fixtures.hours_of_text (Some Fixtures.four_rows) (snd Fixtures.load_cities)
      = (Ok cs, snd Fixtures.load_cities) /\
    ForallOrdPairs (fun a b => Pd.cell_same a b = false) cs /\
    (forall c, In c cs ->
               In c (Pd.cells (Pd.SObject [Pd.OStr "Delhi"; Pd.OStr "Pune";
                                           Pd.OStr "Delhi"; Pd.OStr "Mumbai"]))) /\
    (forall c, In c (Pd.cells (Pd.SObject [Pd.OStr "Delhi"; Pd.OStr "Pune";
                                           Pd.OStr "Delhi"; Pd.OStr "Mumbai"])) ->
               exists u, In u cs /\ Pd.cell_same u c = true) /\
    List.hd_error cs
      = List.hd_error (Pd.cells (Pd.SObject [Pd.OStr "Delhi"; Pd.OStr "Pune";
                                             Pd.OStr "Delhi"; Pd.OStr "Mumbai"])).
Proof.
  apply (get_available_cities_distinct Fixtures.text_is_no_number
           Fixtures.hours_of_text (Some Fixtures.four_rows)
           (snd Fixtures.load_cities) 1%nat
           (Fixtures.stored_frame (snd Fixtures.load_cities))
           (Pd.SObject [Pd.OStr "Delhi"; Pd.OStr "Pune";
                        Pd.OStr "Delhi"; Pd.OStr "Mumbai"]));
    vm_compute; reflexivity.
Defined.

(** ** The dashboard data and the routes of Dashboard 3 *)

Lemma slen_sselect (idxs : list nat) (s : Pd.Series) :
  (Pd.slen (Pd.sselect idxs s) <= List.length idxs)%nat.
Proof.
  assert (H : forall (A : Type) (l : list A),
             (List.length (select idxs l) <= List.length idxs)%nat).
  { intros A l. unfold select. induction idxs as [| i idxs IH]; simpl; [lia |].
    rewrite length_app. destruct (nth_error l i); simpl; lia. }
  destruct s; simpl; apply H.
Qed.

(** The records of the last [n] rows of some columns are at most [n]. *)
Lemma tail_records (cols : list string) (n : nat) (df d : Pd.DataFrame) :
  Pd.select_columns cols (Pd.tail n df) = Ok d ->
  (List.length (Pd.to_records d) <= n)%nat.
Proof.
  intros H. unfold Pd.to_records. rewrite length_map, length_seq.
  unfold Pd.select_columns in H.
  destruct cols as [| c cols]; simpl in H.
  - inversion H; subst. simpl. lia.
  - bind_inv H. bind_inv Hv. inversion Hv; subst. clear Hv.
    bind_inv H. inversion H; subst. simpl.
    unfold Pd.tail in Hv0. rewrite getitem_take in Hv0.
    bind_inv Hv0. inversion Hv0; subst.
    etransitivity; [apply slen_sselect |]. rewrite length_seq. lia.
Qed.

Lemma category_alert (avg : Q) :
  json_get (Dashboard3.aqi_alert (Fin avg)) "type" = Some (JStr "success")
  <-> (Dashboard3.category_of (Fin avg) = "Good"%string \/
       Dashboard3.category_of (Fin avg) = "Satisfactory"%string).
Proof.
  unfold Dashboard3.aqi_alert, Dashboard3.category_of.
  cbn [fgtb fltb fleb fgeb].
  destruct (Qle_bool avg 150) eqn:E150, (Qle_bool avg 100) eqn:E100,
    (Qle_bool avg 50) eqn:E50, (Qle_bool avg 200) eqn:E200,
    (Qle_bool avg 300) eqn:E300, (Qle_bool avg 400) eqn:E400;
    cbv; split; intros H;
    try discriminate H; try (destruct H as [H | H]; discriminate H);
    try (left; reflexivity); try (right; reflexivity); try reflexivity;
    exfalso;
    repeat match goal with
           | E : Qle_bool _ _ = true |- _ => apply Qle_bool_iff in E
           | E : Qle_bool ?a ?b = false |- _ =>
               assert (b < a)
                 by (apply Qnot_le_lt; intros C; apply Qle_bool_iff in C;
                     congruence);
               clear E
           end; lra.
Qed.

(** What [DataHandler.get_dashboard_data] returns. *)
Lemma dashboard3_inv (df : Pd.DataFrame) (city : string) (j : json) :
  Dashboard3.get_dashboard_data df city = Ok j ->
  j = JDict [("error", JStr ("No data found for city: " ++ city))]%string \/
  exists avg forecast pollutants alerts,
    j = JDict [ ("city", JStr city);
                ("AQI", JFloat (Fin avg));
                ("category", JStr (Dashboard3.category_of (Fin avg)));
                ("forecast", JList forecast);
                ("pollutants", JList pollutants);
                ("alerts", JList (Dashboard3.aqi_alert (Fin avg) :: alerts)) ]%string /\
    (List.length forecast <= 7)%nat /\
    (List.length pollutants <= 24)%nat /\
    (List.length alerts <= 1)%nat.
Proof.
  unfold Dashboard3.get_dashboard_data. intros H. bind_inv H.
  destruct (Pd.empty v); [left; congruence | right].
  bind_inv H. bind_inv H.
  match type of H with
  | context [if isnan ?m then Fin 0 else round2 ?m] =>
      assert (Havg : exists avg, (if isnan m then Fin 0 else round2 m) = Fin avg)
        by (destruct m; simpl; eexists; reflexivity)
  end.
  destruct Havg as [avg Havg]. rewrite Havg in H.
  bind_inv H. bind_inv H. bind_inv H. inversion H; subst. clear H.
  exists avg. eexists. eexists. eexists. split; [reflexivity |].
  split; [| split].
  - destruct (Pd.has_column v "Time").
    + bind_inv Hv2. inversion Hv2; subst. eapply tail_records. eassumption.
    + inversion Hv2; subst. simpl. lia.
  - destruct (filter (Pd.has_column v) _).
    + inversion Hv3; subst. simpl. lia.
    + bind_inv Hv3. inversion Hv3; subst. eapply tail_records. eassumption.
  - unfold Dashboard3.ozone_alert in Hv4.
    destruct (Pd.has_column v "O3").
    + bind_inv Hv4. bind_inv Hv4. bind_inv Hv4. inversion Hv4; subst.
      match goal with
      | |- context [if ?b then _ else _] => destruct b
      end; simpl; lia.
    + inversion Hv4; subst. simpl. lia.
Qed.
(** [DataHandler.get_dashboard_data] of Dashboard 3, when it returns:
    either the one field 'error' with the name of the city, or exactly
    the fields 'city', 'AQI', 'category', 'forecast', 'pollutants' and
    'alerts'.  Then 'AQI' is a number, never NaN; 'category' is the
    class of that number; 'forecast' has at most 7 and 'pollutants' at
    most 24 records; 'alerts' holds the alert for that number and at
    most one more; and the first alert is of type 'success' exactly
    when the category is 'Good' or 'Satisfactory'. *)
Theorem dashboard3_response (df : Pd.DataFrame) (city : string) (j : json) :
  Dashboard3.get_dashboard_data df city = Ok j ->
  j = JDict [("error", JStr ("No data found for city: " ++ city))]%string \/
  (json_keys j = dashboard3_fields /\
   exists avg first alerts forecast pollutants,
     json_get j "AQI" = Some (JFloat (Fin avg)) /\
     json_get j "category" = Some (JStr (Dashboard3.category_of (Fin avg))) /\
     json_get j "alerts" = Some (JList (first :: alerts)) /\
     first = Dashboard3.aqi_alert (Fin avg) /\
     (List.length alerts <= 1)%nat /\
     (json_get first "type" = Some (JStr "success") <->
      (Dashboard3.category_of (Fin avg) = "Good"%string \/
       Dashboard3.category_of (Fin avg) = "Satisfactory"%string)) /\
     json_get j "forecast" = Some (JList forecast) /\
     (List.length forecast <= 7)%nat /\
     json_get j "pollutants" = Some (JList pollutants) /\
     (List.length pollutants <= 24)%nat).
Proof.
  intros H. apply dashboard3_inv in H.
  destruct H as [-> | (avg & fc & pol & al & -> & Hfc & Hpol & Hal)];
    [left; reflexivity | right].
  split; [reflexivity |].
  exists avg, (Dashboard3.aqi_alert (Fin avg)), al, fc, pol.
  repeat (split; [reflexivity || assumption |]).
  split; [apply category_alert |].
  repeat (split; [reflexivity || assumption |]). exact Hpol.
Qed.

Lemma dashboard3_response_witness :
  Fixtures.value_of (Dashboard3.get_dashboard_data Fixtures.two_cities "Pune")
    = JDict [("error", JStr ("No data found for city: " ++ "Pune"))]%string \/
  (json_keys (Fixtures.value_of
                (Dashboard3.get_dashboard_data Fixtures.two_cities "Pune"))
     = dashboard3_fields /\
   exists avg first alerts forecast pollutants,
     json_get (Fixtures.value_of
                 (Dashboard3.get_dashboard_data Fixtures.two_cities "Pune"))
              "AQI" = Some (JFloat (Fin avg)) /\
     json_get (Fixtures.value_of
                 (Dashboard3.get_dashboard_data Fixtures.two_cities "Pune"))
              "category" = Some (JStr (Dashboard3.category_of (Fin avg))) /\
     json_get (Fixtures.value_of
                 (Dashboard3.get_dashboard_data Fixtures.two_cities "Pune"))
              "alerts" = Some (JList (first :: alerts)) /\
     first = Dashboard3.aqi_alert (Fin avg) /\
     (List.length alerts <= 1)%nat /\
     (json_get first "type" = Some (JStr "success") <->
      (Dashboard3.category_of (Fin avg) = "Good"%string \/
       Dashboard3.category_of (Fin avg) = "Satisfactory"%string)) /\
     json_get (Fixtures.value_of
                 (Dashboard3.get_dashboard_data Fixtures.two_cities "Pune"))
              "forecast" = Some (JList forecast) /\
     (List.length forecast <= 7)%nat /\
     json_get (Fixtures.value_of
                 (Dashboard3.get_dashboard_data Fixtures.two_cities "Pune"))
              "pollutants" = Some (JList pollutants) /\
     (List.length pollutants <= 24)%nat).
Proof.
  apply (dashboard3_response Fixtures.two_cities "Pune").
  vm_compute; reflexivity.
Defined.

(** The route [/api/current_aqi] of Dashboard 3.  Status 400 is the
    answer to a request without a city, or with an empty one; 404 the
    answer when the data holds no row of the city; 200 comes with the
    value of [get_dashboard_data], which has the six fields and holds no
    NaT; every exception inside the [try] is answered with status 500
    and the one field 'error': an exception of [get_dashboard_data], as
    the [KeyError] for data without a column 'City', and the exception
    of [jsonify] for a value that holds a NaT, a row without a time
    among the records. *)
Theorem api_current_aqi_status (nat_error : exn) (df : Pd.DataFrame) :
  (forall (city : option string) (body : json) (status : Z),
      Dashboard3.api_current_aqi nat_error df city = (body, status) ->
      (status = 400%Z /\ (city = None \/ city = Some ""%string) /\
       body = JDict [("error", JStr "City parameter missing")]%string) \/
      (status = 404%Z /\
       exists c, city = Some c /\
                 body = JDict [("error", JStr ("No data found for city: " ++ c))]%string) \/
      (status = 200%Z /\ json_keys body = dashboard3_fields /\
       Dashboard3.serializable body = true /\
       exists c, city = Some c /\ Dashboard3.get_dashboard_data df c = Ok body) \/
      (status = 500%Z /\ json_keys body = ["error"%string] /\
       exists c, city = Some c /\
                 (is_ok (Dashboard3.get_dashboard_data df c) = false \/
                  exists data, Dashboard3.get_dashboard_data df c = Ok data /\
                               Dashboard3.serializable data = false /\
                               body = JDict [("error", JStr (str_of_exn nat_error))]%string))) /\
  (forall c, c <> ""%string -> Pd.has_column df "City" = false ->
             snd (Dashboard3.api_current_aqi nat_error df (Some c)) = 500%Z) /\
  (forall c data, c <> ""%string ->
                  Dashboard3.get_dashboard_data df c = Ok data ->
                  Dashboard3.serializable data = false ->
                  Dashboard3.api_current_aqi nat_error df (Some c)
                  = (JDict [("error", JStr (str_of_exn nat_error))]%string, 500%Z)).
Proof.
  split; [| split].
  - intros city body status H. unfold Dashboard3.api_current_aqi in H.
    destruct city as [c |].
    2:{ inversion H; subst. left. repeat split. left. reflexivity. }
    destruct (String.eqb c "") eqn:E.
    { apply String.eqb_eq in E. subst c. inversion H; subst.
      left. repeat split. right. reflexivity. }
    destruct (Dashboard3.get_dashboard_data df c) as [data | e] eqn:Hd.
    + cbn [bind] in H. unfold Dashboard3.jsonify in H.
      destruct (dashboard3_inv df c data Hd)
        as [-> | (avg & fc & pol & al & -> & _)].
      * cbn in H. inversion H; subst. right. left.
        split; [reflexivity |]. exists c. split; reflexivity.
      * match type of H with
        | context [if Dashboard3.serializable ?j then _ else _] =>
            destruct (Dashboard3.serializable j) eqn:Es
        end.
        -- cbn in H. inversion H; subst. right. right. left.
           split; [reflexivity |]. split; [reflexivity |].
           split; [exact Es |]. exists c. split; [reflexivity | exact Hd].
        -- cbn in H. inversion H; subst. right. right. right.
           split; [reflexivity |]. split; [reflexivity |].
           exists c. split; [reflexivity |]. right.
           eexists. split; [exact Hd |]. split; [exact Es | reflexivity].
    + inversion H; subst. right. right. right.
      split; [reflexivity |]. split; [reflexivity |].
      exists c. split; [reflexivity |]. left. rewrite Hd. reflexivity.
  - intros c Hc Hno. unfold Dashboard3.api_current_aqi.
    destruct (String.eqb c "") eqn:E;
      [apply String.eqb_eq in E; contradiction |].
    unfold Dashboard3.get_dashboard_data, Dashboard3.city_rows.
    apply has_column_false in Hno.
    destruct (Pd.getitem df "City"); [discriminate Hno | reflexivity].
  - intros c data Hc Hd Hs. unfold Dashboard3.api_current_aqi.
    destruct (String.eqb c "") eqn:E;
      [apply String.eqb_eq in E; contradiction |].
    rewrite Hd. cbn [bind]. unfold Dashboard3.jsonify. rewrite Hs.
    destruct (json_has_key "error" data); reflexivity.
Qed.

Lemma api_current_aqi_status_witness :
  ((snd (Dashboard3.api_current_aqi Fixtures.nat_error Fixtures.two_cities
           (Some "Pune"%string)) = 200%Z /\
    json_keys (fst (Dashboard3.api_current_aqi Fixtures.nat_error
                      Fixtures.two_cities (Some "Pune"%string)))
      = dashboard3_fields) /\
   snd (Dashboard3.api_current_aqi Fixtures.nat_error Fixtures.two_cities
          (Some "Goa"%string)) = 404%Z) /\
  snd (Dashboard3.api_current_aqi Fixtures.nat_error Pd.empty_frame
         (Some "Pune"%string)) = 500%Z /\
  Dashboard3.api_current_aqi Fixtures.nat_error Fixtures.pune_without_time
    (Some "Pune"%string)
  = (JDict [("error", JStr "NaTType does not support timetuple")]%string, 500%Z).
Proof.
  split; [split |].
  - destruct (proj1 (api_current_aqi_status Fixtures.nat_error Fixtures.two_cities)
                (Some "Pune"%string)
                (fst (Dashboard3.api_current_aqi Fixtures.nat_error
                        Fixtures.two_cities (Some "Pune"%string)))
                (snd (Dashboard3.api_current_aqi Fixtures.nat_error
                        Fixtures.two_cities (Some "Pune"%string)))
                eq_refl)
      as [(H & _) | [(H & _) | [(H1 & H2 & _) | (H & _)]]];
      try (vm_compute in H; discriminate H).
    split; assumption.
  - destruct (proj1 (api_current_aqi_status Fixtures.nat_error Fixtures.two_cities)
                (Some "Goa"%string)
                (fst (Dashboard3.api_current_aqi Fixtures.nat_error
                        Fixtures.two_cities (Some "Goa"%string)))
                (snd (Dashboard3.api_current_aqi Fixtures.nat_error
                        Fixtures.two_cities (Some "Goa"%string)))
                eq_refl)
      as [(H & _) | [(H & _) | [(H & _) | (H & _)]]];
      try (vm_compute in H; discriminate H).
    exact H.
  - split.
    + apply (proj1 (proj2 (api_current_aqi_status Fixtures.nat_error Pd.empty_frame))
               "Pune"%string).
      * discriminate.
      * reflexivity.
    + apply (proj2 (proj2 (api_current_aqi_status Fixtures.nat_error
                             Fixtures.pune_without_time))
               "Pune"%string
               (Fixtures.value_of (Dashboard3.get_dashboard_data
                                     Fixtures.pune_without_time "Pune"))).
      * discriminate.
      * vm_compute. reflexivity.
      * vm_compute. reflexivity.
Defined.

Lemma randint_bounds (sample : nat -> Q) (low high : Z) (pos : nat) :
  Rng.unit_samples sample -> (low < high)%Z ->
  (low <= fst (Rng.randint sample low high pos) < high)%Z /\
  snd (Rng.randint sample low high pos) = S pos.
Proof.
  intros Hu Hlt. unfold Rng.randint. cbn [fst snd]. split; [| reflexivity].
  destruct (Hu pos) as [H0 H1].
  set (w := inject_Z (high - low)).
  assert (Hw : 0 < w).
  { unfold w. change 0 with (inject_Z 0). rewrite <- Zlt_Qlt. lia. }
  assert (L : (0 <= Qfloor (w * sample pos))%Z).
  { change 0%Z with (Qfloor 0). apply Qfloor_resp_le. nra. }
  assert (U : (Qfloor (w * sample pos) < high - low)%Z).
  { rewrite Zlt_Qlt. fold w.
    eapply Qle_lt_trans; [apply Qfloor_le |]. nra. }
  subst w. lia.
Qed.

(** The route [/api/forecast] of Dashboard 3 for a city without rows in
    the data: the answer is no error but status 200 with seven values,
    Monday to Sunday, each within 0.05 of [base * variation] for one
    integer [base] drawn from 50 to 149 and a [variation] drawn from
    [[0.85, 1.15)]. *)
Theorem api_forecast_unknown_city (parse_float : string -> option Q)
  (sample : nat -> Q) (df : Pd.DataFrame) (city : string) (c : Pd.Series)
  (mask : list bool) (pos : nat) :
  Rng.unit_samples sample ->
  city <> ""%string ->
  Pd.getitem df "City" = Ok c ->
  Dashboard3.city_mask c city = Ok mask ->
  Pd.empty (Pd.filter_rows mask df) = true ->
  exists base fc,
    Dashboard3.api_forecast parse_float sample df (Some city) pos
      = ((Dashboard3.forecast_json fc, 200%Z), (pos + 8)%nat) /\
    (50 <= base < 150)%Z /\
    map fst fc = Dashboard3.weekdays /\
    Forall (fun d => exists variation r,
                (85 # 100) <= variation /\ variation < (115 # 100) /\
                snd d = Fin r /\
                Qabs (r - inject_Z base * variation) <= 1 # 20) fc.
Proof.
  intros Hu Hc Hget Hmask Hemp.
  unfold Dashboard3.api_forecast.
  destruct (String.eqb city "") eqn:E;
    [apply String.eqb_eq in E; contradiction |].
  unfold Dashboard3.forecast_for. rewrite Hget. cbn [bind]. rewrite Hmask.
  cbn [bind]. unfold Dashboard3.latest_aqi_of. rewrite Hemp. cbn [negb andb].
  destruct (randint_bounds sample 50 150 pos Hu eq_refl) as [Hb Hp].
  destruct (Rng.randint sample 50 150 pos) as [z pos1]. simpl in Hb, Hp. subst pos1.
  pose proof (forecast_days_spec sample (inject_Z z) Hu Dashboard3.weekdays (S pos))
    as Hf. cbv zeta in Hf.
  destruct (Dashboard3.forecast_days sample (Fin (inject_Z z)) Dashboard3.weekdays
              (S pos)) as [fc pos2].
  cbn [fst snd] in Hf. destruct Hf as (Hd & Hpos & Hall).
  exists z, fc. split.
  - f_equal. rewrite Hpos. simpl. lia.
  - split; [exact Hb |]. split; [exact Hd |].
    eapply Forall_impl; [| exact Hall].
    intros d (variation & r & H1 & H2 & _ & H3 & H4).
    exists variation, r. repeat split; assumption.
Qed.

Lemma api_forecast_unknown_city_witness :
  exists base fc,
    Dashboard3.api_forecast Fixtures.text_is_no_number Fixtures.always_half
      Fixtures.two_cities (Some "Goa"%string) 0
      = ((Dashboard3.forecast_json fc, 200%Z), (0 + 8)%nat) /\
    (50 <= base < 150)%Z /\
    map fst fc = Dashboard3.weekdays /\
    Forall (fun d => exists variation r,
                (85 # 100) <= variation /\ variation < (115 # 100) /\
                snd d = Fin r /\
                Qabs (r - inject_Z base * variation) <= 1 # 20) fc.
Proof.
  apply (api_forecast_unknown_city Fixtures.text_is_no_number
           Fixtures.always_half Fixtures.two_cities "Goa"
           Fixtures.cities_column [false; false; false; false] 0).
  - exact always_half_unit.
  - discriminate.
  - reflexivity.
  - reflexivity.
  - reflexivity.
Defined.

(** ** The loader of Dashboard 4 *)

Lemma getitem_rename_new (d : Pd.DataFrame) (old new : string) (x : Pd.Series) :
  is_ok (Pd.getitem d new) = false ->
  Pd.getitem d old = Ok x ->
  Pd.getitem (Pd.rename d old new) new = Ok x.
Proof.
  induction d as [| [n s] d IH]; simpl; [discriminate |].
  destruct (String.eqb new n) eqn:E1; [discriminate |]. intros H.
  destruct (String.eqb n old) eqn:E2.
  - rewrite String.eqb_refl. apply String.eqb_eq in E2. subst n.
    rewrite String.eqb_refl. tauto.
  - rewrite E1. rewrite String.eqb_sym, E2. apply IH, H.
Qed.

Lemma getitem_rename_same (d : Pd.DataFrame) (c : string) :
  Pd.getitem (Pd.rename d c c) c = Pd.getitem d c.
Proof.
  induction d as [| [n s] d IH]; simpl; [reflexivity |].
  destruct (String.eqb n c) eqn:E.
  - rewrite String.eqb_refl. apply String.eqb_eq in E. subst n.
    rewrite String.eqb_refl. reflexivity.
  - rewrite String.eqb_sym, E. exact IH.
Qed.

Lemma find_has_column (d : Pd.DataFrame) (names : list string) (col : string) :
  find (Pd.has_column d) names = Some col ->
  In col names /\ Pd.has_column d col = true /\
  forall n, In n names -> Pd.has_column d n = true ->
            n = col \/ exists pre post, names = pre ++ col :: post /\ ~ In n pre.
Proof.
  intros H. destruct (find_some _ _ H) as [Hin Hc].
  split; [exact Hin |]. split; [exact Hc |].
  intros n Hn Hhas.
  revert H Hn. clear Hin. induction names as [| a names IH]; simpl; [tauto |].
  destruct (Pd.has_column d a) eqn:Ea.
  - intros E _. inversion E; subst. right. exists [], names. split; [reflexivity | tauto].
  - intros E [-> | Hn]; [congruence |].
    destruct (IH E Hn) as [-> | (pre & post & -> & Hnot)]; [left; reflexivity |].
    right. exists (a :: pre), post. split; [reflexivity |].
    intros [-> | Hp]; [congruence | contradiction].
Qed.

Lemma find_all_false {A : Type} (f : A -> bool) (l : list A) :
  (forall a, In a l -> f a = false) -> find f l = None.
Proof.
  induction l as [| a l IH]; intros H; simpl; [reflexivity |].
  rewrite (H a) by (left; reflexivity). apply IH. intros b Hb. apply H.
  right. exact Hb.
Qed.

Lemma has_column_getitem (d : Pd.DataFrame) (c : string) :
  Pd.has_column d c = true -> exists s, Pd.getitem d c = Ok s.
Proof.
  unfold Pd.has_column, Pd.columns.
  induction d as [| [n s] d IH]; simpl; [discriminate |].
  destruct (String.eqb c n); [intros _; eexists; reflexivity | exact IH].
Qed.

(** The time conversion of [load_data] leaves the other columns alone;
    a column 'Time' of the result holds timestamps. *)
Lemma convert_time_columns (parse_datetime : string -> option Z)
  (d d1 : Pd.DataFrame) :
  Dashboard4.convert_time parse_datetime d = Ok d1 ->
  (forall c, ~ In c Dashboard4.time_names -> Pd.getitem d1 c = Pd.getitem d c) /\
  (forall s, Pd.getitem d1 "Time" = Ok s -> exists l, s = Pd.SDatetime l).
Proof.
  unfold Dashboard4.convert_time. intros H.
  destruct (find (Pd.has_column d) Dashboard4.time_names) as [col |] eqn:F.
  - destruct (find_has_column d _ col F) as (Hin & Hhas & Hfirst).
    bind_inv H. inversion H; subst. clear H. split.
    + intros c Hc.
      rewrite getitem_rename_other.
      * apply getitem_setitem_other. intros <-. contradiction.
      * intros ->. contradiction.
      * intros ->. apply Hc. simpl. tauto.
    + intros s Hs.
      destruct (String.eqb col "Time") eqn:E.
      * apply String.eqb_eq in E. subst col.
        rewrite getitem_rename_same, getitem_setitem_same in Hs.
        inversion Hs; subst. destruct v; eexists; reflexivity.
      * apply String.eqb_neq in E.
        rewrite (getitem_rename_new _ col "Time"
                   (Pd.to_datetime parse_datetime v)) in Hs.
        -- inversion Hs; subst. destruct v; eexists; reflexivity.
        -- rewrite getitem_setitem_other by exact E.
           destruct (Pd.getitem d "Time") as [t |] eqn:Ht; [| reflexivity].
           exfalso.
           destruct (Hfirst "Time"%string) as [Heq | (pre & post & Hn & Hnot)].
           ++ simpl. tauto.
           ++ eapply getitem_has_column, Ht.
           ++ congruence.
           ++ unfold Dashboard4.time_names in Hn.
              destruct pre as [| p pre]; simpl in Hn; inversion Hn; subst.
              ** congruence.
              ** apply Hnot. left. reflexivity.
        -- apply getitem_setitem_same.
  - inversion H; subst. split; [reflexivity |].
    intros s Hs. exfalso.
    assert (Hh : Pd.has_column d1 "Time" = true)
      by (eapply getitem_has_column, Hs).
    pose proof (find_none _ _ F "Time"%string) as N. simpl in N.
    rewrite N in Hh by tauto. discriminate.
Qed.

Lemma numeric_names_NoDup : NoDup Dashboard4.numeric_names.
Proof.
  unfold Dashboard4.numeric_names.
  repeat (constructor; [simpl; intuition discriminate |]). constructor.
Qed.

(** The numeric conversion of [load_data]: a pollutant column of the
    result holds numbers; the other columns are left alone. *)
Lemma convert_pollutants_columns (parse_float : string -> option Q)
  (d d1 : Pd.DataFrame) :
  Dashboard4.convert_pollutants parse_float d = Ok d1 ->
  (forall c, ~ In c Dashboard4.numeric_names -> Pd.getitem d1 c = Pd.getitem d c) /\
  (forall c s, In c Dashboard4.numeric_names -> Pd.getitem d1 c = Ok s ->
               exists l, s = Pd.SFloat l).
Proof.
  unfold Dashboard4.convert_pollutants. intros H.
  pose proof (fun Hst => foldM_update True
                (fun _ s v => v = Pd.to_numeric parse_float s) _ _ Hst
                numeric_names_NoDup _ _ H) as L.
  destruct L as [Hout Hin].
  - intros c x x1 Hst. destruct (Pd.has_column x c) eqn:Hhas.
    + bind_inv Hst. inversion Hst; subst.
      left. eexists. eexists. split; [exact Hv |]. split; reflexivity.
    + inversion Hst; subst. right. split; [exact I |].
      split; [apply has_column_false, Hhas | reflexivity].
  - split; [exact Hout |].
    intros c s Hc Hs.
    destruct (Hin c Hc) as [(s0 & v & _ & -> & Hv) | (_ & Hno & Heq)].
    + rewrite Hs in Hv. inversion Hv; subst. apply to_numeric_float.
    + rewrite Heq in Hs. rewrite Hs in Hno. discriminate Hno.
Qed.

Lemma sselect_dtype (idxs : list nat) (s : Pd.Series) :
  ((exists l, s = Pd.SFloat l) -> exists l, Pd.sselect idxs s = Pd.SFloat l) /\
  ((exists l, s = Pd.SDatetime l) -> exists l, Pd.sselect idxs s = Pd.SDatetime l).
Proof.
  split; intros [l ->]; simpl; eexists; reflexivity.
Qed.

(** [load_data] of Dashboard 4.  When it returns, the frame has a column
    'City' in which no value is missing, its pollutant columns hold
    numbers and a column 'Time' holds timestamps.  When the file has,
    after the clean-up of the column names, none of the columns 'City',
    'station', 'Station', 'city', 'location' and 'Site', it raises. *)
Theorem load_data_columns (parse_float : string -> option Q)
  (parse_datetime : string -> option Z) (csv : Pd.DataFrame) :
  (forall df, Dashboard4.load_data parse_float parse_datetime csv = Ok df ->
      (exists c, Pd.getitem df "City" = Ok c /\
                 Forall (fun v => Pd.cell_isna v = false) (Pd.cells c)) /\
      (forall p s, In p Dashboard4.numeric_names -> Pd.getitem df p = Ok s ->
                   exists l, s = Pd.SFloat l) /\
      (forall s, Pd.getitem df "Time" = Ok s -> exists l, s = Pd.SDatetime l)) /\
  (forallb (fun n => negb (Pd.has_column (Dashboard4.normalize_columns csv) n))
           ("City"%string :: Dashboard4.city_names) = true ->
   is_ok (Dashboard4.load_data parse_float parse_datetime csv) = false).
Proof.
  split.
  - intros df H. unfold Dashboard4.load_data in H.
    bind_inv H. rename v into d1. bind_inv H. rename v into d2.
    destruct (convert_time_columns _ _ _ Hv) as [_ Ht].
    destruct (convert_pollutants_columns _ _ _ Hv0) as [Hp1 Hp2].
    unfold Pd.dropna_subset in H. bind_inv H. inversion H; subst. clear H.
    unfold Pd.filter_rows.
    split; [| split].
    + exists (Pd.sdropna v). split.
      * rewrite getitem_take, Hv1. reflexivity.
      * rewrite cells_sdropna. apply Forall_forall. intros c Hc.
        apply filter_In in Hc. destruct Hc as [_ Hc].
        destruct (Pd.cell_isna c); [discriminate | reflexivity].
    + intros p s Hp Hs. rewrite getitem_take in Hs. bind_inv Hs.
      inversion Hs; subst. apply sselect_dtype. eapply Hp2; eassumption.
    + intros s Hs. rewrite getitem_take in Hs. bind_inv Hs.
      inversion Hs; subst. apply sselect_dtype. apply Ht.
      rewrite <- Hp1; [exact Hv2 |]. simpl. intuition discriminate.
  - intros Hb.
    assert (Hno : forall n, In n ("City"%string :: Dashboard4.city_names) ->
                    Pd.has_column (Dashboard4.normalize_columns csv) n = false).
    { intros n Hn. rewrite forallb_forall in Hb. specialize (Hb n Hn).
      destruct (Pd.has_column _ n); [discriminate | reflexivity]. }
    clear Hb. unfold Dashboard4.load_data.
    set (d0 := Dashboard4.rename_city (Dashboard4.normalize_columns csv)).
    assert (H0 : is_ok (Pd.getitem d0 "City") = false).
    { unfold d0, Dashboard4.rename_city.
      rewrite (Hno "City"%string) by (left; reflexivity).
      rewrite find_all_false.
      - apply has_column_false, Hno. left. reflexivity.
      - intros n Hn. apply Hno. right. exact Hn. }
    destruct (Dashboard4.convert_time parse_datetime d0) as [d1 |] eqn:E1;
      [| reflexivity].
    cbn [bind].
    destruct (Dashboard4.convert_pollutants parse_float d1) as [d2 |] eqn:E2;
      [| reflexivity].
    cbn [bind].
    destruct (convert_time_columns _ _ _ E1) as [Ht _].
    destruct (convert_pollutants_columns _ _ _ E2) as [Hp _].
    unfold Pd.dropna_subset.
    rewrite Hp by (simpl; intuition discriminate).
    rewrite Ht by (simpl; intuition discriminate).
    destruct (Pd.getitem d0 "City"); [discriminate H0 | reflexivity].
Qed.

Lemma load_data_columns_witness :
  ((exists c, Pd.getitem Fixtures.loaded4 "City" = Ok c /\
              Forall (fun v => Pd.cell_isna v = false) (Pd.cells c)) /\
   (forall p s, In p Dashboard4.numeric_names ->
                Pd.getitem Fixtures.loaded4 p = Ok s ->
                exists l, s = Pd.SFloat l) /\
   (forall s, Pd.getitem Fixtures.loaded4 "Time" = Ok s ->
              exists l, s = Pd.SDatetime l)) /\
  is_ok (Dashboard4.load_data Fixtures.text_is_no_number Fixtures.hours_of_text
           [("Place"%string, Pd.SObject [Pd.OStr "Delhi"])]) = false.
Proof.
  split.
  - apply (proj1 (load_data_columns Fixtures.text_is_no_number
                    Fixtures.hours_of_text Fixtures.upload) Fixtures.loaded4).
    vm_compute; reflexivity.
  - apply (proj2 (load_data_columns Fixtures.text_is_no_number
                    Fixtures.hours_of_text
                    [("Place"%string, Pd.SObject [Pd.OStr "Delhi"])])).
    reflexivity.
Defined.

(** ** The distribution *)

(** Every value that is a number not below 0 falls into exactly one bin
    of the dashboard; a negative value and NaN fall into none. *)
Lemma histogram_sum (a : list float) :
  List.length (Np.histogram a Dashboard1.dashboard_bins) = 6%nat /\
  Zsum (Np.histogram a Dashboard1.dashboard_bins)
    = Z.of_nat (List.length (non_negative a)).
Proof.
  split; [reflexivity |].
  unfold Np.histogram, Dashboard1.dashboard_bins, Zsum, non_negative.
  cbn [Np.bins_of_edges map fold_right fst snd].
  induction a as [| x a IH]; [reflexivity |].
  cbn [filter]. destruct x as [q |].
  2:{ cbn [Np.in_bin fgeb]. exact IH. }
  cbn [Np.in_bin fgeb].
  destruct (Qle_bool 0 q) eqn:E0, (Qle_bool 20 q) eqn:E20,
    (Qle_bool 40 q) eqn:E40, (Qle_bool 60 q) eqn:E60,
    (Qle_bool 80 q) eqn:E80, (Qle_bool 100 q) eqn:E100;
    cbn [andb negb List.length];
    try (rewrite !Nat2Z.inj_succ; lia);
    try lia;
    exfalso;
    repeat match goal with
           | E : Qle_bool _ _ = true |- _ => apply Qle_bool_iff in E
           | E : Qle_bool ?a ?b = false |- _ =>
               assert (b < a)
                 by (apply Qnot_le_lt; intros C; apply Qle_bool_iff in C;
                     congruence);
               clear E
           end; lra.
Qed.

Lemma get_unscaled_series_finite (df : Pd.DataFrame) (name : string)
  (sc : Sk.MinMaxScaler) (cols : list string) (series : list float) :
  Dashboard1._get_unscaled_series df name sc cols = Ok series \/
  Dashboard2._get_unscaled_series df name sc cols = Ok series ->
  Forall is_finite series.
Proof.
  assert (Hn : forall l, Forall is_finite (map Np.nan_to_num l)).
  { intros l. apply Forall_forall. intros x Hx. apply in_map_iff in Hx.
    destruct Hx as ([q |] & <- & _); exact I. }
  unfold Dashboard1._get_unscaled_series, Dashboard2._get_unscaled_series.
  destruct (Pd.empty df).
  - intros [H | H]; inversion H; subst; repeat constructor.
  - destruct (index_of name cols) as [k |]; [| intros [H | H]; discriminate H].
    intros [H | H]; bind_inv H; bind_inv H; bind_inv H; inversion H; subst;
      apply Hn.
Qed.

(** The distribution of the dashboards.  'counts' has one entry per
    label; the entries add up to the number of values of the unscaled
    series that are not below 0: a negative value is counted in no bin.
    The series holds no NaN.  In Dashboard 2 it is the series of the
    selected pollutant, whose length is 'data_points' of the summary; in
    Dashboard 1 it is the series of PM2.5 whatever the selected
    pollutant. *)
Theorem distribution_counts (sqrt : Q -> Q) (strftime_HM : Z -> string)
  (df : Pd.DataFrame) (sc : Sk.MinMaxScaler) (pollutant : string) :
  (forall fields,
      Dashboard2.data_fields sqrt strftime_HM df sc pollutant = Ok fields ->
      exists series counts dist summary,
        Dashboard2._get_unscaled_series df pollutant sc Dashboard2.pollutant_cols
          = Ok series /\
        Forall is_finite series /\
        dict_get fields "distribution" = Some dist /\
        json_get dist "labels" = Some (JList (map JStr Dashboard1.dashboard_labels)) /\
        json_get dist "counts" = Some (JList (map JInt counts)) /\
        List.length counts = List.length Dashboard1.dashboard_labels /\
        Zsum counts = Z.of_nat (List.length (non_negative series)) /\
        dict_get fields "summary" = Some summary /\
        json_get summary "data_points"
          = Some (JInt (Z.of_nat (List.length series)))) /\
  (forall j,
      Dashboard1.dashboard sqrt strftime_HM df sc pollutant = Ok j ->
      exists series counts dist,
        Dashboard1._get_unscaled_series df "PM2.5" sc Dashboard1.pollutant_cols
          = Ok series /\
        Forall is_finite series /\
        json_get j "distribution" = Some dist /\
        json_get dist "labels" = Some (JList (map JStr Dashboard1.dashboard_labels)) /\
        json_get dist "counts" = Some (JList (map JInt counts)) /\
        List.length counts = List.length Dashboard1.dashboard_labels /\
        Zsum counts = Z.of_nat (List.length (non_negative series))).
Proof.
  split.
  - intros fields H. unfold Dashboard2.data_fields in H.
    bind_inv H. bind_inv H. bind_inv H. bind_inv H. rename v2 into series.
    bind_inv H. inversion H; subst. clear H.
    destruct (histogram_sum series) as [Hl Hs].
    exists series, (Np.histogram series Dashboard1.dashboard_bins).
    eexists. eexists.
    split; [eassumption |].
    split; [eapply get_unscaled_series_finite; right; eassumption |].
    split; [reflexivity |]. split; [reflexivity |]. split; [reflexivity |].
    split; [exact Hl |]. split; [exact Hs |].
    split; reflexivity.
  - intros j H. unfold Dashboard1.dashboard in H.
    bind_inv H. bind_inv H. bind_inv H. bind_inv H. bind_inv H.
    rename v3 into series.
    bind_inv H. inversion H; subst. clear H.
    destruct (histogram_sum series) as [Hl Hs].
    exists series, (Np.histogram series Dashboard1.dashboard_bins).
    eexists.
    split; [eassumption |].
    split; [eapply get_unscaled_series_finite; left; eassumption |].
    split; [reflexivity |]. split; [reflexivity |]. split; [reflexivity |].
    split; [exact Hl | exact Hs].
Qed.

Lemma distribution_counts_witness :
  (exists series counts dist summary,
      Dashboard2._get_unscaled_series Fixtures.window2 "PM10"
        (Fixtures.stored_scaler (snd Fixtures.load2)) Dashboard2.pollutant_cols
        = Ok series /\
      Forall is_finite series /\
      dict_get Fixtures.fields2 "distribution" = Some dist /\
      json_get dist "labels" = Some (JList (map JStr Dashboard1.dashboard_labels)) /\
      json_get dist "counts" = Some (JList (map JInt counts)) /\
      List.length counts = List.length Dashboard1.dashboard_labels /\
      Zsum counts = Z.of_nat (List.length (non_negative series)) /\
      dict_get Fixtures.fields2 "summary" = Some summary /\
      json_get summary "data_points"
        = Some (JInt (Z.of_nat (List.length series)))) /\
  (exists series counts dist,
      Dashboard1._get_unscaled_series Fixtures.window2 "PM2.5"
        (Fixtures.stored_scaler (snd Fixtures.load2)) Dashboard1.pollutant_cols
        = Ok series /\
      Forall is_finite series /\
      json_get Fixtures.response1 "distribution" = Some dist /\
      json_get dist "labels" = Some (JList (map JStr Dashboard1.dashboard_labels)) /\
      json_get dist "counts" = Some (JList (map JInt counts)) /\
      List.length counts = List.length Dashboard1.dashboard_labels /\
      Zsum counts = Z.of_nat (List.length (non_negative series))).
Proof.
  destruct (distribution_counts Fixtures.isqrt Fixtures.clock Fixtures.window2
              (Fixtures.stored_scaler (snd Fixtures.load2)) "PM10") as [H2 H1].
  split.
  - apply (H2 Fixtures.fields2). vm_compute; reflexivity.
  - apply (H1 Fixtures.response1). vm_compute; reflexivity.
Defined.

(** ** The city filter of Dashboard 2 *)

Lemma cells_sselect (idxs : list nat) (s : Pd.Series) :
  Pd.cells (Pd.sselect idxs s) = select idxs (Pd.cells s).
Proof. destruct s as [l | l | l]; simpl; rewrite select_map; reflexivity. Qed.

Lemma cell_eq_text (c : string) (v : Pd.cell) :
  Pd.cell_eq (Pd.CStr c) v = true -> v = Pd.CStr c.
Proof.
  destruct v as [t | [x |] | [t |]]; simpl; try discriminate.
  intros H. apply String.eqb_eq in H. congruence.
Qed.

Lemma known_city (c : string) (s : Pd.Series) :
  existsb (Pd.cell_eq (Pd.CStr c)) (Pd.unique s) = true
  <-> In (Pd.CStr c) (Pd.cells s).
Proof.
  unfold Pd.unique. split.
  - intros H. apply existsb_exists in H. destruct H as (x & Hx & He).
    apply cell_eq_text in He. subst x. apply unique_cells_sub, Hx.
  - intros H. apply existsb_exists.
    destruct (unique_cells_complete _ _ H) as (u & Hu & Hs).
    exists u. split; [exact Hu |].
    rewrite cell_same_sym in Hs. unfold Pd.cell_same in Hs.
    simpl in Hs. rewrite orb_false_r in Hs. exact Hs.
Qed.

(** The rows selected by the city filter, seen in the column 'City'. *)
Lemma city_rows_column (df : Pd.DataFrame) (s : Pd.Series) (chosen : Pd.cell) :
  Pd.getitem df "City" = Ok s ->
  exists s',
    Pd.getitem (Pd.filter_rows (map (Pd.cell_eq chosen) (Pd.cells s)) df) "City"
      = Ok s' /\
    Pd.cells s' = filter (Pd.cell_eq chosen) (Pd.cells s).
Proof.
  intros Hs. unfold Pd.filter_rows. rewrite getitem_take, Hs. cbn [bind].
  eexists. split; [reflexivity |].
  rewrite cells_sselect. apply select_mask.
Qed.

(** The city filter of Dashboard 2 for a city that is given.  A city
    that occurs in the data selects its rows, at least one.  A city that
    does not occur is replaced, without notice, by the city of the first
    row, and the rows of that city are selected. *)
Theorem filter_city_fallback (city : string) (df : Pd.DataFrame) (s : Pd.Series) :
  city <> ""%string ->
  Pd.getitem df "City" = Ok s ->
  (In (Pd.CStr city) (Pd.cells s) ->
   exists d s',
     Dashboard2.filter_city (Some city) df = Ok (Some d) /\
     Pd.getitem d "City" = Ok s' /\
     Pd.cells s' = filter (Pd.cell_eq (Pd.CStr city)) (Pd.cells s) /\
     In (Pd.CStr city) (Pd.cells s')) /\
  (forall first,
      ~ In (Pd.CStr city) (Pd.cells s) ->
      List.hd_error (Pd.cells s) = Some first ->
      exists d s',
        Dashboard2.filter_city (Some city) df = Ok (Some d) /\
        Pd.getitem d "City" = Ok s' /\
        Pd.cells s' = filter (Pd.cell_eq first) (Pd.cells s) /\
        (Pd.cell_isna first = false -> List.hd_error (Pd.cells s') = Some first)).
Proof.
  intros Hc Hs.
  assert (E : String.eqb city "" = false) by (apply String.eqb_neq; exact Hc).
  split.
  - intros Hin.
    destruct (city_rows_column df s (Pd.CStr city) Hs) as (s' & Hs' & Hcells).
    exists (Pd.filter_rows (map (Pd.cell_eq (Pd.CStr city)) (Pd.cells s)) df), s'.
    split.
    + unfold Dashboard2.filter_city.
      rewrite E, (getitem_has_column df "City" s Hs), Hs. cbn [bind].
      rewrite (proj2 (known_city city s) Hin). cbn [bind]. reflexivity.
    + split; [exact Hs' |]. split; [exact Hcells |].
      rewrite Hcells. apply filter_In. split; [exact Hin |].
      simpl. apply String.eqb_refl.
  - intros first Hnot Hfirst.
    destruct (city_rows_column df s first Hs) as (s' & Hs' & Hcells).
    exists (Pd.filter_rows (map (Pd.cell_eq first) (Pd.cells s)) df), s'.
    split.
    + unfold Dashboard2.filter_city.
      rewrite E, (getitem_has_column df "City" s Hs), Hs. cbn [bind].
      destruct (existsb (Pd.cell_eq (Pd.CStr city)) (Pd.unique s)) eqn:Ex.
      { exfalso. apply Hnot, known_city, Ex. }
      unfold Pd.iloc_first.
      destruct (Pd.cells s) as [| c0 cs]; [discriminate Hfirst |].
      inversion Hfirst; subst. cbn [bind]. reflexivity.
    + split; [exact Hs' |]. split; [exact Hcells |].
      intros Hna. rewrite Hcells.
      destruct (Pd.cells s) as [| c0 cs]; [discriminate Hfirst |].
      inversion Hfirst; subst. simpl.
      assert (R : Pd.cell_eq first first = true).
      { pose proof (cell_same_refl first) as R. unfold Pd.cell_same in R.
        rewrite Hna in R. simpl in R. rewrite orb_false_r in R. exact R. }
      rewrite R. reflexivity.
Qed.

Lemma filter_city_fallback_witness :
  (exists d s',
      Dashboard2.filter_city (Some "Delhi"%string) Fixtures.two_cities
        = Ok (Some d) /\
      Pd.getitem d "City" = Ok s' /\
      Pd.cells s' = filter (Pd.cell_eq (Pd.CStr "Delhi"))
                           (Pd.cells Fixtures.cities_column) /\
      In (Pd.CStr "Delhi") (Pd.cells s')) /\
  (exists d s',
      Dashboard2.filter_city (Some "Goa"%string) Fixtures.two_cities
        = Ok (Some d) /\
      Pd.getitem d "City" = Ok s' /\
      Pd.cells s' = filter (Pd.cell_eq (Pd.CStr "Pune"))
                           (Pd.cells Fixtures.cities_column) /\
      (Pd.cell_isna (Pd.CStr "Pune") = false ->
       List.hd_error (Pd.cells s') = Some (Pd.CStr "Pune"))).
Proof.
  split.
  - apply (proj1 (filter_city_fallback "Delhi" Fixtures.two_cities
                    Fixtures.cities_column ltac:(discriminate) eq_refl)).
    simpl; tauto.
  - apply (proj2 (filter_city_fallback "Goa" Fixtures.two_cities
                    Fixtures.cities_column ltac:(discriminate) eq_refl)
             (Pd.CStr "Pune")).
    + simpl. intuition discriminate.
    + reflexivity.
Defined.

(** ** The column names of Dashboard 3 *)

Lemma replace_char_removes (a b : ascii) (s : string) :
  a <> b -> has_char a (replace_char a b s) = false.
Proof.
  intros Hab. unfold has_char. induction s as [| c s IH]; simpl; [reflexivity |].
  rewrite IH, orb_false_r.
  destruct (Ascii.eqb c a) eqn:E.
  - apply Ascii.eqb_neq. exact Hab.
  - rewrite Ascii.eqb_sym. exact E.
Qed.

Lemma replace_char_keeps_out (a b c : ascii) (s : string) :
  c <> b -> has_char c s = false -> has_char c (replace_char a b s) = false.
Proof.
  intros Hcb. unfold has_char. induction s as [| x s IH]; simpl; [reflexivity |].
  intros H. apply orb_false_iff in H. destruct H as [H1 H2].
  rewrite (IH H2), orb_false_r.
  destruct (Ascii.eqb x a); [apply Ascii.eqb_neq; exact Hcb | exact H1].
Qed.

Lemma normalize_column_chars (col : string) :
  has_char " " (Dashboard3.normalize_column col) = false /\
  has_char "-" (Dashboard3.normalize_column col) = false.
Proof.
  unfold Dashboard3.normalize_column. split.
  - apply replace_char_keeps_out; [discriminate |].
    apply replace_char_removes. discriminate.
  - apply replace_char_removes. discriminate.
Qed.

Lemma columns_setitem (d : Pd.DataFrame) (c : string) (s : Pd.Series) :
  Pd.has_column d c = true -> Pd.columns (Pd.setitem d c s) = Pd.columns d.
Proof.
  unfold Pd.has_column, Pd.columns.
  induction d as [| [n s0] d IH]; simpl; [discriminate |].
  destruct (String.eqb c n); simpl; [reflexivity |].
  intros H. rewrite IH by exact H. reflexivity.
Qed.

Lemma columns_take (idxs : list nat) (d : Pd.DataFrame) :
  Pd.columns (Pd.take idxs d) = Pd.columns d.
Proof. unfold Pd.columns, Pd.take. rewrite map_map. reflexivity. Qed.

Lemma has_column_columns (d d' : Pd.DataFrame) (c : string) :
  Pd.columns d' = Pd.columns d -> Pd.has_column d' c = Pd.has_column d c.
Proof. unfold Pd.has_column. intros ->. reflexivity. Qed.

(** [_load_data] of Dashboard 3 keeps the columns of the file, in their
    order, under their normalised names; a normalised name holds no
    space and no hyphen. *)
Theorem load_data_keeps_columns (parse_float : string -> option Q)
  (parse_datetime : string -> option Z) (csv df : Pd.DataFrame) :
  Dashboard3._load_data parse_float parse_datetime (Ok csv) = Ok df ->
  Pd.columns df = map Dashboard3.normalize_column (Pd.columns csv) /\
  Forall (fun name => has_char " " name = false /\ has_char "-" name = false)
         (Pd.columns df).
Proof.
  intros H.
  assert (Hc : Pd.columns df = map Dashboard3.normalize_column (Pd.columns csv)).
  { unfold Dashboard3._load_data in H.
    bind_inv H. rename v into d1. bind_inv H. rename v into d2.
    assert (H0 : Pd.columns (Dashboard3.normalize_columns csv)
                 = map Dashboard3.normalize_column (Pd.columns csv)).
    { unfold Dashboard3.normalize_columns, Pd.columns. rewrite !map_map.
      reflexivity. }
    assert (H1 : Pd.columns d1 = Pd.columns (Dashboard3.normalize_columns csv)).
    { unfold Dashboard3.convert_time in Hv.
      destruct (Pd.has_column _ "Time") eqn:E.
      - bind_inv Hv. inversion Hv; subst. apply columns_setitem, E.
      - inversion Hv; subst. reflexivity. }
    assert (H2 : Pd.columns d2 = Pd.columns d1).
    { unfold Dashboard3.clean_aqi in Hv0.
      destruct (Pd.has_column d1 "AQI") eqn:E.
      - bind_inv Hv0. bind_inv Hv0. inversion Hv0; subst.
        unfold Pd.dropna_subset in Hv1. bind_inv Hv1. inversion Hv1; subst.
        unfold Pd.filter_rows. rewrite columns_setitem.
        + apply columns_take.
        + rewrite (has_column_columns d1); [exact E | apply columns_take].
      - inversion Hv0; subst. reflexivity. }
    assert (H3 : Pd.columns df = Pd.columns d2).
    { unfold Dashboard3.fill_pollutants in H. clear - H. revert H.
      generalize Dashboard3.filled_pollutants. intros ps. revert d2.
      induction ps as [| p ps IH]; intros d2 H; simpl in H.
      - inversion H; subst. reflexivity.
      - bind_inv H. rewrite (IH v H).
        destruct (Pd.has_column d2 p) eqn:E.
        + bind_inv Hv. inversion Hv; subst. apply columns_setitem, E.
        + inversion Hv; subst. reflexivity. }
    congruence. }
  split; [exact Hc |].
  rewrite Hc. apply Forall_forall. intros name Hn. apply in_map_iff in Hn.
  destruct Hn as (col & <- & _). apply normalize_column_chars.
Qed.

Lemma load_data_keeps_columns_witness :
  Pd.columns Fixtures.loaded3_raw
    = map Dashboard3.normalize_column (Pd.columns Fixtures.raw_columns) /\
  Forall (fun name => has_char " " name = false /\ has_char "-" name = false)
         (Pd.columns Fixtures.loaded3_raw).
Proof.
  apply (load_data_keeps_columns Fixtures.text_is_no_number Fixtures.hours_of_text
           Fixtures.raw_columns Fixtures.loaded3_raw).
  vm_compute; reflexivity.
Defined.

Lemma unscaled_value_nonneg (c : list float) (q : Q) :
  Forall nonneg c -> 0 <= q ->
  nonneg (Np.nan_to_num (fdiv (fsub (Fin q) (col_min c)) (col_scale c))).
Proof.
  intros Hc Hq.
  destruct (finite_values c) as [| x xs] eqn:Ef.
  - unfold col_scale, col_min, Np.nanmin, Np.nanmax. rewrite Ef. reflexivity.
  - assert (Hin : In (Fin x) c).
    { apply finite_values_In. rewrite Ef. left. reflexivity. }
    destruct (nanmin_nanmax_bounds c x Hin) as (lo & hi & Hlo & Hhi & Hle & Hb).
    assert (Hlo0 : 0 <= lo).
    { unfold Np.nanmin in Hlo. rewrite Ef in Hlo. inversion Hlo as [Hm].
      assert (Hall : forall z, In z (x :: xs) -> 0 <= z).
      { intros z Hz. rewrite <- Ef in Hz. apply finite_values_In in Hz.
        rewrite Forall_forall in Hc. specialize (Hc _ Hz).
        destruct (nonneg_finite _ Hc) as (z' & E & Hz'). inversion E; subst. exact Hz'. }
      clear - Hall. unfold Qminimum.
      assert (G : forall l a, 0 <= a -> (forall z, In z l -> 0 <= z) ->
                              0 <= fold_left Qmin l a).
      { induction l as [| b l IH]; intros a Ha Hl; simpl; [exact Ha |].
        apply IH.
        - apply Q.min_glb; [exact Ha | apply Hl; left; reflexivity].
        - intros z Hz. apply Hl. right. exact Hz. }
      apply G.
      - apply Hall. left. reflexivity.
      - intros z Hz. apply Hall. right. exact Hz. }
    destruct (col_params c lo hi Hlo Hhi)
      as [(Hz & -> & ->) | (Hnz & -> & ->)]; cbn [fsub fdiv].
    + assert (E : Qeq_bool (1 / 1) 0 = false) by reflexivity.
      rewrite E. cbn [Np.nan_to_num]. unfold nonneg. cbn [fgeb].
      apply Qle_bool_iff.
      assert (Hv : (q - (0 - lo * (1 / 1))) / (1 / 1) == q + lo) by field.
      rewrite Hv. lra.
    + assert (E : Qeq_bool (1 / (hi - lo)) 0 = false).
      { apply Qeq_bool_false. apply Qinv_nonzero. exact Hnz. }
      rewrite E. cbn [Np.nan_to_num]. unfold nonneg. cbn [fgeb].
      apply Qle_bool_iff.
      assert (Hv : (q - (0 - lo * (1 / (hi - lo)))) / (1 / (hi - lo))
                   == q * (hi - lo) + lo) by (field; exact Hnz).
      rewrite Hv. nra.
Qed.

Lemma non_negative_all (l : list float) :
  Forall nonneg l -> non_negative l = l.
Proof.
  unfold non_negative. induction l as [| x l IH]; intros H; simpl;
    [reflexivity |].
  inversion H as [| ? ? Hx Hl]; subst. unfold nonneg in Hx. rewrite Hx.
  rewrite IH by exact Hl. reflexivity.
Qed.

(** The distribution counts every reading of loaded data.  For a scaler
    fitted on cleaned columns, which hold no value below 0, and a window
    whose scaled values lie in [[0, 1]], the unscaled series holds one
    value per row, none of them below 0, and the six counts of the
    distribution add up to the number of rows. *)
Theorem loaded_values_all_counted (X : Sk.matrix) (sc : Sk.MinMaxScaler)
  (df : Pd.DataFrame) (name : string) (k : nat) (col vals : list float) :
  Sk.fit X = Ok sc ->
  List.length X = List.length Dashboard2.pollutant_cols ->
  index_of name Dashboard2.pollutant_cols = Some k ->
  nth_error X k = Some col ->
  Forall nonneg col ->
  Pd.empty df = false ->
  Pd.getitem df name = Ok (Pd.SFloat vals) ->
  List.length vals = Pd.len df ->
  Forall (in_range 0 1) vals ->
  exists series,
    Dashboard1._get_unscaled_series df name sc Dashboard1.pollutant_cols
      = Ok series /\
    Dashboard2._get_unscaled_series df name sc Dashboard2.pollutant_cols
      = Ok series /\
    List.length series = Pd.len df /\
    Forall nonneg series /\
    Zsum (Np.histogram series Dashboard1.dashboard_bins)
      = Z.of_nat (Pd.len df).
Proof.
  intros Hfit HX Hk Hcol Hnn Hne Hget Hlen Hunit.
  destruct (get_unscaled_series_fitted X sc df name Dashboard2.pollutant_cols
              k col vals Hfit HX Hk Hcol Hne Hget Hlen) as [H1 H2].
  eexists. split; [exact H1 |]. split; [exact H2 |].
  assert (Hl : List.length
                 (map Np.nan_to_num
                    (Sk.inverse_transform_col (col_scale col) (col_min col) vals))
               = Pd.len df).
  { unfold Sk.inverse_transform_col. rewrite !length_map. exact Hlen. }
  assert (Hs : Forall nonneg
                 (map Np.nan_to_num
                    (Sk.inverse_transform_col (col_scale col) (col_min col) vals))).
  { unfold Sk.inverse_transform_col. rewrite map_map.
    apply Forall_forall. intros y Hy. apply in_map_iff in Hy.
    destruct Hy as (v & <- & Hv).
    rewrite Forall_forall in Hunit. specialize (Hunit v Hv).
    destruct v as [q |]; [| destruct Hunit].
    apply unscaled_value_nonneg; [exact Hnn | apply Hunit]. }
  split; [exact Hl |]. split; [exact Hs |].
  destruct (histogram_sum
              (map Np.nan_to_num
                 (Sk.inverse_transform_col (col_scale col) (col_min col) vals)))
    as [_ Hh].
  rewrite Hh, (non_negative_all _ Hs), Hl. reflexivity.
Qed.
Lemma loaded_values_all_counted_witness :
  exists series,
    Dashboard1._get_unscaled_series Fixtures.scaled_pm25 "PM2.5"
      (fst Fixtures.fitted) Dashboard1.pollutant_cols = Ok series /\
    Dashboard2._get_unscaled_series Fixtures.scaled_pm25 "PM2.5"
      (fst Fixtures.fitted) Dashboard2.pollutant_cols = Ok series /\
    List.length series = Pd.len Fixtures.scaled_pm25 /\
    Forall nonneg series /\
    Zsum (Np.histogram series Dashboard1.dashboard_bins)
      = Z.of_nat (Pd.len Fixtures.scaled_pm25).
Proof.
  apply (loaded_values_all_counted Fixtures.cleaned (fst Fixtures.fitted)
           Fixtures.scaled_pm25 "PM2.5" 1 [Fin 10; Fin 30]
           (nth 1 (snd Fixtures.fitted) [])).
  - vm_compute; reflexivity.
  - reflexivity.
  - reflexivity.
  - reflexivity.
  - repeat constructor.
  - reflexivity.
  - reflexivity.
  - vm_compute; reflexivity.
  - vm_compute. repeat constructor; discriminate.
Defined.

(** ** Alert and gauge of Dashboard 4 *)

(** [get_alert] and [get_aqi_color] of Dashboard 4 cut the AQI into the
    same five bands, at 50, 100, 150 and 200: for every number the icon
    of the alert and the status of the gauge belong to one band; the
    band is the first whose upper bound is not below the number.  For
    NaN [get_alert] reports that there is no data. *)
Theorem alert_and_color_agree (aqi : Q) :
  let bands := [ (Some 50, "🟢", "Good"); (Some 100, "🟡", "Moderate");
                 (Some 150, "🟠", "Unhealthy (SG)"); (Some 200, "🔴", "Unhealthy");
                 (None, "🟣", "Hazardous") ]%string in
  exists upper,
    find (fun b => match fst (fst b) with
                   | Some u => Qle_bool aqi u
                   | None => true
                   end) bands
      = Some (upper, snd (Dashboard4.get_alert (Fin aqi)),
              snd (Dashboard4.get_aqi_color (Fin aqi))) /\
    Dashboard4.get_alert NaN = ("No AQI Data", "⚪")%string.
Proof.
  cbv zeta. unfold Dashboard4.get_alert, Dashboard4.get_aqi_color.
  cbn [isnan fleb fgeb find fst snd].
  destruct (Qle_bool aqi 50); [eexists; split; reflexivity |].
  destruct (Qle_bool aqi 100); [eexists; split; reflexivity |].
  destruct (Qle_bool aqi 150); [eexists; split; reflexivity |].
  destruct (Qle_bool aqi 200); eexists; split; reflexivity.
Qed.

(** ** The time window of Dashboard 4 *)

Lemma time_max_spec (l : list (option Z)) :
  match Dashboard4.time_max (Pd.SDatetime l) with
  | Ok (Some m) => In (Some m) l /\ forall z, In (Some z) l -> (z <= m)%Z
  | Ok None => forall z, ~ In (Some z) l
  | Raise _ => False
  end.
Proof.
  unfold Dashboard4.time_max.
  set (f := fun (m t : option Z) =>
              match m, t with
              | Some a, Some b => Some (Z.max a b)
              | None, t => t
              | m, None => m
              end).
  assert (G : forall l acc,
             match fold_left f l acc with
             | Some m => (In (Some m) l \/ acc = Some m) /\
                         (forall z, In (Some z) l \/ acc = Some z -> (z <= m)%Z)
             | None => acc = None /\ forall z, ~ In (Some z) l
             end).
  { clear l. induction l as [| t l IH]; intros acc; simpl.
    - destruct acc as [a |].
      + split; [right; reflexivity |].
        intros z [[] | E]. inversion E; subst. lia.
      + split; [reflexivity | intros z []].
    - specialize (IH (f acc t)).
      destruct (fold_left f l (f acc t)) as [m |].
      + destruct IH as [IH1 IH2]. split.
        * destruct IH1 as [H | H]; [left; right; exact H |].
          destruct acc as [a |], t as [b |]; simpl in H; inversion H; subst.
          -- destruct (Z.max_spec a b) as [[_ E] | [_ E]]; rewrite E.
             ++ left. left. reflexivity.
             ++ right. reflexivity.
          -- right. reflexivity.
          -- left. left. reflexivity.
        * intros z [[E | Hz] | E].
          -- subst t.
             destruct acc as [a |]; simpl in IH2.
             ++ pose proof (IH2 (Z.max a z) (or_intror eq_refl)). lia.
             ++ apply IH2. right. reflexivity.
          -- apply IH2. left. exact Hz.
          -- subst acc.
             destruct t as [b |]; simpl in IH2.
             ++ pose proof (IH2 (Z.max z b) (or_intror eq_refl)). lia.
             ++ apply IH2. right. reflexivity.
      + destruct IH as [IH1 IH2].
        destruct acc as [a |], t as [b |]; simpl in IH1; try discriminate.
        split; [reflexivity |].
        intros z [E | Hz]; [discriminate E | exact (IH2 z Hz)]. }
  specialize (G l None).
  destruct (fold_left f l None) as [m |].
  - destruct G as [[H | H] G2]; [| discriminate H].
    split; [exact H |]. intros z Hz. apply G2. left. exact Hz.
  - exact (proj2 G).
Qed.

Lemma StronglySorted_filter {A : Type} (R : A -> A -> Prop) (f : A -> bool)
  (l : list A) :
  StronglySorted R l -> StronglySorted R (filter f l).
Proof.
  induction 1 as [| a l Hs IH Hall]; simpl; [constructor |].
  destruct (f a); [| exact IH].
  constructor; [exact IH |].
  rewrite Forall_forall in Hall |- *.
  intros x Hx. apply filter_In in Hx. apply Hall, Hx.
Qed.

Lemma StronglySorted_map_Some (l : list Z) :
  StronglySorted (fun a b => Pd.order_leb true (Pd.CTime a) (Pd.CTime b) = true)
                 (map Some l) ->
  StronglySorted Z.le l.
Proof.
  induction l as [| a l IH]; simpl; intros H; [constructor |].
  inversion H as [| ? ? Hs Hall]; subst.
  constructor; [exact (IH Hs) |].
  rewrite Forall_forall in Hall |- *.
  intros x Hx. specialize (Hall (Some x) (in_map Some _ _ Hx)).
  cbv in Hall. apply Z.leb_le. exact Hall.
Qed.

Lemma present_map_Some (l : list (option Z)) :
  Forall (fun t => t <> None) l -> l = map Some (present l).
Proof.
  induction 1 as [| t l Ht _ IH]; simpl; [reflexivity |].
  destruct t as [z |]; [| contradiction Ht; reflexivity].
  simpl. f_equal. exact IH.
Qed.

(** The rows of the window of Dashboard 4, as positions in the rows of
    the station. *)
Lemma city_window_rows (df : Pd.DataFrame) (c : Pd.Series)
  (l : list (option Z)) (station : Pd.cell) (time_range : string) (h : Z) :
  let city_df :=
    Pd.filter_rows (map (fun v => Pd.cell_eq v station) (Pd.cells c)) df in
  Pd.getitem df "City" = Ok c ->
  Pd.getitem city_df "Time" = Ok (Pd.SDatetime l) ->
  Dashboard4.range_hours time_range = Some h ->
  exists i1 i2 ts,
    Dashboard4.city_window df station time_range
      = Ok (Pd.take i2 (Pd.take i1 city_df)) /\
    select i2 (select i1 l) = map Some ts /\
    Sorted Z.le ts /\
    (forall z, In z ts <->
               In (Some z) l /\
               forall z', In (Some z') l ->
                          (z' - h * Dashboard4.hour_ns <= z)%Z) /\
    (forall z, In (Some z) l -> exists m, In m ts /\ (z <= m)%Z).
Proof.
  intros city_df Hc Hl Hh.
  assert (Hpos : (0 <= h)%Z).
  { unfold Dashboard4.range_hours in Hh.
    destruct (String.eqb time_range "Last 24 Hours"); [inversion Hh; lia |].
    destruct (String.eqb time_range "Last 7 Days"); [inversion Hh; lia |].
    discriminate Hh. }
  unfold Dashboard4.city_window. rewrite Hc. cbn [bind]. fold city_df.
  rewrite (getitem_has_column _ _ _ Hl).
  unfold Pd.sort_values. rewrite Hl. cbn [bind Pd.cells].
  set (cs := map Pd.CTime l).
  set (leb := fun a b : option Z => Pd.order_leb true (Pd.CTime a) (Pd.CTime b)).
  assert (Hlen : List.length cs = List.length l)
    by (unfold cs; rewrite length_map; reflexivity).
  assert (Hext : sort_by (fun i j => Pd.order_leb true (nth i cs (Pd.CFloat NaN))
                                       (nth j cs (Pd.CFloat NaN)))
                         (seq 0 (List.length cs))
                 = sort_by (fun i j => leb (nth i l None) (nth j l None))
                           (seq 0 (List.length l))).
  { rewrite Hlen. apply sort_by_ext. intros i j Hi Hj.
    apply in_seq in Hi. apply in_seq in Hj.
    assert (Hk : forall k, (k < List.length l)%nat ->
                   nth k cs (Pd.CFloat NaN) = Pd.CTime (nth k l None)).
    { intros k Hk. unfold cs.
      rewrite (nth_indep _ (Pd.CFloat NaN) (Pd.CTime None))
        by (rewrite length_map; exact Hk).
      apply (map_nth Pd.CTime l None). }
    rewrite !Hk by lia. reflexivity. }
  rewrite Hext.
  assert (Htot : forall a b, leb a b = false -> leb b a = true).
  { intros [a |] [b |]; unfold leb; cbv [Pd.order_leb Pd.cell_isna Pd.cell_leb];
      intros H; try reflexivity; try discriminate H.
    apply Z.leb_gt in H. apply Z.leb_le. lia. }
  destruct (sort_select leb None l Htot) as [Hp Hs0].
  set (i1 := sort_by _ (seq 0 (List.length l))) in *.
  set (l' := select i1 l) in *.
  assert (Hs : StronglySorted (fun a b => leb a b = true) l').
  { apply Sorted_StronglySorted; [| exact Hs0].
    intros [a |] [b |] [x |]; unfold leb;
      cbv [Pd.order_leb Pd.cell_isna Pd.cell_leb]; intros H1 H2;
      try reflexivity; try discriminate.
    apply Z.leb_le in H1. apply Z.leb_le in H2. apply Z.leb_le. lia. }
  assert (Hl' : Pd.getitem (Pd.take i1 city_df) "Time" = Ok (Pd.SDatetime l')).
  { rewrite getitem_take, Hl. reflexivity. }
  rewrite Hh, Hl'. cbn [bind].
  pose proof (time_max_spec l') as Hm.
  destruct (Dashboard4.time_max (Pd.SDatetime l')) as [tmax | e];
    [| destruct Hm].
  cbn [bind Dashboard4.not_before].
  set (f := fun t : option Z =>
              match t, option_map (fun m => (m - h * Dashboard4.hour_ns)%Z) tmax with
              | Some a, Some b => Z.leb b a
              | _, _ => false
              end).
  assert (Hsome : Forall (fun t => t <> None) (filter f l')).
  { apply Forall_forall. intros t Ht. apply filter_In in Ht.
    destruct Ht as [_ Ht]. destruct t; [discriminate | discriminate Ht]. }
  exists i1, (mask_indices (map f l')), (present (filter f l')).
  split; [reflexivity |].
  fold l'. rewrite select_mask.
  split; [apply present_map_Some, Hsome |].
  assert (Hin : forall z, In z (present (filter f l')) <->
                          In (Some z) l /\ f (Some z) = true).
  { intros z. split.
    - intros Hz. apply (in_map Some) in Hz.
      rewrite <- (present_map_Some _ Hsome) in Hz.
      apply filter_In in Hz. destruct Hz as [Hz1 Hz2].
      split; [apply (Permutation_in _ Hp), Hz1 | exact Hz2].
    - intros [Hz1 Hz2].
      assert (Hz : In (Some z) (filter f l')).
      { apply filter_In. split; [| exact Hz2].
        apply (Permutation_in _ (Permutation_sym Hp)), Hz1. }
      rewrite (present_map_Some _ Hsome) in Hz.
      apply in_map_iff in Hz. destruct Hz as (x & E & Hx).
      inversion E; subst. exact Hx. }
  split.
  { apply StronglySorted_Sorted, StronglySorted_map_Some.
    rewrite <- (present_map_Some _ Hsome).
    apply StronglySorted_filter, Hs. }
  destruct tmax as [m |].
  - destruct Hm as [Hm1 Hm2].
    assert (Hfm : forall z, f (Some z) = true <-> (m - h * Dashboard4.hour_ns <= z)%Z).
    { intros z. unfold f. cbn [option_map]. apply Z.leb_le. }
    split.
    + intros z. rewrite Hin, Hfm. split; intros [H1 H2]; (split; [exact H1 |]).
      * intros z' Hz'.
        apply (Permutation_in _ (Permutation_sym Hp)), Hm2 in Hz'.
        unfold Dashboard4.hour_ns in *. lia.
      * apply H2. apply (Permutation_in _ Hp), Hm1.
    + intros z Hz. exists m. split.
      * apply Hin. split; [apply (Permutation_in _ Hp), Hm1 |].
        apply Hfm. unfold Dashboard4.hour_ns. lia.
      * apply Hm2. apply (Permutation_in _ (Permutation_sym Hp)), Hz.
  - assert (Hno : forall z, ~ In (Some z) l).
    { intros z Hz. apply (Hm z).
      apply (Permutation_in _ (Permutation_sym Hp)), Hz. }
    split.
    + intros z. rewrite Hin. split.
      * intros [H1 _]. destruct (Hno z H1).
      * intros [H1 _]. destruct (Hno z H1).
    + intros z Hz. destruct (Hno z Hz).
Qed.

(** The block "Data Filtering" of Dashboard 4 with one of the two time
    ranges, on a frame whose column 'Time' holds timestamps: the window
    holds the rows of the station in ascending order of time, and a
    time of the station is in the window exactly when it is at most the
    width of the range (24 hours or 7 days) before every time of the
    station; rows without a time are left out, and when the station has
    a time the window is not empty. *)
Theorem city_window_range (df : Pd.DataFrame) (c : Pd.Series)
  (l : list (option Z)) (station : Pd.cell) (time_range : string) (h : Z) :
  let city_df :=
    Pd.filter_rows (map (fun v => Pd.cell_eq v station) (Pd.cells c)) df in
  Pd.getitem df "City" = Ok c ->
  Pd.getitem city_df "Time" = Ok (Pd.SDatetime l) ->
  Dashboard4.range_hours time_range = Some h ->
  exists w ts,
    Dashboard4.city_window df station time_range = Ok w /\
    Pd.getitem w "Time" = Ok (Pd.SDatetime (map Some ts)) /\
    Sorted Z.le ts /\
    (forall z, In z ts <->
               In (Some z) l /\
               forall z', In (Some z') l ->
                          (z' - h * Dashboard4.hour_ns <= z)%Z) /\
    (present l <> [] -> ts <> []).
Proof.
  intros city_df Hc Hl Hh.
  destruct (city_window_rows df c l station time_range h Hc Hl Hh)
    as (i1 & i2 & ts & Hw & Hts & Hsorted & Hin & Hmax).
  exists (Pd.take i2 (Pd.take i1 city_df)), ts.
  split; [exact Hw |]. split.
  { rewrite !getitem_take, Hl. cbn [bind Pd.sselect]. rewrite Hts. reflexivity. }
  split; [exact Hsorted |]. split; [exact Hin |].
  intros Hne E. apply Hne.
  clear - Hmax E. induction l as [| [z |] l IH]; simpl; [reflexivity | |].
  - destruct (Hmax z (or_introl eq_refl)) as (m & Hm & _).
    rewrite E in Hm. destruct Hm.
  - apply IH. intros z Hz. apply Hmax. right. exact Hz.
Qed.

Lemma city_window_range_witness :
  exists w ts,
    Dashboard4.city_window Fixtures.loaded4 (Pd.CStr "A") "Last 24 Hours" = Ok w /\
    Pd.getitem w "Time" = Ok (Pd.SDatetime (map Some ts)) /\
    Sorted Z.le ts /\
    (forall z, In z ts <->
               In (Some z) [Some (1 * Dashboard4.hour_ns)%Z;
                            Some (4 * Dashboard4.hour_ns)%Z] /\
               forall z', In (Some z') [Some (1 * Dashboard4.hour_ns)%Z;
                                        Some (4 * Dashboard4.hour_ns)%Z] ->
                          (z' - 24 * Dashboard4.hour_ns <= z)%Z) /\
    (present [Some (1 * Dashboard4.hour_ns)%Z; Some (4 * Dashboard4.hour_ns)%Z]
       <> [] -> ts <> []).
Proof.
  apply (city_window_range Fixtures.loaded4
           (Pd.SObject [Pd.OStr "A"; Pd.OStr "B"; Pd.OStr "A"])
           [Some (1 * Dashboard4.hour_ns)%Z; Some (4 * Dashboard4.hour_ns)%Z]
           (Pd.CStr "A") "Last 24 Hours" 24%Z).
  - vm_compute. reflexivity.
  - vm_compute. reflexivity.
  - reflexivity.
Defined.

(** ** The latest reading of the station *)

Lemma nth_error_combine {A B : Type} (a : list A) (b : list B) (i : nat) :
  nth_error (combine a b) i
  = match nth_error a i, nth_error b i with
    | Some x, Some y => Some (x, y)
    | _, _ => None
    end.
Proof.
  revert b i. induction a as [| x a IH]; intros b i.
  - destruct i; reflexivity.
  - destruct b as [| y b]; simpl.
    + destruct i; simpl; [reflexivity |]. destruct (nth_error a i); reflexivity.
    + destruct i; simpl; [reflexivity | apply IH].
Qed.

Lemma select_combine {A B : Type} (idxs : list nat) (a : list A) (b : list B) :
  List.length a = List.length b ->
  select idxs (combine a b) = combine (select idxs a) (select idxs b) /\
  List.length (select idxs a) = List.length (select idxs b).
Proof.
  intros Hlen. unfold select.
  induction idxs as [| i idxs [IH1 IH2]]; simpl; [split; reflexivity |].
  rewrite nth_error_combine, IH1, !length_app, IH2.
  destruct (nth_error a i) as [x |] eqn:Ea, (nth_error b i) as [y |] eqn:Eb;
    simpl; try (split; reflexivity).
  - apply nth_error_None in Eb.
    assert (nth_error a i <> None) by congruence.
    apply nth_error_Some in H. lia.
  - apply nth_error_None in Ea.
    assert (nth_error b i <> None) by congruence.
    apply nth_error_Some in H. lia.
Qed.

Lemma select_In {A : Type} (idxs : list nat) (l : list A) (x : A) :
  In x (select idxs l) -> In x l.
Proof.
  unfold select. intros H. apply in_flat_map in H.
  destruct H as (i & _ & H).
  destruct (nth_error l i) as [y |] eqn:E; [| destruct H].
  destruct H as [<- | []]. apply (nth_error_In _ _ E).
Qed.

Lemma last_combine {A B : Type} (a : list A) (b : list B) (x : A) (y : B) :
  List.length a = List.length b ->
  last (combine a b) (x, y) = (last a x, last b y).
Proof.
  revert b. induction a as [| u a IH]; intros [| v b] H; try discriminate H;
    [reflexivity |].
  destruct a as [| u' a], b as [| v' b]; try discriminate H; [reflexivity |].
  apply (IH (v' :: b)). simpl in H |- *. lia.
Qed.

Lemma last_In {A : Type} (l : list A) (d : A) : l <> [] -> In (last l d) l.
Proof.
  induction l as [| x l IH]; intros H; [contradiction H; reflexivity |].
  destruct l as [| y l]; [left; reflexivity |].
  right. apply IH. discriminate.
Qed.

Lemma Sorted_last_max (ts : list Z) (m : Z) :
  Sorted Z.le ts -> In m ts -> (m <= last ts 0%Z)%Z.
Proof.
  intros Hs. apply Sorted_StronglySorted in Hs; [| intros x y z; lia].
  induction Hs as [| a l Hs IH Hall]; intros Hin; [destruct Hin |].
  destruct l as [| b l]; [destruct Hin as [<- | []]; simpl; lia |].
  destruct Hin as [<- | Hin].
  - rewrite Forall_forall in Hall.
    assert (In (last (b :: l) 0%Z) (b :: l)) by (apply last_In; discriminate).
    apply Hall in H. exact H.
  - exact (IH Hin).
Qed.

Lemma slen_cells (s : Pd.Series) : Pd.slen s = List.length (Pd.cells s).
Proof. destruct s; simpl; rewrite length_map; reflexivity. Qed.

Lemma station_readings_In (station : Pd.cell) (cities : list Pd.cell)
  (times : list (option Z)) (aqis : list float) (z : Z) (a : float) :
  In (z, a) (station_readings station cities times aqis) <->
  exists v, In (v, (Some z, a)) (combine cities (combine times aqis)) /\
            Pd.cell_eq v station = true.
Proof.
  unfold station_readings. rewrite in_flat_map. split.
  - intros ([v [[t |] b]] & Hin & H); [| destruct H].
    destruct (Pd.cell_eq v station) eqn:E; [| destruct H].
    destruct H as [H | []]. inversion H; subst.
    exists v. split; assumption.
  - intros (v & Hin & E). exists (v, (Some z, a)). split; [exact Hin |].
    rewrite E. left. reflexivity.
Qed.

Lemma select_station {B : Type} (station : Pd.cell) (cs : list Pd.cell)
  (X : list B) :
  List.length cs = List.length X ->
  select (mask_indices (map (fun v => Pd.cell_eq v station) cs)) (combine cs X)
  = filter (fun r => Pd.cell_eq (fst r) station) (combine cs X).
Proof.
  intros H. rewrite <- (select_mask (fun r => Pd.cell_eq (fst r) station)).
  f_equal. f_equal.
  rewrite <- (map_map fst (fun v => Pd.cell_eq v station)).
  f_equal. clear station. revert X H.
  induction cs as [| v cs IH]; intros [| x X] H; try discriminate H;
    [reflexivity |].
  simpl. f_equal. apply IH. simpl in H. lia.
Qed.

(** "Current Air Quality" of Dashboard 4, on a frame whose columns have
    one length, with timestamps in 'Time' and numbers in 'AQI': the
    value [latest_aqi] is the AQI of a reading of the station that no
    reading of the station is later than; it is NaN when the station
    has no row with a time. *)
Theorem latest_aqi_is_latest_reading (df : Pd.DataFrame) (c : Pd.Series)
  (times : list (option Z)) (aqis : list float) (station : Pd.cell)
  (time_range : string) (h : Z) :
  Pd.getitem df "City" = Ok c ->
  Pd.getitem df "Time" = Ok (Pd.SDatetime times) ->
  Pd.getitem df "AQI" = Ok (Pd.SFloat aqis) ->
  forallb (fun p => Nat.eqb (Pd.slen (snd p)) (List.length times)) df = true ->
  Dashboard4.range_hours time_range = Some h ->
  exists w,
    Dashboard4.city_window df station time_range = Ok w /\
    match station_readings station (Pd.cells c) times aqis with
    | [] => Dashboard4.latest_aqi w = Ok (Pd.CFloat NaN)
    | _ :: _ =>
        exists z a,
          In (z, a) (station_readings station (Pd.cells c) times aqis) /\
          (forall z' a',
             In (z', a') (station_readings station (Pd.cells c) times aqis) ->
             (z' <= z)%Z) /\
          Dashboard4.latest_aqi w = Ok (Pd.CFloat a)
    end.
Proof.
  intros Hc Ht Ha Hwf Hh.
  set (mask := map (fun v => Pd.cell_eq v station) (Pd.cells c)).
  set (i0 := mask_indices mask).
  assert (Hl : Pd.getitem (Pd.filter_rows mask df) "Time"
               = Ok (Pd.SDatetime (select i0 times))).
  { unfold Pd.filter_rows. rewrite getitem_take, Ht. reflexivity. }
  destruct (city_window_rows df c (select i0 times) station time_range h Hc Hl Hh)
    as (i1 & i2 & ts & Hw & Hts & Hsorted & Hin & Hmax).
  fold mask in Hw. unfold Pd.filter_rows in Hw. fold i0 in Hw.
  set (w := Pd.take i2 (Pd.take i1 (Pd.take i0 df))) in *.
  exists w. split; [exact Hw |].
  (* the columns of the window *)
  set (sel := fun (A : Type) (x : list A) => select i2 (select i1 (select i0 x))).
  assert (Hsel : forall (A B : Type) (x : list A) (y : list B),
             List.length x = List.length y ->
             sel _ (combine x y) = combine (sel _ x) (sel _ y) /\
             List.length (sel _ x) = List.length (sel _ y)).
  { intros A B x y H. unfold sel.
    destruct (select_combine i0 x y H) as [E0 L0]. rewrite E0.
    destruct (select_combine i1 _ _ L0) as [E1 L1]. rewrite E1.
    exact (select_combine i2 _ _ L1). }
  assert (Hwt : Pd.getitem w "Time" = Ok (Pd.SDatetime (map Some ts))).
  { unfold w. rewrite !getitem_take, Ht. cbn [bind Pd.sselect].
    rewrite Hts. reflexivity. }
  assert (Hwa : Pd.getitem w "AQI" = Ok (Pd.SFloat (sel _ aqis))).
  { unfold w. rewrite !getitem_take, Ha. reflexivity. }
  assert (Lc : List.length (Pd.cells c) = List.length times).
  { rewrite <- slen_cells. clear - Hc Hwf.
    induction df as [| [n s] d IH]; [discriminate Hc |].
    cbn [Pd.getitem] in Hc. cbn [forallb snd] in Hwf.
    apply andb_prop in Hwf. destruct Hwf as [H1 H2].
    destruct (String.eqb "City" n).
    - inversion Hc; subst. apply Nat.eqb_eq, H1.
    - exact (IH Hc H2). }
  assert (La : List.length times = List.length aqis).
  { change (List.length aqis) with (Pd.slen (Pd.SFloat aqis)). clear - Ha Hwf.
    induction df as [| [n s] d IH]; [discriminate Ha |].
    cbn [Pd.getitem] in Ha. cbn [forallb snd] in Hwf.
    apply andb_prop in Hwf. destruct Hwf as [H1 H2].
    destruct (String.eqb "AQI" n).
    - inversion Ha; subst. symmetry. apply Nat.eqb_eq, H1.
    - exact (IH Ha H2). }
  assert (Hlenw : Pd.len w = List.length ts).
  { destruct df as [| [n s] d]; [discriminate Hc |].
    cbn [forallb snd] in Hwf. apply andb_prop in Hwf. destruct Hwf as [H1 _].
    apply Nat.eqb_eq in H1. rewrite slen_cells in H1.
    unfold w. cbn [Pd.take map Pd.len fst snd].
    rewrite slen_cells, !cells_sselect.
    destruct (Hsel _ _ (Pd.cells s) times H1) as [_ L].
    unfold sel in L. rewrite L, Hts, length_map. reflexivity. }
  assert (Hti : sel _ times = map Some ts) by exact Hts.
  (* readings and the times of the station *)
  assert (Hst : forall z, In (Some z) (select i0 times) <->
                          exists a, In (z, a) (station_readings station
                                                 (Pd.cells c) times aqis)).
  { intros z.
    assert (Lca : List.length (Pd.cells c) = List.length (combine times aqis))
      by (rewrite length_combine; lia).
    assert (E : select i0 (combine (Pd.cells c) (combine times aqis))
                = filter (fun r => Pd.cell_eq (fst r) station)
                         (combine (Pd.cells c) (combine times aqis))).
    { unfold i0, mask. apply select_station, Lca. }
    destruct (select_combine i0 (Pd.cells c) (combine times aqis) Lca) as [E1 _].
    destruct (select_combine i0 times aqis La) as [E2 L2].
    rewrite E1, E2 in E.
    split.
    - intros Hz.
      apply In_nth_error in Hz. destruct Hz as (k & Hk).
      assert (Hka : exists a, nth_error (select i0 aqis) k = Some a).
      { destruct (nth_error (select i0 aqis) k) eqn:Ek; [eexists; reflexivity |].
        apply nth_error_None in Ek.
        assert (nth_error (select i0 times) k <> None) by congruence.
        apply nth_error_Some in H. lia. }
      destruct Hka as (a & Hka).
      assert (Hkc : exists v, nth_error (select i0 (Pd.cells c)) k = Some v).
      { destruct (select_combine i0 (Pd.cells c) times Lc) as [_ L].
        destruct (nth_error (select i0 (Pd.cells c)) k) eqn:Ek;
          [eexists; reflexivity |].
        apply nth_error_None in Ek.
        assert (nth_error (select i0 times) k <> None) by congruence.
        apply nth_error_Some in H. lia. }
      destruct Hkc as (v & Hkc).
      exists a. apply station_readings_In. exists v.
      assert (Hk3 : In (v, (Some z, a))
                       (combine (select i0 (Pd.cells c))
                                (combine (select i0 times) (select i0 aqis)))).
      { apply (nth_error_In _ k).
        rewrite !nth_error_combine, Hkc, Hk, Hka. reflexivity. }
      rewrite E in Hk3. apply filter_In in Hk3. exact Hk3.
    - intros (a & Hz). apply station_readings_In in Hz.
      destruct Hz as (v & Hz & Ev).
      assert (Hk3 : In (v, (Some z, a))
                       (combine (select i0 (Pd.cells c))
                                (combine (select i0 times) (select i0 aqis)))).
      { rewrite E. apply filter_In. split; assumption. }
      apply in_combine_r, in_combine_l in Hk3. exact Hk3. }
  destruct (station_readings station (Pd.cells c) times aqis)
    as [| [z0 a0] rs] eqn:Hr.
  - (* no reading: the window is empty *)
    assert (Ets : ts = []).
    { destruct ts as [| z ts']; [reflexivity |].
      destruct (proj1 (Hin z) (or_introl eq_refl)) as [Hz _].
      apply Hst in Hz. destruct Hz as (a & []). }
    unfold Dashboard4.latest_aqi, Pd.empty. rewrite Hlenw, Ets. reflexivity.
  - (* the last row of the window *)
    destruct (Hmax z0) as (m & Hm & _).
    { apply Hst. exists a0. left. reflexivity. }
    assert (Hne : ts <> []) by (intros E; rewrite E in Hm; destruct Hm).
    set (zl := last ts 0%Z).
    set (al := last (sel _ aqis) NaN).
    destruct (Hsel _ _ times aqis La) as [Eta Lta].
    assert (Hlast : In (Some zl, al) (sel _ (combine times aqis))).
    { rewrite Eta.
      assert (E : (Some zl, al)
                  = last (combine (sel _ times) (sel _ aqis)) (Some 0%Z, NaN)).
      { rewrite (last_combine _ _ _ _ Lta), Hti. unfold zl, al.
        f_equal. clear - Hne. induction ts as [| x t IH]; [contradiction Hne; reflexivity |].
        destruct t as [| y t]; [reflexivity |].
        change (last (map Some (x :: y :: t)) (Some 0%Z))
          with (last (map Some (y :: t)) (Some 0%Z)).
        change (last (x :: y :: t) 0%Z) with (last (y :: t) 0%Z).
        apply IH. discriminate. }
      rewrite E. apply last_In.
      rewrite Hti. intros E'. apply Hne.
      apply (f_equal (@List.length _)) in E'.
      rewrite length_combine, <- Lta, Hti, length_map, Nat.min_id in E'.
      destruct ts; [reflexivity | discriminate E']. }
    assert (Hzl : In zl ts) by (apply last_In, Hne).
    exists zl, al. split; [| split].
    + (* it is a reading of the station *)
      assert (Lca : List.length (Pd.cells c) = List.length (combine times aqis))
        by (rewrite length_combine; lia).
      destruct (Hsel _ _ (Pd.cells c) (combine times aqis) Lca) as [E3 L3].
      apply In_nth_error in Hlast. destruct Hlast as (k & Hk).
      assert (Hkc : exists v, nth_error (sel _ (Pd.cells c)) k = Some v).
      { destruct (nth_error (sel _ (Pd.cells c)) k) eqn:Ek;
          [eexists; reflexivity |].
        apply nth_error_None in Ek.
        assert (nth_error (sel _ (combine times aqis)) k <> None) by congruence.
        apply nth_error_Some in H. lia. }
      destruct Hkc as (v & Hkc).
      assert (Hk3 : In (v, (Some zl, al))
                       (sel _ (combine (Pd.cells c) (combine times aqis)))).
      { rewrite E3. apply (nth_error_In _ k).
        rewrite nth_error_combine, Hkc, Hk. reflexivity. }
      unfold sel in Hk3. apply select_In, select_In in Hk3.
      assert (E : select i0 (combine (Pd.cells c) (combine times aqis))
                  = filter (fun r => Pd.cell_eq (fst r) station)
                           (combine (Pd.cells c) (combine times aqis))).
      { unfold i0, mask. apply select_station, Lca. }
      rewrite E in Hk3. apply filter_In in Hk3.
      rewrite <- Hr. apply station_readings_In. exists v. exact Hk3.
    + intros z' a' Hz'.
      destruct (Hmax z') as (m' & Hm' & Hle).
      { apply Hst. exists a'. exact Hz'. }
      pose proof (Sorted_last_max ts m' Hsorted Hm'). unfold zl. lia.
    + unfold Dashboard4.latest_aqi, Pd.empty. rewrite Hlenw.
      destruct ts as [| x t]; [contradiction Hne; reflexivity |].
      cbn [List.length Nat.eqb]. rewrite Hwa. cbn [bind].
      unfold Pd.iloc_last. cbn [Pd.cells].
      rewrite <- map_rev.
      pose proof (rev_head_last _ (sel _ aqis) NaN) as R. fold al in R.
      destruct (rev (sel float aqis)) as [| y r] eqn:Er.
      * exfalso. apply (f_equal (@List.length _)) in Er.
        rewrite length_rev, <- Lta, Hti, length_map in Er. discriminate Er.
      * simpl. rewrite R. reflexivity.
Qed.

Lemma latest_aqi_is_latest_reading_witness :
  exists w,
    Dashboard4.city_window Fixtures.loaded4 (Pd.CStr "A") "Last 7 Days" = Ok w /\
    exists z a,
      In (z, a) [((1 * Dashboard4.hour_ns)%Z, Fin 40);
                 ((4 * Dashboard4.hour_ns)%Z, Fin 160)] /\
      (forall z' a',
         In (z', a') [((1 * Dashboard4.hour_ns)%Z, Fin 40);
                      ((4 * Dashboard4.hour_ns)%Z, Fin 160)] ->
         (z' <= z)%Z) /\
      Dashboard4.latest_aqi w = Ok (Pd.CFloat a).
Proof.
  apply (latest_aqi_is_latest_reading Fixtures.loaded4
           (Pd.SObject [Pd.OStr "A"; Pd.OStr "B"; Pd.OStr "A"])
           [Some (1 * Dashboard4.hour_ns)%Z; Some (3 * Dashboard4.hour_ns)%Z;
            Some (4 * Dashboard4.hour_ns)%Z]
           [Fin 40; Fin 120; Fin 160]
           (Pd.CStr "A") "Last 7 Days" (7 * 24)%Z).
  - vm_compute. reflexivity.
  - vm_compute. reflexivity.
  - vm_compute. reflexivity.
  - vm_compute. reflexivity.
  - reflexivity.
Defined.
(** ** The route [/api/data] of Dashboard 1 *)

(** With the data loaded, [get_available_cities] returns and leaves the
    state as it is. *)
Lemma get_available_cities_run
  (parse_float : string -> option Q) (parse_datetime : string -> option Z)
  (data_file : option Pd.DataFrame) (g : Py.state) (rd : Py.ref)
  (d : Pd.DataFrame) :
  Py.air_aware_data g = Some rd ->
  nth_error (Py.objects g) rd = Some (Py.OFrame d) ->
  Dashboard1.get_available_cities parse_float parse_datetime data_file g
  = (Ok (match Pd.getitem d "City" with
         | Ok s => Pd.unique s
         | Raise _ => []
         end), g).
Proof.
  intros Hd Hfr.
  unfold Dashboard1.get_available_cities, Py.mbind, Py.global_air_aware_data,
    Py.ret, Py.get_frame, Py.lift.
  rewrite Hd. rewrite Hd, Hfr.
  destruct (Pd.has_column d "City") eqn:E.
  - destruct (has_column_getitem d "City" E) as [s Hs]. rewrite Hs. reflexivity.
  - apply has_column_false in E.
    destruct (Pd.getitem d "City"); [discriminate E | reflexivity].
Qed.

(** What [get_data] returns, when it returns. *)
Lemma get_data_returns
  (parse_float : string -> option Q) (parse_datetime : string -> option Z)
  (sqrt : Q -> Q) (strftime_HM : Z -> string)
  (data_file : option Pd.DataFrame)
  (location time_range pollutant : option string)
  (g g' : Py.state) (body : json) (status : Z) :
  Dashboard1App.get_data parse_float parse_datetime sqrt strftime_HM data_file
    location time_range pollutant g = (Ok (body, status), g') ->
  (status = 200%Z /\ json_keys body = five_fields /\ json_finite body = true) \/
  (status = 500%Z /\ json_keys body = ["error"%string]).
Proof.
  unfold Dashboard1App.get_data. intros H. mbind_inv H.
  match type of H with
  | (if negb ?b then _ else _) _ = _ => destruct b eqn:Hloc
  end; cbn [negb] in H.
  - mbind_inv H.
    match goal with
    | Hc : Dashboard1.get_dashboard_data _ _ _ _ _ _ _ _ _ = (Ok ?j, _) |- _ =>
        apply get_dashboard_data_1_inv in Hc; rename j into data;
        destruct Hc as [-> | (d & sc & Hd)]
    end.
    + cbn in H. apply ret_inv in H. destruct H as [H _]. inversion H; subst.
      right; split; reflexivity.
    + pose proof (dashboard1_body_fields _ _ _ _ _ _ Hd) as Hk.
      assert (Ht : Dashboard1App.json_truthy data = true).
      { destruct data as [| | | | | [| kv d'] | |]; try discriminate Hk.
        reflexivity. }
      assert (He : json_has_key "error" data = false).
      { unfold json_has_key. rewrite Hk. reflexivity. }
      rewrite Ht, He in H. cbn in H.
      apply ret_inv in H. destruct H as [H _]. inversion H; subst.
      left. split; [reflexivity |].
      split; [rewrite sanitize_keys; exact Hk | apply sanitize_finite].
  - apply ret_inv in H. destruct H as [H _]. inversion H; subst.
    right; split; reflexivity.
Qed.

(** A request with a location, or with a first city to stand in for it,
    whose call of [get_dashboard_data] raises, gets Flask's page. *)
Lemma serve_get_data_raises
  (parse_float : string -> option Q) (parse_datetime : string -> option Z)
  (sqrt : Q -> Q) (strftime_HM : Z -> string)
  (data_file : option Pd.DataFrame)
  (location time_range pollutant : option string)
  (g : Py.state) (rd : Py.ref) (d : Pd.DataFrame) :
  Py.air_aware_data g = Some rd ->
  nth_error (Py.objects g) rd = Some (Py.OFrame d) ->
  match location with
  | Some l => l <> ""%string
  | None => exists c, List.hd_error (match Pd.getitem d "City" with
                                     | Ok s => Pd.unique s
                                     | Raise _ => []
                                     end) = Some c /\
                      Dashboard1App.truthy c = true
  end ->
  (forall city tr,
      is_ok (fst (Dashboard1.get_dashboard_data parse_float parse_datetime sqrt
                    strftime_HM data_file city tr
                    (match pollutant with Some p => p | None => "PM2.5"%string end)
                    g)) = false) ->
  fst (Dashboard1App.serve_get_data parse_float parse_datetime sqrt strftime_HM
         data_file location time_range pollutant g)
  = Dashboard1App.InternalServerError.
Proof.
  intros Hd Hfr Hloc Hraise.
  unfold Dashboard1App.serve_get_data, Dashboard1App.get_data, Py.mbind.
  rewrite (get_available_cities_run _ _ _ g rd d Hd Hfr).
  set (cities := match Pd.getitem d "City" with
                 | Ok s => Pd.unique s
                 | Raise _ => []
                 end) in *.
  assert (Ht : match match location with
                     | Some l => Some (Pd.CStr l)
                     | None => List.hd_error cities
                     end with
               | Some c => Dashboard1App.truthy c
               | None => false
               end = true).
  { destruct location as [l |].
    - simpl. apply String.eqb_neq in Hloc. rewrite Hloc. reflexivity.
    - destruct Hloc as (c & -> & Hc). exact Hc. }
  rewrite Ht. cbn [negb].
  match goal with
  | |- context [Dashboard1.get_dashboard_data _ _ _ _ _ ?city ?tr ?p g] =>
      specialize (Hraise city tr);
      destruct (Dashboard1.get_dashboard_data parse_float parse_datetime sqrt
                  strftime_HM data_file city tr p g) as [[j | e] g2]
  end.
  - discriminate Hraise.
  - reflexivity.
Qed.

Lemma sort_values_columns (df d : Pd.DataFrame) (c : string) (asc : bool) :
  Pd.sort_values df c asc = Ok d -> Pd.columns d = Pd.columns df.
Proof.
  unfold Pd.sort_values. intros H. bind_inv H. inversion H; subst.
  apply columns_take.
Qed.

(** The window keeps the columns of the stored frame. *)
Lemma window_columns (d0 d1 d2 : Pd.DataFrame) :
  Pd.dropna_subset d0 "timestamp" = Ok d1 ->
  Dashboard1.last_24 d1 = Ok d2 ->
  Pd.columns d2 = Pd.columns d0.
Proof.
  intros H1 H2.
  unfold Pd.dropna_subset in H1. bind_inv H1. inversion H1; subst.
  unfold Dashboard1.last_24 in H2. bind_inv H2.
  rewrite (sort_values_columns _ _ _ _ H2). unfold Pd.head.
  rewrite columns_take.
  match goal with
  | Hs : Pd.sort_values _ _ _ = Ok _ |- _ =>
      rewrite (sort_values_columns _ _ _ _ Hs)
  end.
  unfold Pd.filter_rows. apply columns_take.
Qed.

(** A pollutant that is no column of the data makes the call raise. *)
Lemma get_dashboard_data_1_unknown_pollutant
  (parse_float : string -> option Q) (parse_datetime : string -> option Z)
  (sqrt : Q -> Q) (strftime_HM : Z -> string)
  (data_file : option Pd.DataFrame)
  (city : option string) (time_range pollutant : string)
  (g : Py.state) (rd rs : Py.ref) (d0 : Pd.DataFrame) (sc : Sk.MinMaxScaler) :
  Py.air_aware_data g = Some rd ->
  Py.scaler g = Some rs ->
  nth_error (Py.objects g) rd = Some (Py.OFrame d0) ->
  nth_error (Py.objects g) rs = Some (Py.OScaler sc) ->
  Pd.empty d0 = false ->
  Pd.has_column d0 pollutant = false ->
  is_ok (fst (Dashboard1.get_dashboard_data parse_float parse_datetime sqrt
                strftime_HM data_file city time_range pollutant g)) = false.
Proof.
  intros Hd Hs Hfr Hsc Hne Hno.
  rewrite (get_dashboard_data_1_run _ _ _ _ _ _ _ _ _ _ _ _ _ Hd Hs Hfr Hsc Hne).
  destruct (Pd.dropna_subset d0 "timestamp") as [d1 | e] eqn:H1; [| reflexivity].
  cbn [bind].
  destruct (Dashboard1.last_24 d1) as [d2 | e] eqn:H2; [| reflexivity].
  cbn [bind].
  assert (Hno2 : Pd.has_column d2 pollutant = false).
  { rewrite (has_column_columns d0 d2); [exact Hno |].
    apply (window_columns d0 d1 d2 H1 H2). }
  apply has_column_false in Hno2.
  unfold Dashboard1.dashboard.
  destruct (Pd.getitem d2 "timestamp") as [ts | e]; [| reflexivity].
  cbn [bind].
  destruct (Dashboard1.strftime_list strftime_HM ts) as [x | e]; [| reflexivity].
  cbn [bind].
  destruct (Pd.getitem d2 pollutant) as [y | e]; [discriminate Hno2 | reflexivity].
Qed.

(** After a missing data file every call of Dashboard 1 raises. *)
Lemma get_dashboard_data_1_missing_file
  (parse_float : string -> option Q) (parse_datetime : string -> option Z)
  (sqrt : Q -> Q) (strftime_HM : Z -> string)
  (data_file : option Pd.DataFrame)
  (city : option string) (time_range pollutant : string)
  (g : Py.state) (rd rs : Py.ref) :
  Py.air_aware_data g = Some rd ->
  Py.scaler g = Some rs ->
  nth_error (Py.objects g) rd = Some (Py.OFrame Dashboard1.dummy_data) ->
  nth_error (Py.objects g) rs = Some (Py.OScaler Sk.Unfitted) ->
  is_ok (fst (Dashboard1.get_dashboard_data parse_float parse_datetime sqrt
                strftime_HM data_file city time_range pollutant g)) = false.
Proof.
  intros Hd Hs Hfr Hsc.
  assert (Hw : (d1 <- Pd.dropna_subset Dashboard1.dummy_data "timestamp" ;;
                Dashboard1.last_24 d1) = Ok Dashboard1.dummy_data)
    by reflexivity.
  assert (Hne : Pd.empty Dashboard1.dummy_data = false) by reflexivity.
  destruct (dashboard_unfitted sqrt strftime_HM Dashboard1.dummy_data pollutant Hne)
    as [H1 _].
  rewrite (get_dashboard_data_1_run _ _ _ _ _ _ _ _ _ _ _ _ _ Hd Hs Hfr Hsc Hne).
  destruct (Pd.dropna_subset Dashboard1.dummy_data "timestamp") as [d1 | e];
    [| discriminate Hw].
  cbn [bind] in Hw |- *. rewrite Hw. cbn [bind]. exact H1.
Qed.

(** The route [/api/data] of Dashboard 1 as Flask serves it, with the
    two globals set.  A JSON response has status 200, exactly the five
    fields of [get_dashboard_data] and no NaN or infinity in it, or it
    has status 500 and the one field 'error'.  A request with an empty
    'location' gets the JSON error "No data or cities available to
    process.".  [get_data] has no [try]: when [get_dashboard_data]
    raises, the answer is Flask's page for status 500, without a field
    'error'; that is the answer to every request with a location after
    the data file was missing, and to a request for a pollutant that is
    no column of the data. *)
Theorem get_data_response
  (parse_float : string -> option Q) (parse_datetime : string -> option Z)
  (sqrt : Q -> Q) (strftime_HM : Z -> string)
  (data_file : option Pd.DataFrame)
  (location time_range pollutant : option string)
  (g : Py.state) (rd rs : Py.ref) (d : Pd.DataFrame) (sc : Sk.MinMaxScaler) :
  Py.air_aware_data g = Some rd ->
  Py.scaler g = Some rs ->
  nth_error (Py.objects g) rd = Some (Py.OFrame d) ->
  nth_error (Py.objects g) rs = Some (Py.OScaler sc) ->
  let answer :=
    fst (Dashboard1App.serve_get_data parse_float parse_datetime sqrt
           strftime_HM data_file location time_range pollutant g) in
  (forall body status,
      answer = Dashboard1App.Json body status ->
      (status = 200%Z /\ json_keys body = five_fields /\
       json_finite body = true) \/
      (status = 500%Z /\ json_keys body = ["error"%string])) /\
  (location = Some ""%string ->
   answer = Dashboard1App.Json
              (JDict [("error", JStr "No data or cities available to process.")]%string)
              500%Z) /\
  (d = Dashboard1.dummy_data -> sc = Sk.Unfitted ->
   location <> Some ""%string ->
   answer = Dashboard1App.InternalServerError) /\
  (forall l p, location = Some l -> l <> ""%string -> pollutant = Some p ->
               Pd.empty d = false -> Pd.has_column d p = false ->
               answer = Dashboard1App.InternalServerError).
Proof.
  intros Hd Hs Hfr Hsc answer. split; [| split; [| split]].
  - intros body status H. unfold answer, Dashboard1App.serve_get_data in H.
    destruct (Dashboard1App.get_data parse_float parse_datetime sqrt strftime_HM
                data_file location time_range pollutant g)
      as [[[b s] | e] g'] eqn:Hg; [| discriminate H].
    simpl in H. inversion H; subst.
    apply (get_data_returns _ _ _ _ _ _ _ _ _ _ _ _ Hg).
  - intros ->. unfold answer, Dashboard1App.serve_get_data,
      Dashboard1App.get_data, Py.mbind.
    rewrite (get_available_cities_run _ _ _ g rd d Hd Hfr). reflexivity.
  - intros -> -> Hloc. unfold answer.
    apply (serve_get_data_raises _ _ _ _ _ _ _ _ g rd Dashboard1.dummy_data Hd Hfr).
    + destruct location as [l |].
      * intros ->. apply Hloc. reflexivity.
      * eexists. split; reflexivity.
    + intros city tr.
      apply (get_dashboard_data_1_missing_file _ _ _ _ _ _ _ _ g rd rs
               Hd Hs Hfr Hsc).
  - intros l p -> Hl -> Hne Hno. unfold answer.
    apply (serve_get_data_raises _ _ _ _ _ _ _ _ g rd d Hd Hfr).
    + exact Hl.
    + intros city tr.
      apply (get_dashboard_data_1_unknown_pollutant _ _ _ _ _ _ _ _ g rd rs d sc
               Hd Hs Hfr Hsc Hne Hno).
Qed.

Lemma get_data_response_witness :
  (Fixtures.served (Some Fixtures.three_rows) (snd Fixtures.load1) None None
   = Dashboard1App.Json
       (Fixtures.body_of (Fixtures.served (Some Fixtures.three_rows)
                            (snd Fixtures.load1) None None)) 200%Z /\
   json_keys (Fixtures.body_of (Fixtures.served (Some Fixtures.three_rows)
                                  (snd Fixtures.load1) None None))
     = five_fields /\
   json_finite (Fixtures.body_of (Fixtures.served (Some Fixtures.three_rows)
                                    (snd Fixtures.load1) None None)) = true) /\
  Fixtures.served (Some Fixtures.three_rows) (snd Fixtures.load1)
    (Some ""%string) None
  = Dashboard1App.Json
      (JDict [("error", JStr "No data or cities available to process.")]%string)
      500%Z /\
  Fixtures.served None (snd Fixtures.load_missing) None None
  = Dashboard1App.InternalServerError /\
  Fixtures.served (Some Fixtures.three_rows) (snd Fixtures.load1)
    (Some "Delhi"%string) (Some "Ozone"%string)
  = Dashboard1App.InternalServerError.
Proof.
  assert (H : Fixtures.served (Some Fixtures.three_rows) (snd Fixtures.load1)
                None None
              = Dashboard1App.Json
                  (Fixtures.body_of (Fixtures.served (Some Fixtures.three_rows)
                                       (snd Fixtures.load1) None None)) 200%Z)
    by (vm_compute; reflexivity).
  split; [| split; [| split]].
  - split; [exact H |].
    destruct (proj1 (get_data_response Fixtures.text_is_no_number
                       Fixtures.hours_of_text Fixtures.isqrt Fixtures.clock
                       (Some Fixtures.three_rows) None None None
                       (snd Fixtures.load1) 1%nat 0%nat
                       (Fixtures.stored_frame (snd Fixtures.load1))
                       (Fixtures.stored_scaler (snd Fixtures.load1))
                       eq_refl eq_refl eq_refl eq_refl)
                _ _ H) as [(_ & H1 & H2) | (H1 & _)].
    + split; assumption.
    + discriminate H1.
  - apply (proj1 (proj2 (get_data_response Fixtures.text_is_no_number
                           Fixtures.hours_of_text Fixtures.isqrt Fixtures.clock
                           (Some Fixtures.three_rows) (Some ""%string) None None
                           (snd Fixtures.load1) 1%nat 0%nat
                           (Fixtures.stored_frame (snd Fixtures.load1))
                           (Fixtures.stored_scaler (snd Fixtures.load1))
                           eq_refl eq_refl eq_refl eq_refl))).
    reflexivity.
  - apply (proj1 (proj2 (proj2 (get_data_response Fixtures.text_is_no_number
                           Fixtures.hours_of_text Fixtures.isqrt Fixtures.clock
                           None None None None
                           (snd Fixtures.load_missing) 0%nat 1%nat
                           Dashboard1.dummy_data Sk.Unfitted
                           eq_refl eq_refl eq_refl eq_refl)))).
    + reflexivity.
    + reflexivity.
    + discriminate.
  - apply (proj2 (proj2 (proj2 (get_data_response Fixtures.text_is_no_number
                           Fixtures.hours_of_text Fixtures.isqrt Fixtures.clock
                           (Some Fixtures.three_rows) (Some "Delhi"%string) None
                           (Some "Ozone"%string)
                           (snd Fixtures.load1) 1%nat 0%nat
                           (Fixtures.stored_frame (snd Fixtures.load1))
                           (Fixtures.stored_scaler (snd Fixtures.load1))
                           eq_refl eq_refl eq_refl eq_refl)))
             "Delhi"%string "Ozone"%string).
    + reflexivity.
    + discriminate.
    + reflexivity.
    + vm_compute. reflexivity.
    + vm_compute. reflexivity.
Defined.
